(** * RADIUS attribute decoder (protocols/radius/decode.c)

    A shallow embedding of the attribute decoder of the FreeRADIUS server
    and the properties its specification states about it.

    Conventions of the embedding.
    - A byte is a [Z] in [0, 256); a buffer is a [list Z].  A C pointer into
      a packet is a buffer together with an offset.
    - [size_t] and [ssize_t] values are [Z]; an error return is [-1].
    - A [fr_cursor_t] positioned at the tail of a pair list is the list of
      pairs itself: [fr_cursor_append] adds at the end.
    - Memory allocation (talloc) is taken to succeed.
    - A [while] loop whose stride depends on the data takes a fuel argument
      and answers [None] when the fuel runs out; the callers pass a fuel
      that the lemmas on fuel show to be enough.  The recursion of
      [fr_radius_decode_pair_value] takes its fuel from the caller, and
      returns with three units more than the bytes of the packet.  A
      counted [for] loop whose bounds are loop invariant is a fold over
      its index range. *)

From Stdlib Require Import ZArith List Bool Lia.
Import ListNotations.
Open Scope Z_scope.
Set Warnings "-register-all".

(* ------------------------------------------------------------------ *)
(** ** Buffers *)

Module Buf.

(** [l[i]]; outside the buffer (undefined behaviour in C) the read is 0. *)
Definition get (l : list Z) (i : Z) : Z :=
  if i <? 0 then 0 else nth (Z.to_nat i) l 0.

(** [l[i] = v]; outside the buffer (undefined behaviour in C) nothing is
    written. *)
Definition set (l : list Z) (i : Z) (v : Z) : list Z :=
  if (0 <=? i) && (i <? Z.of_nat (length l))
  then firstn (Z.to_nat i) l ++ v :: skipn (S (Z.to_nat i)) l
  else l.

(** The [n] bytes at [l + off]. *)
Definition sub (l : list Z) (off n : Z) : list Z :=
  firstn (Z.to_nat n) (skipn (Z.to_nat off) l).

(** [memcpy(dst + off, src, length src)]; a copy that leaves the
    destination (undefined behaviour in C) writes nothing. *)
Definition write (dst : list Z) (off : Z) (src : list Z) : list Z :=
  if (0 <=? off) && (off + Z.of_nat (length src) <=? Z.of_nat (length dst))
  then firstn (Z.to_nat off) dst ++ src
       ++ skipn (Z.to_nat off + length src) dst
  else dst.

(** The indices [lo, lo+1, ..., hi-1] of a counted loop. *)
Definition range (lo hi : Z) : list Z :=
  map (fun k => lo + Z.of_nat k) (seq 0 (Z.to_nat (hi - lo))).

(** The values [0, step, 2*step, ...] below [hi]. *)
Definition steps (step hi : Z) : list Z :=
  map (fun k => step * Z.of_nat k) (seq 0 (Z.to_nat ((hi + step - 1) / step))).

(** [strlen]: the number of bytes before the first NUL. *)
Fixpoint strlen (l : list Z) : Z :=
  match l with
  | [] => 0
  | c :: r => if c =? 0 then 0 else 1 + strlen r
  end.

End Buf.

(* ------------------------------------------------------------------ *)
(** ** MD5 *)

(** Modelled from the spec: the crypto collaborator of section 6 (the
    functions of [freeradius-devel/util/md5.h], which are not part of the
    decoder's source).  The digest is the MD5 of RFC 1321; the streaming
    context of [fr_md5_update] / [fr_md5_ctx_copy] / [fr_md5_final] is the
    list of the bytes absorbed so far. *)
Module MD5.

Definition w32 (x : Z) : Z := x mod 2 ^ 32.

Definition rotl (x s : Z) : Z :=
  w32 (Z.lor (Z.shiftl x s) (Z.shiftr x (32 - s))).

Definition lnot32 (x : Z) : Z := Z.lxor x 0xffffffff.

Definition K : list Z :=
  [ 0xd76aa478; 0xe8c7b756; 0x242070db; 0xc1bdceee;
    0xf57c0faf; 0x4787c62a; 0xa8304613; 0xfd469501;
    0x698098d8; 0x8b44f7af; 0xffff5bb1; 0x895cd7be;
    0x6b901122; 0xfd987193; 0xa679438e; 0x49b40821;
    0xf61e2562; 0xc040b340; 0x265e5a51; 0xe9b6c7aa;
    0xd62f105d; 0x02441453; 0xd8a1e681; 0xe7d3fbc8;
    0x21e1cde6; 0xc33707d6; 0xf4d50d87; 0x455a14ed;
    0xa9e3e905; 0xfcefa3f8; 0x676f02d9; 0x8d2a4c8a;
    0xfffa3942; 0x8771f681; 0x6d9d6122; 0xfde5380c;
    0xa4beea44; 0x4bdecfa9; 0xf6bb4b60; 0xbebfbc70;
    0x289b7ec6; 0xeaa127fa; 0xd4ef3085; 0x04881d05;
    0xd9d4d039; 0xe6db99e5; 0x1fa27cf8; 0xc4ac5665;
    0xf4292244; 0x432aff97; 0xab9423a7; 0xfc93a039;
    0x655b59c3; 0x8f0ccc92; 0xffeff47d; 0x85845dd1;
    0x6fa87e4f; 0xfe2ce6e0; 0xa3014314; 0x4e0811a1;
    0xf7537e82; 0xbd3af235; 0x2ad7d2bb; 0xeb86d391 ].

Definition R : list Z :=
  [ 7; 12; 17; 22; 7; 12; 17; 22; 7; 12; 17; 22; 7; 12; 17; 22;
    5; 9; 14; 20; 5; 9; 14; 20; 5; 9; 14; 20; 5; 9; 14; 20;
    4; 11; 16; 23; 4; 11; 16; 23; 4; 11; 16; 23; 4; 11; 16; 23;
    6; 10; 15; 21; 6; 10; 15; 21; 6; 10; 15; 21; 6; 10; 15; 21 ].

(** Little-endian bytes of a 32-bit and of a 64-bit word. *)
Definition le32 (x : Z) : list Z :=
  [ x mod 256; (x / 2 ^ 8) mod 256; (x / 2 ^ 16) mod 256; (x / 2 ^ 24) mod 256 ].

Definition le64 (x : Z) : list Z := le32 (w32 x) ++ le32 (w32 (x / 2 ^ 32)).

Definition word_at (blk : list Z) (g : Z) : Z :=
  Buf.get blk (4 * g) + 2 ^ 8 * Buf.get blk (4 * g + 1)
  + 2 ^ 16 * Buf.get blk (4 * g + 2) + 2 ^ 24 * Buf.get blk (4 * g + 3).

Definition round (blk : list Z) (st : Z * Z * Z * Z) (i : Z) : Z * Z * Z * Z :=
  let '(a, b, c, d) := st in
  let '(f, g) :=
    if i <? 16 then (Z.lor (Z.land b c) (Z.land (lnot32 b) d), i)
    else if i <? 32 then (Z.lor (Z.land d b) (Z.land (lnot32 d) c), (5 * i + 1) mod 16)
    else if i <? 48 then (Z.lxor (Z.lxor b c) d, (3 * i + 5) mod 16)
    else (Z.lxor c (Z.lor b (lnot32 d)), (7 * i) mod 16) in
  let x := w32 (a + f + Buf.get K i + word_at blk g) in
  (d, w32 (b + rotl x (Buf.get R i)), b, c).

Definition compress (st : Z * Z * Z * Z) (blk : list Z) : Z * Z * Z * Z :=
  let '(a0, b0, c0, d0) := st in
  let '(a, b, c, d) := fold_left (round blk) (Buf.range 0 64) st in
  (w32 (a0 + a), w32 (b0 + b), w32 (c0 + c), w32 (d0 + d)).

Definition pad (msg : list Z) : list Z :=
  let n := Z.of_nat (length msg) in
  msg ++ 0x80 :: repeat 0 (Z.to_nat ((55 - n) mod 64)) ++ le64 (8 * n).

Fixpoint blocks (fuel : nat) (l : list Z) : list (list Z) :=
  match fuel, l with
  | S f, _ :: _ => firstn 64 l :: blocks f (skipn 64 l)
  | _, _ => []
  end.

Definition md5 (msg : list Z) : list Z :=
  let p := pad (map (fun c => c mod 256) msg) in
  let '(a, b, c, d) :=
    fold_left compress (blocks (length p) p)
              (0x67452301, 0xefcdab89, 0x98badcfe, 0x10325476) in
  le32 a ++ le32 b ++ le32 c ++ le32 d.

End MD5.

(* ------------------------------------------------------------------ *)
(** ** The two obfuscation codecs *)

Definition AUTH_PASS_LEN : Z := 16.
Definition RADIUS_AUTH_VECTOR_LENGTH : Z := 16.

Section Obfuscation.

(** The digest function behind the MD5 context. *)
Variable md5 : list Z -> list Z.

(** [fr_md5_update(ctx, data, len)] and [fr_md5_final(digest, ctx)]. *)
Definition fr_md5_update (ctx data : list Z) : list Z := ctx ++ data.
Definition fr_md5_final (ctx : list Z) : list Z := md5 ctx.

(** The loop [for (i = base; i < block_len; i++)
    passwd[n + i - 1] = passwd[n + i + 2] ^ digest[i];] *)
Definition tunnel_xor (n base block_len : Z) (digest passwd : list Z) : list Z :=
  fold_left
    (fun pw i => Buf.set pw (n + i - 1)
                   (Z.lxor (Buf.get pw (n + i + 2)) (Buf.get digest i)))
    (Buf.range base block_len) passwd.

(** State of the block loop of [fr_radius_decode_tunnel_password]. *)
Record tunnel_state := mk_tunnel_state {
  ts_passwd : list Z;
  ts_md5_ctx : list Z;
  ts_embedded_len : Z
}.

(** One iteration of [for (n = 0; n < encrypted_len; n += AUTH_PASS_LEN)];
    [inl] is the early [return -1], carrying the buffer as it is then. *)
Definition tunnel_block (pwlen encrypted_len : Z) (md5_ctx_old : list Z)
           (st : tunnel_state) (n : Z) : list Z + tunnel_state :=
  let passwd := ts_passwd st in
  let block_len :=
    if n + 2 + AUTH_PASS_LEN >? pwlen then pwlen - n - 2 else AUTH_PASS_LEN in
  if n =? 0 then
    let digest := fr_md5_final (ts_md5_ctx st) in
    let embedded_len := Z.lxor (Buf.get passwd 2) (Buf.get digest 0) in
    if embedded_len >? encrypted_len then inl passwd
    else
      let md5_ctx := fr_md5_update md5_ctx_old (Buf.sub passwd 2 block_len) in
      inr (mk_tunnel_state (tunnel_xor n 1 block_len digest passwd)
                           md5_ctx embedded_len)
  else
    let digest := fr_md5_final (ts_md5_ctx st) in
    let md5_ctx := fr_md5_update md5_ctx_old (Buf.sub passwd (n + 2) block_len) in
    inr (mk_tunnel_state (tunnel_xor n 0 block_len digest passwd)
                         md5_ctx (ts_embedded_len st)).

Fixpoint tunnel_blocks (pwlen encrypted_len : Z) (md5_ctx_old : list Z)
         (ns : list Z) (st : tunnel_state) : list Z + tunnel_state :=
  match ns with
  | [] => inr st
  | n :: ns' =>
      match tunnel_block pwlen encrypted_len md5_ctx_old st n with
      | inl pw => inl pw
      | inr st' => tunnel_blocks pwlen encrypted_len md5_ctx_old ns' st'
      end
  end.

(** The block loop from its start: the digest context holds the secret,
    the vector and the two salt bytes. *)
Definition tunnel_decrypt (passwd : list Z) (pwlen : Z) (secret vector : list Z)
  : list Z + tunnel_state :=
  let encrypted_len := pwlen - 2 in
  let md5_ctx_old := fr_md5_update [] secret in
  let md5_ctx :=
    fr_md5_update (fr_md5_update md5_ctx_old
                                 (Buf.sub vector 0 RADIUS_AUTH_VECTOR_LENGTH))
                  (Buf.sub passwd 0 2) in
  tunnel_blocks pwlen encrypted_len md5_ctx_old
                (Buf.steps AUTH_PASS_LEN encrypted_len)
                (mk_tunnel_state passwd md5_ctx 0).

(** [fr_radius_decode_tunnel_password(passwd, &pwlen, secret, vector,
    tunnel_password_zeros)]: the return value, the buffer and [*pwlen]
    after the call. *)
Definition fr_radius_decode_tunnel_password
           (passwd : list Z) (pwlen : Z) (secret vector : list Z)
           (tunnel_password_zeros : bool) : Z * list Z * Z :=
  let encrypted_len := pwlen in
  if encrypted_len <? 2 then (-1, passwd, pwlen)
  else if encrypted_len <=? 3 then (0, Buf.set passwd 0 0, 0)
  else
    let encrypted_len := encrypted_len - 2 in
    match tunnel_decrypt passwd pwlen secret vector with
    | inl pw => (-1, pw, pwlen)
    | inr st =>
        let passwd := ts_passwd st in
        let embedded_len := ts_embedded_len st in
        if tunnel_password_zeros
           && existsb (fun i => negb (Buf.get passwd i =? 0))
                      (Buf.range embedded_len (encrypted_len - 1))
        then (-1, passwd, pwlen)
        else (embedded_len, Buf.set passwd embedded_len 0, embedded_len)
    end.

(** The loop [for (i = 0; i < AUTH_PASS_LEN; i++) passwd[i + n] ^= digest[i];] *)
Definition password_xor (n : Z) (digest passwd : list Z) : list Z :=
  fold_left
    (fun pw i => Buf.set pw (i + n) (Z.lxor (Buf.get pw (i + n)) (Buf.get digest i)))
    (Buf.range 0 AUTH_PASS_LEN) passwd.

(** One iteration of [for (n = 0; n < pwlen; n += AUTH_PASS_LEN)] of
    [fr_radius_decode_password], on the buffer and the digest context. *)
Definition password_block (pwlen : Z) (vector md5_ctx_old : list Z)
           (st : list Z * list Z) (n : Z) : list Z * list Z :=
  let '(passwd, md5_ctx) := st in
  if n =? 0 then
    let md5_ctx := fr_md5_update md5_ctx (Buf.sub vector 0 RADIUS_AUTH_VECTOR_LENGTH) in
    let digest := fr_md5_final md5_ctx in
    let md5_ctx := md5_ctx_old in
    let md5_ctx :=
      if pwlen >? AUTH_PASS_LEN
      then fr_md5_update md5_ctx (Buf.sub passwd 0 AUTH_PASS_LEN) else md5_ctx in
    (password_xor n digest passwd, md5_ctx)
  else
    let digest := fr_md5_final md5_ctx in
    let md5_ctx := md5_ctx_old in
    let md5_ctx :=
      if pwlen >? n + AUTH_PASS_LEN
      then fr_md5_update md5_ctx (Buf.sub passwd n AUTH_PASS_LEN) else md5_ctx in
    (password_xor n digest passwd, md5_ctx).

(** [fr_radius_decode_password(passwd, pwlen, secret, vector)]: the return
    value and the buffer after the call. *)
Definition fr_radius_decode_password
           (passwd : list Z) (pwlen : Z) (secret vector : list Z) : Z * list Z :=
  let pwlen := if pwlen >? 128 then 128 else pwlen in
  let passwd :=
    if pwlen =? 0 then passwd
    else
      let md5_ctx_old := fr_md5_update [] secret in
      fst (fold_left (password_block pwlen vector md5_ctx_old)
                     (Buf.steps AUTH_PASS_LEN pwlen) (passwd, md5_ctx_old)) in
  let passwd := Buf.set passwd pwlen 0 in
  (Buf.strlen passwd, passwd).

End Obfuscation.

(** The bytes of an ASCII string. *)
Definition hello : list Z := [104; 101; 108; 108; 111].
Definition testing123 : list Z := [116; 101; 115; 116; 105; 110; 103; 49; 50; 51].
Definition test_vector : list Z := Buf.range 0 16.

(** [P XOR D] on one 16-byte block. *)
Definition xor16 (p d : list Z) : list Z :=
  map (fun i => Z.lxor (Buf.get p i) (Buf.get d i)) (Buf.range 0 16).

(* ------------------------------------------------------------------ *)
(** ** Pointers and machine integers *)

(** A pointer: the object it points into and the offset in it. *)
Definition ptr : Type := list Z * Z.

Definition rd (p : ptr) (i : Z) : Z := Buf.get (fst p) (snd p + i).
Definition padd (p : ptr) (k : Z) : ptr := (fst p, snd p + k).
Definition bytes (p : ptr) (n : Z) : list Z := Buf.sub (fst p) (snd p) n.

(** Conversion of an [int] or [ssize_t] expression to [size_t]. *)
Definition SIZE_MAX : Z := 2 ^ 64 - 1.
Definition to_size_t (x : Z) : Z := x mod 2 ^ 64.

(** Conversion of a byte to [int8_t]. *)
Definition to_int8 (b : Z) : Z := if b <? 128 then b else b - 256.

(** Outcome of a scanning loop: its result, an early [return -1], or no
    fuel left. *)
Inductive scan (A : Type) : Type :=
| Scanned (a : A)
| Malformed
| OutOfFuel.
Arguments Scanned {A} a.
Arguments Malformed {A}.
Arguments OutOfFuel {A}.

(* ------------------------------------------------------------------ *)
(** ** The TLV validator *)

(** The first [switch] of the loop body of [fr_radius_decode_tlv_ok]:
    [true] when the attribute number is accepted. *)
Definition tlv_id_ok (data : ptr) (dv_type : Z) : bool :=
  if dv_type =? 4 then
    if (rd data 0 =? 0) && (rd data 1 =? 0) && (rd data 2 =? 0) && (rd data 3 =? 0)
    then false
    else if negb (rd data 0 =? 0) then false
    else true
  else if dv_type =? 2 then
    if (rd data 0 =? 0) && (rd data 1 =? 0) then false else true
  else if dv_type =? 1 then true
  else false.

(** The loop [while (data < end)] of [fr_radius_decode_tlv_ok]. *)
Fixpoint tlv_ok_loop (fuel : nat) (data : ptr) (end_ length dv_type dv_length : Z)
  : option Z :=
  if snd data <? end_ then
    match fuel with
    | O => None
    | S fuel' =>
        if snd data + dv_type + dv_length >? end_ then Some (-1)
        else if negb (tlv_id_ok data dv_type) then Some (-1)
        else if dv_length =? 0 then Some 0
        else if (dv_length =? 2) && negb (rd data dv_type =? 0) then Some (-1)
        else if negb ((dv_length =? 2) || (dv_length =? 1)) then Some (-1)
        else
          let attrlen := rd data (dv_type + dv_length - 1) in
          if attrlen <? dv_type + dv_length then Some (-1)
          else if attrlen >? length then Some (-1)
          else tlv_ok_loop fuel' (padd data attrlen) end_ (length - attrlen)
                           dv_type dv_length
    end
  else Some 0.

(** [fr_radius_decode_tlv_ok(data, length, dv_type, dv_length)]; [None]
    only if the loop ran out of fuel. *)
Definition fr_radius_decode_tlv_ok (data : ptr) (length dv_type dv_length : Z)
  : option Z :=
  let end_ := snd data + length in
  if (dv_length >? 2) || (dv_type =? 0) || (dv_type >? 4) then Some (-1)
  else tlv_ok_loop (Z.to_nat length) data end_ length dv_type dv_length.

(* ------------------------------------------------------------------ *)
(** ** Dictionary and pairs *)

(** The value kinds of section 3 of the specification. *)
Inductive fr_type_t : Type :=
| FR_TYPE_STRING | FR_TYPE_OCTETS
| FR_TYPE_IPV4_ADDR | FR_TYPE_IPV4_PREFIX | FR_TYPE_IPV6_ADDR | FR_TYPE_IPV6_PREFIX
| FR_TYPE_IFID | FR_TYPE_COMBO_IP_ADDR | FR_TYPE_COMBO_IP_PREFIX | FR_TYPE_ETHERNET
| FR_TYPE_BOOL
| FR_TYPE_UINT8 | FR_TYPE_UINT16 | FR_TYPE_UINT32 | FR_TYPE_UINT64
| FR_TYPE_INT8 | FR_TYPE_INT16 | FR_TYPE_INT32 | FR_TYPE_INT64
| FR_TYPE_FLOAT32 | FR_TYPE_FLOAT64
| FR_TYPE_DATE | FR_TYPE_ABINARY | FR_TYPE_TIME_DELTA | FR_TYPE_SIZE
| FR_TYPE_TLV | FR_TYPE_STRUCT | FR_TYPE_EXTENDED | FR_TYPE_VSA | FR_TYPE_VENDOR.

Definition fr_type_eqb (a b : fr_type_t) : bool :=
  match a, b with
  | FR_TYPE_STRING, FR_TYPE_STRING | FR_TYPE_OCTETS, FR_TYPE_OCTETS
  | FR_TYPE_IPV4_ADDR, FR_TYPE_IPV4_ADDR | FR_TYPE_IPV4_PREFIX, FR_TYPE_IPV4_PREFIX
  | FR_TYPE_IPV6_ADDR, FR_TYPE_IPV6_ADDR | FR_TYPE_IPV6_PREFIX, FR_TYPE_IPV6_PREFIX
  | FR_TYPE_IFID, FR_TYPE_IFID | FR_TYPE_COMBO_IP_ADDR, FR_TYPE_COMBO_IP_ADDR
  | FR_TYPE_COMBO_IP_PREFIX, FR_TYPE_COMBO_IP_PREFIX | FR_TYPE_ETHERNET, FR_TYPE_ETHERNET
  | FR_TYPE_BOOL, FR_TYPE_BOOL
  | FR_TYPE_UINT8, FR_TYPE_UINT8 | FR_TYPE_UINT16, FR_TYPE_UINT16
  | FR_TYPE_UINT32, FR_TYPE_UINT32 | FR_TYPE_UINT64, FR_TYPE_UINT64
  | FR_TYPE_INT8, FR_TYPE_INT8 | FR_TYPE_INT16, FR_TYPE_INT16
  | FR_TYPE_INT32, FR_TYPE_INT32 | FR_TYPE_INT64, FR_TYPE_INT64
  | FR_TYPE_FLOAT32, FR_TYPE_FLOAT32 | FR_TYPE_FLOAT64, FR_TYPE_FLOAT64
  | FR_TYPE_DATE, FR_TYPE_DATE | FR_TYPE_ABINARY, FR_TYPE_ABINARY
  | FR_TYPE_TIME_DELTA, FR_TYPE_TIME_DELTA | FR_TYPE_SIZE, FR_TYPE_SIZE
  | FR_TYPE_TLV, FR_TYPE_TLV | FR_TYPE_STRUCT, FR_TYPE_STRUCT
  | FR_TYPE_EXTENDED, FR_TYPE_EXTENDED | FR_TYPE_VSA, FR_TYPE_VSA
  | FR_TYPE_VENDOR, FR_TYPE_VENDOR => true
  | _, _ => false
  end.

(** The values of [flags.subtype] that name an obfuscation. *)
Definition FLAG_ENCRYPT_NONE : Z := 0.
Definition FLAG_ENCRYPT_USER_PASSWORD : Z := 1.
Definition FLAG_ENCRYPT_TUNNEL_PASSWORD : Z := 2.
Definition FLAG_ENCRYPT_ASCEND_SECRET : Z := 3.

Record fr_dict_attr_flags_t := mk_flags {
  is_root : bool;
  is_unknown : bool;
  has_tag : bool;
  concat : bool;
  extra : bool;
  subtype : Z;
  flags_length : Z
}.

(** An attribute descriptor, with the chain of its parents. *)
Inductive fr_dict_attr_t : Type := mk_da {
  da_attr : Z;
  da_type : fr_type_t;
  da_flags : fr_dict_attr_flags_t;
  da_parent : option fr_dict_attr_t
}.

Record fr_dict_vendor_t := mk_dv {
  dv_pen : Z;
  dv_type : Z;
  dv_length : Z;
  dv_flags : Z
}.

(** A decoded value: the kind and the bytes of the value. *)
Inductive value_box : Type := VB (ty : fr_type_t) (value : list Z).

Inductive af_t : Type := AF_INET | AF_INET6.

Record fr_ipaddr_t := mk_ip {
  ip_af : af_t;
  ip_prefix : Z;
  ip_scope_id : Z;
  ip_addr : list Z
}.

Inductive pair_data : Type :=
| PD_none
| PD_box (v : value_box)
| PD_ip (ip : fr_ipaddr_t)
| PD_filter (filter : list Z).

Inductive value_type_t : Type := VT_NONE | VT_DATA.

Record VALUE_PAIR := mk_vp {
  vp_da : fr_dict_attr_t;
  vp_tag : Z;
  vp_data : pair_data;
  vp_type : value_type_t;
  vp_tainted : bool
}.

Definition TAG_NONE : Z := 0.
Definition FR_VENDOR_SPECIFIC : Z := 26.
Definition FR_CHARGEABLE_USER_IDENTITY : Z := 89.
Definition VENDORPEC_WIMAX : Z := 24757.
Definition sizeof_vp_filter : Z := 32.
Definition sizeof_buffer : Z := 256.

(** Modelled from the spec: [fr_pair_afrom_da] (pair.c is not part of the
    decoder's source).  A fresh pair refers to its descriptor and has no
    value, no tag and no taint. *)
Definition fr_pair_afrom_da (da : fr_dict_attr_t) : VALUE_PAIR :=
  mk_vp da TAG_NONE PD_none VT_NONE false.

Definition set_tag (vp : VALUE_PAIR) (tag : Z) : VALUE_PAIR :=
  mk_vp (vp_da vp) tag (vp_data vp) (vp_type vp) (vp_tainted vp).
Definition set_data (vp : VALUE_PAIR) (d : pair_data) : VALUE_PAIR :=
  mk_vp (vp_da vp) (vp_tag vp) d (vp_type vp) (vp_tainted vp).
Definition set_type (vp : VALUE_PAIR) (t : value_type_t) : VALUE_PAIR :=
  mk_vp (vp_da vp) (vp_tag vp) (vp_data vp) t (vp_tainted vp).
Definition set_tainted (vp : VALUE_PAIR) (b : bool) : VALUE_PAIR :=
  mk_vp (vp_da vp) (vp_tag vp) (vp_data vp) (vp_type vp) b.

(** The decoder context [fr_radius_ctx_t]. *)
Record fr_radius_ctx_t := mk_ctx {
  ctx_secret : list Z;
  ctx_vector : list Z;
  ctx_tunnel_password_zeros : bool
}.

(** The collaborators of section 6 of the specification, whose code is not
    part of the decoder's source: the build configuration, the contents of
    fresh memory, the digest, the dictionary, the value primitives. *)
Record decoder_env := mk_env {
  NDEBUG : bool;
  uninit : Z -> Z;
  md5 : list Z -> list Z;
  fr_radius_ascend_secret : list Z -> list Z -> list Z -> list Z;
  fr_radius_attr_sizes : fr_type_t -> Z * Z;
  fr_dict_root : fr_dict_attr_t;
  fr_dict_attr_child_by_num : fr_dict_attr_t -> Z -> option fr_dict_attr_t;
  fr_dict_attr_by_type : fr_dict_attr_t -> fr_type_t -> option fr_dict_attr_t;
  fr_dict_unknown_afrom_fields :
    option fr_dict_attr_t -> Z -> Z -> option fr_dict_attr_t;
  fr_dict_unknown_vendor_afrom_num : fr_dict_attr_t -> Z -> option fr_dict_attr_t;
  fr_dict_vendor_by_num : Z -> option fr_dict_vendor_t;
  fr_dict_vendor_num_by_da : fr_dict_attr_t -> Z;
  fr_value_box_from_network :
    fr_type_t -> fr_dict_attr_t -> list Z -> option value_box;
  fr_ipaddr_mask : fr_ipaddr_t -> Z -> fr_ipaddr_t;
  fr_struct_from_network :
    fr_dict_attr_t -> list Z -> Z * list VALUE_PAIR * option fr_dict_attr_t;
  fr_unknown_from_network : fr_dict_attr_t -> list Z -> option VALUE_PAIR
}.

(** The return value of a decoding function and the pair list behind its
    cursor after the call. *)
Definition result : Type := Z * list VALUE_PAIR.

(** The recursive entry point as the container decoders see it:
    [fr_radius_decode_pair_value(ctx, cursor, dict, parent, data, attr_len,
    packet_len, decoder_ctx)]; [None] when the recursion ran out of fuel. *)
Definition decoder : Type :=
  fr_dict_attr_t -> ptr -> Z -> Z -> list VALUE_PAIR -> option result.

(* ------------------------------------------------------------------ *)
(** ** The decoder *)

Section Decoder.

Variable E : decoder_env.

(** A fresh array of [n] bytes ([talloc_array], or the local [buffer]):
    its contents are indeterminate. *)
Definition fresh (n : Z) : list Z := map (uninit E) (Buf.range 0 n).

(** [memcpy_bounded(dst + doff, src, n, end)], with [end] the offset of
    the end pointer in the object of [src]. *)
Definition memcpy_bounded (dst : list Z) (doff : Z) (src : ptr) (n end_ : Z)
  : list Z :=
  let len := n in
  if negb (n <=? 65535) then dst
  else if negb (snd src <? end_) then dst
  else
    let len := if snd src + len <=? end_ then len else end_ - snd src in
    Buf.write dst doff (bytes src len).

(** *** decode_concat *)

(** The first loop of [decode_concat]: the total length and the pointer
    where the run of attributes ends. *)
Fixpoint concat_scan (fuel : nat) (ptr_ : ptr) (end_ attr total : Z)
  : scan (Z * Z) :=
  if snd ptr_ <? end_ then
    match fuel with
    | O => OutOfFuel
    | S fuel' =>
        if rd ptr_ 1 <=? 2 then Malformed
        else if snd ptr_ + rd ptr_ 1 >? end_ then Malformed
        else
          let total := total + (rd ptr_ 1 - 2) in
          let ptr_ := padd ptr_ (rd ptr_ 1) in
          if snd ptr_ =? end_ then Scanned (total, snd ptr_)
          else if negb (rd ptr_ 0 =? attr) then Scanned (total, snd ptr_)
          else concat_scan fuel' ptr_ end_ attr total
    end
  else Scanned (total, snd ptr_).

(** The second loop of [decode_concat]: the value and the pointer after
    the last attribute copied. *)
Fixpoint concat_copy (fuel : nat) (ptr_ : ptr) (end_ : Z) (p : list Z) (poff : Z)
  : option (list Z * Z) :=
  if snd ptr_ <? end_ then
    match fuel with
    | O => None
    | S fuel' =>
        let p := memcpy_bounded p poff (padd ptr_ 2) (to_size_t (rd ptr_ 1 - 2)) end_ in
        concat_copy fuel' (padd ptr_ (rd ptr_ 1)) end_ p (poff + (rd ptr_ 1 - 2))
    end
  else Some (p, snd ptr_).

Definition decode_concat (parent : fr_dict_attr_t) (data : ptr) (packet_len : Z)
           (cursor : list VALUE_PAIR) : option result :=
  let ptr_ := data in
  let end_ := snd data + packet_len in
  let attr := rd ptr_ 0 in
  match concat_scan (Z.to_nat packet_len) ptr_ end_ attr 0 with
  | OutOfFuel => None
  | Malformed => Some (-1, cursor)
  | Scanned (total, end_) =>
      if total =? 0 then Some (2, cursor)
      else
        let vp := fr_pair_afrom_da parent in
        match concat_copy (Z.to_nat packet_len) data end_ (fresh total) 0 with
        | None => None
        | Some (p, ptr_) =>
            let vp := set_tainted
                        (set_type (set_data vp (PD_box (VB FR_TYPE_OCTETS p))) VT_DATA)
                        true in
            Some (ptr_ - snd data, cursor ++ [vp])
        end
  end.

(** *** fr_radius_decode_tlv *)

(** The descriptor of sub-attribute [num] of [parent]: the child of the
    dictionary, or an unknown attribute built for it. *)
Definition child_or_unknown (parent : fr_dict_attr_t) (vendor num : Z)
  : option fr_dict_attr_t :=
  match fr_dict_attr_child_by_num E parent num with
  | Some child => Some child
  | None => fr_dict_unknown_afrom_fields E (Some parent) vendor num
  end.

(** The loop [while (p < end)] of [fr_radius_decode_tlv] on the staged
    list [tlv_cursor]; [Malformed] is the jump to [error]. *)
Fixpoint tlv_loop (rec : decoder) (fuel : nat) (parent : fr_dict_attr_t)
         (p : ptr) (end_ : Z) (tlv_cursor : list VALUE_PAIR)
  : scan (list VALUE_PAIR) :=
  if snd p <? end_ then
    match fuel with
    | O => OutOfFuel
    | S fuel' =>
        match child_or_unknown parent (fr_dict_vendor_num_by_da E parent) (rd p 0) with
        | None => Malformed
        | Some child =>
            match rec child (padd p 2) (to_size_t (rd p 1 - 2))
                      (to_size_t (rd p 1 - 2)) tlv_cursor with
            | None => OutOfFuel
            | Some (tlv_len, tlv_cursor) =>
                if tlv_len <? 0 then Malformed
                else tlv_loop rec fuel' parent (padd p (rd p 1)) end_ tlv_cursor
            end
        end
    end
  else Scanned tlv_cursor.

Definition fr_radius_decode_tlv (rec : decoder) (parent : fr_dict_attr_t)
           (data : ptr) (data_len : Z) (cursor : list VALUE_PAIR) : option result :=
  let p := data in
  let end_ := snd data + data_len in
  if data_len <? 3 then Some (-1, cursor)
  else
    match fr_radius_decode_tlv_ok p data_len 1 1 with
    | None => None
    | Some ok =>
        if ok <? 0 then Some (-1, cursor)
        else
          match tlv_loop rec (Z.to_nat data_len) parent p end_ [] with
          | OutOfFuel => None
          | Malformed => Some (-1, cursor)
          | Scanned head => Some (data_len, cursor ++ head)
          end
    end.

(** *** decode_vsa_internal *)

Definition decode_vsa_internal (rec : decoder) (parent : fr_dict_attr_t)
           (data : ptr) (data_len : Z) (dv : fr_dict_vendor_t)
           (cursor : list VALUE_PAIR) : option result :=
  if negb (fr_type_eqb (da_type parent) FR_TYPE_VENDOR) then Some (-1, cursor)
  else if negb (NDEBUG E) && (data_len <=? dv_type dv + dv_length dv)
  then Some (-1, cursor)
  else
    let attribute :=
      if dv_type dv =? 4 then
        Some (Z.lor (Z.lor (Z.shiftl (rd data 1) 16) (Z.shiftl (rd data 2) 8))
                    (rd data 3))
      else if dv_type dv =? 2 then
        Some (Z.lor (Z.shiftl (rd data 0) 8) (rd data 1))
      else if dv_type dv =? 1 then Some (rd data 0)
      else None in
    let attrlen :=
      if dv_length dv =? 2 then Some (rd data (dv_type dv + 1))
      else if dv_length dv =? 1 then Some (rd data (dv_type dv))
      else if dv_length dv =? 0 then Some data_len
      else None in
    match attribute, attrlen with
    | Some attribute, Some attrlen =>
        match child_or_unknown parent (dv_pen dv) attribute with
        | None => Some (-1, cursor)
        | Some da =>
            let len := to_size_t (attrlen - (dv_type dv + dv_length dv)) in
            match rec da (padd data (dv_type dv + dv_length dv)) len len cursor with
            | None => None
            | Some (my_len, cursor) =>
                if my_len <? 0 then Some (my_len, cursor)
                else Some (attrlen, cursor)
            end
        end
    | _, _ => Some (-1, cursor)
    end.

(** *** decode_extended *)

(** The first loop of [decode_extended]: the total length, the end of the
    fragments and their number. *)
Fixpoint extended_scan (fuel : nat) (attr frag : ptr) (end_ fraglen : Z)
         (fragments : nat) (last_frag : bool) : option (Z * Z * nat) :=
  if snd frag <? end_ then
    match fuel with
    | O => None
    | S fuel' =>
        if last_frag
           || negb (rd frag 0 =? rd attr 0)
           || (rd frag 1 <? 4)
           || negb (rd frag 2 =? rd attr 2)
           || (snd frag + rd frag 1 >? end_)
        then Some (fraglen, snd frag, fragments)
        else
          let last_frag := Z.land (rd frag 3) 0x80 =? 0 in
          extended_scan fuel' attr (padd frag (rd frag 1)) end_
                        (fraglen + (rd frag 1 - 4)) (S fragments) last_frag
    end
  else Some (fraglen, end_, fragments).

(** The second loop of [decode_extended], [while (fragments > 0)]. *)
Fixpoint extended_copy (fragments : nat) (frag : ptr) (end_ : Z)
         (head : list Z) (tail : Z) : list Z :=
  match fragments with
  | O => head
  | S fragments' =>
      let head := memcpy_bounded head tail (padd frag 4)
                                 (to_size_t (rd frag 1 - 4)) end_ in
      extended_copy fragments' (padd frag (rd frag 1)) end_ head
                    (tail + (rd frag 1 - 4))
  end.

Definition decode_extended (rec : decoder) (parent : fr_dict_attr_t)
           (data : ptr) (attr_len packet_len : Z) (cursor : list VALUE_PAIR)
  : option result :=
  if attr_len <? 3 then Some (-1, cursor)
  else if Z.land (rd data 1) 0x80 =? 0 then
    match rec parent (padd data 2) (attr_len - 2) (attr_len - 2) cursor with
    | None => None
    | Some (rcode, cursor) =>
        if rcode <? 0 then Some (-1, cursor) else Some (attr_len, cursor)
    end
  else
    let attr := padd data (-2) in
    let fraglen := attr_len - 2 in
    let frag := padd data attr_len in
    let end_ := snd data + packet_len in
    match extended_scan (Z.to_nat packet_len) attr frag end_ fraglen 1%nat false with
    | None => None
    | Some (fraglen, end_, fragments) =>
        let head := extended_copy fragments attr end_ (fresh fraglen) 0 in
        match rec parent (head, 0) fraglen fraglen cursor with
        | None => None
        | Some (rcode, cursor) =>
            if rcode <? 0 then Some (rcode, cursor)
            else Some (end_ - snd data, cursor)
        end
    end.

(** *** decode_wimax *)

(** The first loop of [decode_wimax]: the total length of the data and
    the end of the last fragment.  [data] is the anchor, [attr] the
    WiMAX header looked at. *)
Fixpoint wimax_scan (fuel : nat) (data attr : ptr) (end_ wimax_len : Z)
  : scan (Z * Z) :=
  if snd attr <? end_ then
    match fuel with
    | O => OutOfFuel
    | S fuel' =>
        if end_ - snd attr <? 3 then Malformed
        else if rd attr 1 <=? 3 then Malformed
        else if snd attr + rd attr 1 >? end_ then Malformed
        else
          let more := negb (Z.land (rd attr 2) 0x80 =? 0) in
          let end_ := if negb more then snd attr + rd attr 1 else end_ in
          if more && (snd attr + rd attr 1 =? end_) then Malformed
          else
            let wimax_len := wimax_len + (rd attr 1 - 3) in
            let attr := padd attr (rd attr 1) in
            if negb more then Scanned (wimax_len, end_)
            else if end_ - snd attr <? 9 then Malformed
            else if negb (rd attr 0 =? FR_VENDOR_SPECIFIC) then Malformed
            else if rd attr 1 <? 9 then Malformed
            else if snd attr + rd attr 1 >? end_ then Malformed
            else if negb (forallb (fun i => rd data i =? rd attr (2 + i))
                                  (Buf.range 0 4)) then Malformed
            else if negb (rd attr 1 =? rd attr 7 + 6) then Malformed
            else if negb (rd data 4 =? rd attr 6) then Malformed
            else wimax_scan fuel' data (padd attr 6) end_ wimax_len
    end
  else Scanned (wimax_len, end_).

(** The second loop of [decode_wimax]. *)
Fixpoint wimax_copy (fuel : nat) (attr : ptr) (end_ : Z) (head : list Z) (tail : Z)
  : option (list Z) :=
  if snd attr <? end_ then
    match fuel with
    | O => None
    | S fuel' =>
        let head := memcpy_bounded head tail (padd attr (4 + 3))
                                   (to_size_t (rd attr (4 + 1) - 3)) end_ in
        wimax_copy fuel' (padd (padd attr (4 + rd attr (4 + 1))) 2) end_ head
                   (tail + (rd attr (4 + 1) - 3))
    end
  else Some head.

Definition decode_wimax (rec : decoder) (parent : fr_dict_attr_t)
           (data : ptr) (attr_len packet_len : Z) (vendor : Z)
           (cursor : list VALUE_PAIR) : option result :=
  if attr_len <? 8 then Some (-1, cursor)
  else if rd data 5 <? 3 then Some (-1, cursor)
  else if negb (to_size_t (rd data 5 + 4) =? attr_len) then Some (-1, cursor)
  else
    match child_or_unknown parent vendor (rd data 4) with
    | None => Some (-1, cursor)
    | Some da =>
        if Z.land (rd data 6) 0x80 =? 0 then
          match rec da (padd data 7) (rd data 5 - 3) (rd data 5 - 3) cursor with
          | None => None
          | Some (rcode, cursor) =>
              if rcode <? 0 then Some (-1, cursor) else Some (attr_len, cursor)
          end
        else
          let attr := padd data 4 in
          let end_ := snd data + packet_len in
          match wimax_scan (Z.to_nat packet_len) data attr end_ 0 with
          | OutOfFuel => None
          | Malformed => Some (-1, cursor)
          | Scanned (wimax_len, end_) =>
              if wimax_len =? 0 then Some (-1, cursor)
              else
                match wimax_copy (Z.to_nat packet_len) data end_ (fresh wimax_len) 0 with
                | None => None
                | Some head =>
                    match rec da (head, 0) wimax_len wimax_len cursor with
                    | None => None
                    | Some (rcode, cursor) =>
                        if rcode <? 0 then Some (rcode, cursor)
                        else Some (end_ - snd data, cursor)
                    end
                end
          end
    end.

(** *** decode_vsa *)

(** The loop [while (attr_len > 0)] of [decode_vsa] on the staged list
    [tlv_cursor]: the staged pairs and [total]. *)
Fixpoint vsa_loop (rec : decoder) (fuel : nat) (vendor_da : fr_dict_attr_t)
         (dv : fr_dict_vendor_t) (data : ptr) (attr_len total : Z)
         (tlv_cursor : list VALUE_PAIR) : scan (list VALUE_PAIR * Z) :=
  if attr_len >? 0 then
    match fuel with
    | O => OutOfFuel
    | S fuel' =>
        match decode_vsa_internal rec vendor_da data attr_len dv tlv_cursor with
        | None => OutOfFuel
        | Some (vsa_len, tlv_cursor) =>
            if vsa_len <? 0 then Malformed
            else vsa_loop rec fuel' vendor_da dv (padd data vsa_len)
                          (to_size_t (attr_len - vsa_len)) (total + vsa_len)
                          tlv_cursor
        end
    end
  else Scanned (tlv_cursor, total).

(** The part of [decode_vsa] from the label [create_attrs] on. *)
Definition create_attrs (rec : decoder) (vendor_da : fr_dict_attr_t)
           (dv : fr_dict_vendor_t) (data : ptr) (attr_len : Z)
           (cursor : list VALUE_PAIR) : option result :=
  let data := padd data 4 in
  let attr_len := attr_len - 4 in
  let total := 4 in
  match vsa_loop rec (Z.to_nat attr_len) vendor_da dv data attr_len total [] with
  | OutOfFuel => None
  | Malformed => Some (-1, cursor)
  | Scanned (head, total) => Some (total, cursor ++ head)
  end.

(** The vendor number, read big-endian ([memcpy] then [ntohl]). *)
Definition ntohl_at (p : ptr) : Z :=
  Z.lor (Z.lor (Z.lor (Z.shiftl (rd p 0) 24) (Z.shiftl (rd p 1) 16))
               (Z.shiftl (rd p 2) 8)) (rd p 3).

Definition decode_vsa (rec : decoder) (parent : fr_dict_attr_t)
           (data : ptr) (attr_len packet_len : Z) (cursor : list VALUE_PAIR)
  : option result :=
  if negb (fr_type_eqb (da_type parent) FR_TYPE_VSA) then Some (-1, cursor)
  else if attr_len >? packet_len then Some (-1, cursor)
  else if attr_len <? 5 then Some (-1, cursor)
  else if negb (rd data 0 =? 0) then Some (-1, cursor)
  else
    let vendor := ntohl_at data in
    match fr_dict_attr_child_by_num E parent vendor with
    | None =>
        match fr_radius_decode_tlv_ok (padd data 4) (attr_len - 4) 1 1 with
        | None => None
        | Some ok =>
            if ok <? 0 then Some (-1, cursor)
            else
              match fr_dict_unknown_vendor_afrom_num E parent vendor with
              | None => Some (-1, cursor)
              | Some vendor_da =>
                  create_attrs rec vendor_da (mk_dv vendor 1 1 0) data attr_len cursor
              end
        end
    | Some vendor_da =>
        match fr_dict_vendor_by_num E vendor with
        | None => Some (-1, cursor)
        | Some dv =>
            if (vendor =? VENDORPEC_WIMAX) && negb (dv_flags dv =? 0) then
              decode_wimax rec vendor_da data attr_len packet_len vendor cursor
            else
              match fr_radius_decode_tlv_ok (padd data 4) (attr_len - 4)
                                            (dv_type dv) (dv_length dv) with
              | None => None
              | Some ok =>
                  if ok <? 0 then Some (-1, cursor)
                  else create_attrs rec vendor_da dv data attr_len cursor
              end
        end
    end.

(** *** fr_radius_decode_pair_value *)

(** The locals of [fr_radius_decode_pair_value] that its stages hand on:
    [tag], whether [p] points to the local [buffer] (or still to [data]),
    the contents of [buffer], and [data_len]. *)
Record dstate := mk_dstate {
  ds_tag : Z;
  ds_in_buffer : bool;
  ds_buffer : list Z;
  ds_data_len : Z
}.

Definition cur_p (data : ptr) (st : dstate) : ptr :=
  if ds_in_buffer st then (ds_buffer st, 0) else data.

(** The "hacks for tags"; [None] is [return -1]. *)
Definition tag_stage (parent : fr_dict_attr_t) (data : ptr) (attr_len : Z)
  : option dstate :=
  let data_len := attr_len in
  let p := data in
  let buffer := fresh sizeof_buffer in
  if has_tag (da_flags parent) && (data_len >? 1)
     && ((rd p 0 <? 0x20)
         || (subtype (da_flags parent) =? FLAG_ENCRYPT_TUNNEL_PASSWORD))
  then
    if data_len >=? sizeof_buffer then None
    else if fr_type_eqb (da_type parent) FR_TYPE_STRING then
      let buffer := Buf.write buffer 0 (bytes (padd p 1) (data_len - 1)) in
      Some (mk_dstate (to_int8 (rd p 0)) true buffer (data_len - 1))
    else if fr_type_eqb (da_type parent) FR_TYPE_UINT32 then
      let buffer := Buf.write buffer 0 (bytes p attr_len) in
      let tag := to_int8 (Buf.get buffer 0) in
      Some (mk_dstate tag true (Buf.set buffer 0 0) data_len)
    else None
  else Some (mk_dstate TAG_NONE false buffer data_len).

(** [while ((data_len > 0) && (buffer[data_len - 1] == '\0')) data_len--;] *)
Fixpoint trim_zeros (buffer : list Z) (data_len : nat) : nat :=
  match data_len with
  | O => O
  | S k => if Buf.get buffer (Z.of_nat k) =? 0 then trim_zeros buffer k else S k
  end.

(** How the decryption of the attribute ends: on to the length check, the
    jump to [raw], or [return -1]. *)
Inductive decrypted : Type :=
| D_ok (st : dstate)
| D_raw (st : dstate)
| D_fail.

Definition decrypt_stage (packet_ctx : option fr_radius_ctx_t)
           (parent : fr_dict_attr_t) (data : ptr) (attr_len : Z) (st : dstate)
  : decrypted :=
  match packet_ctx with
  | None => D_ok st
  | Some ctx =>
      let sub_ := subtype (da_flags parent) in
      if sub_ =? FLAG_ENCRYPT_NONE then D_ok st
      else if attr_len >? 253 then D_fail
      else
        let tag := ds_tag st in
        let data_len := ds_data_len st in
        let buffer :=
          if ds_in_buffer st then ds_buffer st
          else Buf.write (ds_buffer st) 0 (bytes data attr_len) in
        if sub_ =? FLAG_ENCRYPT_USER_PASSWORD then
          let buffer :=
            snd (fr_radius_decode_password (md5 E) buffer attr_len
                                           (ctx_secret ctx) (ctx_vector ctx)) in
          let buffer := Buf.set buffer 253 0 in
          let len := flags_length (da_flags parent) in
          let data_len :=
            if negb (len =? 0) then (if data_len >? len then len else data_len)
            else Z.of_nat (trim_zeros buffer (Z.to_nat data_len)) in
          D_ok (mk_dstate tag true buffer data_len)
        else if sub_ =? FLAG_ENCRYPT_TUNNEL_PASSWORD then
          let '(rc, buffer, data_len) :=
            fr_radius_decode_tunnel_password (md5 E) buffer data_len
              (ctx_secret ctx) (ctx_vector ctx) (ctx_tunnel_password_zeros ctx) in
          if rc <? 0 then D_raw (mk_dstate tag true buffer data_len)
          else D_ok (mk_dstate tag true buffer data_len)
        else if sub_ =? FLAG_ENCRYPT_ASCEND_SECRET then
          let buffer :=
            Buf.write buffer 0
              (fr_radius_ascend_secret E (ctx_vector ctx) (ctx_secret ctx) buffer) in
          let buffer := Buf.set buffer RADIUS_AUTH_VECTOR_LENGTH 0 in
          D_ok (mk_dstate tag true buffer (Buf.strlen buffer))
        else
          let len := flags_length (da_flags parent) in
          let data_len :=
            if fr_type_eqb (da_type parent) FR_TYPE_OCTETS
               && (negb (len =? 0) && (data_len >? len))
            then len else data_len in
          D_ok (mk_dstate tag true buffer data_len)
  end.

(** The descriptor the label [raw] re-writes [parent] to; [None] is
    [return -1]. *)
Definition raw_parent (parent : fr_dict_attr_t) : option fr_dict_attr_t :=
  match fr_dict_unknown_afrom_fields E (da_parent parent)
          (fr_dict_vendor_num_by_da E parent) (da_attr parent) with
  | None => None
  | Some parent' =>
      if negb (NDEBUG E) && negb (fr_type_eqb (da_type parent') FR_TYPE_OCTETS)
      then None else Some parent'
  end.

(** The second [switch] of [fr_radius_decode_pair_value] and the append
    to the cursor.  The jump back to [raw] re-enters with the re-written
    [parent] and no tag. *)
Fixpoint emit (fuel : nat) (parent : fr_dict_attr_t) (tag : Z) (p : ptr)
         (data_len min attr_len : Z) (cursor : list VALUE_PAIR) : option result :=
  match fuel with
  | O => None
  | S fuel' =>
      let raw :=
        match raw_parent parent with
        | None => Some (-1, cursor)
        | Some parent' => emit fuel' parent' TAG_NONE p data_len min attr_len cursor
        end in
      let vp := set_tag (fr_pair_afrom_da parent) tag in
      let append vp :=
        Some (attr_len, cursor ++ [set_tainted (set_type vp VT_DATA) true]) in
      match da_type parent with
      | FR_TYPE_STRING | FR_TYPE_OCTETS | FR_TYPE_IPV4_ADDR | FR_TYPE_IPV6_ADDR
      | FR_TYPE_BOOL | FR_TYPE_UINT8 | FR_TYPE_UINT16 | FR_TYPE_UINT32
      | FR_TYPE_UINT64 | FR_TYPE_INT8 | FR_TYPE_INT16 | FR_TYPE_INT32
      | FR_TYPE_INT64 | FR_TYPE_FLOAT32 | FR_TYPE_FLOAT64 | FR_TYPE_DATE
      | FR_TYPE_TIME_DELTA | FR_TYPE_ETHERNET | FR_TYPE_IFID | FR_TYPE_SIZE =>
          match fr_value_box_from_network E (da_type parent) parent
                  (bytes p data_len) with
          | Some v => append (set_data vp (PD_box v))
          | None =>
              if is_unknown (da_flags parent) then Some (-1, cursor) else raw
          end
      | FR_TYPE_IPV4_PREFIX =>
          if negb (data_len =? min) then raw
          else if negb (rd p 0 =? 0) then raw
          else if Z.land (rd p 1) 0x3f >? 32 then raw
          else
            let ip := mk_ip AF_INET (Z.land (rd p 1) 0x3f) 0
                            (bytes (padd p 2) (data_len - 2)) in
            append (set_data vp (PD_ip (fr_ipaddr_mask E ip (Z.land (rd p 1) 0x3f))))
      | FR_TYPE_IPV6_PREFIX =>
          if negb (rd p 0 =? 0) then raw
          else if rd p 1 >? 128 then raw
          else if Z.shiftr (rd p 1) 3 >? to_size_t (data_len - 2) then raw
          else
            let wire := bytes (padd p 2) (data_len - 2) in
            let ip := mk_ip AF_INET6 (Z.shiftr (rd p 1) 3) 0
                            (Buf.write (repeat 0 16%nat) 0 wire) in
            let ip := fr_ipaddr_mask E ip (rd p 1) in
            if list_eq_dec Z.eq_dec wire (Buf.sub (ip_addr ip) 0 (data_len - 2))
            then append (set_data vp (PD_ip ip))
            else raw
      | FR_TYPE_ABINARY =>
          let data_len :=
            if data_len >? sizeof_vp_filter then sizeof_vp_filter else data_len in
          append (set_data vp (PD_filter (bytes p data_len)))
      | FR_TYPE_COMBO_IP_ADDR | FR_TYPE_COMBO_IP_PREFIX
      | FR_TYPE_TLV | FR_TYPE_STRUCT | FR_TYPE_EXTENDED | FR_TYPE_VSA
      | FR_TYPE_VENDOR => Some (-1, cursor)
      end
  end.

(** The label [raw], reached from the first [switch] or before it. *)
Definition raw_emit (fuel : nat) (parent : fr_dict_attr_t) (p : ptr)
           (data_len min attr_len : Z) (cursor : list VALUE_PAIR) : option result :=
  match raw_parent parent with
  | None => Some (-1, cursor)
  | Some parent' => emit fuel parent' TAG_NONE p data_len min attr_len cursor
  end.

(** The label [invalid_extended] of the case FR_TYPE_EXTENDED: an unknown
    child, decoded as a long extended attribute or in place. *)
Definition invalid_extended (rec : decoder) (fuel : nat) (parent : fr_dict_attr_t)
           (data p : ptr) (data_len min attr_len packet_len : Z)
           (c : list VALUE_PAIR) : option result :=
  match fr_dict_unknown_afrom_fields E (Some parent) 0 (rd p 0) with
  | None => raw_emit fuel parent p data_len min attr_len c
  | Some child =>
      let len := to_size_t (attr_len - min) in
      let value c :=
        match rec child (padd p min) len len c with
        | None => None
        | Some (rcode, c) =>
            if rcode <? 0 then Some (-1, c) else Some (attr_len, c)
        end in
      if extra (da_flags parent) then
        match decode_extended rec child data attr_len packet_len c with
        | None => None
        | Some (rcode, c) =>
            if rcode >=? 0 then Some (rcode, c) else value c
        end
      else value c
  end.

(** The case FR_TYPE_EXTENDED of the first [switch]. *)
Definition extended_stage (rec : decoder) (fuel : nat) (parent : fr_dict_attr_t)
           (data p : ptr) (data_len attr_len packet_len : Z)
           (cursor : list VALUE_PAIR) : option result :=
  let long := extra (da_flags parent) in
  let min := 1 + Z.b2z long in
  if data_len <=? min then raw_emit fuel parent p data_len min attr_len cursor
  else
    let len := to_size_t (attr_len - min) in
    let invalid c :=
      invalid_extended rec fuel parent data p data_len min attr_len packet_len c in
    match fr_dict_attr_child_by_num E parent (rd p 0) with
    | Some child =>
        if negb long || (Z.land (rd p 1) 0x80 =? 0) then
          match rec child (padd p min) len len cursor with
          | None => None
          | Some (rcode, c) =>
              if rcode <? 0 then invalid c else Some (attr_len, c)
          end
        else if data_len =? 1 then invalid cursor
        else
          match decode_extended rec child data attr_len packet_len cursor with
          | None => None
          | Some (rcode, c) =>
              if rcode >=? 0 then Some (rcode, c) else invalid c
          end
    | None => invalid cursor
    end.

(** The case FR_TYPE_VSA of the first [switch]: a Vendor-Specific
    attribute, or under an extended attribute the layout
    [4-byte vendor | 1-byte type | value]. *)
Definition vsa_stage (rec : decoder) (fuel : nat) (parent : fr_dict_attr_t)
           (p : ptr) (tag data_len min attr_len packet_len : Z)
           (cursor : list VALUE_PAIR) : option result :=
  let raw c := raw_emit fuel parent p data_len min attr_len c in
  let evs :=
    match da_parent parent with
    | None => false
    | Some pp => fr_type_eqb (da_type pp) FR_TYPE_EXTENDED
    end in
  if negb evs then
    match decode_vsa rec parent p attr_len packet_len cursor with
    | None => None
    | Some (rcode, c) => if rcode <? 0 then raw c else Some (rcode, c)
    end
  else if data_len <? 6 then raw cursor
  else
    let vendor := ntohl_at p in
    (* with no descriptor, fr_pair_afrom_da answers NULL *)
    let unknown c :=
      match fr_dict_unknown_afrom_fields E (Some parent) vendor (rd p 4) with
      | None => Some (-1, c)
      | Some parent' =>
          emit fuel parent' tag (padd p 5) (data_len - 5) min attr_len c
      end in
    match fr_dict_attr_child_by_num E parent vendor with
    | None => unknown cursor
    | Some vendor_child =>
        match fr_dict_attr_child_by_num E vendor_child (rd p 4) with
        | None => unknown cursor
        | Some child =>
            let len := to_size_t (attr_len - 5) in
            match rec child (padd p 5) len len cursor with
            | None => None
            | Some (rcode, c) =>
                if rcode <? 0 then raw c else Some (attr_len, c)
            end
        end
    end.

(** The case FR_TYPE_STRUCT of the first [switch]. *)
Definition struct_stage (rec : decoder) (fuel : nat) (parent : fr_dict_attr_t)
           (p : ptr) (data_len min attr_len : Z) (cursor : list VALUE_PAIR)
  : option result :=
  let '(rcode, pairs, child) :=
    fr_struct_from_network E parent (bytes p attr_len) in
  let c := cursor ++ pairs in
  if rcode <? 0 then raw_emit fuel parent p data_len min attr_len c
  else
    match child with
    | Some child =>
        if rcode <? attr_len then
          match fr_radius_decode_tlv rec child (padd p rcode)
                                     (attr_len - rcode) c with
          | None => None
          | Some (tlv_len, c) =>
              if tlv_len <? 0 then
                match fr_unknown_from_network E child
                        (bytes (padd p rcode) (attr_len - rcode)) with
                | Some vp => Some (attr_len, c ++ [vp])
                | None => Some (attr_len, c)
                end
              else Some (attr_len, c)
          end
        else Some (attr_len, c)
    | None => Some (attr_len, c)
    end.

(** The length check and the first [switch], down to the append. *)
Definition kind_stage (rec : decoder) (fuel : nat) (parent : fr_dict_attr_t)
           (data : ptr) (attr_len packet_len : Z) (st : dstate)
           (cursor : list VALUE_PAIR) : option result :=
  let p := cur_p data st in
  let data_len := ds_data_len st in
  let tag := ds_tag st in
  let '(min, max) := fr_radius_attr_sizes E (da_type parent) in
  let raw c := raw_emit fuel parent p data_len min attr_len c in
  if data_len <? min then raw cursor
  else if data_len >? max then raw cursor
  else
    match da_type parent with
    | FR_TYPE_COMBO_IP_PREFIX =>
        let child :=
          if data_len =? min then fr_dict_attr_by_type E parent FR_TYPE_IPV4_PREFIX
          else if data_len =? max then fr_dict_attr_by_type E parent FR_TYPE_IPV6_PREFIX
          else None in
        match child with
        | None => raw cursor
        | Some child => emit fuel child tag p data_len min attr_len cursor
        end
    | FR_TYPE_COMBO_IP_ADDR =>
        let child :=
          if data_len =? min then fr_dict_attr_by_type E parent FR_TYPE_IPV4_ADDR
          else if data_len =? max then fr_dict_attr_by_type E parent FR_TYPE_IPV6_ADDR
          else None in
        match child with
        | None => raw cursor
        | Some child => emit fuel child tag p data_len min attr_len cursor
        end
    | FR_TYPE_EXTENDED =>
        extended_stage rec fuel parent data p data_len attr_len packet_len cursor
    | FR_TYPE_VSA =>
        vsa_stage rec fuel parent p tag data_len min attr_len packet_len cursor
    | FR_TYPE_TLV =>
        match fr_radius_decode_tlv rec parent p attr_len cursor with
        | None => None
        | Some (rcode, c) => if rcode <? 0 then raw c else Some (attr_len, c)
        end
    | FR_TYPE_STRUCT => struct_stage rec fuel parent p data_len min attr_len cursor
    | FR_TYPE_VENDOR => raw cursor
    | _ => emit fuel parent tag p data_len min attr_len cursor
    end.

Fixpoint fr_radius_decode_pair_value (fuel : nat)
         (packet_ctx : option fr_radius_ctx_t) (parent : fr_dict_attr_t)
         (data : ptr) (attr_len packet_len : Z) (cursor : list VALUE_PAIR)
  : option result :=
  match fuel with
  | O => None
  | S fuel' =>
      if (attr_len >? packet_len) || (attr_len >? 128 * 1024) then Some (-1, cursor)
      else if attr_len =? 0 then Some (0, cursor)
      else
        match tag_stage parent data attr_len with
        | None => Some (-1, cursor)
        | Some st =>
            match decrypt_stage packet_ctx parent data attr_len st with
            | D_fail => Some (-1, cursor)
            | D_raw st =>
                raw_emit fuel' parent (cur_p data st) (ds_data_len st) 0 attr_len
                         cursor
            | D_ok st =>
                kind_stage (fr_radius_decode_pair_value fuel' packet_ctx) fuel'
                           parent data attr_len packet_len st cursor
            end
        end
  end.

(** *** fr_radius_decode_pair *)

Definition fr_radius_decode_pair (fuel : nat) (packet_ctx : option fr_radius_ctx_t)
           (data : ptr) (data_len : Z) (cursor : list VALUE_PAIR) : option result :=
  if (data_len <? 2) || (rd data 1 <? 2) || (rd data 1 >? data_len)
  then Some (-1, cursor)
  else
    match child_or_unknown (fr_dict_root E) 0 (rd data 0) with
    | None => Some (-1, cursor)
    | Some da =>
        if data_len =? 2 then
          if negb (is_root (da_flags (fr_dict_root E))) then Some (2, cursor)
          else if negb (rd data 0 =? FR_CHARGEABLE_USER_IDENTITY) then Some (2, cursor)
          else Some (2, cursor ++ [set_tainted (fr_pair_afrom_da da) true])
        else if concat (da_flags da) then decode_concat da data data_len cursor
        else
          match fr_radius_decode_pair_value fuel packet_ctx da (padd data 2)
                  (rd data 1 - 2) (data_len - 2) cursor with
          | None => None
          | Some (rcode, c) =>
              if rcode <? 0 then Some (rcode, c) else Some (2 + rcode, c)
          end
    end.

End Decoder.

(* ------------------------------------------------------------------ *)
(** ** A test dictionary *)

(** A small instance of the collaborators, on which the decoder runs. *)
Module TestDict.

Definition plain : fr_dict_attr_flags_t := mk_flags false false false false false 0 0.
Definition root_flags : fr_dict_attr_flags_t := mk_flags true false false false false 0 0.
Definition unknown_flags : fr_dict_attr_flags_t := mk_flags false true false false false 0 0.
Definition tagged : fr_dict_attr_flags_t := mk_flags false false true false false 0 0.
Definition concat_flags : fr_dict_attr_flags_t := mk_flags false false false true false 0 0.
Definition long_flags : fr_dict_attr_flags_t := mk_flags false false false false true 0 0.
Definition encrypted (tag : bool) (sub_ : Z) : fr_dict_attr_flags_t :=
  mk_flags false false tag false false sub_ 0.

(** The attributes, by the numbers on the way from the root. *)
Definition attrs : list (list Z * (fr_type_t * fr_dict_attr_flags_t)) :=
  [ ([1], (FR_TYPE_STRING, plain));                       (* User-Name *)
    ([2], (FR_TYPE_STRING, encrypted false 1));           (* User-Password *)
    ([4], (FR_TYPE_IPV4_ADDR, plain));                    (* NAS-IP-Address *)
    ([64], (FR_TYPE_UINT32, tagged));                     (* Tunnel-Type *)
    ([69], (FR_TYPE_STRING, encrypted true 2));           (* Tunnel-Password *)
    ([79], (FR_TYPE_OCTETS, concat_flags));               (* EAP-Message *)
    ([80], (FR_TYPE_OCTETS, plain));                      (* Message-Authenticator *)
    ([81], (FR_TYPE_STRING, tagged));                     (* Tunnel-Private-Group-Id *)
    ([89], (FR_TYPE_STRING, plain));                      (* Chargeable-User-Identity *)
    ([26], (FR_TYPE_VSA, plain));                         (* Vendor-Specific *)
    ([26; 9], (FR_TYPE_VENDOR, plain));                   (* Cisco *)
    ([26; 9; 1], (FR_TYPE_STRING, plain));
    ([26; 24757], (FR_TYPE_VENDOR, plain));               (* WiMAX *)
    ([26; 24757; 1], (FR_TYPE_OCTETS, plain));
    ([27], (FR_TYPE_EXTENDED, long_flags));               (* a long extended attribute *)
    ([27; 1], (FR_TYPE_OCTETS, plain));
    ([241], (FR_TYPE_EXTENDED, plain));                   (* Extended-Attribute-1 *)
    ([241; 1], (FR_TYPE_STRING, plain));
    ([200], (FR_TYPE_TLV, plain));                        (* a TLV container *)
    ([200; 1], (FR_TYPE_UINT32, plain));
    ([200; 2], (FR_TYPE_STRING, plain));
    ([200; 3], (FR_TYPE_DATE, tagged)) ].

Definition root : fr_dict_attr_t := mk_da 0 FR_TYPE_TLV root_flags None.

Fixpoint path (da : fr_dict_attr_t) : list Z :=
  match da_parent da with
  | None => []
  | Some parent => path parent ++ [da_attr da]
  end.

Fixpoint lookup (k : list Z) (l : list (list Z * (fr_type_t * fr_dict_attr_flags_t)))
  : option (fr_type_t * fr_dict_attr_flags_t) :=
  match l with
  | [] => None
  | (k', v) :: l' => if list_eq_dec Z.eq_dec k k' then Some v else lookup k l'
  end.

Definition child_by_num (parent : fr_dict_attr_t) (num : Z) : option fr_dict_attr_t :=
  match lookup (path parent ++ [num]) attrs with
  | Some (ty, fl) => Some (mk_da num ty fl (Some parent))
  | None => None
  end.

Definition unknown_afrom_fields (parent : option fr_dict_attr_t) (vendor num : Z)
  : option fr_dict_attr_t :=
  Some (mk_da num FR_TYPE_OCTETS unknown_flags parent).

Definition unknown_vendor_afrom_num (parent : fr_dict_attr_t) (vendor : Z)
  : option fr_dict_attr_t :=
  Some (mk_da vendor FR_TYPE_VENDOR unknown_flags (Some parent)).

Definition vendor_by_num (pen : Z) : option fr_dict_vendor_t :=
  if pen =? 9 then Some (mk_dv 9 1 1 0)
  else if pen =? VENDORPEC_WIMAX then Some (mk_dv VENDORPEC_WIMAX 1 1 1)
  else None.

Fixpoint vendor_num_by_da (da : fr_dict_attr_t) : Z :=
  if fr_type_eqb (da_type da) FR_TYPE_VENDOR then da_attr da
  else match da_parent da with
       | None => 0
       | Some parent => vendor_num_by_da parent
       end.

(** The table [fr_radius_attr_sizes] of protocols/radius/base.c. *)
Definition attr_sizes (ty : fr_type_t) : Z * Z :=
  match ty with
  | FR_TYPE_STRING | FR_TYPE_OCTETS => (0, SIZE_MAX)
  | FR_TYPE_IPV4_ADDR => (4, 4)
  | FR_TYPE_IPV4_PREFIX => (6, 6)
  | FR_TYPE_IPV6_ADDR => (16, 16)
  | FR_TYPE_IPV6_PREFIX => (2, 18)
  | FR_TYPE_COMBO_IP_PREFIX => (6, 18)
  | FR_TYPE_COMBO_IP_ADDR => (4, 16)
  | FR_TYPE_IFID => (8, 8)
  | FR_TYPE_ETHERNET => (6, 6)
  | FR_TYPE_BOOL | FR_TYPE_UINT8 | FR_TYPE_INT8 => (1, 1)
  | FR_TYPE_UINT16 | FR_TYPE_INT16 => (2, 2)
  | FR_TYPE_UINT32 | FR_TYPE_INT32 | FR_TYPE_FLOAT32 | FR_TYPE_DATE
  | FR_TYPE_TIME_DELTA => (4, 4)
  | FR_TYPE_UINT64 | FR_TYPE_INT64 | FR_TYPE_FLOAT64 | FR_TYPE_SIZE => (8, 8)
  | FR_TYPE_ABINARY => (32, SIZE_MAX)
  | FR_TYPE_TLV => (2, SIZE_MAX)
  | FR_TYPE_STRUCT => (1, SIZE_MAX)
  | FR_TYPE_EXTENDED => (2, SIZE_MAX)
  | FR_TYPE_VSA => (4, SIZE_MAX)
  | FR_TYPE_VENDOR => (SIZE_MAX, 0)
  end.

(** The value primitive keeps the bytes of the wire. *)
Definition value_box_from_network (ty : fr_type_t) (da : fr_dict_attr_t)
           (bs : list Z) : option value_box :=
  let '(lo, hi) := attr_sizes ty in
  let n := Z.of_nat (length bs) in
  if (lo <=? n) && (n <=? hi) then Some (VB ty bs) else None.

(** Keeps the first [bits] bits of the address. *)
Definition ipaddr_mask (ip : fr_ipaddr_t) (bits : Z) : fr_ipaddr_t :=
  let keep (i b : Z) :=
    let k := Z.max 0 (Z.min 8 (bits - 8 * i)) in
    Z.land b (255 - (2 ^ (8 - k) - 1)) in
  mk_ip (ip_af ip) bits (ip_scope_id ip)
        (map (fun i => keep i (Buf.get (ip_addr ip) i))
             (Buf.range 0 (Z.of_nat (length (ip_addr ip))))).

Definition ascend_secret (vector secret value : list Z) : list Z :=
  xor16 value (MD5.md5 (vector ++ secret)).

Definition struct_from_network (da : fr_dict_attr_t) (bs : list Z)
  : Z * list VALUE_PAIR * option fr_dict_attr_t := (-1, [], None).

Definition unknown_from_network (da : fr_dict_attr_t) (bs : list Z)
  : option VALUE_PAIR :=
  Some (mk_vp (mk_da (da_attr da) FR_TYPE_OCTETS unknown_flags (da_parent da))
              TAG_NONE (PD_box (VB FR_TYPE_OCTETS bs)) VT_DATA true).

Definition env : decoder_env :=
  mk_env false (fun _ => 0xCD) MD5.md5 ascend_secret attr_sizes root
         child_by_num (fun _ _ => None) unknown_afrom_fields
         unknown_vendor_afrom_num vendor_by_num vendor_num_by_da
         value_box_from_network ipaddr_mask struct_from_network
         unknown_from_network.

Definition test_ctx : fr_radius_ctx_t := mk_ctx testing123 test_vector true.

End TestDict.


(* ------------------------------------------------------------------ *)
(** ** The specification's side *)

(** The embedded length [E] of a Tunnel-Password: the first byte of the
    plaintext, under the key [MD5(S || V || salt)]. *)
Definition tunnel_embedded_len (md5 : list Z -> list Z)
           (passwd secret vector : list Z) : Z :=
  Z.lxor (Buf.get passwd 2)
         (Buf.get (md5 (secret ++ Buf.sub vector 0 16 ++ Buf.sub passwd 0 2)) 0).

(** The buffer [passwd] as the block loop of the Tunnel-Password codec
    leaves it: the plaintext, in place. *)
Definition tunnel_plaintext (md5 : list Z -> list Z)
           (passwd : list Z) (pwlen : Z) (secret vector : list Z) : list Z :=
  match tunnel_decrypt md5 passwd pwlen secret vector with
  | inl pw => pw
  | inr st => ts_passwd st
  end.

(** The attribute number of a sub-attribute is acceptable for the type
    width [T]. *)
Definition tlv_id_valid (T : Z) (l : list Z) : Prop :=
  (T = 4 -> Buf.get l 0 = 0
            /\ ~ (Buf.get l 1 = 0 /\ Buf.get l 2 = 0 /\ Buf.get l 3 = 0))
  /\ (T = 2 -> ~ (Buf.get l 0 = 0 /\ Buf.get l 1 = 0)).

(** A slice is a concatenation of units [T-byte id | W-byte length | value];
    with [W = 0] the first unit takes the whole slice. *)
Inductive tlv_units (T W : Z) : list Z -> Prop :=
| units_nil : tlv_units T W []
| units_whole l :
    W = 0 -> l <> [] -> T <= Z.of_nat (length l) -> tlv_id_valid T l ->
    tlv_units T W l
| units_cons l attrlen :
    W <> 0 -> l <> [] -> T + W <= Z.of_nat (length l) -> tlv_id_valid T l ->
    (W = 2 -> Buf.get l T = 0) ->
    attrlen = Buf.get l (T + W - 1) ->
    T + W <= attrlen <= Z.of_nat (length l) ->
    tlv_units T W (skipn (Z.to_nat attrlen) l) ->
    tlv_units T W l.

(** The fragments of a WiMAX attribute from the WiMAX header at offset
    [attr] up to [end_], in the packet [buf] whose anchor (the vendor id of
    the first Vendor-Specific attribute) is at offset [data]: every
    fragment fits, all but the last have the "more" bit and are followed by
    a Vendor-Specific attribute with the vendor id and the WiMAX attribute
    of the anchor, whose length is its WiMAX length plus 6; the last
    fragment has the "more" bit clear. *)
Inductive wimax_chain (buf : list Z) (data : Z) : Z -> Z -> Prop :=
| chain_last attr end_ :
    3 <= end_ - attr ->
    3 < Buf.get buf (attr + 1) ->
    attr + Buf.get buf (attr + 1) <= end_ ->
    Z.land (Buf.get buf (attr + 2)) 0x80 = 0 ->
    wimax_chain buf data attr end_
| chain_more attr end_ next :
    3 <= end_ - attr ->
    3 < Buf.get buf (attr + 1) ->
    Z.land (Buf.get buf (attr + 2)) 0x80 <> 0 ->
    next = attr + Buf.get buf (attr + 1) ->
    9 <= end_ - next ->
    Buf.get buf next = FR_VENDOR_SPECIFIC ->
    9 <= Buf.get buf (next + 1) ->
    next + Buf.get buf (next + 1) <= end_ ->
    (forall i, 0 <= i < 4 -> Buf.get buf (data + i) = Buf.get buf (next + 2 + i)) ->
    Buf.get buf (next + 1) = Buf.get buf (next + 7) + 6 ->
    Buf.get buf (data + 4) = Buf.get buf (next + 6) ->
    wimax_chain buf data (next + 6) end_ ->
    wimax_chain buf data attr end_.

(** Every sub-attribute of a TLV slice from [p] up to [end_] decodes: the
    pairs staged before and after. *)
Inductive tlv_walk (E : decoder_env) (rec : decoder) (parent : fr_dict_attr_t)
          (end_ : Z) : ptr -> list VALUE_PAIR -> list VALUE_PAIR -> Prop :=
| tlv_walk_end p staged :
    end_ <= snd p -> tlv_walk E rec parent end_ p staged staged
| tlv_walk_step p staged child tlv_len staged' staged'' :
    snd p < end_ ->
    child_or_unknown E parent (fr_dict_vendor_num_by_da E parent) (rd p 0)
    = Some child ->
    rec child (padd p 2) (to_size_t (rd p 1 - 2)) (to_size_t (rd p 1 - 2)) staged
    = Some (tlv_len, staged') ->
    0 <= tlv_len ->
    tlv_walk E rec parent end_ (padd p (rd p 1)) staged' staged'' ->
    tlv_walk E rec parent end_ p staged staged''.

(** Every sub-attribute of the data of a Vendor-Specific attribute
    decodes: the bytes left, the pairs staged and the total, before and
    after. *)
Inductive vsa_walk (E : decoder_env) (rec : decoder) (vendor_da : fr_dict_attr_t)
          (dv : fr_dict_vendor_t)
  : ptr -> Z -> Z -> list VALUE_PAIR -> Z -> list VALUE_PAIR -> Prop :=
| vsa_walk_end data attr_len total staged :
    attr_len <= 0 -> vsa_walk E rec vendor_da dv data attr_len total staged total staged
| vsa_walk_step data attr_len total staged vsa_len staged' total'' staged'' :
    0 < attr_len ->
    decode_vsa_internal E rec vendor_da data attr_len dv staged
    = Some (vsa_len, staged') ->
    0 <= vsa_len ->
    vsa_walk E rec vendor_da dv (padd data vsa_len) (to_size_t (attr_len - vsa_len))
             (total + vsa_len) staged' total'' staged'' ->
    vsa_walk E rec vendor_da dv data attr_len total staged total'' staged''.

(* ------------------------------------------------------------------ *)
(** ** Test data *)

(** A Tunnel-Password attribute value: the salt 80 00 and the block that
    encrypts the length 5, "hello" and ten NUL bytes under "testing123" and
    the authenticator 00 01 ... 0F. *)
Definition tunnel_hello : list Z :=
  [128; 0; 139; 239; 186; 109; 107; 114; 31; 49; 76; 207; 253; 192; 132; 197; 158; 110].

(** A WiMAX attribute in two fragments, and its first fragment alone. *)
Definition wimax_two : list Z :=
  [26; 10; 0; 0; 0x60; 0xB5; 1; 4; 0x80; 0xAA;
   26; 11; 0; 0; 0x60; 0xB5; 1; 5; 0x00; 0xBB; 0xCC].

Definition wimax_cut : list Z := [26; 10; 0; 0; 0x60; 0xB5; 1; 4; 0x80; 0xAA].

Definition wimax_da : fr_dict_attr_t :=
  mk_da VENDORPEC_WIMAX FR_TYPE_VENDOR TestDict.plain
        (Some (mk_da 26 FR_TYPE_VSA TestDict.plain (Some TestDict.root))).

(** A TLV value whose second sub-attribute does not decode (a tag on a
    date), and the data of a Cisco Vendor-Specific attribute. *)
Definition tlv_bad : list Z := [1; 6; 0; 0; 0; 1; 3; 6; 1; 0; 0; 0].

Definition vsa_cisco : list Z := [0; 0; 0; 9; 1; 6; 102; 111; 111; 0].

Definition tlv_da : fr_dict_attr_t :=
  mk_da 200 FR_TYPE_TLV TestDict.plain (Some TestDict.root).

Definition cisco_da : fr_dict_attr_t :=
  mk_da 9 FR_TYPE_VENDOR TestDict.plain
        (Some (mk_da 26 FR_TYPE_VSA TestDict.plain (Some TestDict.root))).

Definition earlier_pair : VALUE_PAIR :=
  mk_vp (mk_da 1 FR_TYPE_STRING TestDict.plain (Some TestDict.root))
        TAG_NONE (PD_box (VB FR_TYPE_STRING [117])) VT_DATA true.

Definition cisco_pair : VALUE_PAIR :=
  mk_vp (mk_da 1 FR_TYPE_STRING TestDict.plain (Some cisco_da))
        TAG_NONE (PD_box (VB FR_TYPE_STRING [102; 111; 111; 0])) VT_DATA true.

(** The first byte of the value is taken as the tag of the pair that the
    call appends, and is not part of its value. *)
Definition first_byte_consumed (r : option result) (data : ptr) (attr_len : Z) : Prop :=
  exists rc cursor vp ty,
    r = Some (rc, cursor ++ [vp])
    /\ vp_tag vp = rd data 0
    /\ vp_data vp = PD_box (VB ty (bytes (padd data 1) (attr_len - 1))).

(** Tunnel-Private-Group-Id: a tagged string without obfuscation. *)
Definition group_id_da : fr_dict_attr_t :=
  mk_da 81 FR_TYPE_STRING TestDict.tagged (Some TestDict.root).

(** The packet of scenario 3: a long extended attribute of 9 bytes with
    the "more" bit, a continuation that declares 6 bytes, and one more
    byte. *)
Definition long_extended_packet : list Z :=
  [0x1B; 0x09; 0x01; 0x80; 0xAA; 0xBB; 0xCC; 0xDD; 0xEE;
   0x1B; 0x06; 0x01; 0x00; 0xFF; 0x11; 0x22].

Definition long_ext_da : fr_dict_attr_t :=
  mk_da 0x1B FR_TYPE_EXTENDED TestDict.long_flags (Some TestDict.root).

Definition long_ext_child : fr_dict_attr_t :=
  mk_da 1 FR_TYPE_OCTETS TestDict.plain (Some long_ext_da).

(** The key of block [k] of a Tunnel-Password: [B_1 = MD5(S || V || salt)]
    for the first block, and the digest of the secret and the previous
    16-byte ciphertext block for the others. *)
Definition tunnel_key (md5 : list Z -> list Z) (passwd secret vector : list Z)
           (k : Z) : list Z :=
  if k =? 0 then md5 (secret ++ Buf.sub vector 0 16 ++ Buf.sub passwd 0 2)
  else md5 (secret ++ Buf.sub passwd (16 * (k - 1) + 2) 16).

(** Byte [j] of the plaintext of a Tunnel-Password, the byte of the
    embedded length not counted: the ciphertext byte XOR the byte of the
    key of its block. *)
Definition tunnel_plain_byte (md5 : list Z -> list Z) (passwd secret vector : list Z)
           (j : Z) : Z :=
  Z.lxor (Buf.get passwd (j + 3))
         (Buf.get (tunnel_key md5 passwd secret vector ((j + 1) / 16)) ((j + 1) mod 16)).

(** What holds before block [k] of the block loop of the Tunnel-Password
    codec: the positions from [16 k - 1] on and from [pwlen - 3] on are as
    in the input, the positions before hold the plaintext, and the digest
    context gives the key of block [k]. *)
Definition tunnel_inv (md5 : list Z -> list Z) (passwd secret vector : list Z)
           (pwlen : Z) (k : Z) (st : tunnel_state) : Prop :=
  length (ts_passwd st) = length passwd
  /\ (forall j, 16 * k - 1 <= j \/ pwlen - 3 <= j ->
                Buf.get (ts_passwd st) j = Buf.get passwd j)
  /\ (forall j, 0 <= j < 16 * k - 1 -> j <= pwlen - 4 ->
                Buf.get (ts_passwd st) j = tunnel_plain_byte md5 passwd secret vector j)
  /\ (16 * k < pwlen - 2 ->
      fr_md5_final md5 (ts_md5_ctx st) = tunnel_key md5 passwd secret vector k).

(** The contract of [fr_dict_unknown_afrom_fields] that the label [raw]
    relies on ("It is therefore of type octets"): the descriptor it
    builds is an unknown attribute of kind OCTETS. *)
Definition unknown_is_raw (E : decoder_env) : Prop :=
  forall parent vendor attr da,
    fr_dict_unknown_afrom_fields E parent vendor attr = Some da ->
    is_unknown (da_flags da) = true /\ da_type da = FR_TYPE_OCTETS.

(** The pair list after a call holds the pairs that were there, followed
    by the pairs that the call has appended. *)
Definition appended (cursor cursor' : list VALUE_PAIR) : Prop :=
  exists tail, cursor' = cursor ++ tail.

(** What a decoding function reports: an error as [-1], or a number of
    bytes that covers the attribute and stays inside the packet. *)
Definition consumed (rc attr_len packet_len : Z) : Prop :=
  rc = -1 \/ attr_len <= rc <= packet_len.

(** The key of block [k] of a User-Password (RFC 2865): the digest of the
    secret and the request authenticator for the first block, of the
    secret and the previous 16-byte ciphertext block for the others. *)
Definition password_key (md5 : list Z -> list Z) (passwd secret vector : list Z)
           (k : Z) : list Z :=
  if k =? 0 then md5 (secret ++ Buf.sub vector 0 16)
  else md5 (secret ++ Buf.sub passwd (16 * (k - 1)) 16).

(** Byte [i] of the plaintext of a User-Password: the ciphertext byte
    XOR the byte of the key of its block. *)
Definition password_plain_byte (md5 : list Z -> list Z)
           (passwd secret vector : list Z) (i : Z) : Z :=
  Z.lxor (Buf.get passwd i)
         (Buf.get (password_key md5 passwd secret vector (i / 16)) (i mod 16)).

(** What holds before block [k] of the block loop of the User-Password
    codec: the positions from [16 k] on are as in the input, the positions
    before hold the plaintext, and the digest context holds the secret,
    followed from the second block on by the previous ciphertext block. *)
Definition password_inv (md5 : list Z -> list Z) (passwd secret vector : list Z)
           (pwlen : Z) (k : Z) (st : list Z * list Z) : Prop :=
  length (fst st) = length passwd
  /\ (forall j, 16 * k <= j -> Buf.get (fst st) j = Buf.get passwd j)
  /\ (forall j, 0 <= j < 16 * k -> j < Z.of_nat (length passwd) ->
                Buf.get (fst st) j = password_plain_byte md5 passwd secret vector j)
  /\ (k = 0 -> snd st = secret)
  /\ (1 <= k -> 16 * k < pwlen ->
      snd st = secret ++ Buf.sub passwd (16 * (k - 1)) 16).

(** A User-Password of two blocks and the NUL after them, as ciphertext. *)
Definition password_cipher : list Z := Buf.range 100 133.

(** The pair that the two WiMAX fragments of [wimax_two] give, and the
    Vendor-Specific attribute of the test dictionary. *)
Definition wimax_pair : VALUE_PAIR :=
  mk_vp (mk_da 1 FR_TYPE_OCTETS TestDict.plain (Some wimax_da))
        TAG_NONE (PD_box (VB FR_TYPE_OCTETS [0xAA; 0xBB; 0xCC])) VT_DATA true.

Definition vsa_da : fr_dict_attr_t :=
  mk_da 26 FR_TYPE_VSA TestDict.plain (Some TestDict.root).

(** Every element of the buffer is a byte. *)
Definition is_bytes (l : list Z) : bool :=
  forallb (fun b => (0 <=? b) && (b <? 256)) l.

(** A run of attributes of type [attr] from offset [p] up to [e], each
    with a length of more than 2 that fits, and the concatenation of their
    values. *)
Inductive concat_run (buf : list Z) (attr : Z) : Z -> Z -> list Z -> Prop :=
| run_end e : concat_run buf attr e e []
| run_attr p e v :
    p < e -> Buf.get buf p = attr -> 2 < Buf.get buf (p + 1) ->
    p + Buf.get buf (p + 1) <= e ->
    concat_run buf attr (p + Buf.get buf (p + 1)) e v ->
    concat_run buf attr p e (Buf.sub buf (p + 2) (Buf.get buf (p + 1) - 2) ++ v).

(** Three attributes of type 79 with the values "ab", "c" and "de",
    followed by an attribute of type 80. *)
Definition concat_packet : list Z :=
  [79; 4; 97; 98; 79; 3; 99; 79; 4; 100; 101; 80; 3; 102].

(** NAS-IP-Address and Tunnel-Type of the test dictionary, and what the
    label [raw] makes of the first. *)
Definition nas_ip_da : fr_dict_attr_t :=
  mk_da 4 FR_TYPE_IPV4_ADDR TestDict.plain (Some TestDict.root).

Definition nas_ip_raw_da : fr_dict_attr_t :=
  mk_da 4 FR_TYPE_OCTETS TestDict.unknown_flags (Some TestDict.root).

Definition tunnel_type_da : fr_dict_attr_t :=
  mk_da 64 FR_TYPE_UINT32 TestDict.tagged (Some TestDict.root).

(** User-Password of the test dictionary, and the attribute value that
    obfuscates "hello" and eleven NUL bytes under "testing123" and the
    authenticator 00 01 ... 0F. *)
Definition user_password_da : fr_dict_attr_t :=
  mk_da 2 FR_TYPE_STRING (TestDict.encrypted false 1) (Some TestDict.root).

Definition user_password_hello : list Z :=
  xor16 (hello ++ repeat 0 11%nat) (MD5.md5 (testing123 ++ test_vector)).

(** The continuation fragments of a long extended attribute of type [t]
    and extended type [x] from offset [p] on, in a packet that ends at
    [lim]: the offset where they end and the concatenation of their data.
    [last] tells that the fragment before had the "more" bit clear; the
    fragments end there, at the end of the packet, or before an attribute
    that is not a fragment of this one or does not fit. *)
Inductive ext_run (buf : list Z) (t x lim : Z) : bool -> Z -> Z -> list Z -> Prop :=
| ext_stop last p :
    lim <= p \/ last = true \/ Buf.get buf p <> t \/ Buf.get buf (p + 1) < 4
    \/ Buf.get buf (p + 2) <> x \/ lim < p + Buf.get buf (p + 1) ->
    ext_run buf t x lim last p p []
| ext_more p e v :
    p < lim -> Buf.get buf p = t -> 4 <= Buf.get buf (p + 1) ->
    Buf.get buf (p + 2) = x -> p + Buf.get buf (p + 1) <= lim ->
    ext_run buf t x lim (Z.land (Buf.get buf (p + 3)) 0x80 =? 0)
            (p + Buf.get buf (p + 1)) e v ->
    ext_run buf t x lim false p e
            (Buf.sub buf (p + 4) (Buf.get buf (p + 1) - 4) ++ v).

(** The data of the fragments of a WiMAX attribute from the WiMAX header
    at offset [attr] on, up to the end [e] of the last fragment, which is
    the first with the "more" bit clear: after each of the others come the
    6 bytes of the header of the next Vendor-Specific attribute. *)
Inductive wimax_value (buf : list Z) : Z -> Z -> list Z -> Prop :=
| wimax_value_last attr :
    Z.land (Buf.get buf (attr + 2)) 0x80 = 0 ->
    wimax_value buf attr (attr + Buf.get buf (attr + 1))
                (Buf.sub buf (attr + 3) (Buf.get buf (attr + 1) - 3))
| wimax_value_more attr e v :
    Z.land (Buf.get buf (attr + 2)) 0x80 <> 0 ->
    wimax_value buf (attr + Buf.get buf (attr + 1) + 6) e v ->
    wimax_value buf attr e (Buf.sub buf (attr + 3) (Buf.get buf (attr + 1) - 3) ++ v).

(** Tunnel-Password of the test dictionary, and what the label [raw]
    makes of it. *)
Definition tunnel_password_da : fr_dict_attr_t :=
  mk_da 69 FR_TYPE_STRING (TestDict.encrypted true 2) (Some TestDict.root).

Definition tunnel_password_raw_da : fr_dict_attr_t :=
  mk_da 69 FR_TYPE_OCTETS TestDict.unknown_flags (Some TestDict.root).

(** [decode_test_ctx]: the context of the test point, a zeroed
    [fr_radius_ctx_t] with the secret "testing123" and the vector
    00 01 ... 0F. *)
Definition decode_test_ctx : fr_radius_ctx_t := mk_ctx testing123 test_vector false.




(* ================================================================== *)
(** * Properties *)

(** ** Buffers *)

Lemma get_nth (l : list Z) (i : Z) :
  0 <= i -> Buf.get l i = nth (Z.to_nat i) l 0.
Proof.
  intros H. unfold Buf.get.
  destruct (Z.ltb_spec i 0); [lia | reflexivity].
Qed.

Lemma get_app_l (a b : list Z) (i : Z) :
  0 <= i < Z.of_nat (length a) -> Buf.get (a ++ b) i = Buf.get a i.
Proof.
  intros H. rewrite !get_nth by lia. apply app_nth1. lia.
Qed.

Lemma get_app_r (a b : list Z) (i : Z) :
  Z.of_nat (length a) <= i -> Buf.get (a ++ b) i = Buf.get b (i - Z.of_nat (length a)).
Proof.
  intros H. rewrite !get_nth by lia. rewrite app_nth2 by lia.
  f_equal. lia.
Qed.

Lemma set_length (l : list Z) (i v : Z) : length (Buf.set l i v) = length l.
Proof.
  unfold Buf.set.
  destruct (Z.leb_spec 0 i); cbn [andb]; [| reflexivity].
  destruct (Z.ltb_spec i (Z.of_nat (length l))); cbn [andb]; [| reflexivity].
  rewrite length_app. cbn [length]. rewrite length_firstn, length_skipn. lia.
Qed.

Lemma set_app_l (a b : list Z) (i v : Z) :
  0 <= i < Z.of_nat (length a) -> Buf.set (a ++ b) i v = Buf.set a i v ++ b.
Proof.
  intros H. unfold Buf.set. rewrite length_app.
  destruct (Z.leb_spec 0 i); [| lia].
  destruct (Z.ltb_spec i (Z.of_nat (length a))); [| lia].
  destruct (Z.ltb_spec i (Z.of_nat (length a + length b))); [| lia].
  cbn [andb]. rewrite firstn_app, skipn_app.
  replace (Z.to_nat i - length a)%nat with 0%nat by lia.
  replace (S (Z.to_nat i) - length a)%nat with 0%nat by lia.
  rewrite firstn_O, skipn_O, app_nil_r, <- app_assoc. reflexivity.
Qed.

Lemma set_app_at (a b : list Z) (x v : Z) :
  Buf.set (a ++ x :: b) (Z.of_nat (length a)) v = a ++ v :: b.
Proof.
  unfold Buf.set. rewrite length_app. cbn [length].
  destruct (Z.leb_spec 0 (Z.of_nat (length a))); [| lia].
  destruct (Z.ltb_spec (Z.of_nat (length a)) (Z.of_nat (length a + S (length b)))); [| lia].
  cbn [andb]. rewrite Nat2Z.id.
  rewrite firstn_app, Nat.sub_diag, firstn_all, firstn_O, app_nil_r.
  f_equal. f_equal.
  rewrite skipn_app.
  rewrite (skipn_all2 a) by lia.
  replace (S (length a) - length a)%nat with 1%nat by lia.
  reflexivity.
Qed.

Lemma get_set_same (l : list Z) (i v : Z) :
  0 <= i < Z.of_nat (length l) -> Buf.get (Buf.set l i v) i = v.
Proof.
  intros H. unfold Buf.set.
  destruct (Z.leb_spec 0 i); [| lia].
  destruct (Z.ltb_spec i (Z.of_nat (length l))); [| lia].
  cbn [andb]. rewrite get_nth by lia.
  rewrite app_nth2; rewrite length_firstn; [| lia].
  replace (Z.to_nat i - Nat.min (Z.to_nat i) (length l))%nat with 0%nat by lia.
  reflexivity.
Qed.

Lemma get_set_other (l : list Z) (i j v : Z) :
  i <> j -> Buf.get (Buf.set l i v) j = Buf.get l j.
Proof.
  intros H. unfold Buf.set.
  destruct (Z.leb_spec 0 i); cbn [andb]; [| reflexivity].
  destruct (Z.ltb_spec i (Z.of_nat (length l))); cbn [andb]; [| reflexivity].
  unfold Buf.get. destruct (Z.ltb_spec j 0); [reflexivity |].
  destruct (Z_lt_le_dec j i).
  - rewrite app_nth1 by (rewrite length_firstn; lia).
    rewrite nth_firstn.
    destruct (Nat.ltb_spec (Z.to_nat j) (Z.to_nat i)); [reflexivity | lia].
  - rewrite app_nth2 by (rewrite length_firstn; lia).
    rewrite length_firstn.
    replace (Z.to_nat j - Nat.min (Z.to_nat i) (length l))%nat
      with (S (Z.to_nat j - S (Z.to_nat i)))%nat by lia.
    cbn [nth]. rewrite nth_skipn. f_equal. lia.
Qed.

Lemma range_In (lo hi i : Z) : In i (Buf.range lo hi) <-> lo <= i < hi.
Proof.
  unfold Buf.range. rewrite in_map_iff. split.
  - intros (k & <- & Hk). apply in_seq in Hk. lia.
  - intros H. exists (Z.to_nat (i - lo)). split; [lia |].
    apply in_seq. lia.
Qed.

Lemma lxor_cancel (a b : Z) : Z.lxor (Z.lxor a b) b = a.
Proof.
  rewrite Z.lxor_assoc, Z.lxor_nilpotent, Z.lxor_0_r. reflexivity.
Qed.
Lemma range_nil (lo hi : Z) : hi <= lo -> Buf.range lo hi = [].
Proof.
  intros H. unfold Buf.range.
  replace (Z.to_nat (hi - lo)) with 0%nat by lia. reflexivity.
Qed.

Lemma range_cons (lo hi : Z) : lo < hi -> Buf.range lo hi = lo :: Buf.range (lo + 1) hi.
Proof.
  intros H. unfold Buf.range.
  replace (Z.to_nat (hi - lo)) with (S (Z.to_nat (hi - (lo + 1)))) by lia.
  cbn [seq map]. f_equal; [lia |].
  rewrite <- seq_shift, map_map. apply map_ext. intros k. lia.
Qed.

Lemma sub_ext (a b : list Z) (off n : Z) :
  length a = length b -> 0 <= off ->
  (forall j, off <= j < off + n -> Buf.get a j = Buf.get b j) ->
  Buf.sub a off n = Buf.sub b off n.
Proof.
  intros Hlen Hoff Hget. unfold Buf.sub.
  apply nth_ext with (d := 0) (d' := 0).
  - rewrite !length_firstn, !length_skipn, Hlen. reflexivity.
  - intros i Hi. rewrite length_firstn, length_skipn in Hi.
    rewrite !nth_firstn.
    destruct (Nat.ltb_spec i (Z.to_nat n)); [| reflexivity].
    rewrite !nth_skipn.
    specialize (Hget (off + Z.of_nat i)).
    rewrite !get_nth in Hget by lia.
    replace (Z.to_nat (off + Z.of_nat i)) with (Z.to_nat off + i)%nat in Hget by lia.
    apply Hget. lia.
Qed.

Example md5_empty :
  MD5.md5 [] = [0xd4; 0x1d; 0x8c; 0xd9; 0x8f; 0x00; 0xb2; 0x04;
                0xe9; 0x80; 0x09; 0x98; 0xec; 0xf8; 0x42; 0x7e].
Proof. vm_compute. reflexivity. Qed.

Example md5_abc :
  MD5.md5 [97; 98; 99] = [0x90; 0x01; 0x50; 0x98; 0x3c; 0xd2; 0x4f; 0xb0;
                          0xd6; 0x96; 0x3f; 0x7d; 0x28; 0xe1; 0x7f; 0x72].
Proof. vm_compute. reflexivity. Qed.

Example md5_testing123 :
  MD5.md5 (testing123 ++ test_vector)
  = [0x96; 0xee; 0x09; 0xca; 0x74; 0xfd; 0x7a; 0x1a;
     0x10; 0x46; 0x07; 0x24; 0x00; 0x14; 0x82; 0x8b].
Proof. vm_compute. reflexivity. Qed.

Example decode_password_hello_md5 :
  fr_radius_decode_password MD5.md5
    (xor16 (hello ++ repeat 0 11%nat) (MD5.md5 (testing123 ++ test_vector)) ++ repeat 7 240%nat)
    16 testing123 test_vector
  = (5, hello ++ repeat 0 12%nat ++ repeat 7 239%nat).
Proof. vm_compute. reflexivity. Qed.

(** ** User-Password *)

Lemma password_xor_app (n : Z) (digest a b : list Z) :
  0 <= n -> n + AUTH_PASS_LEN <= Z.of_nat (length a) ->
  password_xor n digest (a ++ b) = password_xor n digest a ++ b.
Proof.
  intros Hn Hlen. unfold password_xor.
  assert (Hin : forall i, In i (Buf.range 0 AUTH_PASS_LEN) -> 0 <= i < AUTH_PASS_LEN)
    by (intros i Hi; apply range_In in Hi; exact Hi).
  revert a Hlen Hin. generalize (Buf.range 0 AUTH_PASS_LEN) as idx.
  induction idx as [| i idx IH]; intros a Hlen Hin; [reflexivity |].
  cbn [fold_left].
  assert (Hi : 0 <= i < AUTH_PASS_LEN) by (apply Hin; left; reflexivity).
  rewrite get_app_l by lia. rewrite set_app_l by lia.
  apply IH.
  - rewrite set_length. exact Hlen.
  - intros j Hj. apply Hin. right. exact Hj.
Qed.

(** C1. For the secret "testing123", the request authenticator 00 01 ... 0F
    and the 16-byte ciphertext C = P XOR MD5(S || V) with P = "hello" and
    11 NUL bytes, [fr_radius_decode_password] on a buffer that starts with C
    leaves "hello" and a terminating NUL in the buffer and returns 5; this
    holds whatever the digest function is. *)
Theorem decode_password_hello (md5 : list Z -> list Z) (t : Z) (rest : list Z) :
  fr_radius_decode_password md5
    (xor16 (hello ++ repeat 0 11%nat) (md5 (testing123 ++ test_vector)) ++ t :: rest)
    16 testing123 test_vector
  = (5, hello ++ repeat 0 11%nat ++ 0 :: rest).
Proof.
  unfold fr_radius_decode_password.
  change (16 >? 128) with false. cbv iota zeta.
  change (16 =? 0) with false. cbv iota.
  change (Buf.steps AUTH_PASS_LEN 16) with [0].
  cbn [fold_left]. unfold password_block.
  change (0 =? 0) with true. change (16 >? AUTH_PASS_LEN) with false. cbv iota.
  cbn [fst].
  replace (fr_md5_final md5
             (fr_md5_update (fr_md5_update [] testing123)
                            (Buf.sub test_vector 0 RADIUS_AUTH_VECTOR_LENGTH)))
    with (md5 (testing123 ++ test_vector)) by reflexivity.
  set (d := md5 (testing123 ++ test_vector)).
  rewrite password_xor_app; [| lia | unfold xor16; rewrite length_map; vm_compute; discriminate].
  assert (Hplain : password_xor 0 d (xor16 (hello ++ repeat 0 11%nat) d)
                   = hello ++ repeat 0 11%nat).
  { unfold password_xor, xor16.
    set (dg := Buf.get d). clearbody dg.
    cbv - [Z.lxor].
    rewrite !lxor_cancel. reflexivity. }
  rewrite Hplain.
  change 16 with (Z.of_nat (length (hello ++ repeat 0 11%nat))).
  rewrite set_app_at. rewrite <- app_assoc. reflexivity.
Qed.

(** ** Tunnel-Password *)

Lemma steps_first (hi : Z) :
  0 < hi ->
  exists tl, Buf.steps AUTH_PASS_LEN hi = 0 :: tl /\ Forall (fun n => n <> 0) tl.
Proof.
  intros H. unfold Buf.steps, AUTH_PASS_LEN.
  assert (Hk : 1 <= (hi + 16 - 1) / 16) by (apply Z.div_le_lower_bound; lia).
  destruct (Z.to_nat ((hi + 16 - 1) / 16)) as [| k] eqn:Ek; [lia |].
  cbn [seq map]. eexists. split; [reflexivity |].
  apply Forall_forall. intros n Hn.
  apply in_map_iff in Hn. destruct Hn as (j & <- & Hj).
  apply in_seq in Hj. lia.
Qed.

Lemma tunnel_blocks_later (md5 : list Z -> list Z) (pwlen encrypted_len : Z)
      (old : list Z) (ns : list Z) (st : tunnel_state) :
  Forall (fun n => n <> 0) ns ->
  exists st', tunnel_blocks md5 pwlen encrypted_len old ns st = inr st'
              /\ ts_embedded_len st' = ts_embedded_len st.
Proof.
  intros H. revert st. induction H as [| n ns Hn _ IH]; intros st.
  - exists st. split; reflexivity.
  - cbn [tunnel_blocks]. unfold tunnel_block.
    destruct (Z.eqb_spec n 0) as [-> | _]; [contradiction |].
    match goal with
    | |- context [tunnel_blocks _ _ _ _ ns ?s] => destruct (IH s) as (st' & Hst' & He)
    end.
    exists st'. split; [exact Hst' | exact He].
Qed.

Lemma tunnel_key_assoc (md5 : list Z -> list Z) (passwd secret vector : list Z) :
  Z.lxor (Buf.get passwd 2)
         (Buf.get (fr_md5_final md5
                     (fr_md5_update
                        (fr_md5_update (fr_md5_update [] secret)
                                       (Buf.sub vector 0 RADIUS_AUTH_VECTOR_LENGTH))
                        (Buf.sub passwd 0 2))) 0)
  = tunnel_embedded_len md5 passwd secret vector.
Proof.
  unfold tunnel_embedded_len, fr_md5_final, fr_md5_update, RADIUS_AUTH_VECTOR_LENGTH.
  rewrite app_nil_l, <- app_assoc. reflexivity.
Qed.

(** The block loop stops at once on an embedded length that does not fit,
    and otherwise runs to its end and keeps the embedded length. *)
Lemma tunnel_decrypt_spec (md5 : list Z -> list Z) (passwd : list Z) (pwlen : Z)
      (secret vector : list Z) :
  3 < pwlen ->
  let E := tunnel_embedded_len md5 passwd secret vector in
  (pwlen - 2 < E -> tunnel_decrypt md5 passwd pwlen secret vector = inl passwd)
  /\ (E <= pwlen - 2 ->
      exists st, tunnel_decrypt md5 passwd pwlen secret vector = inr st
                 /\ ts_embedded_len st = E).
Proof.
  intros Hlen E. unfold tunnel_decrypt.
  destruct (steps_first (pwlen - 2)) as (tl & -> & Htl); [lia |].
  cbn [tunnel_blocks]. unfold tunnel_block.
  change (0 =? 0) with true. cbv iota. cbn [ts_passwd ts_md5_ctx].
  rewrite !tunnel_key_assoc. fold E.
  split; intros HE.
  - destruct (Z.gtb_spec E (pwlen - 2)); [reflexivity | lia].
  - destruct (Z.gtb_spec E (pwlen - 2)); [lia |].
    match goal with
    | |- context [tunnel_blocks _ _ _ _ tl ?s] =>
        destruct (tunnel_blocks_later md5 pwlen (pwlen - 2)
                    (fr_md5_update [] secret) tl s Htl) as (st' & Hst' & He)
    end.
    exists st'. split; [exact Hst' | exact He].
Qed.

(** C5. [fr_radius_decode_tunnel_password] returns -1 when [pwlen < 2];
    for [2 <= pwlen <= 3] it returns 0, sets [*pwlen] to 0 and leaves an
    empty NUL-terminated string; for [pwlen > 3] it returns -1 whenever the
    embedded length exceeds [pwlen - 2]. *)
Theorem tunnel_password_length_checks (md5 : list Z -> list Z)
        (passwd : list Z) (pwlen : Z) (secret vector : list Z) (zeros : bool) :
  (pwlen < 2 ->
   fst (fst (fr_radius_decode_tunnel_password md5 passwd pwlen secret vector zeros))
   = -1)
  /\ (2 <= pwlen <= 3 ->
      fr_radius_decode_tunnel_password md5 passwd pwlen secret vector zeros
      = (0, Buf.set passwd 0 0, 0)
      /\ Buf.get (Buf.set passwd 0 0) 0 = 0
      /\ Buf.strlen (Buf.set passwd 0 0) = 0)
  /\ (3 < pwlen ->
      pwlen - 2 < tunnel_embedded_len md5 passwd secret vector ->
      fst (fst (fr_radius_decode_tunnel_password md5 passwd pwlen secret vector zeros))
      = -1).
Proof.
  unfold fr_radius_decode_tunnel_password. repeat split.
  - intros H. destruct (Z.ltb_spec pwlen 2); [reflexivity | lia].
  - destruct (Z.ltb_spec pwlen 2); [lia |].
    destruct (Z.leb_spec pwlen 3); [reflexivity | lia].
  - destruct passwd as [| c passwd]; reflexivity.
  - destruct passwd as [| c passwd]; reflexivity.
  - intros H HE.
    destruct (Z.ltb_spec pwlen 2); [lia |].
    destruct (Z.leb_spec pwlen 3); [lia |].
    destruct (tunnel_decrypt_spec md5 passwd pwlen secret vector H) as [Hfail _].
    rewrite (Hfail HE). reflexivity.
Qed.

Lemma tunnel_password_length_checks_witness :
  fst (fst (fr_radius_decode_tunnel_password MD5.md5 [128] 1 testing123 test_vector true))
  = -1
  /\ fr_radius_decode_tunnel_password MD5.md5 [128; 0; 139] 3 testing123 test_vector true
     = (0, [0; 0; 139], 0)
  /\ fst (fst (fr_radius_decode_tunnel_password MD5.md5 [128; 0; 255; 239] 4
                 testing123 test_vector true))
     = -1.
Proof.
  split; [| split].
  - apply (proj1 (tunnel_password_length_checks
                    MD5.md5 [128] 1 testing123 test_vector true)).
    lia.
  - apply (proj1 (proj2 (tunnel_password_length_checks
                           MD5.md5 [128; 0; 139] 3 testing123 test_vector true))).
    lia.
  - apply (proj2 (proj2 (tunnel_password_length_checks
                           MD5.md5 [128; 0; 255; 239] 4 testing123 test_vector true))).
    + lia.
    + vm_compute. reflexivity.
Defined.

Lemma existsb_range (f : Z -> bool) (lo hi : Z) :
  existsb f (Buf.range lo hi) = true <-> exists i, lo <= i < hi /\ f i = true.
Proof.
  rewrite existsb_exists. split; intros (i & Hi & Hf); exists i.
  - apply range_In in Hi. split; assumption.
  - split; [apply range_In |]; assumption.
Qed.

(** C2, amended.  With [pwlen > 3] and an embedded length [0 <= E <= pwlen - 2],
    the call with [tunnel_password_zeros] set returns -1 exactly when
    some byte of the decrypted buffer at a position in [E, pwlen - 4] is
    not zero; with the flag clear the call returns [E]. *)
Theorem tunnel_password_trailing_zeros (md5 : list Z -> list Z)
        (passwd : list Z) (pwlen : Z) (secret vector : list Z) :
  3 < pwlen ->
  0 <= tunnel_embedded_len md5 passwd secret vector <= pwlen - 2 ->
  let E := tunnel_embedded_len md5 passwd secret vector in
  let plain := tunnel_plaintext md5 passwd pwlen secret vector in
  (fst (fst (fr_radius_decode_tunnel_password md5 passwd pwlen secret vector true)) = -1
   <-> exists i, E <= i <= pwlen - 4 /\ Buf.get plain i <> 0)
  /\ fr_radius_decode_tunnel_password md5 passwd pwlen secret vector false
     = (E, Buf.set plain E 0, E).
Proof.
  intros Hlen HE E plain.
  destruct (tunnel_decrypt_spec md5 passwd pwlen secret vector Hlen) as [_ Hok].
  destruct (Hok (proj2 HE)) as (st & Hst & Hemb). fold E in Hemb.
  assert (Hplain : plain = ts_passwd st)
    by (unfold plain, tunnel_plaintext; rewrite Hst; reflexivity).
  unfold fr_radius_decode_tunnel_password.
  destruct (Z.ltb_spec pwlen 2); [lia |].
  destruct (Z.leb_spec pwlen 3); [lia |].
  rewrite Hst, Hemb, <- Hplain. cbn [andb]. split; [| reflexivity].
  destruct (existsb (fun i => negb (Buf.get plain i =? 0))
                    (Buf.range E (pwlen - 2 - 1))) eqn:Hex; cbn [fst].
  - split; [intros _ | reflexivity].
    apply existsb_range in Hex. destruct Hex as (i & Hi & Hnz).
    exists i. split; [lia |].
    destruct (Z.eqb_spec (Buf.get plain i) 0); [discriminate | assumption].
  - split; [fold E in HE; lia |].
    intros (i & Hi & Hnz). exfalso.
    assert (Hex' : existsb (fun i => negb (Buf.get plain i =? 0))
                           (Buf.range E (pwlen - 2 - 1)) = true).
    { apply existsb_range. exists i. split; [lia |].
      destruct (Z.eqb_spec (Buf.get plain i) 0); [contradiction | reflexivity]. }
    rewrite Hex in Hex'. discriminate.
Qed.

Example tunnel_hello_encrypts :
  tunnel_hello
  = [128; 0] ++ xor16 (5 :: hello ++ repeat 0 10%nat)
                      (MD5.md5 (testing123 ++ test_vector ++ [128; 0])).
Proof. vm_compute. reflexivity. Qed.

Lemma tunnel_password_trailing_zeros_witness :
  (fst (fst (fr_radius_decode_tunnel_password MD5.md5 tunnel_hello 18
               testing123 test_vector true)) = -1
   <-> exists i, 5 <= i <= 18 - 4
                 /\ Buf.get (tunnel_plaintext MD5.md5 tunnel_hello 18
                               testing123 test_vector) i <> 0)
  /\ fr_radius_decode_tunnel_password MD5.md5 tunnel_hello 18 testing123 test_vector false
     = (5, hello ++ repeat 0 10%nat ++ [197; 158; 110], 5).
Proof.
  destruct (tunnel_password_trailing_zeros MD5.md5 tunnel_hello 18 testing123 test_vector)
    as [Hiff Hclear].
  - lia.
  - vm_compute. split; discriminate.
  - split.
    + exact Hiff.
    + rewrite Hclear. vm_compute. reflexivity.
Defined.

(** C2 as stated fails: the buffer [tunnel_hello] decrypts to "hello" and
    ten NUL bytes; the byte at position [pwlen - 3 = 15] of the buffer is
    not zero, and the call with the flag set returns 5 all the same. *)
Lemma tunnel_password_zeros_counterexample :
  let passwd := tunnel_hello in
  let pwlen := 18 in
  let E := tunnel_embedded_len MD5.md5 passwd testing123 test_vector in
  let plain := tunnel_plaintext MD5.md5 passwd pwlen testing123 test_vector in
  3 < pwlen /\ E = 5 /\ E <= pwlen - 2
  /\ ~ (fst (fst (fr_radius_decode_tunnel_password MD5.md5 passwd pwlen
                    testing123 test_vector true)) = -1
        <-> exists i, E <= i <= pwlen - 3 /\ Buf.get plain i <> 0).
Proof.
  cbv zeta. split; [lia |]. split; [vm_compute; reflexivity |].
  split; [vm_compute; discriminate |].
  intros [_ H].
  assert (Hrc : fst (fst (fr_radius_decode_tunnel_password MD5.md5 tunnel_hello 18
                            testing123 test_vector true)) = 5)
    by (vm_compute; reflexivity).
  rewrite Hrc in H.
  assert (Habs : 5 = -1); [| discriminate Habs].
  apply H. exists 15. split.
  - vm_compute. split; discriminate.
  - vm_compute. discriminate.
Qed.

(** *** The plaintext in the buffer *)

Section TunnelPlaintext.

Variable md5 : list Z -> list Z.

Lemma tunnel_xor_nil (n base block_len : Z) (digest pw : list Z) :
  block_len <= base -> tunnel_xor n base block_len digest pw = pw.
Proof. intros H. unfold tunnel_xor. rewrite range_nil by lia. reflexivity. Qed.

Lemma tunnel_xor_cons (n base block_len : Z) (digest pw : list Z) :
  base < block_len ->
  tunnel_xor n base block_len digest pw
  = tunnel_xor n (base + 1) block_len digest
               (Buf.set pw (n + base - 1)
                        (Z.lxor (Buf.get pw (n + base + 2)) (Buf.get digest base))).
Proof. intros H. unfold tunnel_xor. rewrite range_cons by lia. reflexivity. Qed.

Lemma tunnel_xor_length (n : Z) (digest : list Z) (k : nat) :
  forall (base block_len : Z) (pw : list Z),
    Z.to_nat (block_len - base) = k ->
    length (tunnel_xor n base block_len digest pw) = length pw.
Proof.
  induction k as [| k IH]; intros base block_len pw Hk.
  - rewrite tunnel_xor_nil by lia. reflexivity.
  - rewrite tunnel_xor_cons by lia. rewrite IH by lia. apply set_length.
Qed.

(** The inner loop of the Tunnel-Password codec writes the positions
    [n + base - 1 .. n + block_len - 2], each with the byte three places
    further XOR the digest, and nothing else. *)
Lemma tunnel_xor_get (n : Z) (digest : list Z) (k : nat) :
  forall (base block_len : Z) (pw : list Z) (j : Z),
    Z.to_nat (block_len - base) = k ->
    0 <= n + base - 1 -> n + block_len - 1 <= Z.of_nat (length pw) ->
    Buf.get (tunnel_xor n base block_len digest pw) j
    = if (n + base - 1 <=? j) && (j <=? n + block_len - 2)
      then Z.lxor (Buf.get pw (j + 3)) (Buf.get digest (j + 1 - n))
      else Buf.get pw j.
Proof.
  induction k as [| k IH]; intros base block_len pw j Hk Hlo Hhi.
  - rewrite tunnel_xor_nil by lia.
    destruct (Z.leb_spec (n + base - 1) j); destruct (Z.leb_spec j (n + block_len - 2));
      cbn [andb]; try reflexivity; lia.
  - rewrite tunnel_xor_cons by lia.
    rewrite IH; [| lia | lia | rewrite set_length; lia].
    destruct (Z.leb_spec (n + (base + 1) - 1) j);
      destruct (Z.leb_spec (n + base - 1) j);
      destruct (Z.leb_spec j (n + block_len - 2)); cbn [andb]; try lia;
      try (rewrite get_set_other by lia; reflexivity).
    assert (j = n + base - 1) by lia. subst j.
    rewrite get_set_same by lia.
    f_equal; f_equal; lia.
Qed.

Variables (passwd secret vector : list Z) (pwlen : Z).
Hypothesis Hpwlen : 3 < pwlen.
Hypothesis Hbuf : pwlen <= Z.of_nat (length passwd).
Hypothesis Hfits : tunnel_embedded_len md5 passwd secret vector <= pwlen - 2.

Lemma tunnel_block_inv (k : Z) (st : tunnel_state) :
  0 <= k -> 16 * k < pwlen - 2 ->
  tunnel_inv md5 passwd secret vector pwlen k st ->
  exists st', tunnel_block md5 pwlen (pwlen - 2) (fr_md5_update [] secret) st (16 * k)
              = inr st'
              /\ tunnel_inv md5 passwd secret vector pwlen (k + 1) st'.
Proof.
  intros Hk Hmore (Hlen & Hrest & Hdone & Hkey).
  specialize (Hkey Hmore).
  unfold tunnel_block. rewrite Hkey.
  set (n := 16 * k) in *.
  set (block_len := if n + 2 + AUTH_PASS_LEN >? pwlen then pwlen - n - 2
                    else AUTH_PASS_LEN).
  assert (Hbl : 1 <= block_len <= 16 /\ n + block_len <= pwlen - 2
                /\ (n + 16 < pwlen - 2 -> block_len = 16)
                /\ (block_len = 16 \/ n + block_len = pwlen - 2)).
  { unfold block_len, AUTH_PASS_LEN.
    destruct (Z.gtb_spec (n + 2 + 16) pwlen); lia. }
  destruct Hbl as (Hbl1 & Hbl2 & Hbl3 & Hbl4).
  assert (Hstep : forall base digest,
             (base = 1 /\ k = 0) \/ (base = 0 /\ 1 <= k) ->
             digest = tunnel_key md5 passwd secret vector k ->
             tunnel_inv md5 passwd secret vector pwlen (k + 1)
               (mk_tunnel_state
                  (tunnel_xor n base block_len digest (ts_passwd st))
                  (fr_md5_update (fr_md5_update [] secret)
                                 (Buf.sub (ts_passwd st) (n + 2) block_len))
                  (if k =? 0
                   then Z.lxor (Buf.get (ts_passwd st) 2) (Buf.get digest 0)
                   else ts_embedded_len st))).
  { intros base digest Hbase Hdig. unfold tunnel_inv. cbn [ts_passwd ts_md5_ctx].
    assert (Hget := fun j => tunnel_xor_get n digest (Z.to_nat (block_len - base))
                               base block_len (ts_passwd st) j eq_refl).
    split; [| split; [| split]].
    - rewrite (tunnel_xor_length n digest (Z.to_nat (block_len - base))) by reflexivity.
      exact Hlen.
    - intros j Hj. rewrite Hget by lia.
      destruct (Z.leb_spec (n + base - 1) j); destruct (Z.leb_spec j (n + block_len - 2));
        cbn [andb]; try (apply Hrest; lia); lia.
    - intros j Hj Hj'. rewrite Hget by lia.
      destruct (Z.leb_spec (n + base - 1) j); destruct (Z.leb_spec j (n + block_len - 2));
        cbn [andb]; try (apply Hdone; lia); try lia.
      unfold tunnel_plain_byte. rewrite Hrest by lia.
      assert (Hq : (j + 1) / 16 = k)
        by (symmetry; apply (Z.div_unique (j + 1) 16 k (j + 1 - n)); lia).
      assert (Hr : (j + 1) mod 16 = j + 1 - n)
        by (symmetry; apply (Z.mod_unique (j + 1) 16 k (j + 1 - n)); lia).
      rewrite Hq, Hr, Hdig. reflexivity.
    - intros Hnext. unfold tunnel_key.
      destruct (Z.eqb_spec (k + 1) 0); [lia |].
      replace (k + 1 - 1) with k by lia. fold n.
      rewrite (Hbl3 ltac:(lia)).
      unfold fr_md5_final, fr_md5_update. rewrite app_nil_l. f_equal. f_equal.
      apply sub_ext; [exact Hlen | lia |].
      intros j Hj. apply Hrest. lia. }
  destruct (Z.eqb_spec n 0) as [Hn0 | Hn0].
  - assert (Hk0 : k = 0) by lia.
    assert (HE : Z.lxor (Buf.get (ts_passwd st) 2)
                        (Buf.get (tunnel_key md5 passwd secret vector k) 0)
                 = tunnel_embedded_len md5 passwd secret vector).
    { rewrite Hrest by lia. rewrite Hk0. reflexivity. }
    rewrite HE.
    destruct (Z.gtb_spec (tunnel_embedded_len md5 passwd secret vector) (pwlen - 2));
      [lia |].
    eexists. split; [reflexivity |].
    specialize (Hstep 1 (tunnel_key md5 passwd secret vector k)
                      (or_introl (conj eq_refl Hk0)) eq_refl).
    rewrite Hk0 in Hstep. change (0 =? 0) with true in Hstep. cbv iota in Hstep.
    rewrite Hk0 in HE. rewrite HE in Hstep.
    rewrite Hk0. rewrite Hn0 in *. exact Hstep.
  - assert (Hk1 : 1 <= k) by (unfold n in Hn0; lia).
    eexists. split; [reflexivity |].
    specialize (Hstep 0 (tunnel_key md5 passwd secret vector k)
                      (or_intror (conj eq_refl Hk1)) eq_refl).
    destruct (Z.eqb_spec k 0); [lia |]. exact Hstep.
Qed.

Lemma tunnel_blocks_inv (c : nat) :
  forall (k : nat) (st : tunnel_state),
    16 * Z.of_nat (k + c) < pwlen - 2 + 16 ->
    tunnel_inv md5 passwd secret vector pwlen (Z.of_nat k) st ->
    exists st',
      tunnel_blocks md5 pwlen (pwlen - 2) (fr_md5_update [] secret)
                    (map (fun i => AUTH_PASS_LEN * Z.of_nat i) (seq k c)) st
      = inr st'
      /\ tunnel_inv md5 passwd secret vector pwlen (Z.of_nat (k + c)) st'.
Proof.
  induction c as [| c IH]; intros k st Hlast Hinv.
  - exists st. rewrite Nat.add_0_r. split; [reflexivity | exact Hinv].
  - cbn [seq map tunnel_blocks]. unfold AUTH_PASS_LEN at 1.
    destruct (tunnel_block_inv (Z.of_nat k) st) as (st1 & Hst1 & Hinv1);
      [lia | lia | exact Hinv |].
    rewrite Hst1.
    replace (Z.of_nat k + 1) with (Z.of_nat (S k)) in Hinv1 by lia.
    destruct (IH (S k) st1) as (st' & Hst' & Hinv'); [lia | exact Hinv1 |].
    exists st'. split; [exact Hst' |].
    replace (k + S c)%nat with (S k + c)%nat by lia. exact Hinv'.
Qed.

(** The block loop leaves in the buffer, at the positions [0 .. pwlen - 4],
    the plaintext of the specification (ciphertext XOR the key of the
    block, the keys chained on the ciphertext), and leaves the positions
    from [pwlen - 3] on as they were. *)
Theorem tunnel_plaintext_spec (j : Z) :
  (0 <= j <= pwlen - 4 ->
   Buf.get (tunnel_plaintext md5 passwd pwlen secret vector) j
   = tunnel_plain_byte md5 passwd secret vector j)
  /\ (pwlen - 3 <= j ->
      Buf.get (tunnel_plaintext md5 passwd pwlen secret vector) j = Buf.get passwd j).
Proof.
  unfold tunnel_plaintext, tunnel_decrypt, Buf.steps.
  set (m := Z.to_nat ((pwlen - 2 + AUTH_PASS_LEN - 1) / AUTH_PASS_LEN)).
  assert (Hm : 16 * Z.of_nat m < pwlen - 2 + 16 /\ pwlen - 2 <= 16 * Z.of_nat m).
  { unfold m, AUTH_PASS_LEN.
    pose proof (Z.div_mod (pwlen - 2 + 16 - 1) 16 ltac:(lia)).
    pose proof (Z.mod_pos_bound (pwlen - 2 + 16 - 1) 16 ltac:(lia)).
    assert (0 <= (pwlen - 2 + 16 - 1) / 16) by (apply Z.div_pos; lia).
    lia. }
  destruct (tunnel_blocks_inv m 0
              (mk_tunnel_state passwd
                 (fr_md5_update
                    (fr_md5_update (fr_md5_update [] secret)
                                   (Buf.sub vector 0 RADIUS_AUTH_VECTOR_LENGTH))
                    (Buf.sub passwd 0 2)) 0))
    as (st' & Hst' & (Hlen & Hrest & Hdone & _)).
  - cbn [Nat.add]. lia.
  - unfold tunnel_inv. cbn [ts_passwd ts_md5_ctx].
    split; [reflexivity |]. split; [reflexivity |]. split; [intros; lia |].
    intros _. unfold tunnel_key, fr_md5_final, fr_md5_update, RADIUS_AUTH_VECTOR_LENGTH.
    cbn [Z.of_nat Z.eqb]. rewrite app_nil_l, <- app_assoc. reflexivity.
  - rewrite Hst'. cbn [Nat.add] in *. split; intros Hj.
    + apply Hdone; lia.
    + apply Hrest. right. exact Hj.
Qed.

End TunnelPlaintext.

(** ** The TLV validator *)

Lemma sub_length (buf : list Z) (off n : Z) :
  0 <= off -> 0 <= n -> off + n <= Z.of_nat (length buf) ->
  Z.of_nat (length (Buf.sub buf off n)) = n.
Proof.
  intros Hoff Hn Hfit. unfold Buf.sub.
  rewrite length_firstn, length_skipn. lia.
Qed.

Lemma sub_get (buf : list Z) (off n i : Z) :
  0 <= off -> 0 <= i < n ->
  Buf.get (Buf.sub buf off n) i = Buf.get buf (off + i).
Proof.
  intros Hoff Hi. unfold Buf.sub. rewrite !get_nth by lia.
  rewrite nth_firstn.
  destruct (Nat.ltb_spec (Z.to_nat i) (Z.to_nat n)); [| lia].
  rewrite nth_skipn. f_equal. lia.
Qed.

Lemma sub_skipn (buf : list Z) (off n a : Z) :
  0 <= off -> 0 <= a <= n ->
  skipn (Z.to_nat a) (Buf.sub buf off n) = Buf.sub buf (off + a) (n - a).
Proof.
  intros Hoff Ha. unfold Buf.sub.
  rewrite skipn_firstn_comm, skipn_skipn.
  f_equal; [lia |]. f_equal. lia.
Qed.

Lemma sub_nil (buf : list Z) (off : Z) : Buf.sub buf off 0 = [].
Proof. reflexivity. Qed.

Lemma rd_sub (buf : list Z) (off n i : Z) :
  0 <= off -> 0 <= i < n ->
  rd (buf, off) i = Buf.get (Buf.sub buf off n) i.
Proof.
  intros Hoff Hi. unfold rd. cbn [fst snd]. symmetry. apply sub_get; assumption.
Qed.

Lemma tlv_id_ok_spec (buf : list Z) (off n T : Z) :
  T = 1 \/ T = 2 \/ T = 4 -> 0 <= off -> T <= n ->
  tlv_id_ok (buf, off) T = true <-> tlv_id_valid T (Buf.sub buf off n).
Proof.
  intros HT Hoff Hn. unfold tlv_id_ok, tlv_id_valid.
  destruct HT as [-> | [-> | ->]]; cbn [Z.eqb Pos.eqb].
  - split; [intros _; split; intros H; discriminate H | reflexivity].
  - rewrite !(rd_sub buf off n) by lia.
    destruct (Z.eqb_spec (Buf.get (Buf.sub buf off n) 0) 0) as [H0 | H0];
      destruct (Z.eqb_spec (Buf.get (Buf.sub buf off n) 1) 0) as [H1 | H1];
      cbn [andb]; split; try reflexivity; try discriminate;
      try (intros _; split; [intros H; discriminate H | intros _ [? ?]; contradiction]).
    intros [_ H]. exfalso. apply H; [reflexivity | split; assumption].
  - rewrite !(rd_sub buf off n) by lia.
    destruct (Z.eqb_spec (Buf.get (Buf.sub buf off n) 0) 0) as [H0 | H0];
      destruct (Z.eqb_spec (Buf.get (Buf.sub buf off n) 1) 0) as [H1 | H1];
      destruct (Z.eqb_spec (Buf.get (Buf.sub buf off n) 2) 0) as [H2 | H2];
      destruct (Z.eqb_spec (Buf.get (Buf.sub buf off n) 3) 0) as [H3 | H3];
      cbn [andb negb]; split; try reflexivity; try discriminate;
      try (intros _; split; [| intros H; discriminate H]; intros _;
           split; [assumption | intros (? & ? & ?); contradiction]);
      intros [H _]; exfalso; destruct (H eq_refl) as [Ha Hb];
      try contradiction; apply Hb; repeat split; assumption.
Qed.

Lemma tlv_ok_loop_spec (buf : list Z) (T W : Z) :
  T = 1 \/ T = 2 \/ T = 4 -> W = 0 \/ W = 1 \/ W = 2 ->
  forall (fuel : nat) (off length : Z),
    0 <= off -> 0 <= length -> off + length <= Z.of_nat (List.length buf) ->
    (Z.to_nat length <= fuel)%nat ->
    (tlv_ok_loop fuel (buf, off) (off + length) length T W = Some 0
     /\ tlv_units T W (Buf.sub buf off length))
    \/ (tlv_ok_loop fuel (buf, off) (off + length) length T W = Some (-1)
        /\ ~ tlv_units T W (Buf.sub buf off length)).
Proof.
  intros HT HW.
  induction fuel as [| fuel IH]; intros off length Hoff Hlen Hfit Hfuel.
  - assert (length = 0) by lia. subst length. left.
    cbn [tlv_ok_loop snd].
    destruct (Z.ltb_spec off (off + 0)); [lia |].
    split; [reflexivity | rewrite sub_nil; constructor].
  - cbn [tlv_ok_loop snd].
    destruct (Z.ltb_spec off (off + length)) as [Hpos | Hzero].
    2:{ assert (length = 0) by lia. subst length. left.
        split; [reflexivity | rewrite sub_nil; constructor]. }
    remember (Buf.sub buf off length) as l eqn:El.
    assert (Hl : Z.of_nat (List.length l) = length) by (rewrite El; apply sub_length; lia).
    assert (Hne : l <> []) by (intros Hnil; rewrite Hnil in Hl; simpl in Hl; lia).
    destruct (Z.gtb_spec (off + T + W) (off + length)) as [Hover | Hhead].
    { right. split; [reflexivity |].
      intros Hu. inversion Hu; subst; try congruence; lia. }
    destruct (tlv_id_ok (buf, off) T) eqn:Hid; cbn [negb].
    2:{ right. split; [reflexivity |].
        assert (Hnv : ~ tlv_id_valid T l).
        { intros Hv. rewrite El in Hv.
          apply (tlv_id_ok_spec buf off length T HT Hoff) in Hv; [| lia].
          rewrite Hid in Hv. discriminate. }
        intros Hu. inversion Hu; subst; try congruence; contradiction. }
    assert (Hv : tlv_id_valid T l)
      by (rewrite El; apply (tlv_id_ok_spec buf off length T HT Hoff); [lia | exact Hid]).
    destruct (Z.eqb_spec W 0) as [HW0 | HW0].
    { left. split; [reflexivity |]. apply units_whole; try assumption. lia. }
    assert (HTW : rd (buf, off) (T + W - 1) = Buf.get l (T + W - 1))
      by (rewrite El; apply rd_sub; lia).
    assert (HrT : rd (buf, off) T = Buf.get l T) by (rewrite El; apply rd_sub; lia).
    rewrite HrT, HTW.
    destruct ((W =? 2) && negb (Buf.get l T =? 0)) eqn:Hhigh.
    { right. split; [reflexivity |].
      apply andb_prop in Hhigh. destruct Hhigh as [H2 Hnz].
      apply Z.eqb_eq in H2.
      intros Hu. inversion Hu; subst; try congruence.
      match goal with H : 2 = 2 -> _ |- _ => rewrite (H eq_refl) in Hnz end.
      discriminate. }
    assert (Hhigh' : W = 2 -> Buf.get l T = 0).
    { intros ->. cbn [Z.eqb Pos.eqb andb] in Hhigh.
      destruct (Z.eqb_spec (Buf.get l T) 0); [assumption | discriminate]. }
    assert (Hsel : ((W =? 2) || (W =? 1)) = true)
      by (destruct HW as [-> | [-> | ->]]; [congruence | reflexivity | reflexivity]).
    rewrite Hsel. cbn [negb].
    destruct (Z.ltb_spec (Buf.get l (T + W - 1)) (T + W)) as [Hshort | Hmin].
    { right. split; [reflexivity |].
      intros Hu. inversion Hu; subst; try congruence; lia. }
    destruct (Z.gtb_spec (Buf.get l (T + W - 1)) length) as [Hlong | Hmax].
    { right. split; [reflexivity |].
      intros Hu. inversion Hu; subst; try congruence; lia. }
    remember (Buf.get l (T + W - 1)) as attrlen eqn:Ea.
    unfold padd. cbn [fst snd].
    replace (off + length) with ((off + attrlen) + (length - attrlen)) by lia.
    assert (Hskip : skipn (Z.to_nat attrlen) l
                    = Buf.sub buf (off + attrlen) (length - attrlen))
      by (rewrite El; apply sub_skipn; lia).
    destruct (IH (off + attrlen) (length - attrlen)) as [[Hr Hu] | [Hr Hu]];
      try lia.
    + left. split; [exact Hr |].
      apply units_cons with (attrlen := attrlen); try assumption; try lia.
      rewrite Hskip. exact Hu.
    + right. split; [exact Hr |].
      intros Hu'. apply Hu. rewrite <- Hskip.
      inversion Hu'; congruence.
Qed.

(** C4. For [T] in {1, 2, 4} and [W] in {0, 1, 2}, [fr_radius_decode_tlv_ok]
    on a slice that lies in its buffer returns 0 if the slice is a
    concatenation of units [T-byte id | W-byte length | value] (header in
    the rest of the slice, id acceptable for [T], high length byte 0 for
    [W = 2], reported length at least [T + W] and at most the rest of the
    slice; for [W = 0] a first unit with an acceptable id), and -1
    otherwise. *)
Theorem tlv_ok_iff_units (buf : list Z) (off length T W : Z) :
  T = 1 \/ T = 2 \/ T = 4 -> W = 0 \/ W = 1 \/ W = 2 ->
  0 <= off -> 0 <= length -> off + length <= Z.of_nat (List.length buf) ->
  (fr_radius_decode_tlv_ok (buf, off) length T W = Some 0
   \/ fr_radius_decode_tlv_ok (buf, off) length T W = Some (-1))
  /\ (fr_radius_decode_tlv_ok (buf, off) length T W = Some 0
      <-> tlv_units T W (Buf.sub buf off length)).
Proof.
  intros HT HW Hoff Hlen Hfit. unfold fr_radius_decode_tlv_ok. cbn [snd].
  assert (Hargs : ((W >? 2) || (T =? 0) || (T >? 4)) = false)
    by (destruct HT as [-> | [-> | ->]]; destruct HW as [-> | [-> | ->]]; reflexivity).
  rewrite Hargs.
  destruct (tlv_ok_loop_spec buf T W HT HW (Z.to_nat length) off length)
    as [[Hr Hu] | [Hr Hu]]; try lia; rewrite Hr.
  - split; [left; reflexivity | split; [intros _; exact Hu | reflexivity]].
  - split; [right; reflexivity |].
    split; [intros H; discriminate H | intros H; contradiction].
Qed.

Lemma tlv_ok_iff_units_witness :
  fr_radius_decode_tlv_ok ([1; 3; 65; 2; 2], 0) 5 1 1 = Some 0
  <-> tlv_units 1 1 (Buf.sub [1; 3; 65; 2; 2] 0 5).
Proof.
  apply (proj2 (tlv_ok_iff_units [1; 3; 65; 2; 2] 0 5 1 1
                  (or_introl eq_refl) (or_intror (or_introl eq_refl))
                  ltac:(lia) ltac:(lia) ltac:(simpl; lia))).
Defined.

(** ** decode_concat *)

(** The total only grows, and grows once the loop is entered: a total of
    zero means that the loop did not run. *)
Lemma concat_scan_total (fuel : nat) :
  forall (ptr_ : ptr) (end_ attr total t e : Z),
    concat_scan fuel ptr_ end_ attr total = Scanned (t, e) ->
    total <= t /\ (snd ptr_ < end_ -> total < t).
Proof.
  induction fuel as [| fuel IH]; intros ptr_ end_ attr total t e H;
    cbn [concat_scan] in H.
  - destruct (Z.ltb_spec (snd ptr_) end_); [discriminate |].
    inversion H; subst. lia.
  - destruct (Z.ltb_spec (snd ptr_) end_).
    2:{ inversion H; subst. lia. }
    destruct (Z.leb_spec (rd ptr_ 1) 2); [discriminate |].
    destruct (snd ptr_ + rd ptr_ 1 >? end_); [discriminate |].
    destruct (snd (padd ptr_ (rd ptr_ 1)) =? end_).
    { inversion H; subst. lia. }
    destruct (negb (rd (padd ptr_ (rd ptr_ 1)) 0 =? attr)).
    { inversion H; subst. lia. }
    apply IH in H. lia.
Qed.

(** ** fr_radius_decode_pair *)

(** C10. With [data_len = 2] and an empty attribute ([data[1] = 2]) whose
    descriptor resolves, [fr_radius_decode_pair] returns 2; it appends
    nothing, except that for Chargeable-User-Identity under a true
    protocol root it appends one empty tainted pair.  An empty attribute
    followed by more data ([data_len > 2]) never appends a pair: the call
    returns 2, or -1 for a "concat" attribute. *)
Theorem decode_pair_empty_attribute (E : decoder_env) (fuel : nat)
        (packet_ctx : option fr_radius_ctx_t) (data : ptr) (data_len : Z)
        (cursor : list VALUE_PAIR) (da : fr_dict_attr_t) :
  rd data 1 = 2 ->
  child_or_unknown E (fr_dict_root E) 0 (rd data 0) = Some da ->
  (data_len = 2 ->
   fr_radius_decode_pair E fuel packet_ctx data data_len cursor
   = Some (2, if is_root (da_flags (fr_dict_root E))
                 && (rd data 0 =? FR_CHARGEABLE_USER_IDENTITY)
              then cursor ++ [set_tainted (fr_pair_afrom_da da) true]
              else cursor))
  /\ (2 < data_len -> (0 < fuel)%nat ->
      fr_radius_decode_pair E fuel packet_ctx data data_len cursor
      = Some (if concat (da_flags da) then -1 else 2, cursor)).
Proof.
  intros Hlen Hda. unfold fr_radius_decode_pair. rewrite Hlen, Hda. split.
  - intros ->. cbn [Z.ltb Z.gtb Z.compare Pos.compare Pos.compare_cont orb Z.eqb Pos.eqb].
    destruct (is_root (da_flags (fr_dict_root E))); cbn [negb andb]; [| reflexivity].
    destruct (rd data 0 =? FR_CHARGEABLE_USER_IDENTITY); reflexivity.
  - intros Hmore Hfuel.
    destruct (Z.ltb_spec data_len 2); [lia |].
    destruct (Z.gtb_spec 2 data_len); [lia |].
    destruct (Z.eqb_spec data_len 2); [lia |].
    cbn [Z.ltb Z.compare Pos.compare Pos.compare_cont orb].
    destruct (concat (da_flags da)).
    + unfold decode_concat.
      destruct (Z.to_nat data_len) as [| k] eqn:Ek; [lia |].
      cbn [concat_scan].
      destruct (Z.ltb_spec (snd data) (snd data + data_len)); [| lia].
      rewrite Hlen. reflexivity.
    + destruct fuel as [| f]; [lia |].
      cbn [fr_radius_decode_pair_value]. change (2 - 2) with 0.
      destruct (Z.gtb_spec 0 (data_len - 2)); [lia |].
      reflexivity.
Qed.

Lemma decode_pair_empty_attribute_witness :
  fr_radius_decode_pair TestDict.env 1 None ([89; 2], 0) 2 []
  = Some (2, [mk_vp (mk_da 89 FR_TYPE_STRING TestDict.plain (Some TestDict.root))
                    TAG_NONE PD_none VT_NONE true])
  /\ fr_radius_decode_pair TestDict.env 1 None ([1; 2], 0) 2 [] = Some (2, [])
  /\ fr_radius_decode_pair TestDict.env 1 None ([89; 2; 1; 3; 65], 0) 5 [] = Some (2, [])
  /\ fr_radius_decode_pair TestDict.env 1 None ([79; 2; 79; 3; 65], 0) 5 [] = Some (-1, []).
Proof.
  split; [| split; [| split]].
  - apply (proj1 (decode_pair_empty_attribute TestDict.env 1 None ([89; 2], 0) 2 []
                    (mk_da 89 FR_TYPE_STRING TestDict.plain (Some TestDict.root))
                    eq_refl eq_refl)).
    reflexivity.
  - apply (proj1 (decode_pair_empty_attribute TestDict.env 1 None ([1; 2], 0) 2 []
                    (mk_da 1 FR_TYPE_STRING TestDict.plain (Some TestDict.root))
                    eq_refl eq_refl)).
    reflexivity.
  - apply (proj2 (decode_pair_empty_attribute TestDict.env 1 None
                    ([89; 2; 1; 3; 65], 0) 5 []
                    (mk_da 89 FR_TYPE_STRING TestDict.plain (Some TestDict.root))
                    eq_refl eq_refl)); lia.
  - apply (proj2 (decode_pair_empty_attribute TestDict.env 1 None
                    ([79; 2; 79; 3; 65], 0) 5 []
                    (mk_da 79 FR_TYPE_OCTETS TestDict.concat_flags (Some TestDict.root))
                    eq_refl eq_refl)); lia.
Defined.

(** ** decode_wimax *)

Lemma forallb_range (f : Z -> bool) (lo hi : Z) :
  forallb f (Buf.range lo hi) = true <-> forall i, lo <= i < hi -> f i = true.
Proof.
  rewrite forallb_forall. split; intros H i Hi; apply H.
  - apply range_In. exact Hi.
  - apply range_In in Hi. exact Hi.
Qed.

(** The first loop of [decode_wimax] has fuel enough with one unit per
    byte up to [end], and when it is entered and ends without an error,
    the fragments form a chain. *)
Lemma wimax_scan_chain (buf : list Z) (d : Z) (fuel : nat) :
  forall (a end_ len : Z),
    (Z.to_nat (end_ - a) <= fuel)%nat ->
    match wimax_scan fuel (buf, d) (buf, a) end_ len with
    | Scanned _ => a < end_ -> wimax_chain buf d a end_
    | Malformed => True
    | OutOfFuel => False
    end.
Proof.
  induction fuel as [| fuel IH]; intros a end_ len Hfuel; cbn [wimax_scan snd].
  - destruct (Z.ltb_spec a end_); [lia |]. intros; lia.
  - destruct (Z.ltb_spec a end_) as [Hin | Hout]; [| intros; lia].
    destruct (Z.ltb_spec (end_ - a) 3) as [| Hroom]; [exact I |].
    destruct (Z.leb_spec (rd (buf, a) 1) 3) as [| Hdata]; [exact I |].
    destruct (Z.gtb_spec (a + rd (buf, a) 1) end_) as [| Hfit]; [exact I |].
    unfold rd in Hdata, Hfit. cbn [fst snd] in Hdata, Hfit.
    destruct (Z.eqb_spec (Z.land (rd (buf, a) 2) 128) 0) as [Hlast | Hmore];
      cbn [negb andb].
    + intros _. apply chain_last; assumption.
    + destruct (Z.eqb_spec (a + rd (buf, a) 1) end_) as [| Hnotend]; [exact I |].
      unfold padd. cbn [fst snd].
      set (next := a + rd (buf, a) 1).
      destruct (Z.ltb_spec (end_ - next) 9) as [| Hroom9]; [exact I |].
      destruct (Z.eqb_spec (rd (buf, next) 0) FR_VENDOR_SPECIFIC) as [Hvsa |];
        cbn [negb]; [| exact I].
      destruct (Z.ltb_spec (rd (buf, next) 1) 9) as [| Hlen9]; [exact I |].
      destruct (Z.gtb_spec (next + rd (buf, next) 1) end_) as [| Hfit9]; [exact I |].
      destruct (forallb (fun i => rd (buf, d) i =? rd (buf, next) (2 + i))
                        (Buf.range 0 4)) eqn:Hpen; cbn [negb]; [| exact I].
      destruct (Z.eqb_spec (rd (buf, next) 1) (rd (buf, next) 7 + 6)) as [Hexact |];
        cbn [negb]; [| exact I].
      destruct (Z.eqb_spec (rd (buf, d) 4) (rd (buf, next) 6)) as [Hattr |];
        cbn [negb]; [| exact I].
      specialize (IH (next + 6) end_ (len + (rd (buf, a) 1 - 3))).
      destruct (wimax_scan fuel (buf, d) (buf, next + 6) end_
                           (len + (rd (buf, a) 1 - 3))).
      * intros _.
        unfold rd in *. cbn [fst snd] in *.
        apply chain_more with (next := next); try assumption.
        -- reflexivity.
        -- rewrite Z.add_0_r in Hvsa. exact Hvsa.
        -- intros i Hi.
           pose proof (proj1 (forallb_range _ 0 4) Hpen i Hi) as Hb.
           apply Z.eqb_eq in Hb. rewrite Hb. f_equal. lia.
        -- apply IH; unfold next in *; lia.
      * exact I.
      * apply IH. unfold next in *. unfold rd. cbn [fst snd]. lia.
Qed.

(** C8. When [decode_wimax] is entered with the continuation bit set and
    the fragments do not form a chain (a continuation that does not start
    a Vendor-Specific attribute with the vendor id and the WiMAX attribute
    of the anchor and with a length of its WiMAX length plus 6, a fragment
    that does not fit, or a last fragment with the "more" bit), the call
    returns -1 and appends no pair. *)
Theorem decode_wimax_malformed (E : decoder_env) (rec : decoder)
        (parent : fr_dict_attr_t) (buf : list Z) (d attr_len packet_len vendor : Z)
        (cursor : list VALUE_PAIR) :
  Z.land (rd (buf, d) 6) 0x80 <> 0 ->
  ~ wimax_chain buf d (d + 4) (d + packet_len) ->
  decode_wimax E rec parent (buf, d) attr_len packet_len vendor cursor
  = Some (-1, cursor).
Proof.
  intros Hcont Hbad. unfold decode_wimax.
  destruct (attr_len <? 8); [reflexivity |].
  destruct (rd (buf, d) 5 <? 3); [reflexivity |].
  destruct (negb (to_size_t (rd (buf, d) 5 + 4) =? attr_len)); [reflexivity |].
  destruct (child_or_unknown E parent vendor (rd (buf, d) 4)); [| reflexivity].
  destruct (Z.eqb_spec (Z.land (rd (buf, d) 6) 128) 0) as [Hz | _]; [contradiction |].
  unfold padd. cbn [fst snd].
  pose proof (wimax_scan_chain buf d (Z.to_nat packet_len) (d + 4) (d + packet_len) 0)
    as Hscan.
  destruct (wimax_scan (Z.to_nat packet_len) (buf, d) (buf, d + 4) (d + packet_len) 0)
    as [[wimax_len end_] | |] eqn:Hs.
  - destruct (Z_lt_le_dec (d + 4) (d + packet_len)) as [Hin | Hout].
    + exfalso. apply Hbad. apply Hscan; [lia | exact Hin].
    + destruct (Z.to_nat packet_len); cbn [wimax_scan snd] in Hs;
        (destruct (Z.ltb_spec (d + 4) (d + packet_len)); [lia |]);
        inversion Hs; reflexivity.
  - reflexivity.
  - exfalso. apply Hscan. lia.
Qed.

Example decode_wimax_two_fragments :
  fr_radius_decode_pair TestDict.env 3 None (wimax_two, 0) 21 []
  = Some (21, [mk_vp (mk_da 1 FR_TYPE_OCTETS TestDict.plain (Some wimax_da))
                     TAG_NONE (PD_box (VB FR_TYPE_OCTETS [0xAA; 0xBB; 0xCC]))
                     VT_DATA true]).
Proof. vm_compute. reflexivity. Qed.

Lemma decode_wimax_malformed_witness :
  decode_wimax TestDict.env (fr_radius_decode_pair_value TestDict.env 3 None)
               wimax_da (wimax_cut, 2) 8 8 VENDORPEC_WIMAX []
  = Some (-1, []).
Proof.
  apply (decode_wimax_malformed TestDict.env
           (fr_radius_decode_pair_value TestDict.env 3 None)
           wimax_da wimax_cut 2 8 8 VENDORPEC_WIMAX []).
  - vm_compute. discriminate.
  - intros H.
    inversion H; subst.
    + match goal with Hlast : Z.land _ _ = 0 |- _ => vm_compute in Hlast; discriminate end.
    + match goal with Hroom : 9 <= _ - _ |- _ => vm_compute in Hroom; apply Hroom; reflexivity end.
Defined.

(** ** Containers *)

Section Containers.

Variable E : decoder_env.
Variable rec : decoder.

(** When the loop of [fr_radius_decode_tlv] ends without an error, every
    sub-attribute up to [end] has decoded. *)
Lemma tlv_loop_walk (parent : fr_dict_attr_t) (end_ : Z) (fuel : nat) :
  forall (p : ptr) (staged head : list VALUE_PAIR),
    tlv_loop E rec fuel parent p end_ staged = Scanned head ->
    tlv_walk E rec parent end_ p staged head.
Proof.
  induction fuel as [| fuel IH]; intros p staged head H; cbn [tlv_loop] in H.
  - destruct (Z.ltb_spec (snd p) end_); [discriminate |].
    inversion H; subst. apply tlv_walk_end. assumption.
  - destruct (Z.ltb_spec (snd p) end_) as [Hin | Hout].
    2:{ inversion H; subst. apply tlv_walk_end. assumption. }
    destruct (child_or_unknown E parent (fr_dict_vendor_num_by_da E parent) (rd p 0))
      as [child |] eqn:Hchild; [| discriminate].
    destruct (rec child (padd p 2) (to_size_t (rd p 1 - 2)) (to_size_t (rd p 1 - 2))
                  staged) as [[tlv_len staged'] |] eqn:Hrec; [| discriminate].
    destruct (Z.ltb_spec tlv_len 0); [discriminate |].
    eapply tlv_walk_step; eauto.
Qed.

(** When the loop of [decode_vsa] ends without an error, every
    sub-attribute has decoded, and the total has not shrunk. *)
Lemma vsa_loop_walk (vendor_da : fr_dict_attr_t) (dv : fr_dict_vendor_t)
      (fuel : nat) :
  forall (data : ptr) (attr_len total : Z) (staged head : list VALUE_PAIR)
         (total' : Z),
    vsa_loop E rec fuel vendor_da dv data attr_len total staged
    = Scanned (head, total') ->
    vsa_walk E rec vendor_da dv data attr_len total staged total' head
    /\ total <= total'.
Proof.
  induction fuel as [| fuel IH]; intros data attr_len total staged head total' H;
    cbn [vsa_loop] in H.
  - destruct (Z.gtb_spec attr_len 0); [discriminate |].
    inversion H; subst. split; [apply vsa_walk_end; assumption | lia].
  - destruct (Z.gtb_spec attr_len 0) as [Hin | Hout].
    2:{ inversion H; subst. split; [apply vsa_walk_end; assumption | lia]. }
    destruct (decode_vsa_internal E rec vendor_da data attr_len dv staged)
      as [[vsa_len staged'] |] eqn:Hint; [| discriminate].
    destruct (Z.ltb_spec vsa_len 0); [discriminate |].
    apply IH in H. destruct H as [Hwalk Hle].
    split; [| lia].
    eapply vsa_walk_step; eauto; lia.
Qed.

Lemma decode_tlv_outcome (parent : fr_dict_attr_t) (data : ptr) (len : Z)
      (cursor : list VALUE_PAIR) (rc : Z) (cursor' : list VALUE_PAIR) :
  fr_radius_decode_tlv E rec parent data len cursor = Some (rc, cursor') ->
  (rc = -1 /\ cursor' = cursor)
  \/ (0 <= rc /\ rc = len
      /\ exists head, cursor' = cursor ++ head
                      /\ tlv_walk E rec parent (snd data + len) data [] head).
Proof.
  unfold fr_radius_decode_tlv. intros H.
  destruct (Z.ltb_spec len 3).
  { inversion H; subst. left. split; reflexivity. }
  destruct (fr_radius_decode_tlv_ok data len 1 1) as [ok |]; [| discriminate].
  destruct (ok <? 0).
  { inversion H; subst. left. split; reflexivity. }
  destruct (tlv_loop E rec (Z.to_nat len) parent data (snd data + len) [])
    as [head | |] eqn:Hloop; [| | discriminate].
  - inversion H; subst. right. split; [lia |]. split; [reflexivity |].
    exists head. split; [reflexivity |].
    apply tlv_loop_walk with (fuel := Z.to_nat rc). exact Hloop.
  - inversion H; subst. left. split; reflexivity.
Qed.

Lemma create_attrs_outcome (vendor_da : fr_dict_attr_t) (dv : fr_dict_vendor_t)
      (data : ptr) (len : Z) (cursor : list VALUE_PAIR)
      (rc : Z) (cursor' : list VALUE_PAIR) :
  create_attrs E rec vendor_da dv data len cursor = Some (rc, cursor') ->
  (rc = -1 /\ cursor' = cursor)
  \/ (0 <= rc
      /\ exists head, cursor' = cursor ++ head
                      /\ vsa_walk E rec vendor_da dv (padd data 4) (len - 4) 4 []
                                  rc head).
Proof.
  unfold create_attrs. intros H.
  destruct (vsa_loop E rec (Z.to_nat (len - 4)) vendor_da dv (padd data 4) (len - 4) 4 [])
    as [[head total] | |] eqn:Hloop; [| | discriminate].
  - inversion H; subst. right.
    apply vsa_loop_walk in Hloop. destruct Hloop as [Hwalk Hle].
    split; [lia |]. exists head. split; [reflexivity | exact Hwalk].
  - inversion H; subst. left. split; reflexivity.
Qed.

(** C7. [fr_radius_decode_tlv] and the sub-attribute loop of
    [decode_vsa] either return an error and leave the pairs behind the
    caller's cursor as they were, or return success after every
    sub-attribute has decoded, with the staged pairs added after the
    pairs that were there. *)
Theorem container_decoding_atomic
        (parent : fr_dict_attr_t) (dv : fr_dict_vendor_t) (data : ptr)
        (len : Z) (cursor : list VALUE_PAIR) (rc : Z) (cursor' : list VALUE_PAIR) :
  (fr_radius_decode_tlv E rec parent data len cursor = Some (rc, cursor') ->
   (rc = -1 /\ cursor' = cursor)
   \/ (0 <= rc /\ rc = len
       /\ exists head, cursor' = cursor ++ head
                       /\ tlv_walk E rec parent (snd data + len) data [] head))
  /\ (create_attrs E rec parent dv data len cursor = Some (rc, cursor') ->
      (rc = -1 /\ cursor' = cursor)
      \/ (0 <= rc
          /\ exists head, cursor' = cursor ++ head
                          /\ vsa_walk E rec parent dv (padd data 4) (len - 4) 4 []
                                      rc head)).
Proof.
  split; [apply decode_tlv_outcome | apply create_attrs_outcome].
Qed.

(** The same for the whole of [decode_vsa], for a vendor that is not
    handed to the WiMAX reassembler. *)
Lemma decode_vsa_atomic (parent : fr_dict_attr_t) (data : ptr)
      (attr_len packet_len : Z) (cursor : list VALUE_PAIR)
      (rc : Z) (cursor' : list VALUE_PAIR) :
  ntohl_at data <> VENDORPEC_WIMAX ->
  decode_vsa E rec parent data attr_len packet_len cursor = Some (rc, cursor') ->
  (rc = -1 /\ cursor' = cursor) \/ (0 <= rc /\ exists head, cursor' = cursor ++ head).
Proof.
  intros Hv H. unfold decode_vsa in H.
  assert (Hfail : Some (-1, cursor) = Some (rc, cursor') ->
                  (rc = -1 /\ cursor' = cursor)
                  \/ (0 <= rc /\ exists head, cursor' = cursor ++ head))
    by (intros Heq; inversion Heq; left; split; reflexivity).
  assert (Hloop : forall vendor_da dv,
             create_attrs E rec vendor_da dv data attr_len cursor = Some (rc, cursor') ->
             (rc = -1 /\ cursor' = cursor)
             \/ (0 <= rc /\ exists head, cursor' = cursor ++ head)).
  { intros vendor_da dv Hc.
    destruct (create_attrs_outcome vendor_da dv data attr_len cursor rc cursor' Hc)
      as [Herr | (Hrc & head & Hc' & _)];
      [left; exact Herr | right; split; [exact Hrc | exists head; exact Hc']]. }
  destruct (negb (fr_type_eqb (da_type parent) FR_TYPE_VSA)); [auto |].
  destruct (attr_len >? packet_len); [auto |].
  destruct (attr_len <? 5); [auto |].
  destruct (negb (rd data 0 =? 0)); [auto |].
  destruct (fr_dict_attr_child_by_num E parent (ntohl_at data)) as [vendor_da |].
  - destruct (fr_dict_vendor_by_num E (ntohl_at data)) as [dv |]; [| auto].
    destruct (Z.eqb_spec (ntohl_at data) VENDORPEC_WIMAX); [contradiction |].
    cbn [andb] in H.
    destruct (fr_radius_decode_tlv_ok (padd data 4) (attr_len - 4)
                                      (dv_type dv) (dv_length dv)) as [ok |];
      [| discriminate].
    destruct (ok <? 0); [auto | eauto].
  - destruct (fr_radius_decode_tlv_ok (padd data 4) (attr_len - 4) 1 1) as [ok |];
      [| discriminate].
    destruct (ok <? 0); [auto |].
    destruct (fr_dict_unknown_vendor_afrom_num E parent (ntohl_at data)); [eauto | auto].
Qed.

End Containers.

Example decode_tlv_bad :
  fr_radius_decode_tlv TestDict.env (fr_radius_decode_pair_value TestDict.env 3 None)
                       tlv_da (tlv_bad, 0) 12 [earlier_pair]
  = Some (-1, [earlier_pair]).
Proof. vm_compute. reflexivity. Qed.

Example create_attrs_cisco :
  create_attrs TestDict.env (fr_radius_decode_pair_value TestDict.env 3 None)
               cisco_da (mk_dv 9 1 1 0) (vsa_cisco, 0) 10 [earlier_pair]
  = Some (10, [earlier_pair; cisco_pair]).
Proof. vm_compute. reflexivity. Qed.

Lemma container_decoding_atomic_witness :
  ((-1 = -1 /\ [earlier_pair] = [earlier_pair])
   \/ (0 <= -1 /\ -1 = 12
       /\ exists head, [earlier_pair] = [earlier_pair] ++ head
                       /\ tlv_walk TestDict.env
                                   (fr_radius_decode_pair_value TestDict.env 3 None)
                                   tlv_da (0 + 12) (tlv_bad, 0) [] head))
  /\ ((10 = -1 /\ [earlier_pair; cisco_pair] = [earlier_pair])
      \/ (0 <= 10
          /\ exists head, [earlier_pair; cisco_pair] = [earlier_pair] ++ head
                          /\ vsa_walk TestDict.env
                                      (fr_radius_decode_pair_value TestDict.env 3 None)
                                      cisco_da (mk_dv 9 1 1 0) (padd (vsa_cisco, 0) 4)
                                      (10 - 4) 4 [] 10 head)).
Proof.
  split.
  - apply (proj1 (container_decoding_atomic
                    TestDict.env (fr_radius_decode_pair_value TestDict.env 3 None)
                    tlv_da (mk_dv 9 1 1 0) (tlv_bad, 0) 12 [earlier_pair]
                    (-1) [earlier_pair])).
    vm_compute. reflexivity.
  - apply (proj2 (container_decoding_atomic
                    TestDict.env (fr_radius_decode_pair_value TestDict.env 3 None)
                    cisco_da (mk_dv 9 1 1 0) (vsa_cisco, 0) 10 [earlier_pair]
                    10 [earlier_pair; cisco_pair])).
    vm_compute. reflexivity.
Defined.

(** ** fr_radius_decode_pair_value *)

Lemma write_sub (dst src : list Z) (n : Z) :
  Z.of_nat (length src) = n -> n <= Z.of_nat (length dst) ->
  Buf.sub (Buf.write dst 0 src) 0 n = src.
Proof.
  intros Hn Hfit. unfold Buf.write, Buf.sub.
  destruct (Z.leb_spec (0 + Z.of_nat (length src)) (Z.of_nat (length dst))); [| lia].
  cbn [Z.leb Z.compare andb Z.to_nat firstn skipn app Nat.add].
  rewrite firstn_app.
  replace (Z.to_nat n) with (length src) by lia.
  rewrite firstn_all, Nat.sub_diag, firstn_O, app_nil_r. reflexivity.
Qed.

Lemma fresh_length (E : decoder_env) (n : Z) :
  0 <= n -> Z.of_nat (length (fresh E n)) = n.
Proof.
  intros H. unfold fresh, Buf.range. rewrite !length_map, length_seq. lia.
Qed.

Lemma bytes_length (data : ptr) (n : Z) :
  0 <= snd data -> 0 <= n -> snd data + n <= Z.of_nat (length (fst data)) ->
  Z.of_nat (length (bytes data n)) = n.
Proof. intros. unfold bytes. apply sub_length; assumption. Qed.

Section PairValue.

Variable E : decoder_env.

(** The decryption is skipped without a decoder context or without an
    obfuscation. *)
Lemma decrypt_stage_none (packet_ctx : option fr_radius_ctx_t)
      (parent : fr_dict_attr_t) (data : ptr) (attr_len : Z) (st : dstate) :
  packet_ctx = None \/ subtype (da_flags parent) = FLAG_ENCRYPT_NONE ->
  decrypt_stage E packet_ctx parent data attr_len st = D_ok st.
Proof.
  intros [-> | H]; [reflexivity |].
  unfold decrypt_stage. destruct packet_ctx; [| reflexivity].
  rewrite H. reflexivity.
Qed.

(** The append of a string or of octets that the value primitive
    accepts. *)
Lemma emit_bytes (fuel : nat) (parent : fr_dict_attr_t) (tag : Z) (p : ptr)
      (data_len min attr_len : Z) (cursor : list VALUE_PAIR) (v : value_box) :
  da_type parent = FR_TYPE_STRING \/ da_type parent = FR_TYPE_OCTETS ->
  fr_value_box_from_network E (da_type parent) parent (bytes p data_len) = Some v ->
  emit E (S fuel) parent tag p data_len min attr_len cursor
  = Some (attr_len, cursor ++ [mk_vp parent tag (PD_box v) VT_DATA true]).
Proof.
  intros Hty Hbox. cbn [emit].
  destruct Hty as [Hty | Hty]; rewrite Hty in *; rewrite Hbox; reflexivity.
Qed.

(** The length check and the first [switch] for a string or for octets. *)
Lemma kind_stage_bytes (rec : decoder) (fuel : nat) (parent : fr_dict_attr_t)
      (data : ptr) (attr_len packet_len : Z) (st : dstate)
      (cursor : list VALUE_PAIR) (v : value_box) :
  da_type parent = FR_TYPE_STRING \/ da_type parent = FR_TYPE_OCTETS ->
  fst (fr_radius_attr_sizes E (da_type parent)) <= ds_data_len st
  <= snd (fr_radius_attr_sizes E (da_type parent)) ->
  fr_value_box_from_network E (da_type parent) parent
    (bytes (cur_p data st) (ds_data_len st)) = Some v ->
  kind_stage E rec (S fuel) parent data attr_len packet_len st cursor
  = Some (attr_len, cursor ++ [mk_vp parent (ds_tag st) (PD_box v) VT_DATA true]).
Proof.
  intros Hty Hsize Hbox. unfold kind_stage.
  destruct (fr_radius_attr_sizes E (da_type parent)) as [min max].
  cbn [fst snd] in Hsize.
  destruct (Z.ltb_spec (ds_data_len st) min); [lia |].
  destruct (Z.gtb_spec (ds_data_len st) max); [lia |].
  assert (Hemit := emit_bytes fuel parent (ds_tag st) (cur_p data st)
                              (ds_data_len st) min attr_len cursor v Hty Hbox).
  destruct Hty as [Hty | Hty]; rewrite Hty; exact Hemit.
Qed.

(** The tag of a tagged string: the first byte is split off exactly when
    it is below 0x20. *)
Lemma tag_stage_string (parent : fr_dict_attr_t) (data : ptr) (attr_len : Z) :
  has_tag (da_flags parent) = true ->
  da_type parent = FR_TYPE_STRING ->
  subtype (da_flags parent) <> FLAG_ENCRYPT_TUNNEL_PASSWORD ->
  1 < attr_len < sizeof_buffer ->
  tag_stage E parent data attr_len
  = Some (if rd data 0 <? 0x20
          then mk_dstate (rd data 0) true
                         (Buf.write (fresh E sizeof_buffer) 0
                                    (bytes (padd data 1) (attr_len - 1)))
                         (attr_len - 1)
          else mk_dstate TAG_NONE false (fresh E sizeof_buffer) attr_len).
Proof.
  intros Htag Hty Hsub Hlen. unfold tag_stage. rewrite Htag, Hty.
  destruct (Z.gtb_spec attr_len 1); [| lia].
  destruct (Z.eqb_spec (subtype (da_flags parent)) FLAG_ENCRYPT_TUNNEL_PASSWORD);
    [contradiction |].
  cbn [andb]. rewrite orb_false_r.
  destruct (Z.ltb_spec (rd data 0) 32) as [Hlow | Hhigh]; [| reflexivity].
  destruct (Z.geb_spec attr_len sizeof_buffer); [lia |].
  cbn [fr_type_eqb]. unfold to_int8.
  destruct (Z.ltb_spec (rd data 0) 128); [reflexivity | lia].
Qed.

End PairValue.

(** C6, amended.  For a descriptor with [has_tag], of kind STRING and not
    encrypted with Tunnel-Password, and a value of more than one byte:
    when the value has fewer than 256 bytes, the first byte is split off as
    the tag exactly when it is below 0x20 (0x00 included, which gives the
    tag 0), and when no obfuscation applies and the value primitive accepts
    the value, the pair appended has that tag and the value without the tag
    byte; when the value has 256 bytes or more and the first byte is below
    0x20, the tag branch fails and the call returns -1 with the pairs as
    they were. *)
Theorem tagged_string_first_byte (E : decoder_env) (fuel : nat)
        (packet_ctx : option fr_radius_ctx_t) (parent : fr_dict_attr_t)
        (data : ptr) (attr_len packet_len : Z) (cursor : list VALUE_PAIR)
        (v : value_box) :
  has_tag (da_flags parent) = true ->
  da_type parent = FR_TYPE_STRING ->
  subtype (da_flags parent) <> FLAG_ENCRYPT_TUNNEL_PASSWORD ->
  1 < attr_len ->
  let consumed := rd data 0 <? 0x20 in
  let tag := if consumed then rd data 0 else TAG_NONE in
  let value := if consumed then bytes (padd data 1) (attr_len - 1)
               else bytes data attr_len in
  (attr_len < sizeof_buffer ->
   tag_stage E parent data attr_len
   = Some (if consumed
           then mk_dstate tag true (Buf.write (fresh E sizeof_buffer) 0 value)
                          (attr_len - 1)
           else mk_dstate tag false (fresh E sizeof_buffer) attr_len)
   /\ (packet_ctx = None \/ subtype (da_flags parent) = FLAG_ENCRYPT_NONE ->
       attr_len <= packet_len ->
       0 <= snd data -> snd data + attr_len <= Z.of_nat (length (fst data)) ->
       fst (fr_radius_attr_sizes E FR_TYPE_STRING) <= attr_len - 1 ->
       attr_len <= snd (fr_radius_attr_sizes E FR_TYPE_STRING) ->
       fr_value_box_from_network E FR_TYPE_STRING parent value = Some v ->
       fr_radius_decode_pair_value E (S (S fuel)) packet_ctx parent data
                                   attr_len packet_len cursor
       = Some (attr_len, cursor ++ [mk_vp parent tag (PD_box v) VT_DATA true])))
  /\ (sizeof_buffer <= attr_len -> rd data 0 < 0x20 ->
      tag_stage E parent data attr_len = None
      /\ fr_radius_decode_pair_value E (S fuel) packet_ctx parent data
                                     attr_len packet_len cursor
         = Some (-1, cursor)).
Proof.
  intros Htag Hty Hsub Hone consumed tag value. split.
  - intros Hbuf.
    assert (Hlen : 1 < attr_len < sizeof_buffer) by lia.
    pose proof (tag_stage_string E parent data attr_len Htag Hty Hsub Hlen) as Hstage.
    split.
    + rewrite Hstage. unfold consumed, tag, value.
      destruct (rd data 0 <? 32); reflexivity.
    + intros Hplain Hpkt Hoff Hfit Hmin Hmax Hbox.
      cbn [fr_radius_decode_pair_value].
      unfold sizeof_buffer in Hlen.
      destruct (Z.gtb_spec attr_len packet_len); [lia |].
      destruct (Z.gtb_spec attr_len (128 * 1024)); [lia |].
      destruct (Z.eqb_spec attr_len 0); [lia |].
      cbn [orb]. rewrite Hstage, decrypt_stage_none by exact Hplain.
      unfold consumed, tag, value in *.
      destruct (rd data 0 <? 32).
      * rewrite (kind_stage_bytes E _ fuel parent data attr_len packet_len _ cursor v).
        -- reflexivity.
        -- left. exact Hty.
        -- rewrite Hty. cbn [ds_data_len]. lia.
        -- rewrite Hty. cbn [ds_data_len cur_p ds_in_buffer ds_buffer].
           unfold bytes at 1. cbn [fst snd].
           rewrite write_sub; [exact Hbox | |].
           ++ apply bytes_length; unfold padd; cbn [fst snd]; lia.
           ++ rewrite fresh_length; unfold sizeof_buffer; lia.
      * rewrite (kind_stage_bytes E _ fuel parent data attr_len packet_len _ cursor v).
        -- reflexivity.
        -- left. exact Hty.
        -- rewrite Hty. cbn [ds_data_len]. lia.
        -- rewrite Hty. cbn [ds_data_len cur_p ds_in_buffer]. exact Hbox.
  - intros Hbuf Hlow.
    assert (Hstage : tag_stage E parent data attr_len = None).
    { unfold tag_stage. rewrite Htag.
      destruct (Z.gtb_spec attr_len 1); [| lia].
      destruct (Z.ltb_spec (rd data 0) 32); [| lia].
      cbn [andb orb].
      destruct (Z.geb_spec attr_len sizeof_buffer); [reflexivity | lia]. }
    split; [exact Hstage |].
    cbn [fr_radius_decode_pair_value]. rewrite Hstage.
    destruct ((attr_len >? packet_len) || (attr_len >? 128 * 1024)); [reflexivity |].
    destruct (Z.eqb_spec attr_len 0); [lia | reflexivity].
Qed.

Lemma tagged_string_first_byte_witness :
  fr_radius_decode_pair_value TestDict.env 2 None group_id_da ([1; 65; 66], 0) 3 3 []
  = Some (3, [mk_vp group_id_da 1 (PD_box (VB FR_TYPE_STRING [65; 66])) VT_DATA true])
  /\ fr_radius_decode_pair_value TestDict.env 2 None group_id_da ([0; 65; 66], 0) 3 3 []
     = Some (3, [mk_vp group_id_da 0 (PD_box (VB FR_TYPE_STRING [65; 66])) VT_DATA true])
  /\ fr_radius_decode_pair_value TestDict.env 2 None group_id_da ([65; 65; 66], 0) 3 3 []
     = Some (3, [mk_vp group_id_da 0 (PD_box (VB FR_TYPE_STRING [65; 65; 66]))
                       VT_DATA true])
  /\ fr_radius_decode_pair_value TestDict.env 1 None group_id_da
       (5 :: repeat 65 255%nat, 0) 256 256 []
     = Some (-1, []).
Proof.
  split; [| split; [| split]].
  - apply (proj2 (proj1 (tagged_string_first_byte TestDict.env 0 None group_id_da
                    ([1; 65; 66], 0) 3 3 [] (VB FR_TYPE_STRING [65; 66])
                    eq_refl eq_refl ltac:(discriminate) eq_refl) eq_refl));
      try (vm_compute; reflexivity); try (vm_compute; discriminate).
    left. reflexivity.
  - apply (proj2 (proj1 (tagged_string_first_byte TestDict.env 0 None group_id_da
                    ([0; 65; 66], 0) 3 3 [] (VB FR_TYPE_STRING [65; 66])
                    eq_refl eq_refl ltac:(discriminate) eq_refl) eq_refl));
      try (vm_compute; reflexivity); try (vm_compute; discriminate).
    left. reflexivity.
  - apply (proj2 (proj1 (tagged_string_first_byte TestDict.env 0 None group_id_da
                    ([65; 65; 66], 0) 3 3 [] (VB FR_TYPE_STRING [65; 65; 66])
                    eq_refl eq_refl ltac:(discriminate) eq_refl) eq_refl));
      try (vm_compute; reflexivity); try (vm_compute; discriminate).
    left. reflexivity.
  - apply (proj2 (proj2 (tagged_string_first_byte TestDict.env 0 None group_id_da
                    (5 :: repeat 65 255%nat, 0) 256 256 [] (VB FR_TYPE_STRING [])
                    eq_refl eq_refl ltac:(discriminate) eq_refl)
                        ltac:(vm_compute; discriminate) eq_refl)).
Defined.

(** C6 as stated fails.  A first byte 0x00 is outside [0x01, 0x1F] and is
    split off all the same; and a first byte inside [0x01, 0x1F] is not
    split off when the value has 256 bytes: the call returns -1. *)
Lemma tagged_string_counterexample :
  has_tag (da_flags group_id_da) = true
  /\ da_type group_id_da = FR_TYPE_STRING
  /\ subtype (da_flags group_id_da) <> FLAG_ENCRYPT_TUNNEL_PASSWORD
  /\ ~ (first_byte_consumed
          (fr_radius_decode_pair_value TestDict.env 2 None group_id_da
                                       ([0; 65; 66], 0) 3 3 [])
          ([0; 65; 66], 0) 3
        <-> 0x01 <= rd ([0; 65; 66], 0) 0 <= 0x1F)
  /\ ~ (first_byte_consumed
          (fr_radius_decode_pair_value TestDict.env 2 None group_id_da
                                       (5 :: repeat 65 255%nat, 0) 256 256 [])
          (5 :: repeat 65 255%nat, 0) 256
        <-> 0x01 <= rd (5 :: repeat 65 255%nat, 0) 0 <= 0x1F).
Proof.
  split; [reflexivity |]. split; [reflexivity |]. split; [discriminate |]. split.
  - intros [H _].
    assert (Hc : first_byte_consumed
                   (fr_radius_decode_pair_value TestDict.env 2 None group_id_da
                                                ([0; 65; 66], 0) 3 3 [])
                   ([0; 65; 66], 0) 3).
    { exists 3, [], (mk_vp group_id_da 0 (PD_box (VB FR_TYPE_STRING [65; 66])) VT_DATA true),
        FR_TYPE_STRING.
      split; [vm_compute; reflexivity |]. split; reflexivity. }
    apply H in Hc. vm_compute in Hc. destruct Hc as [Hc _]. apply Hc. reflexivity.
  - intros [_ H].
    assert (Hb : 0x01 <= rd (5 :: repeat 65 255%nat, 0) 0 <= 0x1F)
      by (vm_compute; split; discriminate).
    apply H in Hb. destruct Hb as (rc & cursor & vp & ty & Hr & _).
    assert (Hrun : fr_radius_decode_pair_value TestDict.env 2 None group_id_da
                     (5 :: repeat 65 255%nat, 0) 256 256 [] = Some (-1, []))
      by (vm_compute; reflexivity).
    rewrite Hrun in Hr. inversion Hr as [[Hrc Hcur]].
    destruct cursor; discriminate Hcur.
Qed.

Section Untagged.

Variable E : decoder_env.

(** One step of the recursion. *)
Lemma decode_pair_value_step (fuel : nat) (packet_ctx : option fr_radius_ctx_t)
      (parent : fr_dict_attr_t) (data : ptr) (attr_len packet_len : Z)
      (cursor : list VALUE_PAIR) :
  fr_radius_decode_pair_value E (S fuel) packet_ctx parent data
                              attr_len packet_len cursor
  = if (attr_len >? packet_len) || (attr_len >? 128 * 1024) then Some (-1, cursor)
    else if attr_len =? 0 then Some (0, cursor)
    else
      match tag_stage E parent data attr_len with
      | None => Some (-1, cursor)
      | Some st =>
          match decrypt_stage E packet_ctx parent data attr_len st with
          | D_fail => Some (-1, cursor)
          | D_raw st =>
              raw_emit E fuel parent (cur_p data st) (ds_data_len st) 0 attr_len cursor
          | D_ok st =>
              kind_stage E (fr_radius_decode_pair_value E fuel packet_ctx) fuel
                         parent data attr_len packet_len st cursor
          end
      end.
Proof. reflexivity. Qed.

Lemma tag_stage_untagged (parent : fr_dict_attr_t) (data : ptr) (attr_len : Z) :
  has_tag (da_flags parent) = false ->
  tag_stage E parent data attr_len
  = Some (mk_dstate TAG_NONE false (fresh E sizeof_buffer) attr_len).
Proof. intros H. unfold tag_stage. rewrite H. reflexivity. Qed.

(** An untagged string or octets attribute without obfuscation gives one
    pair with the bytes of the attribute. *)
Lemma pair_value_bytes (fuel : nat) (packet_ctx : option fr_radius_ctx_t)
      (parent : fr_dict_attr_t) (data : ptr) (attr_len packet_len : Z)
      (cursor : list VALUE_PAIR) (v : value_box) :
  has_tag (da_flags parent) = false ->
  da_type parent = FR_TYPE_STRING \/ da_type parent = FR_TYPE_OCTETS ->
  packet_ctx = None \/ subtype (da_flags parent) = FLAG_ENCRYPT_NONE ->
  0 < attr_len <= packet_len -> attr_len <= 128 * 1024 ->
  fst (fr_radius_attr_sizes E (da_type parent)) <= attr_len
  <= snd (fr_radius_attr_sizes E (da_type parent)) ->
  fr_value_box_from_network E (da_type parent) parent (bytes data attr_len) = Some v ->
  fr_radius_decode_pair_value E (S (S fuel)) packet_ctx parent data
                              attr_len packet_len cursor
  = Some (attr_len, cursor ++ [mk_vp parent TAG_NONE (PD_box v) VT_DATA true]).
Proof.
  intros Htag Hty Hplain Hlen Hmax Hsize Hbox.
  cbn [fr_radius_decode_pair_value].
  destruct (Z.gtb_spec attr_len packet_len); [lia |].
  destruct (Z.gtb_spec attr_len (128 * 1024)); [lia |].
  destruct (Z.eqb_spec attr_len 0); [lia |].
  cbn [orb]. rewrite tag_stage_untagged, decrypt_stage_none by assumption.
  apply (kind_stage_bytes E _ fuel parent data attr_len packet_len
                          (mk_dstate TAG_NONE false (fresh E sizeof_buffer) attr_len)
                          cursor v Hty).
  - exact Hsize.
  - exact Hbox.
Qed.

End Untagged.

(** C3, amended.  Under a dictionary in which the top-level type 0x1B is a
    long extended attribute whose child 1 is a known octets attribute,
    decoding the buffer 1B 09 01 80 AA BB CC DD EE 1B 06 01 00 FF 11 22,
    with or without its last byte, gives one pair for the child with the
    value AA BB CC DD EE FF 11 and consumes 15 bytes. *)
Theorem long_extended_two_fragments (E : decoder_env) (fuel : nat)
        (packet_ctx : option fr_radius_ctx_t) (ext child : fr_dict_attr_t)
        (cursor : list VALUE_PAIR) (v : value_box) (data_len : Z) :
  fr_dict_attr_child_by_num E (fr_dict_root E) 0x1B = Some ext ->
  da_type ext = FR_TYPE_EXTENDED ->
  extra (da_flags ext) = true ->
  has_tag (da_flags ext) = false ->
  concat (da_flags ext) = false ->
  subtype (da_flags ext) = FLAG_ENCRYPT_NONE ->
  fst (fr_radius_attr_sizes E FR_TYPE_EXTENDED) <= 7
  <= snd (fr_radius_attr_sizes E FR_TYPE_EXTENDED) ->
  fr_dict_attr_child_by_num E ext 1 = Some child ->
  da_type child = FR_TYPE_OCTETS ->
  has_tag (da_flags child) = false ->
  subtype (da_flags child) = FLAG_ENCRYPT_NONE ->
  fst (fr_radius_attr_sizes E FR_TYPE_OCTETS) <= 7
  <= snd (fr_radius_attr_sizes E FR_TYPE_OCTETS) ->
  fr_value_box_from_network E FR_TYPE_OCTETS child
    [0xAA; 0xBB; 0xCC; 0xDD; 0xEE; 0xFF; 0x11] = Some v ->
  data_len = 15 \/ data_len = 16 ->
  fr_radius_decode_pair E (S (S (S fuel))) packet_ctx (long_extended_packet, 0)
                        data_len cursor
  = Some (15, cursor ++ [mk_vp child TAG_NONE (PD_box v) VT_DATA true]).
Proof.
  intros Hext Hty Hlong Htag Hconcat Hsub Hsize Hchild Hcty Hctag Hcsub Hcsize Hbox Hlen.
  unfold fr_radius_decode_pair, child_or_unknown.
  change (rd (long_extended_packet, 0) 0) with 0x1B.
  change (rd (long_extended_packet, 0) 1) with 9.
  rewrite Hext, Hconcat.
  assert (Hguard : (((data_len <? 2) || (9 <? 2)) || (9 >? data_len)) = false)
    by (destruct Hlen as [-> | ->]; reflexivity).
  assert (Hnot2 : (data_len =? 2) = false) by (destruct Hlen as [-> | ->]; reflexivity).
  rewrite Hguard, Hnot2.
  change (9 - 2) with 7.
  rewrite decode_pair_value_step.
  assert (Hpkt : ((7 >? data_len - 2) || (7 >? 128 * 1024)) = false)
    by (destruct Hlen as [-> | ->]; reflexivity).
  rewrite Hpkt. change (7 =? 0) with false. cbv iota.
  rewrite tag_stage_untagged by exact Htag.
  rewrite decrypt_stage_none by (right; exact Hsub).
  unfold kind_stage. rewrite Hty.
  destruct (fr_radius_attr_sizes E FR_TYPE_EXTENDED) as [min max].
  cbn [fst snd] in Hsize. cbn [ds_data_len cur_p ds_in_buffer ds_tag].
  destruct (Z.ltb_spec 7 min); [lia |].
  destruct (Z.gtb_spec 7 max); [lia |].
  unfold extended_stage.
  rewrite Hlong. cbn [Z.b2z].
  change (7 <=? 1 + 1) with false. cbv iota.
  change (rd (padd (long_extended_packet, 0) 2) 0) with 1.
  change (rd (padd (long_extended_packet, 0) 2) 1) with 0x80.
  rewrite Hchild.
  change (negb true || (Z.land 128 128 =? 0)) with false.
  change (7 =? 1) with false. cbv iota.
  unfold decode_extended.
  change (7 <? 3) with false.
  change (rd (padd (long_extended_packet, 0) 2) 1) with 0x80.
  change (Z.land 128 128 =? 0) with false. cbv iota.
  assert (Hscan : extended_scan (Z.to_nat (data_len - 2))
                    (padd (padd (long_extended_packet, 0) 2) (-2))
                    (padd (padd (long_extended_packet, 0) 2) 7)
                    (snd (padd (long_extended_packet, 0) 2) + (data_len - 2))
                    (7 - 2) 1 false
                  = Some (7, 15, 2%nat))
    by (destruct Hlen as [-> | ->]; vm_compute; reflexivity).
  rewrite Hscan.
  assert (Hhead : bytes (extended_copy 2 (padd (padd (long_extended_packet, 0) 2) (-2))
                                       15 (fresh E 7) 0, 0) 7
                  = [0xAA; 0xBB; 0xCC; 0xDD; 0xEE; 0xFF; 0x11]).
  { unfold fresh. set (u := uninit E). clearbody u. vm_compute. reflexivity. }
  rewrite (pair_value_bytes E fuel packet_ctx child _ 7 7 cursor v); try assumption.
  - reflexivity.
  - right. exact Hcty.
  - right. exact Hcsub.
  - lia.
  - lia.
  - rewrite Hcty. exact Hcsize.
  - rewrite Hcty, Hhead. exact Hbox.
Qed.

Lemma long_extended_two_fragments_witness :
  fr_radius_decode_pair TestDict.env 3 None (long_extended_packet, 0) 16 []
  = Some (15, [mk_vp long_ext_child TAG_NONE
                     (PD_box (VB FR_TYPE_OCTETS [0xAA; 0xBB; 0xCC; 0xDD; 0xEE; 0xFF; 0x11]))
                     VT_DATA true]).
Proof.
  apply (long_extended_two_fragments TestDict.env 0 None long_ext_da long_ext_child []
           (VB FR_TYPE_OCTETS [0xAA; 0xBB; 0xCC; 0xDD; 0xEE; 0xFF; 0x11]) 16);
    try reflexivity.
  - vm_compute. split; discriminate.
  - vm_compute. split; discriminate.
  - right. reflexivity.
Defined.

(** C3 as stated fails: under the test dictionary, where 0x1B is a long
    extended attribute with the known child 1, no decoding of the buffer
    (with 16 or with 15 bytes) gives a pair with the value
    AA BB CC DD EE FF 11 22. *)
Lemma long_extended_counterexample :
  fr_dict_attr_child_by_num TestDict.env (fr_dict_root TestDict.env) 0x1B
  = Some long_ext_da
  /\ extra (da_flags long_ext_da) = true
  /\ fr_dict_attr_child_by_num TestDict.env long_ext_da 1 = Some long_ext_child
  /\ ~ (exists vp,
           fr_radius_decode_pair TestDict.env 3 None (long_extended_packet, 0) 16 []
           = Some (15, [vp])
           /\ vp_data vp
              = PD_box (VB FR_TYPE_OCTETS
                           [0xAA; 0xBB; 0xCC; 0xDD; 0xEE; 0xFF; 0x11; 0x22]))
  /\ ~ (exists vp,
           fr_radius_decode_pair TestDict.env 3 None (long_extended_packet, 0) 15 []
           = Some (15, [vp])
           /\ vp_data vp
              = PD_box (VB FR_TYPE_OCTETS
                           [0xAA; 0xBB; 0xCC; 0xDD; 0xEE; 0xFF; 0x11; 0x22])).
Proof.
  split; [reflexivity |]. split; [reflexivity |]. split; [reflexivity |].
  split; intros (vp & Hr & Hv); vm_compute in Hr; inversion Hr; subst vp;
    discriminate Hv.
Qed.

(** ** Fuel *)

(** The loop of the validator has fuel enough with one unit per byte. *)
Lemma tlv_ok_loop_fuel (T W : Z) (fuel : nat) :
  forall (data : ptr) (length : Z),
    (Z.to_nat length <= fuel)%nat ->
    tlv_ok_loop fuel data (snd data + length) length T W <> None.
Proof.
  induction fuel as [| fuel IH]; intros data length Hfuel; cbn [tlv_ok_loop].
  - destruct (Z.ltb_spec (snd data) (snd data + length)); [lia | discriminate].
  - destruct (Z.ltb_spec (snd data) (snd data + length)); [| discriminate].
    destruct (snd data + T + W >? snd data + length); [discriminate |].
    destruct (tlv_id_ok data T) eqn:Hid; cbn [negb]; [| discriminate].
    destruct (W =? 0); [discriminate |].
    destruct ((W =? 2) && negb (rd data T =? 0)); [discriminate |].
    destruct (Z.eqb_spec W 2) as [-> | HW2]; cbn [orb negb].
    + assert (HT : 1 <= T).
      { unfold tlv_id_ok in Hid.
        destruct (Z.eqb_spec T 4); [lia |]. destruct (Z.eqb_spec T 2); [lia |].
        destruct (Z.eqb_spec T 1); [lia | discriminate]. }
      destruct (Z.ltb_spec (rd data (T + 2 - 1)) (T + 2)); [discriminate |].
      destruct (Z.gtb_spec (rd data (T + 2 - 1)) length); [discriminate |].
      replace (snd data + length)
        with (snd (padd data (rd data (T + 2 - 1))) + (length - rd data (T + 2 - 1)))
        by (unfold padd; cbn [snd]; lia).
      apply IH. lia.
    + destruct (Z.eqb_spec W 1) as [-> | HW1]; cbn [negb]; [| discriminate].
      assert (HT : 1 <= T).
      { unfold tlv_id_ok in Hid.
        destruct (Z.eqb_spec T 4); [lia |]. destruct (Z.eqb_spec T 2); [lia |].
        destruct (Z.eqb_spec T 1); [lia | discriminate]. }
      destruct (Z.ltb_spec (rd data (T + 1 - 1)) (T + 1)); [discriminate |].
      destruct (Z.gtb_spec (rd data (T + 1 - 1)) length); [discriminate |].
      replace (snd data + length)
        with (snd (padd data (rd data (T + 1 - 1))) + (length - rd data (T + 1 - 1)))
        by (unfold padd; cbn [snd]; lia).
      apply IH. lia.
Qed.

Lemma tlv_ok_loop_result (T W : Z) (fuel : nat) :
  forall (data : ptr) (end_ length r : Z),
    tlv_ok_loop fuel data end_ length T W = Some r -> r = 0 \/ r = -1.
Proof.
  induction fuel as [| fuel IH]; intros data end_ length r H; cbn [tlv_ok_loop] in H.
  - destruct (snd data <? end_); [discriminate |].
    inversion H; left; reflexivity.
  - repeat match type of H with
           | (if ?c then _ else _) = _ => destruct c
           end;
      try (inversion H; subst; auto; fail).
    apply IH in H. exact H.
Qed.

Lemma tlv_ok_answers (data : ptr) (length T W : Z) :
  fr_radius_decode_tlv_ok data length T W <> None.
Proof.
  unfold fr_radius_decode_tlv_ok.
  destruct ((W >? 2) || (T =? 0) || (T >? 4)); [discriminate |].
  apply tlv_ok_loop_fuel. lia.
Qed.

(** The first loop of [decode_concat] has fuel enough with one unit per
    byte, and so has the second, which follows the attributes of the
    first. *)
Lemma concat_scan_fuel (fuel : nat) :
  forall (ptr_ : ptr) (end_ attr total : Z),
    (Z.to_nat (end_ - snd ptr_) <= fuel)%nat ->
    concat_scan fuel ptr_ end_ attr total <> OutOfFuel.
Proof.
  induction fuel as [| fuel IH]; intros ptr_ end_ attr total Hfuel; cbn [concat_scan].
  - destruct (Z.ltb_spec (snd ptr_) end_); [lia | discriminate].
  - destruct (Z.ltb_spec (snd ptr_) end_); [| discriminate].
    destruct (Z.leb_spec (rd ptr_ 1) 2); [discriminate |].
    destruct (snd ptr_ + rd ptr_ 1 >? end_); [discriminate |].
    destruct (snd (padd ptr_ (rd ptr_ 1)) =? end_); [discriminate |].
    destruct (negb (rd (padd ptr_ (rd ptr_ 1)) 0 =? attr)); [discriminate |].
    apply IH. unfold padd. cbn [snd]. lia.
Qed.

Lemma concat_copy_fuel (fuel1 : nat) :
  forall (ptr_ : ptr) (end_ attr total t e : Z) (fuel : nat) (p : list Z) (poff : Z),
    concat_scan fuel1 ptr_ end_ attr total = Scanned (t, e) ->
    (Z.to_nat (end_ - snd ptr_) <= fuel)%nat ->
    concat_copy fuel ptr_ e p poff <> None.
Proof.
  assert (Hend : forall fuel ptr_ e p poff,
             e <= snd ptr_ -> concat_copy fuel ptr_ e p poff <> None).
  { intros fuel ptr_ e p poff Hle.
    destruct fuel; cbn [concat_copy];
      (destruct (Z.ltb_spec (snd ptr_) e); [lia | discriminate]). }
  induction fuel1 as [| fuel1 IH];
    intros ptr_ end_ attr total t e fuel p poff Hscan Hfuel; cbn [concat_scan] in Hscan.
  - destruct (Z.ltb_spec (snd ptr_) end_); [discriminate |].
    inversion Hscan; subst. apply Hend. lia.
  - destruct (Z.ltb_spec (snd ptr_) end_) as [Hin | Hout].
    2:{ inversion Hscan; subst. apply Hend. lia. }
    destruct (Z.leb_spec (rd ptr_ 1) 2); [discriminate |].
    destruct (Z.gtb_spec (snd ptr_ + rd ptr_ 1) end_); [discriminate |].
    destruct fuel as [| fuel]; [lia |]. cbn [concat_copy].
    destruct (Z.ltb_spec (snd ptr_) e); [| discriminate].
    destruct (snd (padd ptr_ (rd ptr_ 1)) =? end_) eqn:Hlast.
    { inversion Hscan; subst. apply Hend. unfold padd. cbn [snd]. lia. }
    destruct (negb (rd (padd ptr_ (rd ptr_ 1)) 0 =? attr)).
    { inversion Hscan; subst. apply Hend. unfold padd. cbn [snd]. lia. }
    apply (IH _ _ _ _ _ _ _ _ _ Hscan). unfold padd. cbn [snd]. lia.
Qed.

Lemma decode_concat_answers (E : decoder_env) (parent : fr_dict_attr_t)
      (data : ptr) (packet_len : Z) (cursor : list VALUE_PAIR) :
  decode_concat E parent data packet_len cursor <> None.
Proof.
  unfold decode_concat.
  pose proof (concat_scan_fuel (Z.to_nat packet_len) data (snd data + packet_len)
                               (rd data 0) 0 ltac:(lia)) as Hscan.
  destruct (concat_scan (Z.to_nat packet_len) data (snd data + packet_len) (rd data 0) 0)
    as [[total end_] | |] eqn:Hs; [| discriminate | contradiction].
  destruct (total =? 0); [discriminate |].
  pose proof (concat_copy_fuel _ _ _ _ _ _ _ (Z.to_nat packet_len) (fresh E total) 0
                               Hs ltac:(lia)) as Hcopy.
  destruct (concat_copy (Z.to_nat packet_len) data end_ (fresh E total) 0)
    as [[p q] |]; [discriminate | contradiction].
Qed.

(** The first loop of [decode_extended] has fuel enough with one unit per
    byte. *)
Lemma extended_scan_fuel (fuel : nat) :
  forall (attr frag : ptr) (end_ fraglen : Z) (fragments : nat) (last_frag : bool),
    (Z.to_nat (end_ - snd frag) <= fuel)%nat ->
    extended_scan fuel attr frag end_ fraglen fragments last_frag <> None.
Proof.
  induction fuel as [| fuel IH]; intros attr frag end_ fraglen fragments last_frag Hfuel;
    cbn [extended_scan].
  - destruct (Z.ltb_spec (snd frag) end_); [lia | discriminate].
  - destruct (Z.ltb_spec (snd frag) end_); [| discriminate].
    destruct last_frag; cbn [orb]; [discriminate |].
    destruct (negb (rd frag 0 =? rd attr 0)); cbn [orb]; [discriminate |].
    destruct (Z.ltb_spec (rd frag 1) 4); cbn [orb]; [discriminate |].
    destruct (negb (rd frag 2 =? rd attr 2)); cbn [orb]; [discriminate |].
    destruct (snd frag + rd frag 1 >? end_); [discriminate |].
    apply IH. unfold padd. cbn [snd]. lia.
Qed.

(** The second loop of [decode_wimax] follows the fragments of the first
    and has fuel enough with one unit per byte. *)
Lemma wimax_copy_fuel (buf : list Z) (d : Z) (fuel1 : nat) :
  forall (a end_ len l e : Z) (fuel : nat) (head : list Z) (tail : Z),
    wimax_scan fuel1 (buf, d) (buf, a) end_ len = Scanned (l, e) ->
    a < end_ ->
    (Z.to_nat (end_ - a) <= fuel)%nat ->
    wimax_copy fuel (buf, a - 4) e head tail <> None.
Proof.
  assert (Hend : forall fuel c e head tail,
             e <= c -> wimax_copy fuel (buf, c) e head tail <> None).
  { intros fuel c e head tail Hle.
    destruct fuel; cbn [wimax_copy snd];
      (destruct (Z.ltb_spec c e); [lia | discriminate]). }
  induction fuel1 as [| fuel1 IH]; intros a end_ len l e fuel head tail Hscan Hin Hfuel;
    cbn [wimax_scan snd] in Hscan.
  - destruct (Z.ltb_spec a end_); [discriminate | lia].
  - destruct (Z.ltb_spec a end_); [| lia].
    destruct (Z.ltb_spec (end_ - a) 3); [discriminate |].
    destruct (Z.leb_spec (rd (buf, a) 1) 3) as [| Hdata]; [discriminate |].
    destruct (Z.gtb_spec (a + rd (buf, a) 1) end_) as [| Hfit]; [discriminate |].
    assert (Hsame : rd (buf, a - 4) (4 + 1) = rd (buf, a) 1)
      by (unfold rd; cbn [fst snd]; f_equal; lia).
    destruct fuel as [| fuel]; [lia |]. cbn [wimax_copy snd].
    rewrite Hsame. unfold padd. cbn [fst snd].
    destruct (Z.ltb_spec (a - 4) e); [| discriminate].
    destruct (Z.eqb_spec (Z.land (rd (buf, a) 2) 128) 0) as [Hlast | Hmore];
      cbn [negb andb] in Hscan.
    + inversion Hscan; subst. apply Hend. lia.
    + destruct (a + rd (buf, a) 1 =? end_); [discriminate |].
      unfold padd in Hscan. cbn [fst snd] in Hscan.
      destruct (Z.ltb_spec (end_ - (a + rd (buf, a) 1)) 9); [discriminate |].
      repeat match type of Hscan with
             | (if ?c then Malformed else _) = _ => destruct c; [discriminate |]
             end.
      replace (a - 4 + (4 + rd (buf, a) 1) + 2) with (a + rd (buf, a) 1 + 6 - 4) by lia.
      apply (IH _ _ _ _ _ _ _ _ Hscan); lia.
Qed.

(** An argument computed by a subtraction, as the callee sees it. *)
Lemma size_arg (x n : Z) :
  -8 <= x <= n -> 0 <= to_size_t x <= n \/ 128 * 1024 < to_size_t x.
Proof.
  intros H. unfold to_size_t.
  destruct (Z_lt_le_dec x 0).
  - right. rewrite <- (Z.mod_add x 1 (2 ^ 64)) by lia.
    rewrite Z.mod_small; lia.
  - left. pose proof (Z.mod_le x (2 ^ 64) ltac:(lia) ltac:(lia)).
    pose proof (Z.mod_pos_bound x (2 ^ 64) ltac:(lia)). lia.
Qed.

(** The totals of the scanning loops stay below the bytes scanned. *)
Lemma extended_scan_bound (fuel : nat) :
  forall (attr frag : ptr) (end_ fraglen : Z) (fragments : nat) (last_frag : bool)
         (fraglen' end' : Z) (fragments' : nat),
    extended_scan fuel attr frag end_ fraglen fragments last_frag
    = Some (fraglen', end', fragments') ->
    snd frag <= end_ ->
    fraglen <= fraglen' <= fraglen + (end' - snd frag) /\ end' <= end_.
Proof.
  induction fuel as [| fuel IH];
    intros attr frag end_ fraglen fragments last_frag fraglen' end' fragments' H Hle;
    cbn [extended_scan] in H.
  - destruct (Z.ltb_spec (snd frag) end_); [discriminate |].
    inversion H; subst. lia.
  - destruct (Z.ltb_spec (snd frag) end_); [| inversion H; subst; lia].
    destruct last_frag; cbn [orb] in H; [inversion H; subst; lia |].
    destruct (negb (rd frag 0 =? rd attr 0)); cbn [orb] in H; [inversion H; subst; lia |].
    destruct (Z.ltb_spec (rd frag 1) 4); cbn [orb] in H; [inversion H; subst; lia |].
    destruct (negb (rd frag 2 =? rd attr 2)); cbn [orb] in H; [inversion H; subst; lia |].
    destruct (Z.gtb_spec (snd frag + rd frag 1) end_); [inversion H; subst; lia |].
    apply IH in H; unfold padd in *; cbn [snd] in *; lia.
Qed.

Lemma wimax_scan_bound (buf : list Z) (d : Z) (fuel : nat) :
  forall (a end_ len l e : Z),
    wimax_scan fuel (buf, d) (buf, a) end_ len = Scanned (l, e) ->
    a <= end_ ->
    len <= l <= len + (e - a) /\ e <= end_.
Proof.
  induction fuel as [| fuel IH]; intros a end_ len l e H Hle; cbn [wimax_scan snd] in H.
  - destruct (Z.ltb_spec a end_); [discriminate |]. inversion H; subst. lia.
  - destruct (Z.ltb_spec a end_); [| inversion H; subst; lia].
    destruct (Z.ltb_spec (end_ - a) 3); [discriminate |].
    destruct (Z.leb_spec (rd (buf, a) 1) 3) as [| Hdata]; [discriminate |].
    destruct (Z.gtb_spec (a + rd (buf, a) 1) end_) as [| Hfit]; [discriminate |].
    destruct (Z.eqb_spec (Z.land (rd (buf, a) 2) 128) 0) as [Hlast | Hmore];
      cbn [negb andb] in H.
    + inversion H; subst. lia.
    + destruct (a + rd (buf, a) 1 =? end_); [discriminate |].
      unfold padd in H. cbn [fst snd] in H.
      destruct (Z.ltb_spec (end_ - (a + rd (buf, a) 1)) 9); [discriminate |].
      repeat match type of H with
             | (if ?c then Malformed else _) = _ => destruct c; [discriminate |]
             end.
      apply IH in H; lia.
Qed.

Section Fuel.

Variable E : decoder_env.
Variable rec : decoder.
Variable n : Z.

(** The recursive calls answer on values of at most [n] bytes, and on
    values beyond the limit of 128 KiB, which they refuse at once. *)
Hypothesis rec_answers :
  forall parent data a cursor,
    0 <= a <= n \/ 128 * 1024 < a -> rec parent data a a cursor <> None.

(** On a slice that the validator accepts, the loop of
    [fr_radius_decode_tlv] has fuel enough with one unit per byte. *)
Lemma tlv_loop_fuel (parent : fr_dict_attr_t) (fuel_ok : nat) :
  forall (p : ptr) (length : Z) (fuel : nat) (staged : list VALUE_PAIR),
    tlv_ok_loop fuel_ok p (snd p + length) length 1 1 = Some 0 ->
    length <= n + 2 ->
    (Z.to_nat length <= fuel)%nat ->
    tlv_loop E rec fuel parent p (snd p + length) staged <> OutOfFuel.
Proof.
  induction fuel_ok as [| fuel_ok IH]; intros p length fuel staged Hok Hn Hfuel;
    cbn [tlv_ok_loop] in Hok.
  - destruct (Z.ltb_spec (snd p) (snd p + length)); [discriminate |].
    destruct fuel; cbn [tlv_loop];
      (destruct (Z.ltb_spec (snd p) (snd p + length)); [lia | discriminate]).
  - destruct (Z.ltb_spec (snd p) (snd p + length)) as [Hin | Hout].
    2:{ destruct fuel; cbn [tlv_loop];
          (destruct (Z.ltb_spec (snd p) (snd p + length)); [lia | discriminate]). }
    destruct (snd p + 1 + 1 >? snd p + length); [discriminate |].
    destruct (negb (tlv_id_ok p 1)); [discriminate |].
    cbn [Z.eqb Pos.eqb andb orb negb] in Hok.
    change (1 + 1 - 1) with 1 in Hok. change (1 + 1) with 2 in Hok.
    destruct (Z.ltb_spec (rd p 1) 2); [discriminate |].
    destruct (Z.gtb_spec (rd p 1) length); [discriminate |].
    destruct fuel as [| fuel]; [lia |]. cbn [tlv_loop].
    destruct (Z.ltb_spec (snd p) (snd p + length)); [| lia].
    destruct (child_or_unknown E parent (fr_dict_vendor_num_by_da E parent) (rd p 0))
      as [child |]; [| discriminate].
    pose proof (rec_answers child (padd p 2) (to_size_t (rd p 1 - 2)) staged
                            (size_arg (rd p 1 - 2) n ltac:(lia))) as Hrec.
    destruct (rec child (padd p 2) (to_size_t (rd p 1 - 2)) (to_size_t (rd p 1 - 2))
                  staged) as [[tlv_len staged'] |]; [| contradiction].
    destruct (tlv_len <? 0); [discriminate |].
    replace (snd p + length) with (snd (padd p (rd p 1)) + (length - rd p 1)) in *
      by (unfold padd; cbn [snd]; lia).
    apply (IH (padd p (rd p 1)) (length - rd p 1)); [exact Hok | lia | lia].
Qed.

(** [fr_radius_decode_tlv] answers whenever the recursive calls do. *)
Lemma decode_tlv_answers (parent : fr_dict_attr_t) (data : ptr) (data_len : Z)
      (cursor : list VALUE_PAIR) :
  data_len <= n + 2 ->
  fr_radius_decode_tlv E rec parent data data_len cursor <> None.
Proof.
  intros Hn. unfold fr_radius_decode_tlv.
  destruct (data_len <? 3); [discriminate |].
  pose proof (tlv_ok_answers data data_len 1 1) as Hans.
  destruct (fr_radius_decode_tlv_ok data data_len 1 1) as [ok |] eqn:Hok;
    [| contradiction].
  destruct (Z.ltb_spec ok 0); [discriminate |].
  assert (Hloop : tlv_loop E rec (Z.to_nat data_len) parent data (snd data + data_len) []
                  <> OutOfFuel).
  { unfold fr_radius_decode_tlv_ok in Hok. cbn [Z.gtb Z.eqb Z.compare Pos.compare
                                                  Pos.compare_cont orb] in Hok.
    apply tlv_loop_fuel with (fuel_ok := Z.to_nat data_len); [| lia | lia].
    destruct (tlv_ok_loop_result _ _ _ _ _ _ _ Hok) as [Hr | Hr]; [| lia].
    rewrite <- Hr. exact Hok. }
  destruct (tlv_loop E rec (Z.to_nat data_len) parent data (snd data + data_len) []);
    [discriminate | discriminate | contradiction].
Qed.

(** The length that [decode_vsa_internal] reads from the header of a
    sub-attribute. *)
Lemma decode_vsa_internal_result (vendor_da : fr_dict_attr_t) (data : ptr)
      (data_len : Z) (dv : fr_dict_vendor_t) (cursor : list VALUE_PAIR) :
  -8 <= (if dv_length dv =? 0 then data_len
         else rd data (dv_type dv + dv_length dv - 1)) - (dv_type dv + dv_length dv)
  <= n ->
  exists vsa_len cursor',
    decode_vsa_internal E rec vendor_da data data_len dv cursor = Some (vsa_len, cursor')
    /\ (0 <= vsa_len ->
        vsa_len = if dv_length dv =? 0 then data_len
                  else rd data (dv_type dv + dv_length dv - 1)).
Proof.
  intros Harg. unfold decode_vsa_internal.
  destruct (negb (fr_type_eqb (da_type vendor_da) FR_TYPE_VENDOR));
    [eexists _, _; split; [reflexivity | lia] |].
  destruct (negb (NDEBUG E) && (data_len <=? dv_type dv + dv_length dv));
    [eexists _, _; split; [reflexivity | lia] |].
  destruct (if dv_type dv =? 4
            then Some (Z.lor (Z.lor (Z.shiftl (rd data 1) 16) (Z.shiftl (rd data 2) 8))
                             (rd data 3))
            else if dv_type dv =? 2 then Some (Z.lor (Z.shiftl (rd data 0) 8) (rd data 1))
                 else if dv_type dv =? 1 then Some (rd data 0) else None)
    as [attribute |]; [| eexists _, _; split; [reflexivity | lia]].
  assert (Hlen : forall attrlen,
             (if dv_length dv =? 2 then Some (rd data (dv_type dv + 1))
              else if dv_length dv =? 1 then Some (rd data (dv_type dv))
                   else if dv_length dv =? 0 then Some data_len else None) = Some attrlen ->
             attrlen = if dv_length dv =? 0 then data_len
                       else rd data (dv_type dv + dv_length dv - 1)).
  { intros attrlen H.
    destruct (Z.eqb_spec (dv_length dv) 2) as [H2 | H2].
    - rewrite H2. cbn [Z.eqb]. inversion H. f_equal. lia.
    - destruct (Z.eqb_spec (dv_length dv) 1) as [H1 | H1].
      + rewrite H1. cbn [Z.eqb Pos.eqb]. inversion H. f_equal. lia.
      + destruct (Z.eqb_spec (dv_length dv) 0); [inversion H; reflexivity | discriminate]. }
  destruct (if dv_length dv =? 2 then Some (rd data (dv_type dv + 1))
            else if dv_length dv =? 1 then Some (rd data (dv_type dv))
                 else if dv_length dv =? 0 then Some data_len else None)
    as [attrlen |]; [| eexists _, _; split; [reflexivity | lia]].
  specialize (Hlen attrlen eq_refl).
  destruct (child_or_unknown E vendor_da (dv_pen dv) attribute) as [da |];
    [| eexists _, _; split; [reflexivity | lia]].
  rewrite <- Hlen in Harg.
  pose proof (rec_answers da (padd data (dv_type dv + dv_length dv))
                (to_size_t (attrlen - (dv_type dv + dv_length dv))) cursor
                (size_arg _ n Harg)) as Hrec.
  destruct (rec da (padd data (dv_type dv + dv_length dv))
                (to_size_t (attrlen - (dv_type dv + dv_length dv)))
                (to_size_t (attrlen - (dv_type dv + dv_length dv))) cursor)
    as [[my_len c] |]; [| contradiction].
  destruct (Z.ltb_spec my_len 0); eexists _, _; (split; [reflexivity |]); [lia |].
  intros _. exact Hlen.
Qed.

(** On data that the validator accepts for the format of the vendor, the
    loop of [decode_vsa] has fuel enough with one unit per byte. *)
Lemma vsa_loop_fuel (vendor_da : fr_dict_attr_t) (dv : fr_dict_vendor_t)
      (fuel_ok : nat) :
  forall (data : ptr) (length : Z) (fuel : nat) (total : Z)
         (staged : list VALUE_PAIR),
    tlv_ok_loop fuel_ok data (snd data + length) length (dv_type dv) (dv_length dv)
    = Some 0 ->
    length <= SIZE_MAX -> length <= n + 1 ->
    (Z.to_nat length <= fuel)%nat ->
    vsa_loop E rec fuel vendor_da dv data length total staged <> OutOfFuel.
Proof.
  assert (Hend : forall fuel data total staged length,
             length <= 0 ->
             vsa_loop E rec fuel vendor_da dv data length total staged <> OutOfFuel).
  { intros fuel data total staged length Hle.
    destruct fuel; cbn [vsa_loop];
      (destruct (Z.gtb_spec length 0); [lia | discriminate]). }
  induction fuel_ok as [| fuel_ok IH];
    intros data length fuel total staged Hok Hmax Hn Hfuel; cbn [tlv_ok_loop] in Hok.
  - destruct (Z.ltb_spec (snd data) (snd data + length)); [discriminate |].
    apply Hend. lia.
  - destruct (Z.ltb_spec (snd data) (snd data + length)) as [Hin | Hout];
      [| apply Hend; lia].
    destruct (Z.gtb_spec (snd data + dv_type dv + dv_length dv) (snd data + length))
      as [| Hhead]; [discriminate |].
    destruct (tlv_id_ok data (dv_type dv)) eqn:Hid; cbn [negb] in Hok; [| discriminate].
    assert (HT : 1 <= dv_type dv <= 4).
    { unfold tlv_id_ok in Hid.
      destruct (Z.eqb_spec (dv_type dv) 4); [lia |].
      destruct (Z.eqb_spec (dv_type dv) 2); [lia |].
      destruct (Z.eqb_spec (dv_type dv) 1); [lia | discriminate]. }
    destruct fuel as [| fuel]; [lia |]. cbn [vsa_loop].
    destruct (Z.gtb_spec length 0); [| lia].
    destruct (Z.eqb_spec (dv_length dv) 0) as [HW0 | HW0].
    { destruct (decode_vsa_internal_result vendor_da data length dv staged)
        as (vsa_len & staged' & Hint & Hlen).
      { destruct (Z.eqb_spec (dv_length dv) 0); [| contradiction]. lia. }
      rewrite Hint.
      destruct (Z.ltb_spec vsa_len 0); [discriminate |].
      specialize (Hlen ltac:(lia)).
      destruct (Z.eqb_spec (dv_length dv) 0); [| contradiction].
      subst vsa_len. replace (length - length) with 0 by lia.
      apply Hend. unfold to_size_t. cbn. lia. }
    destruct ((dv_length dv =? 2) && negb (rd data (dv_type dv) =? 0)); [discriminate |].
    destruct (negb ((dv_length dv =? 2) || (dv_length dv =? 1))) eqn:HW;
      [discriminate |].
    assert (HW1 : 1 <= dv_length dv <= 2).
    { destruct (Z.eqb_spec (dv_length dv) 2); [lia |].
      destruct (Z.eqb_spec (dv_length dv) 1); [lia | discriminate]. }
    destruct (Z.ltb_spec (rd data (dv_type dv + dv_length dv - 1))
                         (dv_type dv + dv_length dv)); [discriminate |].
    destruct (Z.gtb_spec (rd data (dv_type dv + dv_length dv - 1)) length);
      [discriminate |].
    destruct (decode_vsa_internal_result vendor_da data length dv staged)
      as (vsa_len & staged' & Hint & Hlen).
    { destruct (Z.eqb_spec (dv_length dv) 0); [contradiction |]. lia. }
    rewrite Hint.
    destruct (Z.ltb_spec vsa_len 0); [discriminate |].
    specialize (Hlen ltac:(lia)).
    destruct (Z.eqb_spec (dv_length dv) 0); [contradiction |].
    rewrite <- Hlen in *.
    assert (Hsize : to_size_t (length - vsa_len) = length - vsa_len).
    { unfold to_size_t. apply Z.mod_small. unfold SIZE_MAX in Hmax. lia. }
    rewrite Hsize.
    replace (snd data + length) with (snd (padd data vsa_len) + (length - vsa_len)) in Hok
      by (unfold padd; cbn [snd]; lia).
    apply (IH (padd data vsa_len) (length - vsa_len)); [exact Hok | lia | lia | lia].
Qed.

(** The sub-attribute loop of [decode_vsa] answers whenever the recursive
    calls do, on data that the validator has accepted. *)
Lemma create_attrs_answers (vendor_da : fr_dict_attr_t) (dv : fr_dict_vendor_t)
      (data : ptr) (attr_len : Z) (cursor : list VALUE_PAIR) :
  fr_radius_decode_tlv_ok (padd data 4) (attr_len - 4) (dv_type dv) (dv_length dv)
  = Some 0 ->
  attr_len <= SIZE_MAX -> attr_len <= n + 5 ->
  create_attrs E rec vendor_da dv data attr_len cursor <> None.
Proof.
  intros Hok Hmax Hn. unfold create_attrs.
  assert (Hloop : vsa_loop E rec (Z.to_nat (attr_len - 4)) vendor_da dv (padd data 4)
                           (attr_len - 4) 4 [] <> OutOfFuel).
  { unfold fr_radius_decode_tlv_ok in Hok.
    destruct ((dv_length dv >? 2) || (dv_type dv =? 0) || (dv_type dv >? 4));
      [discriminate |].
    apply vsa_loop_fuel with (fuel_ok := Z.to_nat (attr_len - 4));
      [exact Hok | lia | lia | lia]. }
  destruct (vsa_loop E rec (Z.to_nat (attr_len - 4)) vendor_da dv (padd data 4)
                     (attr_len - 4) 4 []) as [[head total] | |];
    [discriminate | discriminate | contradiction].
Qed.

(** [decode_extended] and [decode_wimax] answer whenever the recursive
    calls do. *)
Lemma decode_extended_answers (parent : fr_dict_attr_t) (data : ptr)
      (attr_len packet_len : Z) (cursor : list VALUE_PAIR) :
  attr_len <= packet_len -> packet_len <= n + 2 ->
  decode_extended E rec parent data attr_len packet_len cursor <> None.
Proof.
  intros Hle Hn. unfold decode_extended.
  destruct (Z.ltb_spec attr_len 3); [discriminate |].
  destruct (Z.land (rd data 1) 128 =? 0).
  - assert (Harg : 0 <= attr_len - 2 <= n \/ 128 * 1024 < attr_len - 2) by (left; lia).
    pose proof (rec_answers parent (padd data 2) (attr_len - 2) cursor Harg).
    destruct (rec parent (padd data 2) (attr_len - 2) (attr_len - 2) cursor)
      as [[rcode c] |]; [| contradiction].
    destruct (rcode <? 0); discriminate.
  - pose proof (extended_scan_fuel (Z.to_nat packet_len) (padd data (-2))
                  (padd data attr_len) (snd data + packet_len) (attr_len - 2) 1 false)
      as Hscan.
    destruct (extended_scan (Z.to_nat packet_len) (padd data (-2)) (padd data attr_len)
                            (snd data + packet_len) (attr_len - 2) 1 false)
      as [[[fraglen end_] fragments] |] eqn:Hs.
    + apply extended_scan_bound in Hs; [| unfold padd; cbn [snd]; lia].
      unfold padd in Hs. cbn [snd] in Hs.
      assert (Harg : 0 <= fraglen <= n \/ 128 * 1024 < fraglen) by (left; lia).
      pose proof (rec_answers parent
                    (extended_copy fragments (padd data (-2)) end_ (fresh E fraglen) 0, 0)
                    fraglen cursor Harg) as Hrec.
      destruct (rec parent
                    (extended_copy fragments (padd data (-2)) end_ (fresh E fraglen) 0, 0)
                    fraglen fraglen cursor) as [[rcode c'] |]; [| contradiction].
      destruct (rcode <? 0); discriminate.
    + exfalso. apply Hscan; [| reflexivity].
      unfold padd. cbn [snd]. lia.
Qed.

Lemma decode_wimax_answers (parent : fr_dict_attr_t) (buf : list Z)
      (d attr_len packet_len vendor : Z) (cursor : list VALUE_PAIR) :
  attr_len <= packet_len -> packet_len <= n + 4 ->
  decode_wimax E rec parent (buf, d) attr_len packet_len vendor cursor <> None.
Proof.
  intros Hle Hn. unfold decode_wimax.
  destruct (Z.ltb_spec attr_len 8); [discriminate |].
  destruct (Z.ltb_spec (rd (buf, d) 5) 3); [discriminate |].
  destruct (Z.eqb_spec (to_size_t (rd (buf, d) 5 + 4)) attr_len) as [Hfill |];
    cbn [negb]; [| discriminate].
  destruct (child_or_unknown E parent vendor (rd (buf, d) 4)) as [da |]; [| discriminate].
  destruct (Z.land (rd (buf, d) 6) 128 =? 0).
  - assert (Harg : 0 <= rd (buf, d) 5 - 3 <= n \/ 128 * 1024 < rd (buf, d) 5 - 3).
    { destruct (Z_lt_le_dec (rd (buf, d) 5 + 4) (2 ^ 64)).
      - left. unfold to_size_t in Hfill. rewrite Z.mod_small in Hfill by lia. lia.
      - right. lia. }
    pose proof (rec_answers da (padd (buf, d) 7) (rd (buf, d) 5 - 3) cursor Harg).
    destruct (rec da (padd (buf, d) 7) (rd (buf, d) 5 - 3) (rd (buf, d) 5 - 3) cursor)
      as [[rcode c'] |]; [| contradiction].
    destruct (rcode <? 0); discriminate.
  - unfold padd. cbn [fst snd].
    pose proof (wimax_scan_chain buf d (Z.to_nat packet_len) (d + 4) (d + packet_len) 0
                                 ltac:(lia)) as Hchain.
    destruct (wimax_scan (Z.to_nat packet_len) (buf, d) (buf, d + 4) (d + packet_len) 0)
      as [[wimax_len end_] | |] eqn:Hscan; [| discriminate | contradiction].
    destruct (wimax_len =? 0); [discriminate |].
    pose proof (wimax_copy_fuel buf d _ _ _ _ _ _ (Z.to_nat packet_len)
                                (fresh E wimax_len) 0 Hscan ltac:(lia) ltac:(lia))
      as Hcopy.
    replace (d + 4 - 4) with d in Hcopy by lia.
    destruct (wimax_copy (Z.to_nat packet_len) (buf, d) end_ (fresh E wimax_len) 0)
      as [head |]; [| contradiction].
    apply wimax_scan_bound in Hscan; [| lia].
    assert (Harg : 0 <= wimax_len <= n \/ 128 * 1024 < wimax_len) by (left; lia).
    pose proof (rec_answers da (head, 0) wimax_len cursor Harg) as Hrec.
    destruct (rec da (head, 0) wimax_len wimax_len cursor) as [[rcode c'] |];
      [| contradiction].
    destruct (rcode <? 0); discriminate.
Qed.

(** [decode_vsa] answers whenever the recursive calls do. *)
Lemma decode_vsa_answers (parent : fr_dict_attr_t) (data : ptr)
      (attr_len packet_len : Z) (cursor : list VALUE_PAIR) :
  attr_len <= 128 * 1024 -> packet_len <= n + 4 ->
  decode_vsa E rec parent data attr_len packet_len cursor <> None.
Proof.
  intros Hmax Hn. unfold decode_vsa.
  assert (Hsize : attr_len <= SIZE_MAX) by (unfold SIZE_MAX; lia).
  destruct (negb (fr_type_eqb (da_type parent) FR_TYPE_VSA)); [discriminate |].
  destruct (Z.gtb_spec attr_len packet_len); [discriminate |].
  destruct (attr_len <? 5); [discriminate |].
  destruct (negb (rd data 0 =? 0)); [discriminate |].
  assert (Hloop : forall vendor_da dv,
             match fr_radius_decode_tlv_ok (padd data 4) (attr_len - 4)
                                           (dv_type dv) (dv_length dv) with
             | None => None
             | Some ok =>
                 if ok <? 0 then Some (-1, cursor)
                 else create_attrs E rec vendor_da dv data attr_len cursor
             end <> None).
  { intros vendor_da dv.
    pose proof (tlv_ok_answers (padd data 4) (attr_len - 4) (dv_type dv) (dv_length dv))
      as Hans.
    destruct (fr_radius_decode_tlv_ok (padd data 4) (attr_len - 4)
                                      (dv_type dv) (dv_length dv)) as [ok |] eqn:Hok;
      [| contradiction].
    destruct (Z.ltb_spec ok 0); [discriminate |].
    assert (ok = 0).
    { unfold fr_radius_decode_tlv_ok in Hok.
      destruct ((dv_length dv >? 2) || (dv_type dv =? 0) || (dv_type dv >? 4));
        [inversion Hok; lia |].
      destruct (tlv_ok_loop_result _ _ _ _ _ _ _ Hok); lia. }
    subst ok. apply create_attrs_answers; [exact Hok | exact Hsize | lia]. }
  destruct (fr_dict_attr_child_by_num E parent (ntohl_at data)) as [vendor_da |].
  - destruct (fr_dict_vendor_by_num E (ntohl_at data)) as [dv |]; [| discriminate].
    destruct ((ntohl_at data =? VENDORPEC_WIMAX) && negb (dv_flags dv =? 0)).
    + destruct data as [buf d]. apply decode_wimax_answers; lia.
    + apply Hloop.
  - pose proof (tlv_ok_answers (padd data 4) (attr_len - 4) 1 1) as Hans.
    destruct (fr_radius_decode_tlv_ok (padd data 4) (attr_len - 4) 1 1) as [ok |] eqn:Hok;
      [| contradiction].
    destruct (Z.ltb_spec ok 0); [discriminate |].
    destruct (fr_dict_unknown_vendor_afrom_num E parent (ntohl_at data)) as [vendor_da |];
      [| discriminate].
    specialize (Hloop vendor_da (mk_dv (ntohl_at data) 1 1 0)).
    cbn [dv_type dv_length] in Hloop. rewrite Hok in Hloop.
    destruct (Z.ltb_spec ok 0); [lia | exact Hloop].
Qed.

(** *** The second switch *)

Hypothesis unknowns : unknown_is_raw E.

(** On an unknown attribute of kind OCTETS the second [switch] ends at
    once: the "paranoid loop prevention" of the source. *)
Lemma emit_unknown_answers (fuel : nat) (parent : fr_dict_attr_t) (tag : Z)
      (p : ptr) (data_len min attr_len : Z) (cursor : list VALUE_PAIR) :
  is_unknown (da_flags parent) = true -> da_type parent = FR_TYPE_OCTETS ->
  emit E (S fuel) parent tag p data_len min attr_len cursor <> None.
Proof.
  intros Hu Ht. cbn [emit]. rewrite Ht.
  destruct (fr_value_box_from_network E FR_TYPE_OCTETS parent (bytes p data_len));
    [discriminate |].
  rewrite Hu. discriminate.
Qed.

Lemma raw_parent_unknown (parent parent' : fr_dict_attr_t) :
  raw_parent E parent = Some parent' ->
  is_unknown (da_flags parent') = true /\ da_type parent' = FR_TYPE_OCTETS.
Proof.
  unfold raw_parent. intros H.
  destruct (fr_dict_unknown_afrom_fields E (da_parent parent)
              (fr_dict_vendor_num_by_da E parent) (da_attr parent)) as [da |] eqn:Hda;
    [| discriminate].
  destruct (negb (NDEBUG E) && negb (fr_type_eqb (da_type da) FR_TYPE_OCTETS));
    [discriminate |].
  inversion H; subst. exact (unknowns _ _ _ _ Hda).
Qed.

(** The label [raw] needs one unit of fuel. *)
Lemma raw_emit_answers (fuel : nat) (parent : fr_dict_attr_t) (p : ptr)
      (data_len min attr_len : Z) (cursor : list VALUE_PAIR) :
  raw_emit E (S fuel) parent p data_len min attr_len cursor <> None.
Proof.
  unfold raw_emit.
  destruct (raw_parent E parent) as [parent' |] eqn:Hraw; [| discriminate].
  destruct (raw_parent_unknown _ _ Hraw). now apply emit_unknown_answers.
Qed.

(** The second [switch] jumps back to [raw] at most once: two units of
    fuel are enough. *)
Lemma emit_answers (fuel : nat) (parent : fr_dict_attr_t) (tag : Z) (p : ptr)
      (data_len min attr_len : Z) (cursor : list VALUE_PAIR) :
  emit E (S (S fuel)) parent tag p data_len min attr_len cursor <> None.
Proof.
  remember (S fuel) as f eqn:Hf. cbn [emit].
  assert (Hraw : match raw_parent E parent with
                 | Some parent' => emit E f parent' TAG_NONE p data_len min attr_len cursor
                 | None => Some (-1, cursor)
                 end <> None).
  { destruct (raw_parent E parent) as [parent' |] eqn:Hraw; [| discriminate].
    destruct (raw_parent_unknown _ _ Hraw). subst f. now apply emit_unknown_answers. }
  destruct (da_type parent);
    repeat match goal with
           | |- Some _ <> None => discriminate
           | |- match raw_parent E parent with _ => _ end <> None => exact Hraw
           | |- (if ?c then _ else _) <> None => destruct c
           | |- match ?x with _ => _ end <> None => destruct x
           end.
Qed.

(** *** The first switch *)

Lemma invalid_extended_answers (fuel : nat) (parent : fr_dict_attr_t)
      (data p : ptr) (data_len min attr_len packet_len : Z) (c : list VALUE_PAIR) :
  1 <= min <= 2 ->
  0 <= attr_len <= packet_len -> packet_len <= n + 1 ->
  invalid_extended E rec (S fuel) parent data p data_len min attr_len packet_len c
  <> None.
Proof.
  intros Hmin Hlen Hn. unfold invalid_extended.
  destruct (fr_dict_unknown_afrom_fields E (Some parent) 0 (rd p 0)) as [child |];
    [| apply raw_emit_answers].
  assert (Hvalue : forall c,
             match rec child (padd p min) (to_size_t (attr_len - min))
                       (to_size_t (attr_len - min)) c with
             | Some (rcode, c) => if rcode <? 0 then Some (-1, c) else Some (attr_len, c)
             | None => None
             end <> None).
  { intros c0.
    pose proof (rec_answers child (padd p min) (to_size_t (attr_len - min)) c0
                            (size_arg (attr_len - min) n ltac:(lia))) as Hrec.
    destruct (rec child (padd p min) (to_size_t (attr_len - min))
                  (to_size_t (attr_len - min)) c0) as [[rcode c1] |]; [| contradiction].
    destruct (rcode <? 0); discriminate. }
  destruct (extra (da_flags parent)); [| apply Hvalue].
  pose proof (decode_extended_answers child data attr_len packet_len c
                                      ltac:(lia) ltac:(lia)) as Hext.
  destruct (decode_extended E rec child data attr_len packet_len c) as [[rcode c1] |];
    [| contradiction].
  destruct (rcode >=? 0); [discriminate | apply Hvalue].
Qed.

Lemma extended_stage_answers (fuel : nat) (parent : fr_dict_attr_t)
      (data p : ptr) (data_len attr_len packet_len : Z) (cursor : list VALUE_PAIR) :
  0 <= attr_len <= packet_len -> packet_len <= n + 1 ->
  extended_stage E rec (S fuel) parent data p data_len attr_len packet_len cursor
  <> None.
Proof.
  intros Hlen Hn. unfold extended_stage.
  assert (Hmin : 1 <= 1 + Z.b2z (extra (da_flags parent)) <= 2)
    by (destruct (extra (da_flags parent)); cbn; lia).
  generalize dependent (1 + Z.b2z (extra (da_flags parent))). intros min Hmin.
  destruct (data_len <=? min); [apply raw_emit_answers |].
  assert (Hinv : forall c,
             invalid_extended E rec (S fuel) parent data p data_len min attr_len
                              packet_len c <> None)
    by (intros c; now apply invalid_extended_answers).
  destruct (fr_dict_attr_child_by_num E parent (rd p 0)) as [child |]; [| apply Hinv].
  destruct (negb (extra (da_flags parent)) || (Z.land (rd p 1) 128 =? 0)).
  - pose proof (rec_answers child (padd p min) (to_size_t (attr_len - min)) cursor
                            (size_arg (attr_len - min) n ltac:(lia))) as Hrec.
    destruct (rec child (padd p min) (to_size_t (attr_len - min))
                  (to_size_t (attr_len - min)) cursor) as [[rcode c1] |];
      [| contradiction].
    destruct (rcode <? 0); [apply Hinv | discriminate].
  - destruct (data_len =? 1); [apply Hinv |].
    pose proof (decode_extended_answers child data attr_len packet_len cursor
                                        ltac:(lia) ltac:(lia)) as Hext.
    destruct (decode_extended E rec child data attr_len packet_len cursor)
      as [[rcode c1] |]; [| contradiction].
    destruct (rcode >=? 0); [discriminate | apply Hinv].
Qed.

Lemma vsa_stage_answers (fuel : nat) (parent : fr_dict_attr_t) (p : ptr)
      (tag data_len min attr_len packet_len : Z) (cursor : list VALUE_PAIR) :
  0 <= attr_len <= packet_len -> attr_len <= 128 * 1024 -> packet_len <= n + 1 ->
  vsa_stage E rec (S fuel) parent p tag data_len min attr_len packet_len cursor
  <> None.
Proof.
  intros Hlen Hmax Hn. unfold vsa_stage.
  destruct (negb match da_parent parent with
                 | Some pp => fr_type_eqb (da_type pp) FR_TYPE_EXTENDED
                 | None => false
                 end).
  - pose proof (decode_vsa_answers parent p attr_len packet_len cursor
                                   Hmax ltac:(lia)) as Hvsa.
    destruct (decode_vsa E rec parent p attr_len packet_len cursor) as [[rcode c] |];
      [| contradiction].
    destruct (rcode <? 0); [apply raw_emit_answers | discriminate].
  - destruct (data_len <? 6); [apply raw_emit_answers |].
    assert (Hunknown : forall c,
               match fr_dict_unknown_afrom_fields E (Some parent) (ntohl_at p) (rd p 4) with
               | Some parent' =>
                   emit E (S fuel) parent' tag (padd p 5) (data_len - 5) min attr_len c
               | None => Some (-1, c)
               end <> None).
    { intros c.
      destruct (fr_dict_unknown_afrom_fields E (Some parent) (ntohl_at p) (rd p 4))
        as [parent' |] eqn:Hda; [| discriminate].
      destruct (unknowns _ _ _ _ Hda). now apply emit_unknown_answers. }
    destruct (fr_dict_attr_child_by_num E parent (ntohl_at p)) as [vendor_child |];
      [| apply Hunknown].
    destruct (fr_dict_attr_child_by_num E vendor_child (rd p 4)) as [child |];
      [| apply Hunknown].
    pose proof (rec_answers child (padd p 5) (to_size_t (attr_len - 5)) cursor
                            (size_arg (attr_len - 5) n ltac:(lia))) as Hrec.
    destruct (rec child (padd p 5) (to_size_t (attr_len - 5))
                  (to_size_t (attr_len - 5)) cursor) as [[rcode c] |]; [| contradiction].
    destruct (rcode <? 0); [apply raw_emit_answers | discriminate].
Qed.

Lemma struct_stage_answers (fuel : nat) (parent : fr_dict_attr_t) (p : ptr)
      (data_len min attr_len : Z) (cursor : list VALUE_PAIR) :
  attr_len <= n + 1 ->
  struct_stage E rec (S fuel) parent p data_len min attr_len cursor <> None.
Proof.
  intros Hn. unfold struct_stage.
  destruct (fr_struct_from_network E parent (bytes p attr_len)) as [[rcode pairs] child].
  destruct (Z.ltb_spec rcode 0); [apply raw_emit_answers |].
  destruct child as [child |]; [| discriminate].
  destruct (rcode <? attr_len); [| discriminate].
  pose proof (decode_tlv_answers child (padd p rcode) (attr_len - rcode)
                                 (cursor ++ pairs) ltac:(lia)) as Htlv.
  destruct (fr_radius_decode_tlv E rec child (padd p rcode) (attr_len - rcode)
                                 (cursor ++ pairs)) as [[tlv_len c] |]; [| contradiction].
  destruct (tlv_len <? 0); [| discriminate].
  destruct (fr_unknown_from_network E child (bytes (padd p rcode) (attr_len - rcode)));
    discriminate.
Qed.

(** The first [switch] answers whenever the recursive calls do. *)
Lemma kind_stage_answers (fuel : nat) (parent : fr_dict_attr_t) (data : ptr)
      (attr_len packet_len : Z) (st : dstate) (cursor : list VALUE_PAIR) :
  0 <= attr_len <= packet_len -> attr_len <= 128 * 1024 -> packet_len <= n + 1 ->
  kind_stage E rec (S (S fuel)) parent data attr_len packet_len st cursor <> None.
Proof.
  intros Hlen Hmax Hn. unfold kind_stage.
  destruct (fr_radius_attr_sizes E (da_type parent)) as [min max].
  destruct (ds_data_len st <? min); [apply raw_emit_answers |].
  destruct (ds_data_len st >? max); [apply raw_emit_answers |].
  destruct (da_type parent);
    try apply emit_answers; try apply raw_emit_answers.
  - destruct (if ds_data_len st =? min
              then fr_dict_attr_by_type E parent FR_TYPE_IPV4_ADDR
              else if ds_data_len st =? max
                   then fr_dict_attr_by_type E parent FR_TYPE_IPV6_ADDR else None);
      [apply emit_answers | apply raw_emit_answers].
  - destruct (if ds_data_len st =? min
              then fr_dict_attr_by_type E parent FR_TYPE_IPV4_PREFIX
              else if ds_data_len st =? max
                   then fr_dict_attr_by_type E parent FR_TYPE_IPV6_PREFIX else None);
      [apply emit_answers | apply raw_emit_answers].
  - pose proof (decode_tlv_answers parent (cur_p data st) attr_len cursor ltac:(lia))
      as Htlv.
    destruct (fr_radius_decode_tlv E rec parent (cur_p data st) attr_len cursor)
      as [[rcode c] |]; [| contradiction].
    destruct (rcode <? 0); [apply raw_emit_answers | discriminate].
  - apply struct_stage_answers. lia.
  - now apply extended_stage_answers.
  - now apply vsa_stage_answers.
Qed.

End Fuel.

(** *** The recursion *)

(** An attribute beyond the limit of 128 KiB is refused at once. *)
Lemma decode_pair_value_refuses (E : decoder_env) (fuel : nat)
      (packet_ctx : option fr_radius_ctx_t) (parent : fr_dict_attr_t) (data : ptr)
      (attr_len packet_len : Z) (cursor : list VALUE_PAIR) :
  128 * 1024 < attr_len ->
  fr_radius_decode_pair_value E (S fuel) packet_ctx parent data attr_len packet_len
                              cursor = Some (-1, cursor).
Proof.
  intros H. cbn [fr_radius_decode_pair_value].
  destruct (Z.gtb_spec attr_len (128 * 1024)); [| lia].
  now rewrite orb_true_r.
Qed.

(** [fr_radius_decode_pair_value] returns: a fuel of three units more than
    the bytes of the packet is enough, as every recursive call is on a
    value shorter than the attribute, or than the packet, that holds it. *)
Theorem decode_pair_value_answers (E : decoder_env)
        (packet_ctx : option fr_radius_ctx_t) :
  unknown_is_raw E ->
  forall (fuel : nat) (parent : fr_dict_attr_t) (data : ptr)
         (attr_len packet_len : Z) (cursor : list VALUE_PAIR),
    0 <= attr_len ->
    (Z.to_nat packet_len + 3 <= fuel)%nat ->
    fr_radius_decode_pair_value E fuel packet_ctx parent data attr_len packet_len cursor
    <> None.
Proof.
  intros Hu. induction fuel as [| fuel IH];
    intros parent data attr_len packet_len cursor Hpos Hfuel; [lia |].
  cbn [fr_radius_decode_pair_value].
  destruct (Z.gtb_spec attr_len packet_len); cbn [orb]; [discriminate |].
  destruct (Z.gtb_spec attr_len (128 * 1024)); [discriminate |].
  destruct (Z.eqb_spec attr_len 0); [discriminate |].
  destruct fuel as [| [| fuel]]; [lia | lia |].
  destruct (tag_stage E parent data attr_len) as [st |]; [| discriminate].
  destruct (decrypt_stage E packet_ctx parent data attr_len st) as [st' | st' |];
    [| now apply raw_emit_answers | discriminate].
  apply kind_stage_answers with (n := packet_len - 1); [| exact Hu | lia | lia | lia].
  intros parent' data' a cursor' [Ha | Ha].
  - apply IH; lia.
  - rewrite decode_pair_value_refuses by exact Ha. discriminate.
Qed.

(** X13. [fr_radius_decode_pair] returns on every input, provided that
    the dictionary builds its unknown attributes as octets: its loops
    advance by at least one byte a turn and its recursive calls are on
    values shorter than the attribute, or the packet, that holds them, so
    that one more unit of fuel than the buffer has bytes is enough. *)
Theorem decode_pair_answers (E : decoder_env) (packet_ctx : option fr_radius_ctx_t)
        (fuel : nat) (data : ptr) (data_len : Z) (cursor : list VALUE_PAIR) :
  unknown_is_raw E ->
  (Z.to_nat data_len + 1 <= fuel)%nat ->
  fr_radius_decode_pair E fuel packet_ctx data data_len cursor <> None.
Proof.
  intros Hu Hfuel. unfold fr_radius_decode_pair.
  destruct (Z.ltb_spec data_len 2); cbn [orb]; [discriminate |].
  destruct (Z.ltb_spec (rd data 1) 2); cbn [orb]; [discriminate |].
  destruct (rd data 1 >? data_len); [discriminate |].
  destruct (child_or_unknown E (fr_dict_root E) 0 (rd data 0)) as [da |];
    [| discriminate].
  destruct (data_len =? 2).
  { destruct (negb (is_root (da_flags (fr_dict_root E)))); [discriminate |].
    destruct (negb (rd data 0 =? FR_CHARGEABLE_USER_IDENTITY)); discriminate. }
  destruct (concat (da_flags da)); [apply decode_concat_answers |].
  pose proof (decode_pair_value_answers E packet_ctx Hu fuel da (padd data 2)
                (rd data 1 - 2) (data_len - 2) cursor ltac:(lia) ltac:(lia)) as Hval.
  destruct (fr_radius_decode_pair_value E fuel packet_ctx da (padd data 2)
              (rd data 1 - 2) (data_len - 2) cursor) as [[rcode c] |]; [| contradiction].
  destruct (rcode <? 0); discriminate.
Qed.

(** The test dictionary builds its unknown attributes as the contract
    asks, so that the decoder returns on it. *)
Lemma test_dict_unknowns : unknown_is_raw TestDict.env.
Proof.
  intros parent vendor attr da H. cbn in H. unfold TestDict.unknown_afrom_fields in H.
  inversion H; subst. split; reflexivity.
Qed.

Lemma decode_pair_answers_witness :
  fr_radius_decode_pair TestDict.env 22 None (wimax_two, 0) 21 [] <> None.
Proof.
  apply (decode_pair_answers TestDict.env None 22 (wimax_two, 0) 21 []).
  - intros parent vendor attr da H. inversion H; subst. split; reflexivity.
  - cbn. lia.
Defined.

(* ================================================================== *)
(** * Consumption and the pair list *)

(** ** What a call reports and what it leaves behind the cursor *)

(** The header of a sub-attribute gives the length that
    [decode_vsa_internal] reports. *)
Lemma decode_vsa_internal_len (E : decoder_env) (rec : decoder)
      (vendor_da : fr_dict_attr_t) (data : ptr) (data_len : Z)
      (dv : fr_dict_vendor_t) (cursor : list VALUE_PAIR)
      (vsa_len : Z) (cursor' : list VALUE_PAIR) :
  decode_vsa_internal E rec vendor_da data data_len dv cursor = Some (vsa_len, cursor') ->
  0 <= vsa_len ->
  vsa_len = if dv_length dv =? 0 then data_len
            else rd data (dv_type dv + dv_length dv - 1).
Proof.
  unfold decode_vsa_internal. intros H Hpos.
  destruct (negb (fr_type_eqb (da_type vendor_da) FR_TYPE_VENDOR));
    [inversion H; lia |].
  destruct (negb (NDEBUG E) && (data_len <=? dv_type dv + dv_length dv));
    [inversion H; lia |].
  destruct (if dv_type dv =? 4
            then Some (Z.lor (Z.lor (Z.shiftl (rd data 1) 16) (Z.shiftl (rd data 2) 8))
                             (rd data 3))
            else if dv_type dv =? 2 then Some (Z.lor (Z.shiftl (rd data 0) 8) (rd data 1))
                 else if dv_type dv =? 1 then Some (rd data 0) else None)
    as [attribute |]; [| inversion H; lia].
  destruct (Z.eqb_spec (dv_length dv) 2) as [H2 | H2].
  - destruct (child_or_unknown E vendor_da (dv_pen dv) attribute); [| inversion H; lia].
    destruct (rec _ _ _ _ _) as [[my_len c] |]; [| discriminate].
    destruct (Z.ltb_spec my_len 0); inversion H; subst; [lia |].
    rewrite H2. cbn [Z.eqb]. f_equal. lia.
  - destruct (Z.eqb_spec (dv_length dv) 1) as [H1 | H1].
    + destruct (child_or_unknown E vendor_da (dv_pen dv) attribute); [| inversion H; lia].
      destruct (rec _ _ _ _ _) as [[my_len c] |]; [| discriminate].
      destruct (Z.ltb_spec my_len 0); inversion H; subst; [lia |].
      rewrite H1. cbn [Z.eqb Pos.eqb]. f_equal. lia.
    + destruct (Z.eqb_spec (dv_length dv) 0) as [H0 | H0]; [| inversion H; lia].
      destruct (child_or_unknown E vendor_da (dv_pen dv) attribute); [| inversion H; lia].
      destruct (rec _ _ _ _ _) as [[my_len c] |]; [| discriminate].
      destruct (Z.ltb_spec my_len 0); inversion H; subst; [lia | reflexivity].
Qed.

(** On data that the validator has accepted, the loop of [decode_vsa]
    ends with [total] grown by the length of the data. *)
Lemma vsa_loop_total (E : decoder_env) (rec : decoder) (vendor_da : fr_dict_attr_t)
      (dv : fr_dict_vendor_t) (fuel_ok : nat) :
  forall (data : ptr) (length : Z) (fuel : nat) (total : Z)
         (staged head : list VALUE_PAIR) (t : Z),
    tlv_ok_loop fuel_ok data (snd data + length) length (dv_type dv) (dv_length dv)
    = Some 0 ->
    0 <= length <= SIZE_MAX ->
    vsa_loop E rec fuel vendor_da dv data length total staged = Scanned (head, t) ->
    t = total + length.
Proof.
  assert (Hend : forall fuel data total staged head t,
             vsa_loop E rec fuel vendor_da dv data 0 total staged = Scanned (head, t) ->
             t = total + 0).
  { intros fuel data total staged head t H.
    destruct fuel; cbn [vsa_loop] in H; cbn [Z.gtb Z.compare] in H;
      inversion H; lia. }
  induction fuel_ok as [| fuel_ok IH];
    intros data length fuel total staged head t Hok Hlen Hloop; cbn [tlv_ok_loop] in Hok.
  - destruct (Z.ltb_spec (snd data) (snd data + length)); [discriminate |].
    assert (length = 0) by lia. subst length. eapply Hend; eauto.
  - destruct (Z.ltb_spec (snd data) (snd data + length)) as [Hin | Hout].
    2:{ assert (length = 0) by lia. subst length. eapply Hend; eauto. }
    destruct (Z.gtb_spec (snd data + dv_type dv + dv_length dv) (snd data + length))
      as [| Hhead]; [discriminate |].
    destruct (tlv_id_ok data (dv_type dv)) eqn:Hid; cbn [negb] in Hok; [| discriminate].
    assert (HT : 1 <= dv_type dv <= 4).
    { unfold tlv_id_ok in Hid.
      destruct (Z.eqb_spec (dv_type dv) 4); [lia |].
      destruct (Z.eqb_spec (dv_type dv) 2); [lia |].
      destruct (Z.eqb_spec (dv_type dv) 1); [lia | discriminate]. }
    destruct fuel as [| fuel]; cbn [vsa_loop] in Hloop;
      (destruct (Z.gtb_spec length 0); [| lia]); [discriminate |].
    destruct (decode_vsa_internal E rec vendor_da data length dv staged)
      as [[vsa_len staged'] |] eqn:Hint; [| discriminate].
    destruct (Z.ltb_spec vsa_len 0); [discriminate |].
    pose proof (decode_vsa_internal_len _ _ _ _ _ _ _ _ _ Hint ltac:(lia)) as Hvsa.
    destruct (Z.eqb_spec (dv_length dv) 0) as [HW0 | HW0].
    { subst vsa_len. replace (length - length) with 0 in Hloop by lia.
      change (to_size_t 0) with 0 in Hloop.
      apply Hend in Hloop. lia. }
    destruct ((dv_length dv =? 2) && negb (rd data (dv_type dv) =? 0)); [discriminate |].
    destruct (negb ((dv_length dv =? 2) || (dv_length dv =? 1))); [discriminate |].
    rewrite <- Hvsa in Hok.
    destruct (Z.ltb_spec vsa_len (dv_type dv + dv_length dv)); [discriminate |].
    destruct (Z.gtb_spec vsa_len length); [discriminate |].
    assert (Hsize : to_size_t (length - vsa_len) = length - vsa_len).
    { unfold to_size_t. apply Z.mod_small. unfold SIZE_MAX in Hlen. lia. }
    rewrite Hsize in Hloop.
    replace (snd data + length) with (snd (padd data vsa_len) + (length - vsa_len)) in Hok
      by (unfold padd; cbn [snd]; lia).
    apply (IH _ _ _ _ _ _ _ Hok) in Hloop; lia.
Qed.

Lemma appended_refl (c : list VALUE_PAIR) : appended c c.
Proof. exists []. now rewrite app_nil_r. Qed.

Lemma appended_app (c tail : list VALUE_PAIR) : appended c (c ++ tail).
Proof. now exists tail. Qed.

Lemma appended_trans (a b c : list VALUE_PAIR) :
  appended a b -> appended b c -> appended a c.
Proof.
  intros [t1 ->] [t2 ->]. exists (t1 ++ t2). now rewrite app_assoc.
Qed.

Lemma to_size_t_nonneg (x : Z) : 0 <= to_size_t x.
Proof. unfold to_size_t. pose proof (Z.mod_pos_bound x (2 ^ 64) ltac:(lia)). lia. Qed.

(** The first fragment lies before the end that the first loop of
    [decode_wimax] finds. *)
Lemma wimax_scan_first (buf : list Z) (d : Z) (fuel : nat) :
  forall (a end_ len l e : Z),
    wimax_scan fuel (buf, d) (buf, a) end_ len = Scanned (l, e) ->
    a < end_ ->
    a + rd (buf, a) 1 <= e.
Proof.
  destruct fuel as [| fuel]; intros a end_ len l e H Hin; cbn [wimax_scan snd] in H.
  - destruct (Z.ltb_spec a end_); [discriminate | lia].
  - destruct (Z.ltb_spec a end_); [| lia].
    destruct (Z.ltb_spec (end_ - a) 3); [discriminate |].
    destruct (Z.leb_spec (rd (buf, a) 1) 3) as [| Hdata]; [discriminate |].
    destruct (Z.gtb_spec (a + rd (buf, a) 1) end_) as [| Hfit]; [discriminate |].
    destruct (Z.eqb_spec (Z.land (rd (buf, a) 2) 128) 0) as [Hlast | Hmore];
      cbn [negb andb] in H.
    + inversion H; subst. lia.
    + destruct (a + rd (buf, a) 1 =? end_); [discriminate |].
      unfold padd in H. cbn [fst snd] in H.
      destruct (Z.ltb_spec (end_ - (a + rd (buf, a) 1)) 9); [discriminate |].
      destruct (negb (rd (buf, a + rd (buf, a) 1) 0 =? FR_VENDOR_SPECIFIC));
        [discriminate |].
      destruct (Z.ltb_spec (rd (buf, a + rd (buf, a) 1) 1) 9); [discriminate |].
      destruct (Z.gtb_spec (a + rd (buf, a) 1 + rd (buf, a + rd (buf, a) 1) 1) end_);
        [discriminate |].
      repeat match type of H with
             | (if ?c then Malformed else _) = _ => destruct c; [discriminate |]
             end.
      apply wimax_scan_bound in H; lia.
Qed.

Section Sound.

Variable E : decoder_env.
Variable rec : decoder.

(** The recursive calls, which are on a value and its length, only append
    and report -1 or the length. *)
Hypothesis rec_sound :
  forall parent data a cursor rc cursor',
    0 <= a ->
    rec parent data a a cursor = Some (rc, cursor') ->
    appended cursor cursor' /\ (rc = -1 \/ rc = a).

Lemma emit_sound (fuel : nat) :
  forall (parent : fr_dict_attr_t) (tag : Z) (p : ptr) (data_len min attr_len : Z)
         (cursor : list VALUE_PAIR) (rc : Z) (cursor' : list VALUE_PAIR),
    emit E fuel parent tag p data_len min attr_len cursor = Some (rc, cursor') ->
    appended cursor cursor' /\ (rc = -1 \/ rc = attr_len).
Proof.
  induction fuel as [| fuel IH];
    intros parent tag p data_len min attr_len cursor rc cursor' H;
    cbn [emit] in H; [discriminate |].
  assert (Hraw : match raw_parent E parent with
                 | Some parent' =>
                     emit E fuel parent' TAG_NONE p data_len min attr_len cursor
                 | None => Some (-1, cursor)
                 end = Some (rc, cursor') ->
                 appended cursor cursor' /\ (rc = -1 \/ rc = attr_len)).
  { destruct (raw_parent E parent) as [parent' |]; [apply IH |].
    intros Heq. inversion Heq; subst. split; [apply appended_refl | now left]. }
  destruct (da_type parent);
    repeat match type of H with
           | Some (-1, _) = Some _ =>
               inversion H; subst; split; [apply appended_refl | now left]
           | Some (_, _ ++ _) = Some _ =>
               inversion H; subst; split; [apply appended_app | now right]
           | match raw_parent E parent with _ => _ end = _ => exact (Hraw H)
           | (if ?c then _ else _) = _ => destruct c
           | match ?x with _ => _ end = _ => destruct x
           end.
Qed.

Lemma raw_emit_sound (fuel : nat) (parent : fr_dict_attr_t) (p : ptr)
      (data_len min attr_len : Z) (cursor : list VALUE_PAIR)
      (rc : Z) (cursor' : list VALUE_PAIR) :
  raw_emit E fuel parent p data_len min attr_len cursor = Some (rc, cursor') ->
  appended cursor cursor' /\ (rc = -1 \/ rc = attr_len).
Proof.
  unfold raw_emit. destruct (raw_parent E parent); [apply emit_sound |].
  intros H. inversion H; subst. split; [apply appended_refl | now left].
Qed.

Lemma decode_tlv_sound (parent : fr_dict_attr_t) (data : ptr) (len : Z)
      (cursor : list VALUE_PAIR) (rc : Z) (cursor' : list VALUE_PAIR) :
  fr_radius_decode_tlv E rec parent data len cursor = Some (rc, cursor') ->
  appended cursor cursor' /\ (rc = -1 \/ rc = len).
Proof.
  intros H. apply decode_tlv_outcome in H.
  destruct H as [[-> ->] | (_ & -> & head & -> & _)].
  - split; [apply appended_refl | now left].
  - split; [apply appended_app | now right].
Qed.

Lemma decode_extended_sound (parent : fr_dict_attr_t) (data : ptr)
      (attr_len packet_len : Z) (cursor : list VALUE_PAIR)
      (rc : Z) (cursor' : list VALUE_PAIR) :
  attr_len <= packet_len ->
  decode_extended E rec parent data attr_len packet_len cursor = Some (rc, cursor') ->
  appended cursor cursor' /\ consumed rc attr_len packet_len.
Proof.
  intros Hle H. unfold decode_extended in H. unfold consumed.
  destruct (Z.ltb_spec attr_len 3).
  { inversion H; subst. split; [apply appended_refl | now left]. }
  destruct (Z.land (rd data 1) 128 =? 0).
  - destruct (rec parent (padd data 2) (attr_len - 2) (attr_len - 2) cursor)
      as [[rcode c] |] eqn:Hrec; [| discriminate].
    apply rec_sound in Hrec; [| lia]. destruct Hrec as [Happ _].
    destruct (rcode <? 0); inversion H; subst; (split; [exact Happ | lia]).
  - destruct (extended_scan (Z.to_nat packet_len) (padd data (-2)) (padd data attr_len)
                            (snd data + packet_len) (attr_len - 2) 1 false)
      as [[[fraglen end_] fragments] |] eqn:Hs; [| discriminate].
    apply extended_scan_bound in Hs; [| unfold padd; cbn [snd]; lia].
    unfold padd in Hs. cbn [snd] in Hs.
    destruct (rec parent _ fraglen fraglen cursor) as [[rcode c] |] eqn:Hrec;
      [| discriminate].
    apply rec_sound in Hrec; [| lia]. destruct Hrec as [Happ Hrc].
    destruct (Z.ltb_spec rcode 0); inversion H; subst; (split; [exact Happ | lia]).
Qed.

Lemma decode_wimax_sound (parent : fr_dict_attr_t) (buf : list Z)
      (d attr_len packet_len vendor : Z) (cursor : list VALUE_PAIR)
      (rc : Z) (cursor' : list VALUE_PAIR) :
  attr_len <= packet_len ->
  decode_wimax E rec parent (buf, d) attr_len packet_len vendor cursor
  = Some (rc, cursor') ->
  appended cursor cursor' /\ consumed rc attr_len packet_len.
Proof.
  intros Hle H. unfold decode_wimax in H. unfold consumed.
  assert (Hfail : Some (-1, cursor) = Some (rc, cursor') ->
                  appended cursor cursor'
                  /\ (rc = -1 \/ attr_len <= rc <= packet_len)).
  { intros Heq. inversion Heq; subst. split; [apply appended_refl | now left]. }
  destruct (Z.ltb_spec attr_len 8); [auto |].
  destruct (Z.ltb_spec (rd (buf, d) 5) 3); [auto |].
  destruct (Z.eqb_spec (to_size_t (rd (buf, d) 5 + 4)) attr_len) as [Hfill |];
    cbn [negb] in H; [| auto].
  assert (Hfirst : attr_len <= rd (buf, d) 5 + 4).
  { rewrite <- Hfill. unfold to_size_t. apply Z.mod_le; lia. }
  destruct (child_or_unknown E parent vendor (rd (buf, d) 4)) as [da |]; [| auto].
  destruct (Z.land (rd (buf, d) 6) 128 =? 0).
  - destruct (rec da (padd (buf, d) 7) (rd (buf, d) 5 - 3) (rd (buf, d) 5 - 3) cursor)
      as [[rcode c] |] eqn:Hrec; [| discriminate].
    apply rec_sound in Hrec; [| lia]. destruct Hrec as [Happ _].
    destruct (rcode <? 0); inversion H; subst; (split; [exact Happ | lia]).
  - unfold padd in H. cbn [fst snd] in H.
    destruct (wimax_scan (Z.to_nat packet_len) (buf, d) (buf, d + 4) (d + packet_len) 0)
      as [[wimax_len end_] | |] eqn:Hscan; [| auto | discriminate].
    destruct (Z.eqb_spec wimax_len 0); [auto |].
    destruct (wimax_copy (Z.to_nat packet_len) (buf, d) end_ (fresh E wimax_len) 0)
      as [head |]; [| discriminate].
    pose proof (wimax_scan_first _ _ _ _ _ _ _ _ Hscan ltac:(lia)) as Hlow.
    apply wimax_scan_bound in Hscan; [| lia].
    assert (Hsame : rd (buf, d + 4) 1 = rd (buf, d) 5)
      by (unfold rd; cbn [fst snd]; f_equal; lia).
    rewrite Hsame in Hlow.
    destruct (rec da (head, 0) wimax_len wimax_len cursor) as [[rcode c] |] eqn:Hrec;
      [| discriminate].
    apply rec_sound in Hrec; [| lia]. destruct Hrec as [Happ Hrc].
    destruct (Z.ltb_spec rcode 0); inversion H; subst; (split; [exact Happ | lia]).
Qed.

Lemma create_attrs_sound (vendor_da : fr_dict_attr_t) (dv : fr_dict_vendor_t)
      (data : ptr) (attr_len : Z) (cursor : list VALUE_PAIR)
      (rc : Z) (cursor' : list VALUE_PAIR) :
  fr_radius_decode_tlv_ok (padd data 4) (attr_len - 4) (dv_type dv) (dv_length dv)
  = Some 0 ->
  4 <= attr_len <= SIZE_MAX ->
  create_attrs E rec vendor_da dv data attr_len cursor = Some (rc, cursor') ->
  (rc = -1 /\ cursor' = cursor) \/ (rc = attr_len /\ appended cursor cursor').
Proof.
  intros Hok Hlen H. unfold create_attrs in H.
  destruct (vsa_loop E rec (Z.to_nat (attr_len - 4)) vendor_da dv (padd data 4)
                     (attr_len - 4) 4 []) as [[head total] | |] eqn:Hloop;
    [| | discriminate].
  - inversion H; subst. right. split; [| apply appended_app].
    unfold fr_radius_decode_tlv_ok in Hok.
    destruct ((dv_length dv >? 2) || (dv_type dv =? 0) || (dv_type dv >? 4));
      [discriminate |].
    apply (vsa_loop_total _ _ _ _ _ _ _ _ _ _ _ _ Hok) in Hloop; lia.
  - inversion H; subst. now left.
Qed.

Lemma decode_vsa_sound (parent : fr_dict_attr_t) (data : ptr)
      (attr_len packet_len : Z) (cursor : list VALUE_PAIR)
      (rc : Z) (cursor' : list VALUE_PAIR) :
  attr_len <= SIZE_MAX ->
  decode_vsa E rec parent data attr_len packet_len cursor = Some (rc, cursor') ->
  appended cursor cursor' /\ consumed rc attr_len packet_len.
Proof.
  intros Hmax H. unfold decode_vsa in H. unfold consumed.
  assert (Hfail : Some (-1, cursor) = Some (rc, cursor') ->
                  appended cursor cursor'
                  /\ (rc = -1 \/ attr_len <= rc <= packet_len)).
  { intros Heq. inversion Heq; subst. split; [apply appended_refl | now left]. }
  destruct (negb (fr_type_eqb (da_type parent) FR_TYPE_VSA)); [auto |].
  destruct (Z.gtb_spec attr_len packet_len); [auto |].
  destruct (Z.ltb_spec attr_len 5); [auto |].
  destruct (negb (rd data 0 =? 0)); [auto |].
  assert (Hloop : forall vendor_da dv,
             match fr_radius_decode_tlv_ok (padd data 4) (attr_len - 4)
                                           (dv_type dv) (dv_length dv) with
             | None => None
             | Some ok =>
                 if ok <? 0 then Some (-1, cursor)
                 else create_attrs E rec vendor_da dv data attr_len cursor
             end = Some (rc, cursor') ->
             appended cursor cursor' /\ (rc = -1 \/ attr_len <= rc <= packet_len)).
  { intros vendor_da dv Hc.
    destruct (fr_radius_decode_tlv_ok (padd data 4) (attr_len - 4)
                                      (dv_type dv) (dv_length dv)) as [ok |] eqn:Hok;
      [| discriminate].
    destruct (Z.ltb_spec ok 0); [auto |].
    assert (ok = 0).
    { unfold fr_radius_decode_tlv_ok in Hok.
      destruct ((dv_length dv >? 2) || (dv_type dv =? 0) || (dv_type dv >? 4));
        [inversion Hok; lia |].
      destruct (tlv_ok_loop_result _ _ _ _ _ _ _ Hok); lia. }
    subst ok.
    destruct (create_attrs_sound _ _ _ _ _ _ _ Hok ltac:(lia) Hc) as [[-> ->] | [-> Happ]].
    - split; [apply appended_refl | now left].
    - split; [exact Happ | lia]. }
  destruct (fr_dict_attr_child_by_num E parent (ntohl_at data)) as [vendor_da |].
  - destruct (fr_dict_vendor_by_num E (ntohl_at data)) as [dv |]; [| auto].
    destruct ((ntohl_at data =? VENDORPEC_WIMAX) && negb (dv_flags dv =? 0)).
    + destruct data as [buf d]. apply decode_wimax_sound in H; [exact H | lia].
    + apply (Hloop vendor_da dv H).
  - destruct (fr_radius_decode_tlv_ok (padd data 4) (attr_len - 4) 1 1) as [ok |] eqn:Hok;
      [| discriminate].
    destruct (Z.ltb_spec ok 0); [auto |].
    destruct (fr_dict_unknown_vendor_afrom_num E parent (ntohl_at data)) as [vendor_da |];
      [| auto].
    apply (Hloop vendor_da (mk_dv (ntohl_at data) 1 1 0)).
    cbn [dv_type dv_length]. rewrite Hok.
    destruct (Z.ltb_spec ok 0); [lia | exact H].
Qed.

Lemma invalid_extended_sound (fuel : nat) (parent : fr_dict_attr_t)
      (data p : ptr) (data_len min attr_len packet_len : Z) (c : list VALUE_PAIR)
      (rc : Z) (cursor' : list VALUE_PAIR) :
  attr_len <= packet_len ->
  invalid_extended E rec fuel parent data p data_len min attr_len packet_len c
  = Some (rc, cursor') ->
  appended c cursor' /\ consumed rc attr_len packet_len.
Proof.
  intros Hle H. unfold invalid_extended in H. unfold consumed.
  destruct (fr_dict_unknown_afrom_fields E (Some parent) 0 (rd p 0)) as [child |].
  2:{ apply raw_emit_sound in H. destruct H as [Happ Hrc]. split; [exact Happ | lia]. }
  assert (Hvalue : forall c0,
             appended c c0 ->
             match rec child (padd p min) (to_size_t (attr_len - min))
                       (to_size_t (attr_len - min)) c0 with
             | Some (rcode, c1) =>
                 if rcode <? 0 then Some (-1, c1) else Some (attr_len, c1)
             | None => None
             end = Some (rc, cursor') ->
             appended c cursor' /\ (rc = -1 \/ attr_len <= rc <= packet_len)).
  { intros c0 Hc0 Hv.
    destruct (rec child (padd p min) (to_size_t (attr_len - min))
                  (to_size_t (attr_len - min)) c0) as [[rcode c1] |] eqn:Hrec;
      [| discriminate].
    apply rec_sound in Hrec; [| apply to_size_t_nonneg]. destruct Hrec as [Happ _].
    destruct (rcode <? 0); inversion Hv; subst;
      (split; [eapply appended_trans; eauto | lia]). }
  destruct (extra (da_flags parent)); [| apply (Hvalue c (appended_refl c) H)].
  destruct (decode_extended E rec child data attr_len packet_len c)
    as [[rcode c1] |] eqn:Hext; [| discriminate].
  apply decode_extended_sound in Hext; [| exact Hle]. destruct Hext as [Happ Hrc].
  destruct (Z.geb_spec rcode 0).
  - inversion H; subst. split; [exact Happ |]. unfold consumed in Hrc. lia.
  - apply (Hvalue c1 Happ H).
Qed.

Lemma extended_stage_sound (fuel : nat) (parent : fr_dict_attr_t)
      (data p : ptr) (data_len attr_len packet_len : Z) (cursor : list VALUE_PAIR)
      (rc : Z) (cursor' : list VALUE_PAIR) :
  attr_len <= packet_len ->
  extended_stage E rec fuel parent data p data_len attr_len packet_len cursor
  = Some (rc, cursor') ->
  appended cursor cursor' /\ consumed rc attr_len packet_len.
Proof.
  intros Hle H. unfold extended_stage in H.
  generalize dependent (1 + Z.b2z (extra (da_flags parent))). intros min H.
  destruct (data_len <=? min).
  { apply raw_emit_sound in H. destruct H as [Happ Hrc].
    split; [exact Happ | unfold consumed; lia]. }
  assert (Hinv : forall c,
             appended cursor c ->
             invalid_extended E rec fuel parent data p data_len min attr_len
                              packet_len c = Some (rc, cursor') ->
             appended cursor cursor' /\ consumed rc attr_len packet_len).
  { intros c Hc Hi. apply invalid_extended_sound in Hi; [| exact Hle].
    destruct Hi as [Happ Hrc]. split; [eapply appended_trans; eauto | exact Hrc]. }
  destruct (fr_dict_attr_child_by_num E parent (rd p 0)) as [child |];
    [| apply (Hinv cursor (appended_refl _) H)].
  destruct (negb (extra (da_flags parent)) || (Z.land (rd p 1) 128 =? 0)).
  - destruct (rec child (padd p min) (to_size_t (attr_len - min))
                  (to_size_t (attr_len - min)) cursor) as [[rcode c1] |] eqn:Hrec;
      [| discriminate].
    apply rec_sound in Hrec; [| apply to_size_t_nonneg]. destruct Hrec as [Happ _].
    destruct (rcode <? 0); [apply (Hinv c1 Happ H) |].
    inversion H; subst. split; [exact Happ | unfold consumed; lia].
  - destruct (data_len =? 1); [apply (Hinv cursor (appended_refl _) H) |].
    destruct (decode_extended E rec child data attr_len packet_len cursor)
      as [[rcode c1] |] eqn:Hext; [| discriminate].
    apply decode_extended_sound in Hext; [| exact Hle]. destruct Hext as [Happ Hrc].
    destruct (Z.geb_spec rcode 0); [| apply (Hinv c1 Happ H)].
    inversion H; subst. split; [exact Happ | exact Hrc].
Qed.

Lemma vsa_stage_sound (fuel : nat) (parent : fr_dict_attr_t) (p : ptr)
      (tag data_len min attr_len packet_len : Z) (cursor : list VALUE_PAIR)
      (rc : Z) (cursor' : list VALUE_PAIR) :
  attr_len <= packet_len -> attr_len <= SIZE_MAX ->
  vsa_stage E rec fuel parent p tag data_len min attr_len packet_len cursor
  = Some (rc, cursor') ->
  appended cursor cursor' /\ consumed rc attr_len packet_len.
Proof.
  intros Hle Hmax H. unfold vsa_stage in H.
  assert (Hraw : forall c,
             appended cursor c ->
             raw_emit E fuel parent p data_len min attr_len c = Some (rc, cursor') ->
             appended cursor cursor' /\ consumed rc attr_len packet_len).
  { intros c Hc Hr. apply raw_emit_sound in Hr. destruct Hr as [Happ Hrc].
    split; [eapply appended_trans; eauto | unfold consumed; lia]. }
  destruct (negb match da_parent parent with
                 | Some pp => fr_type_eqb (da_type pp) FR_TYPE_EXTENDED
                 | None => false
                 end).
  - destruct (decode_vsa E rec parent p attr_len packet_len cursor)
      as [[rcode c] |] eqn:Hvsa; [| discriminate].
    apply decode_vsa_sound in Hvsa; [| exact Hmax]. destruct Hvsa as [Happ Hrc].
    destruct (rcode <? 0); [apply (Hraw c Happ H) |].
    inversion H; subst. split; [exact Happ | exact Hrc].
  - destruct (data_len <? 6); [apply (Hraw cursor (appended_refl _) H) |].
    assert (Hunknown :
             match fr_dict_unknown_afrom_fields E (Some parent) (ntohl_at p) (rd p 4) with
             | Some parent' =>
                 emit E fuel parent' tag (padd p 5) (data_len - 5) min attr_len cursor
             | None => Some (-1, cursor)
             end = Some (rc, cursor') ->
             appended cursor cursor' /\ consumed rc attr_len packet_len).
    { destruct (fr_dict_unknown_afrom_fields E (Some parent) (ntohl_at p) (rd p 4)).
      - intros He. apply emit_sound in He. destruct He as [Happ Hrc].
        split; [exact Happ | unfold consumed; lia].
      - intros He. inversion He; subst. split; [apply appended_refl | now left]. }
    destruct (fr_dict_attr_child_by_num E parent (ntohl_at p)) as [vendor_child |];
      [| apply (Hunknown H)].
    destruct (fr_dict_attr_child_by_num E vendor_child (rd p 4)) as [child |];
      [| apply (Hunknown H)].
    destruct (rec child (padd p 5) (to_size_t (attr_len - 5))
                  (to_size_t (attr_len - 5)) cursor) as [[rcode c] |] eqn:Hrec;
      [| discriminate].
    apply rec_sound in Hrec; [| apply to_size_t_nonneg]. destruct Hrec as [Happ _].
    destruct (rcode <? 0); [apply (Hraw c Happ H) |].
    inversion H; subst. split; [exact Happ | unfold consumed; lia].
Qed.

Lemma struct_stage_sound (fuel : nat) (parent : fr_dict_attr_t) (p : ptr)
      (data_len min attr_len : Z) (cursor : list VALUE_PAIR)
      (rc : Z) (cursor' : list VALUE_PAIR) :
  struct_stage E rec fuel parent p data_len min attr_len cursor = Some (rc, cursor') ->
  appended cursor cursor' /\ (rc = -1 \/ rc = attr_len).
Proof.
  unfold struct_stage. intros H.
  destruct (fr_struct_from_network E parent (bytes p attr_len)) as [[rcode pairs] child].
  destruct (rcode <? 0).
  { apply raw_emit_sound in H. destruct H as [Happ Hrc].
    split; [eapply appended_trans; [apply appended_app | exact Happ] | exact Hrc]. }
  assert (Hdone : forall c, appended cursor c ->
                            Some (attr_len, c) = Some (rc, cursor') ->
                            appended cursor cursor' /\ (rc = -1 \/ rc = attr_len)).
  { intros c Hc Heq. inversion Heq; subst. split; [exact Hc | now right]. }
  destruct child as [child |]; [| apply (Hdone _ (appended_app _ _) H)].
  destruct (rcode <? attr_len); [| apply (Hdone _ (appended_app _ _) H)].
  destruct (fr_radius_decode_tlv E rec child (padd p rcode) (attr_len - rcode)
                                 (cursor ++ pairs)) as [[tlv_len c] |] eqn:Htlv;
    [| discriminate].
  apply decode_tlv_sound in Htlv. destruct Htlv as [Happ _].
  assert (Hc : appended cursor c)
    by (eapply appended_trans; [apply appended_app | exact Happ]).
  destruct (tlv_len <? 0); [| apply (Hdone c Hc H)].
  destruct (fr_unknown_from_network E child (bytes (padd p rcode) (attr_len - rcode)));
    [| apply (Hdone c Hc H)].
  apply (Hdone (c ++ [v])); [| exact H].
  eapply appended_trans; [exact Hc | apply appended_app].
Qed.

Lemma kind_stage_sound (fuel : nat) (parent : fr_dict_attr_t) (data : ptr)
      (attr_len packet_len : Z) (st : dstate) (cursor : list VALUE_PAIR)
      (rc : Z) (cursor' : list VALUE_PAIR) :
  attr_len <= packet_len -> attr_len <= SIZE_MAX ->
  kind_stage E rec fuel parent data attr_len packet_len st cursor = Some (rc, cursor') ->
  appended cursor cursor' /\ consumed rc attr_len packet_len.
Proof.
  intros Hle Hmax H. unfold kind_stage in H.
  destruct (fr_radius_attr_sizes E (da_type parent)) as [min max].
  assert (Hraw : forall c,
             appended cursor c ->
             raw_emit E fuel parent (cur_p data st) (ds_data_len st) min attr_len c
             = Some (rc, cursor') ->
             appended cursor cursor' /\ consumed rc attr_len packet_len).
  { intros c Hc Hr. apply raw_emit_sound in Hr. destruct Hr as [Happ Hrc].
    split; [eapply appended_trans; eauto | unfold consumed; lia]. }
  assert (Hemit : forall parent' tag,
             emit E fuel parent' tag (cur_p data st) (ds_data_len st) min attr_len cursor
             = Some (rc, cursor') ->
             appended cursor cursor' /\ consumed rc attr_len packet_len).
  { intros parent' tag He. apply emit_sound in He. destruct He as [Happ Hrc].
    split; [exact Happ | unfold consumed; lia]. }
  destruct (ds_data_len st <? min); [apply (Hraw _ (appended_refl _) H) |].
  destruct (ds_data_len st >? max); [apply (Hraw _ (appended_refl _) H) |].
  destruct (da_type parent);
    try apply (Hemit _ _ H); try apply (Hraw _ (appended_refl _) H).
  - destruct (if ds_data_len st =? min
              then fr_dict_attr_by_type E parent FR_TYPE_IPV4_ADDR
              else if ds_data_len st =? max
                   then fr_dict_attr_by_type E parent FR_TYPE_IPV6_ADDR else None);
      [apply (Hemit _ _ H) | apply (Hraw _ (appended_refl _) H)].
  - destruct (if ds_data_len st =? min
              then fr_dict_attr_by_type E parent FR_TYPE_IPV4_PREFIX
              else if ds_data_len st =? max
                   then fr_dict_attr_by_type E parent FR_TYPE_IPV6_PREFIX else None);
      [apply (Hemit _ _ H) | apply (Hraw _ (appended_refl _) H)].
  - destruct (fr_radius_decode_tlv E rec parent (cur_p data st) attr_len cursor)
      as [[rcode c] |] eqn:Htlv; [| discriminate].
    apply decode_tlv_sound in Htlv. destruct Htlv as [Happ _].
    destruct (rcode <? 0); [apply (Hraw c Happ H) |].
    inversion H; subst. split; [exact Happ | unfold consumed; lia].
  - apply struct_stage_sound in H. destruct H as [Happ Hrc].
    split; [exact Happ | unfold consumed; lia].
  - now apply extended_stage_sound in H.
  - now apply vsa_stage_sound in H.
Qed.

End Sound.

(** [fr_radius_decode_pair_value] only appends to the pair list, and
    reports -1 or a number of bytes from [attr_len] up to [packet_len]. *)
Lemma decode_pair_value_sound (E : decoder_env) (packet_ctx : option fr_radius_ctx_t) :
  forall (fuel : nat) (parent : fr_dict_attr_t) (data : ptr)
         (attr_len packet_len : Z) (cursor : list VALUE_PAIR)
         (rc : Z) (cursor' : list VALUE_PAIR),
    fr_radius_decode_pair_value E fuel packet_ctx parent data attr_len packet_len cursor
    = Some (rc, cursor') ->
    appended cursor cursor' /\ consumed rc attr_len packet_len.
Proof.
  induction fuel as [| fuel IH];
    intros parent data attr_len packet_len cursor rc cursor' H;
    cbn [fr_radius_decode_pair_value] in H; [discriminate |].
  assert (Hfail : Some (-1, cursor) = Some (rc, cursor') ->
                  appended cursor cursor' /\ consumed rc attr_len packet_len).
  { intros Heq. inversion Heq; subst. split; [apply appended_refl | now left]. }
  destruct (Z.gtb_spec attr_len packet_len); cbn [orb] in H; [auto |].
  destruct (Z.gtb_spec attr_len (128 * 1024)); [auto |].
  destruct (Z.eqb_spec attr_len 0).
  { inversion H; subst. split; [apply appended_refl | unfold consumed; lia]. }
  destruct (tag_stage E parent data attr_len) as [st |]; [| auto].
  destruct (decrypt_stage E packet_ctx parent data attr_len st) as [st' | st' |];
    [| | auto].
  - apply kind_stage_sound in H; [exact H | | lia | unfold SIZE_MAX; lia].
    intros parent' data' a c rc' c' Ha Hrec.
    apply IH in Hrec. destruct Hrec as [Happ Hrc].
    split; [exact Happ | unfold consumed in Hrc; lia].
  - apply raw_emit_sound in H. destruct H as [Happ Hrc].
    split; [exact Happ | unfold consumed; lia].
Qed.

(** The second loop of [decode_concat], at its end and at one step. *)
Lemma concat_copy_stop (fuel : nat) (ptr_ : ptr) (e : Z) (p : list Z) (poff : Z)
      (p' : list Z) (q : Z) :
  e <= snd ptr_ ->
  concat_copy fuel ptr_ e p poff = Some (p', q) -> q = snd ptr_ /\ p' = p.
Proof.
  intros Hle H. destruct fuel; cbn [concat_copy] in H;
    (destruct (Z.ltb_spec (snd ptr_) e); [lia |]); inversion H; auto.
Qed.

Lemma concat_copy_step (fuel : nat) (ptr_ : ptr) (e : Z) (p : list Z) (poff : Z)
      (p' : list Z) (q : Z) :
  snd ptr_ < e ->
  concat_copy fuel ptr_ e p poff = Some (p', q) ->
  exists fuel',
    fuel = S fuel'
    /\ concat_copy fuel' (padd ptr_ (rd ptr_ 1)) e
         (memcpy_bounded p poff (padd ptr_ 2) (to_size_t (rd ptr_ 1 - 2)) e)
         (poff + (rd ptr_ 1 - 2)) = Some (p', q).
Proof.
  intros Hlt H. destruct fuel as [| fuel']; cbn [concat_copy] in H;
    (destruct (Z.ltb_spec (snd ptr_) e); [| lia]); [discriminate |].
  exists fuel'. split; [reflexivity | exact H].
Qed.

(** The end that the first loop of [decode_concat] finds lies after the
    first attribute and inside the packet. *)
Lemma concat_scan_range (fuel : nat) :
  forall (ptr_ : ptr) (end_ attr total t e : Z),
    concat_scan fuel ptr_ end_ attr total = Scanned (t, e) ->
    snd ptr_ <= end_ ->
    snd ptr_ <= e <= end_ /\ (snd ptr_ < end_ -> snd ptr_ + rd ptr_ 1 <= e).
Proof.
  induction fuel as [| fuel IH]; intros ptr_ end_ attr total t e H Hin;
    cbn [concat_scan] in H.
  - destruct (Z.ltb_spec (snd ptr_) end_); [discriminate |].
    inversion H; subst. lia.
  - destruct (Z.ltb_spec (snd ptr_) end_); [| inversion H; subst; lia].
    destruct (Z.leb_spec (rd ptr_ 1) 2); [discriminate |].
    destruct (Z.gtb_spec (snd ptr_ + rd ptr_ 1) end_); [discriminate |].
    destruct (Z.eqb_spec (snd (padd ptr_ (rd ptr_ 1))) end_) as [Hlast | Hmore].
    { inversion H; subst. unfold padd. cbn [snd]. lia. }
    destruct (negb (rd (padd ptr_ (rd ptr_ 1)) 0 =? attr)).
    { inversion H; subst. unfold padd. cbn [snd]. lia. }
    apply IH in H; unfold padd in *; cbn [snd] in *; lia.
Qed.

(** The second loop of [decode_concat] ends where the first has ended. *)
Lemma concat_copy_end (fuel1 : nat) :
  forall (ptr_ : ptr) (end_ attr total t e : Z) (fuel : nat) (p : list Z) (poff : Z)
         (p' : list Z) (q : Z),
    concat_scan fuel1 ptr_ end_ attr total = Scanned (t, e) ->
    concat_copy fuel ptr_ e p poff = Some (p', q) ->
    q = e.
Proof.
  induction fuel1 as [| fuel1 IH];
    intros ptr_ end_ attr total t e fuel p poff p' q Hscan Hcopy;
    cbn [concat_scan] in Hscan.
  - destruct (Z.ltb_spec (snd ptr_) end_); [discriminate |].
    inversion Hscan; subst. apply concat_copy_stop in Hcopy; [tauto | lia].
  - destruct (Z.ltb_spec (snd ptr_) end_) as [Hin | Hout].
    2:{ inversion Hscan; subst. apply concat_copy_stop in Hcopy; [tauto | lia]. }
    destruct (Z.leb_spec (rd ptr_ 1) 2); [discriminate |].
    destruct (Z.gtb_spec (snd ptr_ + rd ptr_ 1) end_); [discriminate |].
    destruct (Z.eqb_spec (snd (padd ptr_ (rd ptr_ 1))) end_) as [Hlast | Hmore].
    { inversion Hscan; subst e t.
      apply concat_copy_step in Hcopy; [| unfold padd; cbn [snd]; lia].
      destruct Hcopy as (fuel' & _ & Hcopy).
      apply concat_copy_stop in Hcopy; unfold padd in *; cbn [snd] in *;
        [tauto | lia]. }
    destruct (negb (rd (padd ptr_ (rd ptr_ 1)) 0 =? attr)).
    { inversion Hscan; subst e t.
      apply concat_copy_step in Hcopy; [| unfold padd; cbn [snd]; lia].
      destruct Hcopy as (fuel' & _ & Hcopy).
      apply concat_copy_stop in Hcopy; unfold padd in *; cbn [snd] in *;
        [tauto | lia]. }
    pose proof Hscan as Hrange.
    apply concat_scan_range in Hrange;
      [| unfold padd in *; cbn [snd] in *; lia].
    apply concat_copy_step in Hcopy; [| unfold padd in *; cbn [snd] in *; lia].
    destruct Hcopy as (fuel' & _ & Hcopy).
    apply (IH _ _ _ _ _ _ _ _ _ _ _ Hscan Hcopy).
Qed.

(** [decode_concat] appends at most one pair, and reports -1 or the
    bytes of the attributes it has joined. *)
Lemma decode_concat_sound (E : decoder_env) (parent : fr_dict_attr_t) (data : ptr)
      (packet_len : Z) (cursor : list VALUE_PAIR) (rc : Z) (cursor' : list VALUE_PAIR) :
  0 < packet_len ->
  decode_concat E parent data packet_len cursor = Some (rc, cursor') ->
  (rc = -1 /\ cursor' = cursor)
  \/ (rd data 1 <= rc <= packet_len /\ exists vp, cursor' = cursor ++ [vp]).
Proof.
  intros Hlen H. unfold decode_concat in H.
  destruct (concat_scan (Z.to_nat packet_len) data (snd data + packet_len) (rd data 0) 0)
    as [[total end_] | |] eqn:Hscan; [| inversion H; now left | discriminate].
  pose proof (concat_scan_total _ _ _ _ _ _ _ Hscan) as [_ Htotal].
  specialize (Htotal ltac:(lia)).
  destruct (Z.eqb_spec total 0); [lia |].
  destruct (concat_copy (Z.to_nat packet_len) data end_ (fresh E total) 0)
    as [[p q] |] eqn:Hcopy; [| discriminate].
  pose proof (concat_copy_end _ _ _ _ _ _ _ _ _ _ _ _ Hscan Hcopy) as ->.
  apply concat_scan_range in Hscan; [| lia].
  destruct Hscan as [Hin Hfirst]. specialize (Hfirst ltac:(lia)).
  inversion H; subst. right. split; [lia | eexists; reflexivity].
Qed.

(** ** decode_concat on an empty value *)







(** [fr_radius_decode_pair] only appends, and reports -1 or a number of
    bytes that covers the attribute and stays inside the buffer. *)
Lemma decode_pair_sound (E : decoder_env) (packet_ctx : option fr_radius_ctx_t)
      (fuel : nat) (data : ptr) (data_len : Z) (cursor : list VALUE_PAIR)
      (rc : Z) (cursor' : list VALUE_PAIR) :
  fr_radius_decode_pair E fuel packet_ctx data data_len cursor = Some (rc, cursor') ->
  appended cursor cursor'
  /\ (rc = -1 \/ (2 <= rd data 1 /\ rd data 1 <= rc <= data_len)).
Proof.
  intros H. unfold fr_radius_decode_pair in H.
  assert (Hfail : Some (-1, cursor) = Some (rc, cursor') ->
                  appended cursor cursor'
                  /\ (rc = -1 \/ (2 <= rd data 1 /\ rd data 1 <= rc <= data_len))).
  { intros Heq. inversion Heq; subst. split; [apply appended_refl | now left]. }
  destruct (Z.ltb_spec data_len 2); cbn [orb] in H; [auto |].
  destruct (Z.ltb_spec (rd data 1) 2); cbn [orb] in H; [auto |].
  destruct (Z.gtb_spec (rd data 1) data_len); [auto |].
  destruct (child_or_unknown E (fr_dict_root E) 0 (rd data 0)) as [da |]; [| auto].
  destruct (Z.eqb_spec data_len 2).
  { destruct (negb (is_root (da_flags (fr_dict_root E))));
      [inversion H; subst; split; [apply appended_refl | lia] |].
    destruct (negb (rd data 0 =? FR_CHARGEABLE_USER_IDENTITY));
      inversion H; subst; (split; [| lia]);
      [apply appended_refl | apply appended_app]. }
  destruct (concat (da_flags da)).
  { apply decode_concat_sound in H; [| lia].
    destruct H as [[-> ->] | [Hrc [vp ->]]].
    - split; [apply appended_refl | now left].
    - split; [apply appended_app | lia]. }
  destruct (fr_radius_decode_pair_value E fuel packet_ctx da (padd data 2)
              (rd data 1 - 2) (data_len - 2) cursor) as [[rcode c] |] eqn:Hval;
    [| discriminate].
  apply decode_pair_value_sound in Hval. destruct Hval as [Happ Hrc].
  unfold consumed in Hrc.
  destruct (Z.ltb_spec rcode 0).
  - assert (rc = rcode /\ cursor' = c) as [-> ->] by (split; congruence).
    split; [exact Happ | lia].
  - assert (rc = 2 + rcode /\ cursor' = c) as [-> ->] by (split; congruence).
    split; [exact Happ | lia].
Qed.

(* ================================================================== *)
(** * The password codecs in full *)

(** ** strlen *)

Lemma strlen_bounds (l : list Z) : 0 <= Buf.strlen l <= Z.of_nat (length l).
Proof.
  induction l as [| c r IH]; cbn [Buf.strlen length]; [lia |].
  destruct (c =? 0); lia.
Qed.

Lemma get_cons (c : Z) (r : list Z) (j : Z) :
  0 < j -> Buf.get (c :: r) j = Buf.get r (j - 1).
Proof.
  intros Hj. rewrite !get_nth by lia.
  replace (Z.to_nat j) with (S (Z.to_nat (j - 1))) by lia. reflexivity.
Qed.

(** [strlen] stops at the first NUL byte, or at the end of the buffer. *)
Lemma strlen_spec (l : list Z) :
  Buf.get l (Buf.strlen l) = 0
  /\ forall j, 0 <= j < Buf.strlen l -> Buf.get l j <> 0.
Proof.
  induction l as [| c r [IHz IHn]]; cbn [Buf.strlen].
  - split; [reflexivity | intros; lia].
  - destruct (Z.eqb_spec c 0) as [-> | Hc].
    + split; [reflexivity | intros; lia].
    + pose proof (strlen_bounds r). split.
      * rewrite get_cons by lia. replace (1 + Buf.strlen r - 1) with (Buf.strlen r) by lia.
        exact IHz.
      * intros j Hj. destruct (Z.eqb_spec j 0) as [-> | Hj0]; [exact Hc |].
        rewrite get_cons by lia. apply IHn. lia.
Qed.

Lemma strlen_le (l : list Z) (i : Z) :
  0 <= i -> Buf.get l i = 0 -> Buf.strlen l <= i.
Proof.
  intros Hi Hz. destruct (Z_le_gt_dec (Buf.strlen l) i) as [| Hgt]; [assumption |].
  exfalso. apply (proj2 (strlen_spec l) i); [lia | exact Hz].
Qed.

(** ** fr_radius_decode_password *)

Lemma password_xor_length (n : Z) (digest pw : list Z) :
  length (password_xor n digest pw) = length pw.
Proof.
  unfold password_xor. generalize (Buf.range 0 AUTH_PASS_LEN). intros is_.
  revert pw. induction is_ as [| i is_ IH]; intros pw; cbn [fold_left]; [reflexivity |].
  rewrite IH. apply set_length.
Qed.

(** The inner loop of the User-Password codec XORs the 16 bytes of the
    block with the digest, as far as they lie in the buffer, and nothing
    else. *)
Lemma password_xor_get (n : Z) (digest : list Z) (k : nat) :
  forall (base : Z) (pw : list Z) (j : Z),
    Z.to_nat (16 - base) = k -> 0 <= base -> 0 <= n ->
    Buf.get (fold_left
               (fun pw i => Buf.set pw (i + n)
                              (Z.lxor (Buf.get pw (i + n)) (Buf.get digest i)))
               (Buf.range base 16) pw) j
    = if (n + base <=? j) && (j <? n + 16) && (j <? Z.of_nat (length pw))
      then Z.lxor (Buf.get pw j) (Buf.get digest (j - n))
      else Buf.get pw j.
Proof.
  induction k as [| k IH]; intros base pw j Hk Hb Hn.
  - rewrite range_nil by lia. cbn [fold_left].
    destruct (Z.leb_spec (n + base) j); destruct (Z.ltb_spec j (n + 16));
      cbn [andb]; try reflexivity; lia.
  - rewrite range_cons by lia. cbn [fold_left].
    rewrite IH by lia. rewrite set_length.
    destruct (Z.eqb_spec j (n + base)) as [-> | Hne].
    + destruct (Z.leb_spec (n + (base + 1)) (n + base)); [lia |].
      destruct (Z.leb_spec (n + base) (n + base)); [| lia].
      destruct (Z.ltb_spec (n + base) (n + 16)); [| lia].
      cbn [andb].
      destruct (Z.ltb_spec (n + base) (Z.of_nat (length pw))).
      * replace (base + n) with (n + base) by lia.
        rewrite get_set_same by lia. f_equal. f_equal. lia.
      * unfold Buf.set.
        destruct (Z.ltb_spec (base + n) (Z.of_nat (length pw))); [lia |].
        rewrite andb_false_r. reflexivity.
    + rewrite get_set_other by lia.
      destruct (Z.leb_spec (n + (base + 1)) j); destruct (Z.leb_spec (n + base) j);
        cbn [andb]; try reflexivity; lia.
Qed.

Section PasswordPlaintext.

Variable md5 : list Z -> list Z.
Variables (passwd secret vector : list Z) (pwlen : Z).

Lemma password_block_inv (k : Z) (st : list Z * list Z) :
  0 <= k -> 16 * k < pwlen -> pwlen <= Z.of_nat (length passwd) ->
  password_inv md5 passwd secret vector pwlen k st ->
  password_inv md5 passwd secret vector pwlen (k + 1)
    (password_block md5 pwlen vector (fr_md5_update [] secret) st (16 * k)).
Proof.
  intros Hk Hmore Hbuf (Hlen & Hrest & Hdone & Hctx0 & Hctx).
  destruct st as [pw ctx]. cbn [fst snd] in *.
  assert (Hstep : forall digest ctx',
             digest = password_key md5 passwd secret vector k ->
             (16 * (k + 1) < pwlen -> ctx' = secret ++ Buf.sub passwd (16 * k) 16) ->
             password_inv md5 passwd secret vector pwlen (k + 1)
                          (password_xor (16 * k) digest pw, ctx')).
  { intros digest ctx' Hdig Hctx'. unfold password_inv. cbn [fst snd].
    assert (Hget := fun j => password_xor_get (16 * k) digest 16 0 pw j eq_refl
                               ltac:(lia) ltac:(lia)).
    change (fold_left _ (Buf.range 0 16) pw) with (password_xor (16 * k) digest pw) in Hget.
    split; [| split; [| split; [| split]]].
    - rewrite password_xor_length. exact Hlen.
    - intros j Hj. rewrite Hget.
      destruct (Z.leb_spec (16 * k + 0) j); destruct (Z.ltb_spec j (16 * k + 16));
        cbn [andb]; try (apply Hrest; lia); lia.
    - intros j Hj Hjl. rewrite Hget.
      destruct (Z.leb_spec (16 * k + 0) j); cbn [andb]; [| apply Hdone; lia].
      destruct (Z.ltb_spec j (16 * k + 16)); [| lia].
      destruct (Z.ltb_spec j (Z.of_nat (length pw))); [| lia].
      cbn [andb]. unfold password_plain_byte. rewrite Hrest by lia.
      assert (Hq : j / 16 = k)
        by (symmetry; apply (Z.div_unique j 16 k (j - 16 * k)); lia).
      assert (Hr : j mod 16 = j - 16 * k)
        by (symmetry; apply (Z.mod_unique j 16 k (j - 16 * k)); lia).
      rewrite Hq, Hr, Hdig. reflexivity.
    - intros; lia.
    - intros _ Hnext. replace (k + 1 - 1) with k by lia. apply Hctx'. exact Hnext. }
  assert (Hsub : Buf.sub pw (16 * k) AUTH_PASS_LEN = Buf.sub passwd (16 * k) 16).
  { apply sub_ext; [exact Hlen | lia |]. intros j Hj. apply Hrest. lia. }
  unfold password_block.
  destruct (Z.eqb_spec (16 * k) 0) as [Hn0 | Hn0].
  - assert (Hk0 : k = 0) by lia. subst k.
    apply Hstep.
    + rewrite Hctx0 by reflexivity.
      unfold password_key, fr_md5_final, fr_md5_update, RADIUS_AUTH_VECTOR_LENGTH.
      reflexivity.
    + intros Hnext. change (16 * 0) with 0 in *.
      destruct (Z.gtb_spec pwlen AUTH_PASS_LEN); [| unfold AUTH_PASS_LEN in *; lia].
      unfold fr_md5_update. rewrite app_nil_l. f_equal. exact Hsub.
  - apply Hstep.
    + rewrite Hctx by lia.
      unfold password_key, fr_md5_final.
      destruct (Z.eqb_spec k 0); [lia | reflexivity].
    + intros Hnext.
      destruct (Z.gtb_spec pwlen (16 * k + AUTH_PASS_LEN));
        [| unfold AUTH_PASS_LEN in *; lia].
      unfold fr_md5_update. rewrite app_nil_l. f_equal. exact Hsub.
Qed.

Lemma password_blocks_inv (c : nat) :
  forall (k : nat) (st : list Z * list Z),
    16 * Z.of_nat (k + c) < pwlen + 16 -> pwlen <= Z.of_nat (length passwd) ->
    password_inv md5 passwd secret vector pwlen (Z.of_nat k) st ->
    password_inv md5 passwd secret vector pwlen (Z.of_nat (k + c))
      (fold_left (password_block md5 pwlen vector (fr_md5_update [] secret))
                 (map (fun i => AUTH_PASS_LEN * Z.of_nat i) (seq k c)) st).
Proof.
  induction c as [| c IH]; intros k st Hlast Hbuf Hinv.
  - rewrite Nat.add_0_r. exact Hinv.
  - cbn [seq map fold_left]. unfold AUTH_PASS_LEN at 1.
    replace (k + S c)%nat with (S k + c)%nat by lia.
    apply IH; [lia | exact Hbuf |].
    replace (Z.of_nat (S k)) with (Z.of_nat k + 1) by lia.
    apply password_block_inv; [lia | lia | exact Hbuf | exact Hinv].
Qed.

End PasswordPlaintext.

(** The buffer that [fr_radius_decode_password] leaves holds the
    plaintext in its first [min(pwlen, 128)] bytes, and a NUL after
    them. *)
Lemma decode_password_out (md5 : list Z -> list Z) (passwd : list Z) (pwlen : Z)
      (secret vector : list Z) :
  0 <= pwlen -> Z.min pwlen 128 < Z.of_nat (length passwd) ->
  let out := snd (fr_radius_decode_password md5 passwd pwlen secret vector) in
  (forall i, 0 <= i < Z.min pwlen 128 ->
             Buf.get out i = password_plain_byte md5 passwd secret vector i)
  /\ Buf.get out (Z.min pwlen 128) = 0.
Proof.
  intros Hpos Hbuf. unfold fr_radius_decode_password. cbn [snd].
  assert (Hn : (if pwlen >? 128 then 128 else pwlen) = Z.min pwlen 128)
    by (destruct (Z.gtb_spec pwlen 128); lia).
  rewrite Hn. set (n := Z.min pwlen 128) in *.
  destruct (Z.eqb_spec n 0) as [Hn0 | Hn0].
  - split; [intros; lia |]. apply get_set_same. lia.
  - set (m := Z.to_nat ((n + AUTH_PASS_LEN - 1) / AUTH_PASS_LEN)).
    assert (Hm : 16 * Z.of_nat m < n + 16 /\ n <= 16 * Z.of_nat m).
    { unfold m, AUTH_PASS_LEN.
      pose proof (Z.div_mod (n + 16 - 1) 16 ltac:(lia)).
      pose proof (Z.mod_pos_bound (n + 16 - 1) 16 ltac:(lia)).
      assert (0 <= (n + 16 - 1) / 16) by (apply Z.div_pos; lia).
      lia. }
    pose proof (password_blocks_inv md5 passwd secret vector n m 0
                  (passwd, fr_md5_update [] secret)) as Hinv.
    cbn [Nat.add] in Hinv.
    destruct Hinv as (Hlen & Hrest & Hdone & _); [lia | lia | |].
    { unfold password_inv. cbn [fst snd].
      split; [reflexivity |]. split; [reflexivity |]. split; [intros; lia |].
      split; [reflexivity | intros; lia]. }
    unfold Buf.steps. fold m.
    split.
    + intros i Hi. rewrite get_set_other by lia. apply Hdone; lia.
    + apply get_set_same. rewrite Hlen. lia.
Qed.

(** X3. [fr_radius_decode_password] decrypts as RFC 2865 obfuscates: byte
    [i] of the buffer it leaves, for [i] below [min(pwlen, 128)], is the
    ciphertext byte XOR byte [i mod 16] of [MD5(secret || vector)] in the
    first block and of [MD5(secret || previous ciphertext block)] in the
    others. *)
Theorem decode_password_plaintext (md5 : list Z -> list Z) (passwd : list Z)
        (pwlen : Z) (secret vector : list Z) (i : Z) :
  0 <= pwlen -> Z.min pwlen 128 < Z.of_nat (length passwd) ->
  0 <= i < Z.min pwlen 128 ->
  Buf.get (snd (fr_radius_decode_password md5 passwd pwlen secret vector)) i
  = password_plain_byte md5 passwd secret vector i.
Proof.
  intros Hpos Hbuf Hi.
  apply (proj1 (decode_password_out md5 passwd pwlen secret vector Hpos Hbuf)).
  exact Hi.
Qed.

Lemma decode_password_plaintext_witness :
  Buf.get (snd (fr_radius_decode_password MD5.md5 password_cipher 32
                                          testing123 test_vector)) 20
  = password_plain_byte MD5.md5 password_cipher testing123 test_vector 20.
Proof.
  apply (decode_password_plaintext MD5.md5 password_cipher 32 testing123 test_vector 20).
  - lia.
  - vm_compute. reflexivity.
  - vm_compute. split; [discriminate | reflexivity].
Defined.

(** X4. [fr_radius_decode_password] returns the length of the plaintext
    up to its first NUL byte, and at most [min(pwlen, 128)]: the bytes
    before the length returned are not NUL, and the byte at it is NUL
    unless the length is [min(pwlen, 128)]. *)
Theorem decode_password_length (md5 : list Z -> list Z) (passwd : list Z)
        (pwlen : Z) (secret vector : list Z) :
  0 <= pwlen -> Z.min pwlen 128 < Z.of_nat (length passwd) ->
  let rc := fst (fr_radius_decode_password md5 passwd pwlen secret vector) in
  0 <= rc <= Z.min pwlen 128
  /\ (forall j, 0 <= j < rc -> password_plain_byte md5 passwd secret vector j <> 0)
  /\ (rc < Z.min pwlen 128 -> password_plain_byte md5 passwd secret vector rc = 0).
Proof.
  intros Hpos Hbuf rc.
  destruct (decode_password_out md5 passwd pwlen secret vector Hpos Hbuf)
    as [Hplain Hnul].
  set (out := snd (fr_radius_decode_password md5 passwd pwlen secret vector)) in *.
  assert (Hrc : rc = Buf.strlen out) by reflexivity.
  pose proof (strlen_bounds out) as Hb.
  pose proof (strlen_le out (Z.min pwlen 128) ltac:(lia) Hnul) as Hle.
  destruct (strlen_spec out) as [Hz Hnz].
  rewrite Hrc. split; [lia |]. split.
  - intros j Hj. rewrite <- Hplain by lia. apply Hnz. exact Hj.
  - intros Hlt. rewrite <- Hplain by lia. exact Hz.
Qed.

Lemma decode_password_length_witness :
  let rc := fst (fr_radius_decode_password MD5.md5 password_cipher 32
                                           testing123 test_vector) in
  0 <= rc <= Z.min 32 128
  /\ (forall j, 0 <= j < rc ->
                password_plain_byte MD5.md5 password_cipher testing123 test_vector j <> 0)
  /\ (rc < Z.min 32 128 ->
      password_plain_byte MD5.md5 password_cipher testing123 test_vector rc = 0).
Proof.
  apply (decode_password_length MD5.md5 password_cipher 32 testing123 test_vector).
  - lia.
  - vm_compute. reflexivity.
Defined.

(** ** fr_radius_decode_tunnel_password *)

(** The block loop of the Tunnel-Password codec keeps the length of the
    buffer. *)
Lemma tunnel_plaintext_length (md5 : list Z -> list Z) (passwd secret vector : list Z)
      (pwlen : Z) :
  3 < pwlen -> pwlen <= Z.of_nat (length passwd) ->
  tunnel_embedded_len md5 passwd secret vector <= pwlen - 2 ->
  length (tunnel_plaintext md5 passwd pwlen secret vector) = length passwd.
Proof.
  intros Hpwlen Hbuf Hfits.
  unfold tunnel_plaintext, tunnel_decrypt, Buf.steps.
  set (m := Z.to_nat ((pwlen - 2 + AUTH_PASS_LEN - 1) / AUTH_PASS_LEN)).
  assert (Hm : 16 * Z.of_nat m < pwlen - 2 + 16).
  { unfold m, AUTH_PASS_LEN.
    pose proof (Z.div_mod (pwlen - 2 + 16 - 1) 16 ltac:(lia)).
    pose proof (Z.mod_pos_bound (pwlen - 2 + 16 - 1) 16 ltac:(lia)).
    assert (0 <= (pwlen - 2 + 16 - 1) / 16) by (apply Z.div_pos; lia).
    lia. }
  destruct (tunnel_blocks_inv md5 passwd secret vector pwlen Hpwlen Hbuf Hfits m 0
              (mk_tunnel_state passwd
                 (fr_md5_update
                    (fr_md5_update (fr_md5_update [] secret)
                                   (Buf.sub vector 0 RADIUS_AUTH_VECTOR_LENGTH))
                    (Buf.sub passwd 0 2)) 0))
    as (st' & Hst' & (Hlen & _)).
  - cbn [Nat.add]. lia.
  - unfold tunnel_inv. cbn [ts_passwd ts_md5_ctx].
    split; [reflexivity |]. split; [reflexivity |]. split; [intros; lia |].
    intros _. unfold tunnel_key, fr_md5_final, fr_md5_update, RADIUS_AUTH_VECTOR_LENGTH.
    cbn [Z.of_nat Z.eqb]. rewrite app_nil_l, <- app_assoc. reflexivity.
  - rewrite Hst'. exact Hlen.
Qed.

(** X1. A Tunnel-Password whose embedded length [E] fits is decrypted as
    RFC 2868 obfuscates it: the call returns [E], and byte [j] of the
    password is ciphertext byte [j + 3] XOR the byte of the key of its
    block, the keys chained on the salt and on the ciphertext.  Only
    [pwlen - 3] bytes are decrypted: the bytes from [pwlen - 3] on are the
    bytes of the input, so that with [E = pwlen - 2] the last byte of the
    password returned is a byte of the input. *)
Theorem tunnel_password_plaintext (md5 : list Z -> list Z) (passwd : list Z)
        (pwlen : Z) (secret vector : list Z) :
  3 < pwlen <= Z.of_nat (length passwd) ->
  0 <= tunnel_embedded_len md5 passwd secret vector <= pwlen - 2 ->
  let E := tunnel_embedded_len md5 passwd secret vector in
  let r := fr_radius_decode_tunnel_password md5 passwd pwlen secret vector false in
  fst (fst r) = E /\ snd r = E
  /\ (forall j, 0 <= j < E -> j <= pwlen - 4 ->
                Buf.get (snd (fst r)) j = tunnel_plain_byte md5 passwd secret vector j)
  /\ Buf.get (snd (fst r)) E = 0
  /\ (forall j, pwlen - 3 <= j -> j <> E ->
                Buf.get (snd (fst r)) j = Buf.get passwd j).
Proof.
  intros [Hlen Hbuf] HE E r.
  destruct (tunnel_decrypt_spec md5 passwd pwlen secret vector Hlen) as [_ Hok].
  destruct (Hok (proj2 HE)) as (st & Hst & Hemb). fold E in Hemb.
  assert (Hplain : tunnel_plaintext md5 passwd pwlen secret vector = ts_passwd st)
    by (unfold tunnel_plaintext; rewrite Hst; reflexivity).
  assert (Hr : r = (E, Buf.set (ts_passwd st) E 0, E)).
  { unfold r, fr_radius_decode_tunnel_password.
    destruct (Z.ltb_spec pwlen 2); [lia |].
    destruct (Z.leb_spec pwlen 3); [lia |].
    rewrite Hst, Hemb. reflexivity. }
  rewrite Hr. cbn [fst snd]. rewrite <- Hplain.
  split; [reflexivity |]. split; [reflexivity |]. split; [| split].
  - intros j Hj Hj'. rewrite get_set_other by lia.
    apply (tunnel_plaintext_spec md5 passwd secret vector pwlen Hlen Hbuf (proj2 HE) j).
    lia.
  - apply get_set_same.
    rewrite tunnel_plaintext_length by (try assumption; apply HE). fold E in HE. lia.
  - intros j Hj Hne. rewrite get_set_other by lia.
    apply (tunnel_plaintext_spec md5 passwd secret vector pwlen Hlen Hbuf (proj2 HE) j).
    exact Hj.
Qed.

Lemma tunnel_password_plaintext_witness :
  let E := tunnel_embedded_len MD5.md5 tunnel_hello testing123 test_vector in
  let r := fr_radius_decode_tunnel_password MD5.md5 tunnel_hello 18
             testing123 test_vector false in
  fst (fst r) = E /\ snd r = E
  /\ (forall j, 0 <= j < E -> j <= 18 - 4 ->
                Buf.get (snd (fst r)) j
                = tunnel_plain_byte MD5.md5 tunnel_hello testing123 test_vector j)
  /\ Buf.get (snd (fst r)) E = 0
  /\ (forall j, 18 - 3 <= j -> j <> E ->
                Buf.get (snd (fst r)) j = Buf.get tunnel_hello j).
Proof.
  apply (tunnel_password_plaintext MD5.md5 tunnel_hello 18 testing123 test_vector).
  - vm_compute. split; [reflexivity | discriminate].
  - vm_compute. split; discriminate.
Defined.

(** X2. [fr_radius_decode_tunnel_password] returns -1 and leaves [*pwlen]
    as it was, or returns a length of at most [pwlen - 2] and sets
    [*pwlen] to it: it never reports more bytes than the attribute holds
    after the salt. *)
Theorem tunnel_password_result (md5 : list Z -> list Z) (passwd : list Z)
        (pwlen : Z) (secret vector : list Z) (zeros : bool)
        (rc : Z) (out : list Z) (len' : Z) :
  0 <= tunnel_embedded_len md5 passwd secret vector ->
  fr_radius_decode_tunnel_password md5 passwd pwlen secret vector zeros
  = (rc, out, len') ->
  (rc = -1 /\ len' = pwlen) \/ (0 <= rc <= pwlen - 2 /\ len' = rc).
Proof.
  intros HE H. unfold fr_radius_decode_tunnel_password in H.
  destruct (Z.ltb_spec pwlen 2); [inversion H; subst; left; split; reflexivity |].
  destruct (Z.leb_spec pwlen 3); [inversion H; subst; right; lia |].
  destruct (tunnel_decrypt_spec md5 passwd pwlen secret vector ltac:(lia))
    as [Hbad Hok].
  destruct (Z_le_gt_dec (tunnel_embedded_len md5 passwd secret vector) (pwlen - 2))
    as [Hfit | Hlong].
  - destruct (Hok Hfit) as (st & Hst & Hemb). rewrite Hst, Hemb in H.
    destruct (zeros && _); inversion H; subst; [left | right]; lia.
  - rewrite (Hbad ltac:(lia)) in H. inversion H; subst. left. split; reflexivity.
Qed.

Lemma tunnel_password_result_witness :
  (5 = -1 /\ 5 = 18) \/ (0 <= 5 <= 18 - 2 /\ 5 = 5).
Proof.
  apply (tunnel_password_result MD5.md5 tunnel_hello 18 testing123 test_vector false
                                5 (hello ++ repeat 0 10%nat ++ [197; 158; 110]) 5).
  - vm_compute. discriminate.
  - vm_compute. reflexivity.
Defined.

(* ================================================================== *)
(** * The decoder as its caller sees it *)

(** X5. [fr_radius_decode_pair] only appends: whatever it returns, the
    pairs that were behind the cursor are still there, in their order and
    unchanged, before the pairs of this call. *)
Theorem decode_pair_only_appends (E : decoder_env)
        (packet_ctx : option fr_radius_ctx_t) (fuel : nat) (data : ptr)
        (data_len : Z) (cursor : list VALUE_PAIR) (rc : Z)
        (cursor' : list VALUE_PAIR) :
  fr_radius_decode_pair E fuel packet_ctx data data_len cursor = Some (rc, cursor') ->
  appended cursor cursor'.
Proof.
  intros H. apply decode_pair_sound in H. apply H.
Qed.

Lemma decode_pair_only_appends_witness :
  appended [earlier_pair] [earlier_pair; wimax_pair].
Proof.
  apply (decode_pair_only_appends TestDict.env None 3 (wimax_two, 0) 21
                                  [earlier_pair] 21 [earlier_pair; wimax_pair]).
  vm_compute. reflexivity.
Defined.

(** X6. [fr_radius_decode_pair] reports an error as -1 and nothing else,
    and on success a number of bytes that is at least the length byte of
    the attribute (which is at least 2) and at most [data_len]: a caller
    that walks a packet with it always advances and never leaves the
    packet. *)
Theorem decode_pair_consumption (E : decoder_env)
        (packet_ctx : option fr_radius_ctx_t) (fuel : nat) (data : ptr)
        (data_len : Z) (cursor : list VALUE_PAIR) (rc : Z)
        (cursor' : list VALUE_PAIR) :
  fr_radius_decode_pair E fuel packet_ctx data data_len cursor = Some (rc, cursor') ->
  rc = -1 \/ (2 <= rd data 1 /\ rd data 1 <= rc <= data_len).
Proof.
  intros H. apply decode_pair_sound in H. apply H.
Qed.

Lemma decode_pair_consumption_witness :
  21 = -1 \/ (2 <= rd (wimax_two, 0) 1 /\ rd (wimax_two, 0) 1 <= 21 <= 21).
Proof.
  apply (decode_pair_consumption TestDict.env None 3 (wimax_two, 0) 21
                                 [earlier_pair] 21 [earlier_pair; wimax_pair]).
  vm_compute. reflexivity.
Defined.

(** X7. [fr_radius_decode_pair_value] only appends, and reports -1 or a
    number of bytes from [attr_len] up to [packet_len]. *)
Theorem decode_pair_value_consumption (E : decoder_env)
        (packet_ctx : option fr_radius_ctx_t) (fuel : nat) (parent : fr_dict_attr_t)
        (data : ptr) (attr_len packet_len : Z) (cursor : list VALUE_PAIR)
        (rc : Z) (cursor' : list VALUE_PAIR) :
  fr_radius_decode_pair_value E fuel packet_ctx parent data attr_len packet_len cursor
  = Some (rc, cursor') ->
  appended cursor cursor' /\ (rc = -1 \/ attr_len <= rc <= packet_len).
Proof.
  intros H. apply decode_pair_value_sound in H. exact H.
Qed.

Lemma decode_pair_value_consumption_witness :
  appended [earlier_pair]
           [earlier_pair;
            mk_vp long_ext_child TAG_NONE
                  (PD_box (VB FR_TYPE_OCTETS [0xAA; 0xBB; 0xCC; 0xDD; 0xEE; 0xFF; 0x11]))
                  VT_DATA true]
  /\ (13 = -1 \/ 7 <= 13 <= 14).
Proof.
  apply (decode_pair_value_consumption TestDict.env None 3 long_ext_da
           (long_extended_packet, 2) 7 14 [earlier_pair]).
  vm_compute. reflexivity.
Defined.

(** X8. [decode_vsa], for a vendor that is not handed to the WiMAX
    reassembler, is all or nothing: it returns -1 and leaves the pair list
    as it was, or it returns [attr_len], the whole attribute, with the
    pairs of the sub-attributes appended: under the vendor of the
    dictionary, or under an unknown vendor with the format 1,1, every
    sub-attribute of the data after the vendor id has decoded, and the
    pairs they gave follow the pairs that were there. *)
Theorem decode_vsa_whole_attribute (E : decoder_env) (rec : decoder)
        (parent : fr_dict_attr_t) (data : ptr) (attr_len packet_len : Z)
        (cursor : list VALUE_PAIR) (rc : Z) (cursor' : list VALUE_PAIR) :
  ntohl_at data <> VENDORPEC_WIMAX ->
  attr_len <= SIZE_MAX ->
  decode_vsa E rec parent data attr_len packet_len cursor = Some (rc, cursor') ->
  (rc = -1 /\ cursor' = cursor)
  \/ (rc = attr_len /\ 5 <= attr_len <= packet_len /\ appended cursor cursor'
      /\ exists vendor_da dv head,
           ((fr_dict_attr_child_by_num E parent (ntohl_at data) = Some vendor_da
             /\ fr_dict_vendor_by_num E (ntohl_at data) = Some dv)
            \/ (fr_dict_attr_child_by_num E parent (ntohl_at data) = None
                /\ fr_dict_unknown_vendor_afrom_num E parent (ntohl_at data)
                   = Some vendor_da
                /\ dv = mk_dv (ntohl_at data) 1 1 0))
           /\ cursor' = cursor ++ head
           /\ vsa_walk E rec vendor_da dv (padd data 4) (attr_len - 4) 4 []
                       attr_len head).
Proof.
  intros Hv Hmax H. unfold decode_vsa in H.
  destruct (negb (fr_type_eqb (da_type parent) FR_TYPE_VSA));
    [inversion H; left; split; reflexivity |].
  destruct (Z.gtb_spec attr_len packet_len); [inversion H; left; split; reflexivity |].
  destruct (Z.ltb_spec attr_len 5); [inversion H; left; split; reflexivity |].
  destruct (negb (rd data 0 =? 0)); [inversion H; left; split; reflexivity |].
  assert (Hloop : forall vendor_da dv,
             match fr_radius_decode_tlv_ok (padd data 4) (attr_len - 4)
                                           (dv_type dv) (dv_length dv) with
             | None => None
             | Some ok =>
                 if ok <? 0 then Some (-1, cursor)
                 else create_attrs E rec vendor_da dv data attr_len cursor
             end = Some (rc, cursor') ->
             (rc = -1 /\ cursor' = cursor)
             \/ (rc = attr_len /\ appended cursor cursor'
                 /\ exists head,
                      cursor' = cursor ++ head
                      /\ vsa_walk E rec vendor_da dv (padd data 4) (attr_len - 4) 4 []
                                  attr_len head)).
  { intros vendor_da dv Hc.
    destruct (fr_radius_decode_tlv_ok (padd data 4) (attr_len - 4)
                                      (dv_type dv) (dv_length dv)) as [ok |] eqn:Hok;
      [| discriminate].
    destruct (Z.ltb_spec ok 0); [inversion Hc; left; split; reflexivity |].
    assert (ok = 0).
    { unfold fr_radius_decode_tlv_ok in Hok.
      destruct ((dv_length dv >? 2) || (dv_type dv =? 0) || (dv_type dv >? 4));
        [inversion Hok; lia |].
      destruct (tlv_ok_loop_result _ _ _ _ _ _ _ Hok); lia. }
    subst ok.
    assert (Hlen : 4 <= attr_len <= SIZE_MAX) by lia.
    destruct (create_attrs_sound E rec _ _ _ _ _ _ _ Hok Hlen Hc)
      as [[-> ->] | [Hrc Happ]]; [left; split; reflexivity |].
    destruct (create_attrs_outcome E rec _ _ _ _ _ _ _ Hc)
      as [[Hneg _] | [_ (head & Hcur & Hwalk)]]; [lia |].
    right. split; [exact Hrc |]. split; [exact Happ |].
    exists head. split; [exact Hcur |]. rewrite Hrc in Hwalk. exact Hwalk. }
  destruct (fr_dict_attr_child_by_num E parent (ntohl_at data)) as [vendor_da |].
  - destruct (fr_dict_vendor_by_num E (ntohl_at data)) as [dv |];
      [| inversion H; left; split; reflexivity].
    destruct (Z.eqb_spec (ntohl_at data) VENDORPEC_WIMAX); [contradiction |].
    cbn [andb] in H.
    destruct (Hloop vendor_da dv H) as [Hf | (Hrc & Happ & head & Hcur & Hwalk)];
      [left; exact Hf |].
    right. split; [exact Hrc |]. split; [lia |]. split; [exact Happ |].
    exists vendor_da, dv, head. split; [left; split; reflexivity |].
    split; [exact Hcur | exact Hwalk].
  - destruct (fr_radius_decode_tlv_ok (padd data 4) (attr_len - 4) 1 1) as [ok |] eqn:Hok;
      [| discriminate].
    destruct (Z.ltb_spec ok 0); [inversion H; left; split; reflexivity |].
    destruct (fr_dict_unknown_vendor_afrom_num E parent (ntohl_at data)) as [vendor_da |];
      [| inversion H; left; split; reflexivity].
    destruct (Hloop vendor_da (mk_dv (ntohl_at data) 1 1 0))
      as [Hf | (Hrc & Happ & head & Hcur & Hwalk)].
    { cbn [dv_type dv_length]. rewrite Hok.
      destruct (Z.ltb_spec ok 0); [lia | exact H]. }
    { left; exact Hf. }
    right. split; [exact Hrc |]. split; [lia |]. split; [exact Happ |].
    exists vendor_da, (mk_dv (ntohl_at data) 1 1 0), head.
    split; [right; split; [reflexivity | split; reflexivity] |].
    split; [exact Hcur | exact Hwalk].
Qed.

Lemma decode_vsa_whole_attribute_witness :
  (10 = -1 /\ [earlier_pair; cisco_pair] = [earlier_pair])
  \/ (10 = 10 /\ 5 <= 10 <= 10 /\ appended [earlier_pair] [earlier_pair; cisco_pair]
      /\ exists vendor_da dv head,
           ((fr_dict_attr_child_by_num TestDict.env vsa_da (ntohl_at (vsa_cisco, 0))
             = Some vendor_da
             /\ fr_dict_vendor_by_num TestDict.env (ntohl_at (vsa_cisco, 0)) = Some dv)
            \/ (fr_dict_attr_child_by_num TestDict.env vsa_da (ntohl_at (vsa_cisco, 0))
                = None
                /\ fr_dict_unknown_vendor_afrom_num TestDict.env vsa_da
                     (ntohl_at (vsa_cisco, 0)) = Some vendor_da
                /\ dv = mk_dv (ntohl_at (vsa_cisco, 0)) 1 1 0))
           /\ [earlier_pair; cisco_pair] = [earlier_pair] ++ head
           /\ vsa_walk TestDict.env (fr_radius_decode_pair_value TestDict.env 3 None)
                       vendor_da dv (padd (vsa_cisco, 0) 4) (10 - 4) 4 [] 10 head).
Proof.
  apply (decode_vsa_whole_attribute TestDict.env
           (fr_radius_decode_pair_value TestDict.env 3 None)
           vsa_da (vsa_cisco, 0) 10 10 [earlier_pair]).
  - vm_compute. discriminate.
  - vm_compute. discriminate.
  - vm_compute. reflexivity.
Defined.

(* ================================================================== *)
(** * decode_concat in full *)

Lemma is_bytes_get (l : list Z) (i : Z) : is_bytes l = true -> 0 <= Buf.get l i < 256.
Proof.
  intros H. unfold Buf.get. destruct (i <? 0); [lia |].
  unfold is_bytes in H. rewrite forallb_forall in H.
  destruct (nth_in_or_default (Z.to_nat i) l 0) as [Hin | ->]; [| lia].
  apply H in Hin. lia.
Qed.

Lemma get_firstn (l : list Z) (n : nat) (j : Z) :
  j < Z.of_nat n -> Buf.get (firstn n l) j = Buf.get l j.
Proof.
  intros Hj. unfold Buf.get. destruct (Z.ltb_spec j 0); [reflexivity |].
  rewrite nth_firstn. destruct (Nat.ltb_spec (Z.to_nat j) n); [reflexivity | lia].
Qed.

Lemma get_skipn (l : list Z) (n : nat) (j : Z) :
  0 <= j -> Buf.get (skipn n l) j = Buf.get l (Z.of_nat n + j).
Proof.
  intros Hj. rewrite !get_nth by lia. rewrite nth_skipn. f_equal. lia.
Qed.

Lemma write_length (dst : list Z) (off : Z) (src : list Z) :
  length (Buf.write dst off src) = length dst.
Proof.
  unfold Buf.write.
  destruct (Z.leb_spec 0 off); cbn [andb]; [| reflexivity].
  destruct (Z.leb_spec (off + Z.of_nat (length src)) (Z.of_nat (length dst)));
    [| reflexivity].
  rewrite !length_app, length_firstn, length_skipn. lia.
Qed.

(** A copy into a buffer changes the bytes it covers and no others. *)
Lemma get_write (dst : list Z) (off : Z) (src : list Z) (j : Z) :
  0 <= off -> off + Z.of_nat (length src) <= Z.of_nat (length dst) ->
  Buf.get (Buf.write dst off src) j
  = if (off <=? j) && (j <? off + Z.of_nat (length src))
    then Buf.get src (j - off) else Buf.get dst j.
Proof.
  intros Hoff Hfit. unfold Buf.write.
  destruct (Z.leb_spec 0 off); [| lia].
  destruct (Z.leb_spec (off + Z.of_nat (length src)) (Z.of_nat (length dst))); [| lia].
  cbn [andb].
  assert (Hpre : Z.of_nat (length (firstn (Z.to_nat off) dst)) = off)
    by (rewrite length_firstn; lia).
  destruct (Z.leb_spec off j); cbn [andb].
  - rewrite get_app_r by lia. rewrite Hpre.
    destruct (Z.ltb_spec j (off + Z.of_nat (length src))).
    + apply get_app_l. lia.
    + rewrite get_app_r by lia. rewrite get_skipn by lia. f_equal. lia.
  - destruct (Z_lt_le_dec j 0).
    + unfold Buf.get. destruct (Z.ltb_spec j 0); [reflexivity | lia].
    + rewrite get_app_l by lia. apply get_firstn. lia.
Qed.

(** Two buffers of the same length with the same bytes are equal. *)
Lemma get_ext (a b : list Z) :
  length a = length b -> (forall j, 0 <= j -> Buf.get a j = Buf.get b j) -> a = b.
Proof.
  intros Hlen Hget. apply (nth_ext a b 0 0 Hlen).
  intros n Hn. specialize (Hget (Z.of_nat n) ltac:(lia)).
  rewrite !get_nth in Hget by lia. rewrite Nat2Z.id in Hget. exact Hget.
Qed.

(** The two loops of [decode_concat] on a run of attributes: the first
    finds the run, the second copies the values of its attributes one
    after the other. *)
Lemma concat_copy_run (buf : list Z) (fuel1 : nat) :
  is_bytes buf = true ->
  forall (p end_ attr total t e : Z) (fuel : nat) (dst : list Z) (poff : Z)
         (dst' : list Z) (q : Z),
    0 <= p -> p < end_ -> end_ <= Z.of_nat (length buf) ->
    Buf.get buf p = attr ->
    concat_scan fuel1 (buf, p) end_ attr total = Scanned (t, e) ->
    concat_copy fuel (buf, p) e dst poff = Some (dst', q) ->
    0 <= poff -> poff + (t - total) <= Z.of_nat (length dst) ->
    exists v,
      concat_run buf attr p e v
      /\ Z.of_nat (length v) = t - total
      /\ length dst' = length dst
      /\ (forall j, Buf.get dst' j
                    = if (poff <=? j) && (j <? poff + (t - total))
                      then Buf.get v (j - poff) else Buf.get dst j)
      /\ (e = end_ \/ Buf.get buf e <> attr).
Proof.
  intros Hbytes.
  induction fuel1 as [| fuel1 IH];
    intros p end_ attr total t e fuel dst poff dst' q Hp Hin Hbuf Hattr Hscan Hcopy
           Hpoff Hroom;
    cbn [concat_scan snd] in Hscan;
    (destruct (Z.ltb_spec p end_); [| lia]); [discriminate |].
  assert (Hrd : rd (buf, p) 1 = Buf.get buf (p + 1)) by reflexivity.
  rewrite Hrd in Hscan.
  pose proof (is_bytes_get buf (p + 1) Hbytes) as Hbyte.
  set (len := Buf.get buf (p + 1)) in *.
  destruct (Z.leb_spec len 2); [discriminate |].
  destruct (Z.gtb_spec (p + len) end_); [discriminate |].
  unfold padd in Hscan. cbn [fst snd] in Hscan.
  assert (Hchunk : Z.of_nat (length (Buf.sub buf (p + 2) (len - 2))) = len - 2)
    by (apply sub_length; lia).
  assert (Hmono : total + (len - 2) <= t /\ p + len <= e).
  { destruct (p + len =? end_); [inversion Hscan; lia |].
    destruct (negb (rd (buf, p + len) 0 =? attr)); [inversion Hscan; lia |].
    pose proof (concat_scan_total _ _ _ _ _ _ _ Hscan) as [Ht _].
    apply concat_scan_range in Hscan; cbn [snd] in *; lia. }
  apply concat_copy_step in Hcopy; [| cbn [snd]; lia].
  destruct Hcopy as (fuel' & _ & Hcopy).
  rewrite Hrd in Hcopy. fold len in Hcopy.
  unfold padd in Hcopy. cbn [fst snd] in Hcopy.
  assert (Hcpy : memcpy_bounded dst poff (buf, p + 2) (to_size_t (len - 2)) e
                 = Buf.write dst poff (Buf.sub buf (p + 2) (len - 2))).
  { unfold memcpy_bounded, to_size_t. rewrite Z.mod_small by lia. cbn [snd].
    destruct (Z.leb_spec (len - 2) 65535); [| lia].
    destruct (Z.ltb_spec (p + 2) e); [| lia].
    destruct (Z.leb_spec (p + 2 + (len - 2)) e); [| lia].
    reflexivity. }
  rewrite Hcpy in Hcopy.
  assert (Hone : concat_copy fuel' (buf, p + len) (p + len)
                               (Buf.write dst poff (Buf.sub buf (p + 2) (len - 2)))
                               (poff + (len - 2)) = Some (dst', q) ->
                 exists v,
                   concat_run buf attr p (p + len) v
                   /\ Z.of_nat (length v) = total + (len - 2) - total
                   /\ length dst' = length dst
                   /\ (forall j, Buf.get dst' j
                                 = if (poff <=? j)
                                      && (j <? poff + (total + (len - 2) - total))
                                   then Buf.get v (j - poff) else Buf.get dst j)).
  { intros Hc.
    apply concat_copy_stop in Hc; [| cbn [snd]; lia]. destruct Hc as [_ ->].
    exists (Buf.sub buf (p + 2) (len - 2) ++ []).
    split.
    { apply run_attr; fold len; try assumption; try lia. apply run_end. }
    rewrite app_nil_r. split; [lia |]. split; [apply write_length |].
    intros j. rewrite get_write by lia. rewrite Hchunk.
    replace (total + (len - 2) - total) with (len - 2) by lia. reflexivity. }
  destruct (Z.eqb_spec (p + len) end_) as [Hlast | Hmore].
  { assert (t = total + (len - 2) /\ e = p + len) as [-> ->]
      by (split; congruence).
    destruct (Hone Hcopy) as (v & Hv1 & Hv2 & Hv3 & Hv4).
    exists v. repeat split; try assumption. left. exact Hlast. }
  destruct (Z.eqb_spec (rd (buf, p + len) 0) attr) as [Hsame | Hdiff]; cbn [negb] in Hscan.
  2:{ assert (t = total + (len - 2) /\ e = p + len) as [-> ->]
        by (split; congruence).
      destruct (Hone Hcopy) as (v & Hv1 & Hv2 & Hv3 & Hv4).
      exists v. repeat split; try assumption. right.
      unfold rd in Hdiff. cbn [fst snd] in Hdiff.
      rewrite Z.add_0_r in Hdiff. exact Hdiff. }
  assert (Hnext : Buf.get buf (p + len) = attr).
  { unfold rd in Hsame. cbn [fst snd] in Hsame. rewrite Z.add_0_r in Hsame. exact Hsame. }
  destruct (IH (p + len) end_ attr (total + (len - 2)) t e fuel'
               (Buf.write dst poff (Buf.sub buf (p + 2) (len - 2)))
               (poff + (len - 2)) dst' q)
    as (v1 & Hrun & Hlen1 & Hlen' & Hget & Hstop);
    try assumption; try lia.
  { rewrite write_length. lia. }
  exists (Buf.sub buf (p + 2) (len - 2) ++ v1).
  split; [apply run_attr; try assumption; fold len; lia |].
  split; [rewrite length_app; lia |].
  split; [rewrite Hlen', write_length; reflexivity |].
  split; [| exact Hstop].
  intros j. rewrite Hget. rewrite get_write by lia. rewrite Hchunk.
  destruct (Z.leb_spec (poff + (len - 2)) j);
    destruct (Z.ltb_spec j (poff + (len - 2) + (t - (total + (len - 2)))));
    destruct (Z.leb_spec poff j);
    destruct (Z.ltb_spec j (poff + (len - 2)));
    destruct (Z.ltb_spec j (poff + (t - total)));
    cbn [andb]; try lia; try reflexivity.
  - rewrite get_app_r by lia. f_equal. lia.
  - rewrite get_app_l by lia. reflexivity.
Qed.

(** X9. On a packet of bytes, a call of [decode_concat] that succeeds has
    found a run of attributes of the type of the first, each with a
    length of more than 2 that fits; the run ends at the end of the packet
    or before an attribute of another type; the call returns the bytes of
    the run and appends one tainted pair of kind octets whose value is the
    concatenation of the values of the attributes. *)
Theorem decode_concat_value (E : decoder_env) (parent : fr_dict_attr_t)
        (buf : list Z) (d packet_len : Z) (cursor : list VALUE_PAIR)
        (rc : Z) (cursor' : list VALUE_PAIR) :
  is_bytes buf = true ->
  0 <= d -> 0 < packet_len -> d + packet_len <= Z.of_nat (length buf) ->
  decode_concat E parent (buf, d) packet_len cursor = Some (rc, cursor') ->
  0 <= rc ->
  exists value,
    concat_run buf (Buf.get buf d) d (d + rc) value
    /\ cursor' = cursor ++ [mk_vp parent TAG_NONE (PD_box (VB FR_TYPE_OCTETS value))
                                  VT_DATA true]
    /\ (rc = packet_len \/ Buf.get buf (d + rc) <> Buf.get buf d).
Proof.
  intros Hbytes Hd Hlen Hbuf H Hrc. unfold decode_concat in H. cbn [snd] in H.
  assert (Hattr : rd (buf, d) 0 = Buf.get buf d)
    by (unfold rd; cbn [fst snd]; f_equal; lia).
  rewrite Hattr in H.
  destruct (concat_scan (Z.to_nat packet_len) (buf, d) (d + packet_len) (Buf.get buf d) 0)
    as [[total end_] | |] eqn:Hscan; [| inversion H; lia | discriminate].
  pose proof (concat_scan_total _ _ _ _ _ _ _ Hscan) as [_ Htotal].
  specialize (Htotal ltac:(cbn [snd]; lia)).
  destruct (Z.eqb_spec total 0); [lia |].
  destruct (concat_copy (Z.to_nat packet_len) (buf, d) end_ (fresh E total) 0)
    as [[p q] |] eqn:Hcopy; [| discriminate].
  pose proof (concat_copy_end _ _ _ _ _ _ _ _ _ _ _ _ Hscan Hcopy) as ->.
  destruct (concat_copy_run buf (Z.to_nat packet_len) Hbytes d (d + packet_len)
                            (Buf.get buf d) 0 total end_ (Z.to_nat packet_len)
                            (fresh E total) 0 p end_ Hd)
    as (v & Hrun & Hlenv & Hlenp & Hget & Hstop);
    [lia | exact Hbuf | reflexivity | exact Hscan | exact Hcopy | lia
     | rewrite fresh_length by lia; lia |].
  assert (Hp : p = v).
  { apply get_ext.
    - rewrite Hlenp. apply Nat2Z.inj. rewrite fresh_length by lia. lia.
    - intros j Hj. rewrite Hget.
      destruct (Z.leb_spec 0 j); [| lia].
      destruct (Z.ltb_spec j (0 + (total - 0))); cbn [andb].
      + f_equal. lia.
      + rewrite !get_nth by lia.
        rewrite !nth_overflow; [reflexivity | lia |].
        apply Nat2Z.inj_le. rewrite fresh_length by lia. lia. }
  inversion H; subst. exists v.
  replace (d + (end_ - d)) with end_ by lia.
  split; [exact Hrun |]. split; [reflexivity |].
  destruct Hstop as [-> | Hne]; [left; lia | right; exact Hne].
Qed.

Lemma decode_concat_value_witness :
  exists value,
    concat_run concat_packet (Buf.get concat_packet 0) 0 (0 + 11) value
    /\ [earlier_pair;
        mk_vp TestDict.root TAG_NONE (PD_box (VB FR_TYPE_OCTETS [97; 98; 99; 100; 101]))
              VT_DATA true]
       = [earlier_pair]
           ++ [mk_vp TestDict.root TAG_NONE (PD_box (VB FR_TYPE_OCTETS value))
                     VT_DATA true]
    /\ (11 = 14 \/ Buf.get concat_packet (0 + 11) <> Buf.get concat_packet 0).
Proof.
  apply (decode_concat_value TestDict.env TestDict.root concat_packet 0 14
                             [earlier_pair] 11).
  - reflexivity.
  - lia.
  - lia.
  - vm_compute. discriminate.
  - vm_compute. reflexivity.
  - lia.
Defined.

(* ================================================================== *)
(** * Single attributes *)

(** X10. A plain attribute, a string or octets without tag, without
    obfuscation and not of the "concat" kind, whose length is in the range
    of its kind and whose bytes the value primitive accepts, gives one
    pair with the bytes after the header as its value; the call returns
    the length byte of the attribute, whatever follows in the buffer. *)
Theorem decode_pair_plain_attribute (E : decoder_env) (fuel : nat)
        (packet_ctx : option fr_radius_ctx_t) (data : ptr) (data_len : Z)
        (cursor : list VALUE_PAIR) (da : fr_dict_attr_t) (v : value_box) :
  2 < rd data 1 <= data_len -> rd data 1 < 256 ->
  child_or_unknown E (fr_dict_root E) 0 (rd data 0) = Some da ->
  concat (da_flags da) = false -> has_tag (da_flags da) = false ->
  da_type da = FR_TYPE_STRING \/ da_type da = FR_TYPE_OCTETS ->
  packet_ctx = None \/ subtype (da_flags da) = FLAG_ENCRYPT_NONE ->
  fst (fr_radius_attr_sizes E (da_type da)) <= rd data 1 - 2
  <= snd (fr_radius_attr_sizes E (da_type da)) ->
  fr_value_box_from_network E (da_type da) da (bytes (padd data 2) (rd data 1 - 2))
  = Some v ->
  fr_radius_decode_pair E (S (S fuel)) packet_ctx data data_len cursor
  = Some (rd data 1, cursor ++ [mk_vp da TAG_NONE (PD_box v) VT_DATA true]).
Proof.
  intros Hlen Hbyte Hda Hconcat Htag Hty Hplain Hsize Hbox.
  unfold fr_radius_decode_pair.
  destruct (Z.ltb_spec data_len 2); [lia |].
  destruct (Z.ltb_spec (rd data 1) 2); [lia |].
  destruct (Z.gtb_spec (rd data 1) data_len); [lia |].
  cbn [orb]. rewrite Hda, Hconcat.
  destruct (Z.eqb_spec data_len 2); [lia |].
  rewrite (pair_value_bytes E fuel packet_ctx da (padd data 2) (rd data 1 - 2)
                            (data_len - 2) cursor v Htag Hty Hplain)
    by (try assumption; lia).
  destruct (Z.ltb_spec (rd data 1 - 2) 0); [lia |].
  do 2 f_equal. lia.
Qed.

Lemma decode_pair_plain_attribute_witness :
  fr_radius_decode_pair TestDict.env 2 None ([1; 3; 117; 4; 6; 10; 0; 0; 1], 0) 9 []
  = Some (rd ([1; 3; 117; 4; 6; 10; 0; 0; 1], 0) 1, [] ++ [earlier_pair]).
Proof.
  apply (decode_pair_plain_attribute TestDict.env 0 None
           ([1; 3; 117; 4; 6; 10; 0; 0; 1], 0) 9 []
           (mk_da 1 FR_TYPE_STRING TestDict.plain (Some TestDict.root))
           (VB FR_TYPE_STRING [117])).
  - vm_compute. split; [reflexivity | discriminate].
  - reflexivity.
  - reflexivity.
  - reflexivity.
  - reflexivity.
  - left. reflexivity.
  - left. reflexivity.
  - vm_compute. split; discriminate.
  - reflexivity.
Defined.

(** X11. An attribute whose length is outside the range of its kind is
    not an error: the call re-writes the descriptor to the unknown
    attribute of the same number, and appends one pair without tag that
    holds all the bytes of the value as octets. *)
Theorem raw_on_bad_length (E : decoder_env) (fuel : nat)
        (packet_ctx : option fr_radius_ctx_t) (parent parent' : fr_dict_attr_t)
        (data : ptr) (attr_len packet_len : Z) (cursor : list VALUE_PAIR)
        (v : value_box) :
  has_tag (da_flags parent) = false ->
  packet_ctx = None \/ subtype (da_flags parent) = FLAG_ENCRYPT_NONE ->
  0 < attr_len <= packet_len -> attr_len <= 128 * 1024 ->
  attr_len < fst (fr_radius_attr_sizes E (da_type parent))
  \/ snd (fr_radius_attr_sizes E (da_type parent)) < attr_len ->
  raw_parent E parent = Some parent' ->
  da_type parent' = FR_TYPE_OCTETS ->
  fr_value_box_from_network E FR_TYPE_OCTETS parent' (bytes data attr_len) = Some v ->
  fr_radius_decode_pair_value E (S (S fuel)) packet_ctx parent data attr_len packet_len
                              cursor
  = Some (attr_len, cursor ++ [mk_vp parent' TAG_NONE (PD_box v) VT_DATA true]).
Proof.
  intros Htag Hplain Hlen Hmax Hsize Hraw Hty Hbox.
  rewrite decode_pair_value_step.
  destruct (Z.gtb_spec attr_len packet_len); [lia |].
  destruct (Z.gtb_spec attr_len (128 * 1024)); [lia |].
  destruct (Z.eqb_spec attr_len 0); [lia |].
  cbn [orb]. rewrite tag_stage_untagged, decrypt_stage_none by assumption.
  unfold kind_stage. cbn [ds_data_len ds_tag cur_p ds_in_buffer].
  destruct (fr_radius_attr_sizes E (da_type parent)) as [min max]. cbn [fst snd] in Hsize.
  assert (Hemit : raw_emit E (S fuel) parent data attr_len min attr_len cursor
                  = Some (attr_len,
                          cursor ++ [mk_vp parent' TAG_NONE (PD_box v) VT_DATA true])).
  { unfold raw_emit. rewrite Hraw. apply emit_bytes; [right; exact Hty |].
    rewrite Hty. exact Hbox. }
  destruct (Z.ltb_spec attr_len min); [exact Hemit |].
  destruct (Z.gtb_spec attr_len max); [exact Hemit | lia].
Qed.

Lemma raw_on_bad_length_witness :
  fr_radius_decode_pair_value TestDict.env 2 None nas_ip_da ([10; 0; 1], 0) 3 3 []
  = Some (3, [] ++ [mk_vp nas_ip_raw_da TAG_NONE
                          (PD_box (VB FR_TYPE_OCTETS [10; 0; 1])) VT_DATA true]).
Proof.
  apply (raw_on_bad_length TestDict.env 0 None nas_ip_da nas_ip_raw_da
                           ([10; 0; 1], 0) 3 3 [] (VB FR_TYPE_OCTETS [10; 0; 1])).
  - reflexivity.
  - left. reflexivity.
  - lia.
  - lia.
  - left. vm_compute. reflexivity.
  - reflexivity.
  - reflexivity.
  - reflexivity.
Defined.

(** The bytes that the tag branch leaves for a tagged integer: the four
    bytes of the value with the first, the tag, set to zero. *)
Lemma tagged_integer_bytes (E : decoder_env) (data : ptr) :
  0 <= snd data -> snd data + 4 <= Z.of_nat (length (fst data)) ->
  Buf.get (Buf.write (fresh E sizeof_buffer) 0 (bytes data 4)) 0 = rd data 0
  /\ Buf.sub (Buf.set (Buf.write (fresh E sizeof_buffer) 0 (bytes data 4)) 0 0) 0 4
     = 0 :: bytes (padd data 1) 3.
Proof.
  intros Hd Hbuf.
  assert (Hlen : Z.of_nat (length (bytes data 4)) = 4) by (apply bytes_length; lia).
  assert (Hfresh : Z.of_nat (length (fresh E sizeof_buffer)) = 256)
    by (apply fresh_length; unfold sizeof_buffer; lia).
  assert (Hget : forall j, 0 <= j < 4 ->
                           Buf.get (Buf.write (fresh E sizeof_buffer) 0 (bytes data 4)) j
                           = rd data j).
  { intros j Hj. rewrite get_write by lia. rewrite Hlen.
    destruct (Z.leb_spec 0 j); [| lia]. destruct (Z.ltb_spec j (0 + 4)); [| lia].
    cbn [andb]. unfold bytes. rewrite sub_get by lia. unfold rd. f_equal. lia. }
  split; [apply Hget; lia |].
  assert (Hrest : Z.of_nat (length (bytes (padd data 1) 3)) = 3)
    by (apply bytes_length; unfold padd; cbn [fst snd]; lia).
  apply get_ext.
  - apply Nat2Z.inj. rewrite sub_length; cbn [length];
      rewrite ?set_length, ?write_length; lia.
  - intros j Hj.
    destruct (Z_lt_le_dec j 4) as [Hin | Hout].
    + rewrite sub_get by lia. cbn [Z.add].
      destruct (Z.eqb_spec j 0) as [-> | Hj0].
      * rewrite get_set_same by (rewrite write_length; lia). reflexivity.
      * rewrite get_set_other by lia. rewrite Hget by lia.
        rewrite get_cons by lia. unfold bytes, padd. cbn [fst snd].
        rewrite sub_get by lia. unfold rd. f_equal. lia.
    + rewrite !get_nth by lia. rewrite !nth_overflow; [reflexivity | |].
      * cbn [length]. lia.
      * apply Nat2Z.inj_le. rewrite sub_length; rewrite ?set_length, ?write_length; lia.
Qed.

(** X12. A tagged 32-bit integer of four bytes whose first byte is below
    0x20: the first byte is the tag of the pair, and the value is decoded
    from the four bytes with the first set to zero.  With a first byte of
    0x20 or more the pair has no tag and the value is decoded from the
    four bytes as they are.  (The attribute is not obfuscated.) *)
Theorem tagged_integer (E : decoder_env) (fuel : nat)
        (packet_ctx : option fr_radius_ctx_t) (parent : fr_dict_attr_t)
        (data : ptr) (packet_len : Z) (cursor : list VALUE_PAIR) (v : value_box) :
  has_tag (da_flags parent) = true -> da_type parent = FR_TYPE_UINT32 ->
  subtype (da_flags parent) = FLAG_ENCRYPT_NONE ->
  fr_radius_attr_sizes E FR_TYPE_UINT32 = (4, 4) ->
  4 <= packet_len ->
  0 <= snd data -> snd data + 4 <= Z.of_nat (length (fst data)) ->
  0 <= rd data 0 < 256 ->
  fr_value_box_from_network E FR_TYPE_UINT32 parent
    (if rd data 0 <? 0x20 then 0 :: bytes (padd data 1) 3 else bytes data 4) = Some v ->
  fr_radius_decode_pair_value E (S (S fuel)) packet_ctx parent data 4 packet_len cursor
  = Some (4, cursor ++ [mk_vp parent (if rd data 0 <? 0x20 then rd data 0 else TAG_NONE)
                              (PD_box v) VT_DATA true]).
Proof.
  intros Htag Hty Hplain Hsizes Hlen Hd Hbuf Hbyte Hbox.
  rewrite decode_pair_value_step.
  destruct (Z.gtb_spec 4 packet_len); [lia |].
  cbn [orb Z.gtb Z.eqb Z.compare Z.mul Pos.mul Pos.compare Pos.compare_cont].
  destruct (tagged_integer_bytes E data Hd Hbuf) as [Hfirst Hbytes].
  assert (Hstage : tag_stage E parent data 4
                   = Some (if rd data 0 <? 0x20
                           then mk_dstate (rd data 0) true
                                  (Buf.set (Buf.write (fresh E sizeof_buffer) 0
                                                      (bytes data 4)) 0 0) 4
                           else mk_dstate TAG_NONE false (fresh E sizeof_buffer) 4)).
  { unfold tag_stage. rewrite Htag, Hty. cbn [andb fr_type_eqb].
    change (4 >? 1) with true. cbn [andb].
    destruct (Z.ltb_spec (rd data 0) 32) as [Hlow | Hhigh]; cbn [orb].
    - change (4 >=? sizeof_buffer) with false. cbv iota.
      rewrite Hfirst. unfold to_int8.
      destruct (Z.ltb_spec (rd data 0) 128); [reflexivity | lia].
    - rewrite Hplain. reflexivity. }
  rewrite Hstage.
  rewrite decrypt_stage_none by (right; exact Hplain).
  unfold kind_stage. rewrite Hty, Hsizes.
  destruct (Z.ltb_spec (rd data 0) 32) as [Hlow | Hhigh];
    cbn [ds_data_len ds_tag cur_p ds_in_buffer ds_buffer];
    change (4 <? 4) with false; change (4 >? 4) with false; cbv iota;
    cbn [emit]; rewrite Hty; unfold bytes at 1; cbn [fst snd].
  - rewrite Hbytes, Hbox. reflexivity.
  - unfold bytes in Hbox. rewrite Hbox. reflexivity.
Qed.

Lemma tagged_integer_witness :
  fr_radius_decode_pair_value TestDict.env 2 None tunnel_type_da ([1; 0; 0; 3], 0) 4 4 []
  = Some (4, [] ++ [mk_vp tunnel_type_da
                          (if rd ([1; 0; 0; 3], 0) 0 <? 0x20
                           then rd ([1; 0; 0; 3], 0) 0 else TAG_NONE)
                          (PD_box (VB FR_TYPE_UINT32 [0; 0; 0; 3])) VT_DATA true]).
Proof.
  apply (tagged_integer TestDict.env 0 None tunnel_type_da ([1; 0; 0; 3], 0) 4 []
                        (VB FR_TYPE_UINT32 [0; 0; 0; 3])).
  - reflexivity.
  - reflexivity.
  - reflexivity.
  - reflexivity.
  - lia.
  - cbn. lia.
  - cbn. lia.
  - vm_compute. split; [discriminate | reflexivity].
  - reflexivity.
Defined.

(** ** User-Password as an attribute *)

(** [while ((data_len > 0) && (buffer[data_len - 1] == '\0')) data_len--;]
    stops after the last byte that is not NUL. *)
Lemma trim_zeros_spec (buffer : list Z) (n : nat) :
  (trim_zeros buffer n <= n)%nat
  /\ ((0 < trim_zeros buffer n)%nat ->
      Buf.get buffer (Z.of_nat (trim_zeros buffer n) - 1) <> 0)
  /\ (forall i, Z.of_nat (trim_zeros buffer n) <= i < Z.of_nat n -> Buf.get buffer i = 0).
Proof.
  induction n as [| n (IHle & IHlast & IHzero)]; cbn [trim_zeros].
  - split; [lia |]. split; intros; lia.
  - destruct (Z.eqb_spec (Buf.get buffer (Z.of_nat n)) 0) as [Hz | Hnz].
    + split; [lia |]. split; [exact IHlast |].
      intros i Hi. destruct (Z.eqb_spec i (Z.of_nat n)) as [-> | Hne]; [exact Hz |].
      apply IHzero. lia.
    + split; [lia |]. split.
      * intros _. replace (Z.of_nat (S n) - 1) with (Z.of_nat n) by lia. exact Hnz.
      * intros; lia.
Qed.

Lemma get_map_range (f : Z -> Z) (k i : Z) :
  0 <= i < k -> Buf.get (map f (Buf.range 0 k)) i = f i.
Proof.
  intros Hi. rewrite get_nth by lia. unfold Buf.range. rewrite map_map.
  rewrite nth_indep with (d' := f (0 + Z.of_nat (Z.to_nat k)))
    by (rewrite length_map, length_seq; lia).
  rewrite (map_nth (fun x => f (0 + Z.of_nat x))).
  rewrite seq_nth by lia. f_equal. lia.
Qed.

Lemma map_range_length (f : Z -> Z) (k : Z) :
  0 <= k -> Z.of_nat (length (map f (Buf.range 0 k))) = k.
Proof.
  intros Hk. unfold Buf.range. rewrite !length_map, length_seq. lia.
Qed.

(** A slice depends on the bytes it covers only. *)
Lemma sub_agree (a b : list Z) (off n : Z) :
  0 <= off -> 0 <= n ->
  off + n <= Z.of_nat (length a) -> off + n <= Z.of_nat (length b) ->
  (forall j, off <= j < off + n -> Buf.get a j = Buf.get b j) ->
  Buf.sub a off n = Buf.sub b off n.
Proof.
  intros Hoff Hn Ha Hb Hget. apply get_ext.
  - apply Nat2Z.inj. rewrite !sub_length by lia. reflexivity.
  - intros j Hj. destruct (Z_lt_le_dec j n).
    + rewrite !sub_get by lia. apply Hget. lia.
    + rewrite !get_nth by lia. rewrite !nth_overflow; [reflexivity | |];
        apply Nat2Z.inj_le; rewrite sub_length by lia; lia.
Qed.

(** The plaintext of a User-Password depends on the ciphertext up to the
    byte only. *)
Lemma password_plain_byte_agree (md5 : list Z -> list Z) (a b secret vector : list Z)
      (n i : Z) :
  0 <= i < n -> n <= Z.of_nat (length a) -> n <= Z.of_nat (length b) ->
  (forall j, 0 <= j < n -> Buf.get a j = Buf.get b j) ->
  password_plain_byte md5 a secret vector i = password_plain_byte md5 b secret vector i.
Proof.
  intros Hi Ha Hb Hget. unfold password_plain_byte, password_key.
  rewrite Hget by lia. f_equal. f_equal.
  pose proof (Z.div_mod i 16 ltac:(lia)).
  pose proof (Z.mod_pos_bound i 16 ltac:(lia)).
  destruct (Z.eqb_spec (i / 16) 0); [reflexivity |].
  assert (0 <= i / 16) by (apply Z.div_pos; lia).
  do 2 f_equal. apply sub_agree; try lia.
  intros j Hj. apply Hget. lia.
Qed.

(** X14. A User-Password attribute of at most 128 bytes, decoded with the
    secret and the authenticator of the packet: its value is the
    plaintext of RFC 2865 (the value bytes XOR the chained digests)
    without the NUL bytes at its end, whatever the value primitive makes
    of these bytes; the call reports the whole attribute. *)
Theorem user_password_attribute (E : decoder_env) (fuel : nat)
        (ctx : fr_radius_ctx_t) (parent : fr_dict_attr_t) (data : ptr)
        (attr_len packet_len : Z) (cursor : list VALUE_PAIR) :
  has_tag (da_flags parent) = false -> da_type parent = FR_TYPE_STRING ->
  subtype (da_flags parent) = FLAG_ENCRYPT_USER_PASSWORD ->
  flags_length (da_flags parent) = 0 ->
  0 < attr_len <= 128 -> attr_len <= packet_len ->
  0 <= snd data -> snd data + attr_len <= Z.of_nat (length (fst data)) ->
  let plain := password_plain_byte (md5 E) (bytes data attr_len)
                                   (ctx_secret ctx) (ctx_vector ctx) in
  exists k,
    0 <= k <= attr_len
    /\ (0 < k -> plain (k - 1) <> 0)
    /\ (forall i, k <= i < attr_len -> plain i = 0)
    /\ forall v,
        fst (fr_radius_attr_sizes E FR_TYPE_STRING) <= k
        <= snd (fr_radius_attr_sizes E FR_TYPE_STRING) ->
        fr_value_box_from_network E FR_TYPE_STRING parent (map plain (Buf.range 0 k))
        = Some v ->
        fr_radius_decode_pair_value E (S (S fuel)) (Some ctx) parent data
                                    attr_len packet_len cursor
        = Some (attr_len, cursor ++ [mk_vp parent TAG_NONE (PD_box v) VT_DATA true]).
Proof.
  intros Htag Hty Hsub Hflen Hlen Hpk Hd Hbuf plain.
  set (buffer := Buf.write (fresh E sizeof_buffer) 0 (bytes data attr_len)).
  set (out := Buf.set (snd (fr_radius_decode_password (md5 E) buffer attr_len
                              (ctx_secret ctx) (ctx_vector ctx))) 253 0).
  assert (Hvalue : Z.of_nat (length (bytes data attr_len)) = attr_len)
    by (apply bytes_length; lia).
  assert (Hfresh : Z.of_nat (length (fresh E sizeof_buffer)) = 256)
    by (apply fresh_length; unfold sizeof_buffer; lia).
  assert (Hbuffer : Z.of_nat (length buffer) = 256)
    by (unfold buffer; rewrite write_length; exact Hfresh).
  assert (Hcopy : forall j, 0 <= j < attr_len ->
                            Buf.get buffer j = Buf.get (bytes data attr_len) j).
  { intros j Hj. unfold buffer. rewrite get_write by lia. rewrite Hvalue.
    destruct (Z.leb_spec 0 j); [| lia]. destruct (Z.ltb_spec j (0 + attr_len)); [| lia].
    cbn [andb]. f_equal. lia. }
  assert (Hmin : Z.min attr_len 128 = attr_len) by lia.
  destruct (decode_password_out (md5 E) buffer attr_len (ctx_secret ctx) (ctx_vector ctx))
    as [Hplain _]; [lia | lia |].
  rewrite Hmin in Hplain.
  assert (Hout : forall i, 0 <= i < attr_len -> Buf.get out i = plain i).
  { intros i Hi. unfold out. rewrite get_set_other by lia. rewrite Hplain by lia.
    apply password_plain_byte_agree with (n := attr_len); try lia. exact Hcopy. }
  assert (Houtlen : Z.of_nat (length out) = 256).
  { unfold out. rewrite set_length.
    unfold fr_radius_decode_password. cbn [snd]. rewrite set_length.
    destruct (_ =? 0); [exact Hbuffer |].
    match goal with
    | |- Z.of_nat (length (fst (fold_left ?f _ _))) = _ =>
        assert (Hfold : forall xs st, length (fst (fold_left f xs st)) = length (fst st))
    end.
    { induction xs as [| x xs IH]; intros st; cbn [fold_left]; [reflexivity |].
      rewrite IH. destruct st as [pw c]. unfold password_block. cbn [fst].
      destruct (x =? 0); cbn [fst]; apply password_xor_length. }
    rewrite Hfold. exact Hbuffer. }
  destruct (trim_zeros_spec out (Z.to_nat attr_len)) as (Hle & Hlast & Hzero).
  set (k := Z.of_nat (trim_zeros out (Z.to_nat attr_len))) in *.
  exists k. split; [lia |]. split; [| split].
  - intros Hk. rewrite <- Hout by lia. apply Hlast. lia.
  - intros i Hi. rewrite <- Hout by lia. apply Hzero. lia.
  - intros v Hsize Hbox.
    rewrite decode_pair_value_step.
    destruct (Z.gtb_spec attr_len packet_len); [lia |].
    destruct (Z.gtb_spec attr_len (128 * 1024)); [lia |].
    destruct (Z.eqb_spec attr_len 0); [lia |].
    cbn [orb]. rewrite tag_stage_untagged by assumption.
    assert (Hstage : decrypt_stage E (Some ctx) parent data attr_len
                       (mk_dstate TAG_NONE false (fresh E sizeof_buffer) attr_len)
                     = D_ok (mk_dstate TAG_NONE true out k)).
    { unfold decrypt_stage. rewrite Hsub, Hflen.
      cbn [ds_tag ds_data_len ds_in_buffer ds_buffer].
      change (FLAG_ENCRYPT_USER_PASSWORD =? FLAG_ENCRYPT_NONE) with false.
      change (FLAG_ENCRYPT_USER_PASSWORD =? FLAG_ENCRYPT_USER_PASSWORD) with true.
      change (negb (0 =? 0)) with false. cbv iota.
      destruct (Z.gtb_spec attr_len 253); [lia |]. reflexivity. }
    rewrite Hstage.
    apply kind_stage_bytes; [left; exact Hty | |];
      cbn [ds_data_len cur_p ds_in_buffer ds_buffer]; rewrite Hty.
    + exact Hsize.
    + replace (bytes (out, 0) k) with (map plain (Buf.range 0 k)); [exact Hbox |].
      unfold bytes. cbn [fst snd]. apply get_ext.
      * apply Nat2Z.inj. rewrite map_range_length, sub_length by lia. reflexivity.
      * intros j Hj. destruct (Z_lt_le_dec j k).
        -- rewrite get_map_range, sub_get by lia. symmetry. apply Hout. lia.
        -- rewrite !get_nth by lia. rewrite !nth_overflow; [reflexivity | |];
             apply Nat2Z.inj_le; rewrite ?map_range_length, ?sub_length by lia; lia.
Qed.

Lemma user_password_attribute_witness :
  let plain := password_plain_byte (md5 TestDict.env) (bytes (user_password_hello, 0) 16)
                                   (ctx_secret TestDict.test_ctx)
                                   (ctx_vector TestDict.test_ctx) in
  exists k,
    0 <= k <= 16
    /\ (0 < k -> plain (k - 1) <> 0)
    /\ (forall i, k <= i < 16 -> plain i = 0)
    /\ forall v,
        fst (fr_radius_attr_sizes TestDict.env FR_TYPE_STRING) <= k
        <= snd (fr_radius_attr_sizes TestDict.env FR_TYPE_STRING) ->
        fr_value_box_from_network TestDict.env FR_TYPE_STRING user_password_da
                                  (map plain (Buf.range 0 k)) = Some v ->
        fr_radius_decode_pair_value TestDict.env 2 (Some TestDict.test_ctx)
                                    user_password_da (user_password_hello, 0) 16 16 []
        = Some (16, [] ++ [mk_vp user_password_da TAG_NONE (PD_box v) VT_DATA true]).
Proof.
  apply (user_password_attribute TestDict.env 0 TestDict.test_ctx user_password_da
                                 (user_password_hello, 0) 16 16 []).
  - reflexivity.
  - reflexivity.
  - reflexivity.
  - reflexivity.
  - lia.
  - lia.
  - cbn. lia.
  - vm_compute. discriminate.
Defined.

Example user_password_hello_decodes :
  fr_radius_decode_pair_value TestDict.env 2 (Some decode_test_ctx)
                              user_password_da (user_password_hello, 0) 16 16 []
  = Some (16, [mk_vp user_password_da TAG_NONE (PD_box (VB FR_TYPE_STRING hello))
                     VT_DATA true]).
Proof. vm_compute. reflexivity. Qed.

(* ================================================================== *)
(** * Reassembly of long extended attributes *)

(** A bounded copy of bytes that lie before the end is a copy. *)
Lemma memcpy_bounded_inside (dst : list Z) (doff : Z) (buf : list Z) (s n e : Z) :
  0 <= n <= 65535 -> s + n <= e ->
  memcpy_bounded dst doff (buf, s) n e = Buf.write dst doff (Buf.sub buf s n)
  \/ (n = 0 /\ memcpy_bounded dst doff (buf, s) n e = dst).
Proof.
  intros Hn He. unfold memcpy_bounded. cbn [snd].
  destruct (Z.leb_spec n 65535); [| lia]. cbn [negb].
  destruct (Z.ltb_spec s e); cbn [negb].
  - destruct (Z.leb_spec (s + n) e); [| lia]. left. reflexivity.
  - right. split; [lia | reflexivity].
Qed.

(** What a bounded copy of bytes that lie before the end leaves. *)
Lemma memcpy_bounded_get (dst : list Z) (doff : Z) (buf : list Z) (s n e : Z) :
  0 <= n <= 65535 -> s + n <= e -> 0 <= s -> s + n <= Z.of_nat (length buf) ->
  0 <= doff -> doff + n <= Z.of_nat (length dst) ->
  length (memcpy_bounded dst doff (buf, s) n e) = length dst
  /\ forall j, Buf.get (memcpy_bounded dst doff (buf, s) n e) j
               = if (doff <=? j) && (j <? doff + n)
                 then Buf.get (Buf.sub buf s n) (j - doff) else Buf.get dst j.
Proof.
  intros Hn He Hs Hbuf Hdoff Hroom.
  assert (Hlen : Z.of_nat (length (Buf.sub buf s n)) = n) by (apply sub_length; lia).
  destruct (memcpy_bounded_inside dst doff buf s n e Hn He) as [-> | [Hn0 ->]].
  - split; [apply write_length |]. intros j. rewrite get_write by lia.
    rewrite Hlen. reflexivity.
  - split; [reflexivity |]. intros j.
    destruct (Z.leb_spec doff j); destruct (Z.ltb_spec j (doff + n));
      cbn [andb]; try reflexivity; lia.
Qed.

(** The two loops of [decode_extended] on the continuation fragments: the
    first finds them, the second copies their data one after the
    other. *)
Lemma extended_scan_run (buf : list Z) (attr : ptr) (lim : Z) (fuel : nat) :
  is_bytes buf = true -> lim <= Z.of_nat (length buf) ->
  forall (p fraglen : Z) (n : nat) (last : bool) (fraglen' e : Z) (n' : nat),
    0 <= p <= lim ->
    extended_scan fuel attr (buf, p) lim fraglen n last = Some (fraglen', e, n') ->
    exists v c,
      ext_run buf (rd attr 0) (rd attr 2) lim last p e v
      /\ Z.of_nat (length v) = fraglen' - fraglen
      /\ n' = (n + c)%nat
      /\ p <= e <= lim
      /\ forall e' head tail,
          e <= e' -> 0 <= tail -> tail + (fraglen' - fraglen) <= Z.of_nat (length head) ->
          length (extended_copy c (buf, p) e' head tail) = length head
          /\ forall j, Buf.get (extended_copy c (buf, p) e' head tail) j
                       = if (tail <=? j) && (j <? tail + (fraglen' - fraglen))
                         then Buf.get v (j - tail) else Buf.get head j.
Proof.
  intros Hbytes Hlim.
  assert (Hnone : forall (p fraglen : Z) (head : list Z) (tail e' j : Z),
             Buf.get (extended_copy 0 (buf, p) e' head tail) j
             = if (tail <=? j) && (j <? tail + (fraglen - fraglen))
               then Buf.get (@nil Z) (j - tail) else Buf.get head j).
  { intros. cbn [extended_copy].
    destruct (Z.leb_spec tail j); destruct (Z.ltb_spec j (tail + (fraglen - fraglen)));
      cbn [andb]; try reflexivity; lia. }
  induction fuel as [| fuel IH];
    intros p fraglen n last fraglen' e n' Hp H; cbn [extended_scan snd] in H.
  - destruct (Z.ltb_spec p lim); [discriminate |].
    assert (fraglen' = fraglen /\ e = lim /\ n' = n) as (-> & -> & ->)
      by (repeat split; congruence).
    exists [], 0%nat. split; [replace lim with p by lia; apply ext_stop; lia |].
    split; [cbn [length]; lia |]. split; [lia |]. split; [lia |].
    intros e' head tail _ _ _. split; [reflexivity | apply Hnone].
  - destruct (Z.ltb_spec p lim) as [Hin | Hout].
    2:{ assert (fraglen' = fraglen /\ e = lim /\ n' = n) as (-> & -> & ->)
          by (repeat split; congruence).
        exists [], 0%nat. split; [replace lim with p by lia; apply ext_stop; lia |].
        split; [cbn [length]; lia |]. split; [lia |]. split; [lia |].
        intros e' head tail _ _ _. split; [reflexivity | apply Hnone]. }
    assert (Hr0 : rd (buf, p) 0 = Buf.get buf p)
      by (unfold rd; cbn [fst snd]; f_equal; lia).
    assert (Hr1 : rd (buf, p) 1 = Buf.get buf (p + 1)) by reflexivity.
    assert (Hr2 : rd (buf, p) 2 = Buf.get buf (p + 2)) by reflexivity.
    assert (Hr3 : rd (buf, p) 3 = Buf.get buf (p + 3)) by reflexivity.
    rewrite Hr0, Hr1, Hr2, Hr3 in H.
    pose proof (is_bytes_get buf (p + 1) Hbytes) as Hbyte.
    set (len := Buf.get buf (p + 1)) in *.
    assert (Hstop : forall why,
               why ->
               (why -> lim <= p \/ last = true \/ Buf.get buf p <> rd attr 0
                       \/ len < 4 \/ Buf.get buf (p + 2) <> rd attr 2
                       \/ lim < p + len) ->
               Some (fraglen, p, n) = Some (fraglen', e, n') ->
               exists v c,
                 ext_run buf (rd attr 0) (rd attr 2) lim last p e v
                 /\ Z.of_nat (length v) = fraglen' - fraglen
                 /\ n' = (n + c)%nat
                 /\ p <= e <= lim
                 /\ forall e' head tail,
                     e <= e' -> 0 <= tail ->
                     tail + (fraglen' - fraglen) <= Z.of_nat (length head) ->
                     length (extended_copy c (buf, p) e' head tail) = length head
                     /\ forall j, Buf.get (extended_copy c (buf, p) e' head tail) j
                                  = if (tail <=? j) && (j <? tail + (fraglen' - fraglen))
                                    then Buf.get v (j - tail) else Buf.get head j).
    { intros why Hwhy Hcase Heq.
      assert (fraglen' = fraglen /\ e = p /\ n' = n) as (-> & -> & ->)
        by (repeat split; congruence).
      exists [], 0%nat. split; [apply ext_stop; apply Hcase; exact Hwhy |].
      split; [cbn [length]; lia |]. split; [lia |]. split; [lia |].
      intros e' head tail _ _ _. split; [reflexivity | apply Hnone]. }
    destruct last; cbn [orb] in H.
    { apply (Hstop True I); [intros _; right; left; reflexivity | exact H]. }
    destruct (Z.eqb_spec (Buf.get buf p) (rd attr 0)) as [Ht | Ht]; cbn [negb orb] in H.
    2:{ apply (Hstop True I); [intros _; tauto | exact H]. }
    destruct (Z.ltb_spec len 4) as [Hshort | Hlong]; cbn [orb] in H.
    { apply (Hstop True I); [intros _; tauto | exact H]. }
    destruct (Z.eqb_spec (Buf.get buf (p + 2)) (rd attr 2)) as [Hx | Hx];
      cbn [negb orb] in H.
    2:{ apply (Hstop True I); [intros _; tauto | exact H]. }
    destruct (Z.gtb_spec (p + len) lim) as [Hover | Hfit].
    { apply (Hstop True I); [intros _; repeat right; lia | exact H]. }
    unfold padd in H. cbn [fst snd] in H.
    destruct (IH (p + len) (fraglen + (len - 4)) (S n)
                 (Z.land (Buf.get buf (p + 3)) 128 =? 0) fraglen' e n')
      as (v1 & c1 & Hrun & Hlen1 & Hn' & He & Hcopy); [lia | exact H |].
    exists (Buf.sub buf (p + 4) (len - 4) ++ v1), (S c1).
    assert (Hchunk : Z.of_nat (length (Buf.sub buf (p + 4) (len - 4))) = len - 4)
      by (apply sub_length; lia).
    split; [apply ext_more; fold len; try assumption; lia |].
    split; [rewrite length_app; lia |].
    split; [lia |]. split; [lia |].
    intros e' head tail He' Htail Hroom. cbn [extended_copy].
    rewrite Hr1. fold len. unfold padd. cbn [fst snd].
    assert (Hsize : to_size_t (len - 4) = len - 4)
      by (unfold to_size_t; apply Z.mod_small; lia).
    rewrite Hsize.
    destruct (memcpy_bounded_get head tail buf (p + 4) (len - 4) e')
      as [Hl1 Hg1]; try lia.
    destruct (Hcopy e' (memcpy_bounded head tail (buf, p + 4) (len - 4) e')
                    (tail + (len - 4))) as [Hl2 Hg2];
      [lia | lia | rewrite Hl1; lia |].
    split; [rewrite Hl2; exact Hl1 |].
    intros j. rewrite Hg2, Hg1.
    destruct (Z.leb_spec (tail + (len - 4)) j);
      destruct (Z.ltb_spec j (tail + (len - 4) + (fraglen' - (fraglen + (len - 4)))));
      destruct (Z.leb_spec tail j);
      destruct (Z.ltb_spec j (tail + (len - 4)));
      destruct (Z.ltb_spec j (tail + (fraglen' - fraglen)));
      cbn [andb]; try lia; try reflexivity.
    + rewrite get_app_r by lia. f_equal. lia.
    + rewrite get_app_l by lia. reflexivity.
Qed.

(** X15. A long extended attribute with the "more" bit, in a packet of
    bytes whose header gives the length of the attribute: [decode_extended]
    takes the continuation fragments that follow (same type, same extended
    type, at least 4 bytes long, inside the packet, up to the first with
    the "more" bit clear), hands to the value decoder the data of the
    first fragment followed by the data of these fragments, and returns
    the offset where they end, or the error of the value decoder. *)
Theorem decode_extended_reassembles (E : decoder_env) (rec : decoder)
        (parent : fr_dict_attr_t) (buf : list Z) (d attr_len packet_len : Z)
        (cursor : list VALUE_PAIR) (rc : Z) (cursor' : list VALUE_PAIR) :
  is_bytes buf = true ->
  2 <= d -> d + packet_len <= Z.of_nat (length buf) ->
  3 <= attr_len <= packet_len ->
  Buf.get buf (d - 1) = attr_len + 2 ->
  Z.land (Buf.get buf (d + 1)) 0x80 <> 0 ->
  decode_extended E rec parent (buf, d) attr_len packet_len cursor = Some (rc, cursor') ->
  exists e v rcode,
    ext_run buf (Buf.get buf (d - 2)) (Buf.get buf d) (d + packet_len) false
            (d + attr_len) e v
    /\ rec parent (Buf.sub buf (d + 2) (attr_len - 2) ++ v, 0)
           (attr_len - 2 + Z.of_nat (length v)) (attr_len - 2 + Z.of_nat (length v))
           cursor = Some (rcode, cursor')
    /\ rc = if rcode <? 0 then rcode else e - d.
Proof.
  intros Hbytes Hd Hbuf Hlen Hhead Hmore H. unfold decode_extended in H.
  destruct (Z.ltb_spec attr_len 3); [lia |].
  assert (Hflag : rd (buf, d) 1 = Buf.get buf (d + 1)) by reflexivity.
  rewrite Hflag in H.
  destruct (Z.eqb_spec (Z.land (Buf.get buf (d + 1)) 128) 0); [contradiction |].
  unfold padd in H. cbn [fst snd] in H.
  destruct (extended_scan (Z.to_nat packet_len) (buf, d + -2) (buf, d + attr_len)
                          (d + packet_len) (attr_len - 2) 1 false)
    as [[[fraglen e] fragments] |] eqn:Hscan; [| discriminate].
  destruct (extended_scan_run buf (buf, d + -2) (d + packet_len) (Z.to_nat packet_len)
                              Hbytes Hbuf (d + attr_len) (attr_len - 2) 1%nat false
                              fraglen e fragments)
    as (v & c & Hrun & Hlenv & Hn & He & Hcopy); [lia | exact Hscan |].
  assert (Ht : rd (buf, d + -2) 0 = Buf.get buf (d - 2))
    by (unfold rd; cbn [fst snd]; f_equal; lia).
  assert (Hx : rd (buf, d + -2) 2 = Buf.get buf d)
    by (unfold rd; cbn [fst snd]; f_equal; lia).
  assert (Hl : rd (buf, d + -2) 1 = attr_len + 2)
    by (unfold rd; cbn [fst snd]; rewrite <- Hhead; f_equal; lia).
  rewrite Ht, Hx in Hrun.
  pose proof (is_bytes_get buf (d - 1) Hbytes) as Hbyte. rewrite Hhead in Hbyte.
  assert (Hvalue : extended_copy fragments (buf, d + -2) e (fresh E fraglen) 0
                   = Buf.sub buf (d + 2) (attr_len - 2) ++ v).
  { subst fragments. cbn [Nat.add extended_copy]. rewrite Hl.
    unfold padd. cbn [fst snd].
    replace (d + -2 + 4) with (d + 2) by lia.
    replace (d + -2 + (attr_len + 2)) with (d + attr_len) by lia.
    replace (attr_len + 2 - 4) with (attr_len - 2) by lia.
    assert (Hsize : to_size_t (attr_len - 2) = attr_len - 2)
      by (unfold to_size_t; apply Z.mod_small; lia).
    rewrite Hsize.
    assert (Hfresh : Z.of_nat (length (fresh E fraglen)) = fraglen)
      by (apply fresh_length; lia).
    assert (Hchunk : Z.of_nat (length (Buf.sub buf (d + 2) (attr_len - 2))) = attr_len - 2)
      by (apply sub_length; lia).
    destruct (memcpy_bounded_get (fresh E fraglen) 0 buf (d + 2) (attr_len - 2) e)
      as [Hl1 Hg1]; try lia.
    destruct (Hcopy e (memcpy_bounded (fresh E fraglen) 0 (buf, d + 2) (attr_len - 2) e)
                    (0 + (attr_len - 2))) as [Hl2 Hg2];
      [lia | lia | rewrite Hl1; lia |].
    apply get_ext.
    - apply Nat2Z.inj. rewrite Hl2, Hl1, length_app. lia.
    - intros j Hj. rewrite Hg2, Hg1.
      destruct (Z.leb_spec (0 + (attr_len - 2)) j);
        destruct (Z.ltb_spec j (0 + (attr_len - 2) + (fraglen - (attr_len - 2))));
        destruct (Z.leb_spec 0 j); destruct (Z.ltb_spec j (0 + (attr_len - 2)));
        cbn [andb]; try lia.
      + rewrite get_app_r by lia. f_equal. lia.
      + rewrite !get_nth by lia. rewrite !nth_overflow; [reflexivity | |];
          apply Nat2Z.inj_le; rewrite ?length_app; lia.
      + rewrite get_app_l by lia. f_equal. lia. }
  rewrite Hvalue in H.
  replace fraglen with (attr_len - 2 + Z.of_nat (length v)) in H by lia.
  destruct (rec parent (Buf.sub buf (d + 2) (attr_len - 2) ++ v, 0)
                (attr_len - 2 + Z.of_nat (length v))
                (attr_len - 2 + Z.of_nat (length v)) cursor)
    as [[rcode c'] |] eqn:Hrec; [| discriminate].
  exists e, v, rcode. split; [exact Hrun |].
  destruct (rcode <? 0).
  - assert (rc = rcode /\ cursor' = c') as [-> ->] by (split; congruence).
    split; [exact Hrec | reflexivity].
  - assert (rc = e - d /\ cursor' = c') as [-> ->] by (split; congruence).
    split; [exact Hrec | reflexivity].
Qed.

Lemma decode_extended_reassembles_witness :
  exists e v rcode,
    ext_run long_extended_packet (Buf.get long_extended_packet (2 - 2))
            (Buf.get long_extended_packet 2) (2 + 14) false (2 + 7) e v
    /\ fr_radius_decode_pair_value TestDict.env 3 None long_ext_child
         (Buf.sub long_extended_packet (2 + 2) (7 - 2) ++ v, 0)
         (7 - 2 + Z.of_nat (length v)) (7 - 2 + Z.of_nat (length v)) []
       = Some (rcode,
               [mk_vp long_ext_child TAG_NONE
                      (PD_box (VB FR_TYPE_OCTETS [0xAA; 0xBB; 0xCC; 0xDD; 0xEE; 0xFF; 0x11]))
                      VT_DATA true])
    /\ 13 = if rcode <? 0 then rcode else e - 2.
Proof.
  apply (decode_extended_reassembles TestDict.env
           (fr_radius_decode_pair_value TestDict.env 3 None)
           long_ext_child long_extended_packet 2 7 14 [] 13).
  - reflexivity.
  - lia.
  - vm_compute. discriminate.
  - lia.
  - reflexivity.
  - vm_compute. discriminate.
  - vm_compute. reflexivity.
Defined.

(* ================================================================== *)
(** * Reassembly of WiMAX attributes *)

(** The two loops of [decode_wimax] on the fragments: the first checks
    them and finds the end of the last, the second copies their data one
    after the other. *)
Lemma wimax_scan_copy (buf : list Z) (d lim : Z) (fuel1 : nat) :
  is_bytes buf = true -> lim <= Z.of_nat (length buf) ->
  forall (a len l e : Z),
    0 <= a < lim ->
    wimax_scan fuel1 (buf, d) (buf, a) lim len = Scanned (l, e) ->
    exists v,
      wimax_value buf a e v
      /\ Z.of_nat (length v) = l - len
      /\ a < e <= lim
      /\ forall (fuel : nat) (head : list Z) (tail : Z),
          (Z.to_nat (lim - a) <= fuel)%nat ->
          0 <= tail -> tail + (l - len) <= Z.of_nat (length head) ->
          exists head',
            wimax_copy fuel (buf, a - 4) e head tail = Some head'
            /\ length head' = length head
            /\ forall j, Buf.get head' j
                         = if (tail <=? j) && (j <? tail + (l - len))
                           then Buf.get v (j - tail) else Buf.get head j.
Proof.
  intros Hbytes Hlim.
  assert (Hend : forall fuel c e head tail,
             e <= c -> wimax_copy fuel (buf, c) e head tail = Some head).
  { intros fuel c e head tail Hle.
    destruct fuel; cbn [wimax_copy snd];
      (destruct (Z.ltb_spec c e); [lia | reflexivity]). }
  induction fuel1 as [| fuel1 IH]; intros a len l e Ha H; cbn [wimax_scan snd] in H;
    (destruct (Z.ltb_spec a lim); [| lia]); [discriminate |].
  destruct (Z.ltb_spec (lim - a) 3); [discriminate |].
  assert (Hr1 : rd (buf, a) 1 = Buf.get buf (a + 1)) by reflexivity.
  assert (Hr2 : rd (buf, a) 2 = Buf.get buf (a + 2)) by reflexivity.
  rewrite Hr1, Hr2 in H.
  pose proof (is_bytes_get buf (a + 1) Hbytes) as Hbyte.
  set (n := Buf.get buf (a + 1)) in *.
  destruct (Z.leb_spec n 3) as [| Hdata]; [discriminate |].
  destruct (Z.gtb_spec (a + n) lim) as [| Hfit]; [discriminate |].
  assert (Hchunk : Z.of_nat (length (Buf.sub buf (a + 3) (n - 3))) = n - 3)
    by (apply sub_length; lia).
  assert (Hsize : to_size_t (n - 3) = n - 3)
    by (unfold to_size_t; apply Z.mod_small; lia).
  assert (Hc5 : rd (buf, a - 4) (4 + 1) = n)
    by (unfold rd, n; cbn [fst snd]; f_equal; lia).
  assert (Hstep : forall fuel e0 head tail,
             a + n <= e0 ->
             wimax_copy (S fuel) (buf, a - 4) e0 head tail
             = wimax_copy fuel (buf, a + n + 2) e0
                          (memcpy_bounded head tail (buf, a + 3) (n - 3) e0)
                          (tail + (n - 3))).
  { intros fuel e0 head tail He0. cbn [wimax_copy snd].
    destruct (Z.ltb_spec (a - 4) e0); [| lia].
    rewrite Hc5, Hsize. unfold padd. cbn [fst snd].
    replace (a - 4 + (4 + 3)) with (a + 3) by lia.
    replace (a - 4 + (4 + n) + 2) with (a + n + 2) by lia. reflexivity. }
  destruct (Z.eqb_spec (Z.land (Buf.get buf (a + 2)) 128) 0) as [Hlast | Hmore];
    cbn [negb andb] in H.
  - assert (l = len + (n - 3) /\ e = a + n) as [-> ->] by (split; congruence).
    exists (Buf.sub buf (a + 3) (n - 3)).
    split; [apply wimax_value_last; exact Hlast |].
    split; [lia |]. split; [lia |].
    intros fuel head tail Hfuel Htail Hroom.
    destruct fuel as [| fuel]; [lia |].
    rewrite Hstep by lia. rewrite Hend by lia.
    destruct (memcpy_bounded_get head tail buf (a + 3) (n - 3) (a + n))
      as [Hl1 Hg1]; try lia.
    eexists. split; [reflexivity |]. split; [exact Hl1 |].
    intros j. rewrite Hg1.
    replace (len + (n - 3) - len) with (n - 3) by lia. reflexivity.
  - destruct (a + n =? lim); [discriminate |].
    unfold padd in H. cbn [fst snd] in H.
    destruct (Z.ltb_spec (lim - (a + n)) 9); [discriminate |].
    destruct (negb (rd (buf, a + n) 0 =? FR_VENDOR_SPECIFIC)); [discriminate |].
    destruct (Z.ltb_spec (rd (buf, a + n) 1) 9); [discriminate |].
    destruct (Z.gtb_spec (a + n + rd (buf, a + n) 1) lim); [discriminate |].
    repeat match type of H with
           | (if ?c then Malformed else _) = _ => destruct c; [discriminate |]
           end.
    destruct (IH (a + n + 6) (len + (n - 3)) l e) as (v1 & Hv1 & Hlen1 & He & Hcopy);
      [lia | exact H |].
    exists (Buf.sub buf (a + 3) (n - 3) ++ v1).
    split; [apply wimax_value_more; fold n; assumption |].
    split; [rewrite length_app; lia |]. split; [lia |].
    intros fuel head tail Hfuel Htail Hroom.
    destruct fuel as [| fuel]; [lia |].
    rewrite Hstep by lia.
    destruct (memcpy_bounded_get head tail buf (a + 3) (n - 3) e)
      as [Hl1 Hg1]; try lia.
    destruct (Hcopy fuel (memcpy_bounded head tail (buf, a + 3) (n - 3) e)
                    (tail + (n - 3))) as (head' & Hc & Hl2 & Hg2);
      [lia | lia | rewrite Hl1; lia |].
    replace (a + n + 6 - 4) with (a + n + 2) in Hc by lia.
    exists head'. split; [exact Hc |]. split; [rewrite Hl2; exact Hl1 |].
    intros j. rewrite Hg2, Hg1.
    destruct (Z.leb_spec (tail + (n - 3)) j);
      destruct (Z.ltb_spec j (tail + (n - 3) + (l - (len + (n - 3)))));
      destruct (Z.leb_spec tail j);
      destruct (Z.ltb_spec j (tail + (n - 3)));
      destruct (Z.ltb_spec j (tail + (l - len)));
      cbn [andb]; try lia; try reflexivity.
    + rewrite get_app_r by lia. f_equal. lia.
    + rewrite get_app_l by lia. reflexivity.
Qed.

(** X16. A WiMAX attribute with the continuation bit, in a packet of
    bytes: a call of [decode_wimax] that does not stop at one of its
    checks has found a chain of fragments, hands to the value decoder the
    data of the fragments one after the other, under the descriptor of the
    WiMAX attribute, and returns the offset of the end of the last
    fragment, or the error of the value decoder. *)
Theorem decode_wimax_reassembles (E : decoder_env) (rec : decoder)
        (parent : fr_dict_attr_t) (buf : list Z) (d attr_len packet_len vendor : Z)
        (cursor : list VALUE_PAIR) (rc : Z) (cursor' : list VALUE_PAIR) :
  is_bytes buf = true ->
  0 <= d -> d + packet_len <= Z.of_nat (length buf) ->
  Z.land (Buf.get buf (d + 6)) 0x80 <> 0 ->
  decode_wimax E rec parent (buf, d) attr_len packet_len vendor cursor
  = Some (rc, cursor') ->
  (rc = -1 /\ cursor' = cursor)
  \/ exists da e v rcode,
      child_or_unknown E parent vendor (Buf.get buf (d + 4)) = Some da
      /\ wimax_chain buf d (d + 4) (d + packet_len)
      /\ wimax_value buf (d + 4) e v
      /\ rec da (v, 0) (Z.of_nat (length v)) (Z.of_nat (length v)) cursor
         = Some (rcode, cursor')
      /\ rc = if rcode <? 0 then rcode else e - d.
Proof.
  intros Hbytes Hd Hbuf Hmore H. unfold decode_wimax in H.
  assert (Hfail : Some (-1, cursor) = Some (rc, cursor') ->
                  (rc = -1 /\ cursor' = cursor)
                  \/ exists da e v rcode,
                      child_or_unknown E parent vendor (Buf.get buf (d + 4)) = Some da
                      /\ wimax_chain buf d (d + 4) (d + packet_len)
                      /\ wimax_value buf (d + 4) e v
                      /\ rec da (v, 0) (Z.of_nat (length v)) (Z.of_nat (length v)) cursor
                         = Some (rcode, cursor')
                      /\ rc = if rcode <? 0 then rcode else e - d)
    by (intros Heq; inversion Heq; left; split; reflexivity).
  destruct (Z.ltb_spec attr_len 8); [auto |].
  destruct (Z.ltb_spec (rd (buf, d) 5) 3); [auto |].
  destruct (negb (to_size_t (rd (buf, d) 5 + 4) =? attr_len)); [auto |].
  assert (Hr4 : rd (buf, d) 4 = Buf.get buf (d + 4)) by reflexivity.
  assert (Hr6 : rd (buf, d) 6 = Buf.get buf (d + 6)) by reflexivity.
  rewrite Hr4, Hr6 in H.
  destruct (child_or_unknown E parent vendor (Buf.get buf (d + 4))) as [da |] eqn:Hda;
    [| auto].
  destruct (Z.eqb_spec (Z.land (Buf.get buf (d + 6)) 128) 0); [contradiction |].
  unfold padd in H. cbn [fst snd] in H.
  pose proof (wimax_scan_chain buf d (Z.to_nat packet_len) (d + 4) (d + packet_len) 0
                               ltac:(lia)) as Hchain.
  destruct (wimax_scan (Z.to_nat packet_len) (buf, d) (buf, d + 4) (d + packet_len) 0)
    as [[wimax_len end_] | |] eqn:Hscan; [| auto | contradiction].
  destruct (Z.eqb_spec wimax_len 0); [auto |].
  destruct (Z_lt_le_dec (d + 4) (d + packet_len)) as [Hin | Hout].
  2:{ exfalso. destruct (Z.to_nat packet_len); cbn [wimax_scan snd] in Hscan;
        (destruct (Z.ltb_spec (d + 4) (d + packet_len)); [lia |]);
        inversion Hscan; lia. }
  destruct (wimax_scan_copy buf d (d + packet_len) (Z.to_nat packet_len) Hbytes Hbuf
                            (d + 4) 0 wimax_len end_)
    as (v & Hv & Hlenv & He & Hcopy); [lia | exact Hscan |].
  assert (Hfresh : Z.of_nat (length (fresh E wimax_len)) = wimax_len)
    by (apply fresh_length; lia).
  destruct (Hcopy (Z.to_nat packet_len) (fresh E wimax_len) 0)
    as (head & Hhead & Hl & Hg); [lia | lia | lia |].
  replace (d + 4 - 4) with d in Hhead by lia. rewrite Hhead in H.
  assert (Hvalue : head = v).
  { apply get_ext.
    - apply Nat2Z.inj. rewrite Hl. lia.
    - intros j Hj. rewrite Hg.
      destruct (Z.leb_spec 0 j); [| lia].
      destruct (Z.ltb_spec j (0 + (wimax_len - 0))); cbn [andb].
      + f_equal. lia.
      + rewrite !get_nth by lia. rewrite !nth_overflow; [reflexivity | |];
          apply Nat2Z.inj_le; lia. }
  subst head.
  replace wimax_len with (Z.of_nat (length v)) in H by lia.
  destruct (rec da (v, 0) (Z.of_nat (length v)) (Z.of_nat (length v)) cursor)
    as [[rcode c'] |] eqn:Hrec; [| discriminate].
  right. exists da, end_, v, rcode.
  split; [reflexivity |]. split; [apply Hchain; exact Hin |]. split; [exact Hv |].
  destruct (rcode <? 0).
  - assert (rc = rcode /\ cursor' = c') as [-> ->] by (split; congruence).
    split; [exact Hrec | reflexivity].
  - assert (rc = end_ - d /\ cursor' = c') as [-> ->] by (split; congruence).
    split; [exact Hrec | reflexivity].
Qed.

Lemma decode_wimax_reassembles_witness :
  (21 - 2 = -1 /\ [wimax_pair] = [])
  \/ exists da e v rcode,
      child_or_unknown TestDict.env wimax_da VENDORPEC_WIMAX (Buf.get wimax_two (2 + 4))
      = Some da
      /\ wimax_chain wimax_two 2 (2 + 4) (2 + 19)
      /\ wimax_value wimax_two (2 + 4) e v
      /\ fr_radius_decode_pair_value TestDict.env 3 None da (v, 0)
           (Z.of_nat (length v)) (Z.of_nat (length v)) []
         = Some (rcode, [wimax_pair])
      /\ 21 - 2 = if rcode <? 0 then rcode else e - 2.
Proof.
  apply (decode_wimax_reassembles TestDict.env
           (fr_radius_decode_pair_value TestDict.env 3 None)
           wimax_da wimax_two 2 8 19 VENDORPEC_WIMAX []).
  - reflexivity.
  - lia.
  - vm_compute. discriminate.
  - vm_compute. discriminate.
  - vm_compute. reflexivity.
Defined.

(* ================================================================== *)
(** * Malformed containers *)

(** X17. [fr_radius_decode_tlv] on a slice of less than 3 bytes, or on a
    slice that is not a concatenation of units [type | length | value]
    with lengths of at least 2 that fit, returns -1, leaves the pair list
    as it was, and decodes none of the sub-attributes: the result does not
    depend on the value decoder. *)
Theorem decode_tlv_rejects_malformed (E : decoder_env) (rec : decoder)
        (parent : fr_dict_attr_t) (buf : list Z) (off len : Z)
        (cursor : list VALUE_PAIR) :
  0 <= off -> off + len <= Z.of_nat (length buf) ->
  len < 3 \/ ~ tlv_units 1 1 (Buf.sub buf off len) ->
  fr_radius_decode_tlv E rec parent (buf, off) len cursor = Some (-1, cursor).
Proof.
  intros Hoff Hfit Hbad. unfold fr_radius_decode_tlv.
  destruct (Z.ltb_spec len 3); [reflexivity |].
  destruct Hbad as [| Hbad]; [lia |].
  unfold fr_radius_decode_tlv_ok. cbn [snd orb Z.gtb Z.eqb Z.compare Pos.compare
                                          Pos.compare_cont].
  destruct (tlv_ok_loop_spec buf 1 1 (or_introl eq_refl) (or_intror (or_introl eq_refl))
                             (Z.to_nat len) off len)
    as [[_ Hu] | [Hr _]]; try lia; [contradiction |].
  rewrite Hr. reflexivity.
Qed.

Lemma decode_tlv_rejects_malformed_witness :
  fr_radius_decode_tlv TestDict.env (fr_radius_decode_pair_value TestDict.env 3 None)
                       tlv_da ([1; 6; 0; 0; 0; 1; 2; 9; 65], 0) 9 [earlier_pair]
  = Some (-1, [earlier_pair]).
Proof.
  apply (decode_tlv_rejects_malformed TestDict.env
           (fr_radius_decode_pair_value TestDict.env 3 None)
           tlv_da [1; 6; 0; 0; 0; 1; 2; 9; 65] 0 9 [earlier_pair]).
  - lia.
  - cbn. lia.
  - right. intros H.
    destruct (tlv_ok_loop_spec [1; 6; 0; 0; 0; 1; 2; 9; 65] 1 1
                (or_introl eq_refl) (or_intror (or_introl eq_refl)) 9 0 9)
      as [[Hr _] | [_ Hu]]; try (cbn; lia).
    + vm_compute in Hr. discriminate.
    + apply Hu. exact H.
Defined.

(** X18. [decode_vsa] on vendor data that is not a concatenation of
    sub-attributes in the format of the vendor ([T] bytes of type and [W]
    bytes of length; 1 and 1 for a vendor that the dictionary does not
    know) returns -1, leaves the pair list as it was and decodes none of
    the sub-attributes. *)
Theorem decode_vsa_rejects_malformed (E : decoder_env) (rec : decoder)
        (parent : fr_dict_attr_t) (buf : list Z) (d attr_len packet_len : Z)
        (cursor : list VALUE_PAIR) (T W : Z) :
  0 <= d -> 4 <= attr_len -> d + attr_len <= Z.of_nat (length buf) ->
  T = 1 \/ T = 2 \/ T = 4 -> W = 0 \/ W = 1 \/ W = 2 ->
  match fr_dict_attr_child_by_num E parent (ntohl_at (buf, d)) with
  | None => T = 1 /\ W = 1
  | Some _ =>
      match fr_dict_vendor_by_num E (ntohl_at (buf, d)) with
      | None => True
      | Some dv =>
          dv_type dv = T /\ dv_length dv = W
          /\ (ntohl_at (buf, d) =? VENDORPEC_WIMAX) && negb (dv_flags dv =? 0) = false
      end
  end ->
  ~ tlv_units T W (Buf.sub buf (d + 4) (attr_len - 4)) ->
  decode_vsa E rec parent (buf, d) attr_len packet_len cursor = Some (-1, cursor).
Proof.
  intros Hd Hlen Hfit HT HW Hformat Hbad. unfold decode_vsa.
  destruct (negb (fr_type_eqb (da_type parent) FR_TYPE_VSA)); [reflexivity |].
  destruct (attr_len >? packet_len); [reflexivity |].
  destruct (attr_len <? 5); [reflexivity |].
  destruct (negb (rd (buf, d) 0 =? 0)); [reflexivity |].
  assert (Hok : fr_radius_decode_tlv_ok (padd (buf, d) 4) (attr_len - 4) T W
                = Some (-1)).
  { unfold fr_radius_decode_tlv_ok, padd. cbn [fst snd].
    assert (Hargs : ((W >? 2) || (T =? 0) || (T >? 4)) = false)
      by (destruct HT as [-> | [-> | ->]]; destruct HW as [-> | [-> | ->]]; reflexivity).
    rewrite Hargs.
    destruct (tlv_ok_loop_spec buf T W HT HW (Z.to_nat (attr_len - 4)) (d + 4)
                               (attr_len - 4))
      as [[_ Hu] | [Hr _]]; try lia; [contradiction | exact Hr]. }
  destruct (fr_dict_attr_child_by_num E parent (ntohl_at (buf, d))) as [vendor_da |].
  - destruct (fr_dict_vendor_by_num E (ntohl_at (buf, d))) as [dv |]; [| reflexivity].
    destruct Hformat as (HdT & HdW & Hwimax). rewrite Hwimax, HdT, HdW, Hok. reflexivity.
  - destruct Hformat as [-> ->]. rewrite Hok. reflexivity.
Qed.

Lemma decode_vsa_rejects_malformed_witness :
  decode_vsa TestDict.env (fr_radius_decode_pair_value TestDict.env 3 None)
             vsa_da ([0; 0; 0; 9; 1; 9; 102; 111; 111; 0], 0) 10 10 [earlier_pair]
  = Some (-1, [earlier_pair]).
Proof.
  apply (decode_vsa_rejects_malformed TestDict.env
           (fr_radius_decode_pair_value TestDict.env 3 None)
           vsa_da [0; 0; 0; 9; 1; 9; 102; 111; 111; 0] 0 10 10 [earlier_pair] 1 1).
  - lia.
  - lia.
  - cbn. lia.
  - left. reflexivity.
  - right. left. reflexivity.
  - vm_compute. repeat split.
  - intros H.
    destruct (tlv_ok_loop_spec [0; 0; 0; 9; 1; 9; 102; 111; 111; 0] 1 1
                (or_introl eq_refl) (or_intror (or_introl eq_refl)) 6 4 6)
      as [[Hr _] | [_ Hu]]; try (cbn; lia).
    + vm_compute in Hr. discriminate.
    + apply Hu. exact H.
Defined.

(* ================================================================== *)
(** * Tunnel-Password as an attribute *)

(** X19. A tagged Tunnel-Password attribute of at most 253 bytes whose
    data does not decrypt, because less than two bytes follow the tag or
    because the embedded length does not fit, is not an error: the call
    appends one pair under the unknown attribute of the same number,
    without tag, and its value is the bytes of the attribute after the
    first, which was taken as the tag. *)
Theorem tunnel_password_raw (E : decoder_env) (fuel : nat) (ctx : fr_radius_ctx_t)
        (parent parent' : fr_dict_attr_t) (data : ptr) (attr_len packet_len : Z)
        (cursor : list VALUE_PAIR) (v : value_box) :
  has_tag (da_flags parent) = true -> da_type parent = FR_TYPE_STRING ->
  subtype (da_flags parent) = FLAG_ENCRYPT_TUNNEL_PASSWORD ->
  1 < attr_len <= 253 -> attr_len <= packet_len ->
  0 <= snd data -> snd data + attr_len <= Z.of_nat (length (fst data)) ->
  attr_len - 1 < 2
  \/ (3 < attr_len - 1
      /\ attr_len - 3
         < tunnel_embedded_len (md5 E)
             (Buf.write (fresh E sizeof_buffer) 0 (bytes (padd data 1) (attr_len - 1)))
             (ctx_secret ctx) (ctx_vector ctx)) ->
  raw_parent E parent = Some parent' -> da_type parent' = FR_TYPE_OCTETS ->
  fr_value_box_from_network E FR_TYPE_OCTETS parent' (bytes (padd data 1) (attr_len - 1))
  = Some v ->
  fr_radius_decode_pair_value E (S (S fuel)) (Some ctx) parent data attr_len packet_len
                              cursor
  = Some (attr_len, cursor ++ [mk_vp parent' TAG_NONE (PD_box v) VT_DATA true]).
Proof.
  intros Htag Hty Hsub Hlen Hpk Hd Hbuf Hbad Hraw Hty' Hbox.
  set (chunk := bytes (padd data 1) (attr_len - 1)) in *.
  set (buffer := Buf.write (fresh E sizeof_buffer) 0 chunk) in *.
  assert (Hchunk : Z.of_nat (length chunk) = attr_len - 1)
    by (apply bytes_length; unfold padd; cbn [fst snd]; lia).
  assert (Hfresh : Z.of_nat (length (fresh E sizeof_buffer)) = 256)
    by (apply fresh_length; unfold sizeof_buffer; lia).
  rewrite decode_pair_value_step.
  destruct (Z.gtb_spec attr_len packet_len); [lia |].
  destruct (Z.gtb_spec attr_len (128 * 1024)); [lia |].
  destruct (Z.eqb_spec attr_len 0); [lia |].
  cbn [orb].
  assert (Hstage : tag_stage E parent data attr_len
                   = Some (mk_dstate (to_int8 (rd data 0)) true buffer (attr_len - 1))).
  { unfold tag_stage. rewrite Htag, Hty, Hsub. cbn [andb fr_type_eqb].
    destruct (Z.gtb_spec attr_len 1); [| lia].
    change (FLAG_ENCRYPT_TUNNEL_PASSWORD =? FLAG_ENCRYPT_TUNNEL_PASSWORD) with true.
    rewrite orb_true_r. cbn [andb].
    destruct (Z.geb_spec attr_len sizeof_buffer); [unfold sizeof_buffer in *; lia |].
    reflexivity. }
  rewrite Hstage.
  assert (Hdecrypt : decrypt_stage E (Some ctx) parent data attr_len
                       (mk_dstate (to_int8 (rd data 0)) true buffer (attr_len - 1))
                     = D_raw (mk_dstate (to_int8 (rd data 0)) true buffer
                                        (attr_len - 1))).
  { unfold decrypt_stage. rewrite Hsub.
    cbn [ds_tag ds_data_len ds_in_buffer ds_buffer].
    change (FLAG_ENCRYPT_TUNNEL_PASSWORD =? FLAG_ENCRYPT_NONE) with false.
    change (FLAG_ENCRYPT_TUNNEL_PASSWORD =? FLAG_ENCRYPT_USER_PASSWORD) with false.
    change (FLAG_ENCRYPT_TUNNEL_PASSWORD =? FLAG_ENCRYPT_TUNNEL_PASSWORD) with true.
    cbv iota. destruct (Z.gtb_spec attr_len 253); [lia |].
    unfold fr_radius_decode_tunnel_password.
    destruct Hbad as [Hshort | [Hlong HE]].
    - destruct (Z.ltb_spec (attr_len - 1) 2); [| lia]. reflexivity.
    - destruct (Z.ltb_spec (attr_len - 1) 2); [lia |].
      destruct (Z.leb_spec (attr_len - 1) 3); [lia |].
      destruct (tunnel_decrypt_spec (md5 E) buffer (attr_len - 1)
                                    (ctx_secret ctx) (ctx_vector ctx) Hlong)
        as [Hfail _].
      rewrite Hfail by lia. reflexivity. }
  rewrite Hdecrypt. cbn [cur_p ds_in_buffer ds_buffer ds_data_len].
  unfold raw_emit. rewrite Hraw.
  apply emit_bytes; [right; exact Hty' |]. rewrite Hty'.
  replace (bytes (buffer, 0) (attr_len - 1)) with chunk; [exact Hbox |].
  unfold bytes at 1. cbn [fst snd]. unfold buffer.
  symmetry. apply write_sub; [exact Hchunk | lia].
Qed.

Lemma tunnel_password_raw_witness :
  fr_radius_decode_pair_value TestDict.env 2 (Some TestDict.test_ctx)
                              tunnel_password_da ([1; 128], 0) 2 2 []
  = Some (2, [] ++ [mk_vp tunnel_password_raw_da TAG_NONE
                          (PD_box (VB FR_TYPE_OCTETS [128])) VT_DATA true]).
Proof.
  apply (tunnel_password_raw TestDict.env 0 TestDict.test_ctx tunnel_password_da
                             tunnel_password_raw_da ([1; 128], 0) 2 2 []
                             (VB FR_TYPE_OCTETS [128])).
  - reflexivity.
  - reflexivity.
  - reflexivity.
  - lia.
  - lia.
  - cbn. lia.
  - cbn. lia.
  - left. lia.
  - reflexivity.
  - reflexivity.
  - reflexivity.
Defined.
